(** * ospgrillage: the mesh engine of [Mesh.py], embedded and verified

    The development follows the source file [Mesh.py]: the classes
    [SweepPath], [EdgeConstructionLine] and [Mesh] become modules, their
    methods become functions over explicit object states, Python exceptions
    become the [Raise] outcome of a small error monad, and Python's
    insertion-ordered dictionaries become association lists.

    Floating-point numbers are kept abstract: every definition is written
    over an arbitrary carrier [F] with the operations numpy offers
    ([FloatOps]).  The combinatorial theorems therefore hold for every
    arithmetic, IEEE doubles included.  The instance [QFloat] on exact
    rationals is used to run concrete scenarios. *)

From Stdlib Require Import String Ascii DecimalString.
From Stdlib Require Import ZArith QArith Qround Qabs Lqa List Bool Lia.
Import ListNotations.
Local Open Scope Z_scope.

(* ------------------------------------------------------------------ *)
(** ** Python outcomes: exceptions and the error monad                 *)
(* ------------------------------------------------------------------ *)

(** The built-in exceptions the code can run into, and [Exception msg] for
    the ones the program creates itself. *)
Inductive exn : Type :=
| ZeroDivisionError
| TypeError
| ValueError
| KeyError
| IndexError
| NameError (name : string)
| Exception (msg : string).

Inductive result (A : Type) : Type :=
| Ok (a : A)
| Raise (e : exn).
Arguments Ok {A} a.
Arguments Raise {A} e.

Definition bind {A B : Type} (c : result A) (k : A -> result B) : result B :=
  match c with
  | Ok a => k a
  | Raise e => Raise e
  end.

Declare Scope py_scope.
Delimit Scope py_scope with py.
Notation "x <- c ;; k" := (bind c (fun x => k))
  (at level 61, c at next level, right associativity) : py_scope.
Notation "' p <- c ;; k" := (bind c (fun x => let 'p := x in k))
  (at level 61, p pattern, c at next level, right associativity) : py_scope.
Local Open Scope py_scope.

(** A [for] loop whose body updates a state and may raise. *)
Fixpoint foldM {A S : Type} (f : S -> A -> result S) (l : list A) (s : S) : result S :=
  match l with
  | [] => Ok s
  | a :: t => s' <- f s a ;; foldM f t s'
  end.


(* ------------------------------------------------------------------ *)
(** ** Python containers                                               *)
(* ------------------------------------------------------------------ *)

(** [enumerate(l)]. *)
Fixpoint enumerate_from {A : Type} (i : Z) (l : list A) : list (Z * A) :=
  match l with
  | [] => []
  | a :: t => (i, a) :: enumerate_from (i + 1) t
  end.
Definition enumerate {A : Type} (l : list A) : list (Z * A) := enumerate_from 0 l.

(** [range(lo, hi)]. *)
Fixpoint zseq (start : Z) (len : nat) : list Z :=
  match len with
  | O => []
  | S n => start :: zseq (start + 1) n
  end.
Definition py_range (lo hi : Z) : list Z := zseq lo (Z.to_nat (hi - lo)).

Definition len {A : Type} (l : list A) : Z := Z.of_nat (length l).

(** [l[i]], negative indices counting from the end. *)
Definition py_index {A : Type} (l : list A) (i : Z) : result A :=
  let j := if i <? 0 then i + len l else i in
  if j <? 0 then Raise IndexError
  else match nth_error l (Z.to_nat j) with
       | Some a => Ok a
       | None => Raise IndexError
       end.

(** Slices [l[k:]] and [l[0:k]] for a non-negative [k]. *)
Definition slice_from {A : Type} (l : list A) (k : Z) : list A := skipn (Z.to_nat k) l.
Definition slice_to {A : Type} (l : list A) (k : Z) : list A := firstn (Z.to_nat k) l.

(** [l[1:-1]]. *)
Definition slice_inner {A : Type} (l : list A) : list A := removelast (tl l).

(** Dictionaries keep insertion order, which [keys()], [values()] and
    [items()] expose. *)
Section Dict.
Context {K V : Type} (eqb : K -> K -> bool).

Definition dict : Type := list (K * V).

Fixpoint dict_get (k : K) (d : dict) : option V :=
  match d with
  | [] => None
  | (k', v) :: t => if eqb k k' then Some v else dict_get k t
  end.

(** [d[k]]. *)
Definition getitem (k : K) (d : dict) : result V :=
  match dict_get k d with
  | Some v => Ok v
  | None => Raise KeyError
  end.

(** [d.get(k, default)]. *)
Definition get_default (k : K) (default : V) (d : dict) : V :=
  match dict_get k d with
  | Some v => v
  | None => default
  end.

(** [d.setdefault(k, v)]: the dictionary afterwards, and the value returned. *)
Definition setdefault (k : K) (v : V) (d : dict) : dict :=
  match dict_get k d with
  | Some _ => d
  | None => d ++ [(k, v)]
  end.
Definition setdefault_value (k : K) (v : V) (d : dict) : V :=
  get_default k v d.

(** [d[k] = v]. *)
Fixpoint setitem (k : K) (v : V) (d : dict) : dict :=
  match d with
  | [] => [(k, v)]
  | (k', v') :: t => if eqb k k' then (k', v) :: t else (k', v') :: setitem k v t
  end.

Definition keys (d : dict) : list K := map fst d.
Definition values (d : dict) : list V := map snd d.
End Dict.
Arguments dict : clear implicits.

(** [x in l] for a list of integers. *)
Definition zmem (x : Z) (l : list Z) : bool := existsb (Z.eqb x) l.

(* ------------------------------------------------------------------ *)
(** ** Floating-point numbers and numpy                                *)
(* ------------------------------------------------------------------ *)

(** The operations of Python floats and numpy the mesh code uses.  No law
    is assumed of them. *)
Class FloatOps (F : Type) : Type := {
  of_Q : Q -> F;                      (* numeric literals *)
  fadd : F -> F -> F;
  fsub : F -> F -> F;
  fmul : F -> F -> F;
  fdiv : F -> F -> F;
  fneg : F -> F;
  fabs : F -> F;                      (* np.abs *)
  fsqrt : F -> F;                     (* np.sqrt *)
  ftan : F -> F;                      (* np.tan *)
  fsin : F -> F;                      (* np.sin *)
  fcos : F -> F;                      (* np.cos *)
  farctan : F -> F;                   (* np.arctan *)
  fpi : F;                            (* np.pi *)
  fround : nat -> F -> F;             (* np.round(x, decimals), round(x, n) *)
  feqb : F -> F -> bool;              (* == *)
  fltb : F -> F -> bool;              (* < *)
  fleb : F -> F -> bool;              (* <= *)
  frepr : F -> string;                (* repr *)
  flstsq : list (F * F) -> F * F      (* np.linalg.lstsq of a line y = m x + c *)
}.

Declare Scope fl_scope.
Delimit Scope fl_scope with fl.
Notation "x + y" := (fadd x y) : fl_scope.
Notation "x - y" := (fsub x y) : fl_scope.
Notation "x * y" := (fmul x y) : fl_scope.
Notation "x / y" := (fdiv x y) : fl_scope.
Notation "- x" := (fneg x) : fl_scope.
Notation "x <? y" := (fltb x y) : fl_scope.
Notation "x <=? y" := (fleb x y) : fl_scope.
Notation "x =? y" := (feqb x y) : fl_scope.

Section Numpy.
Context {F : Type} `{FloatOps F}.

Definition fz (z : Z) : F := of_Q (inject_Z z).
Definition fgtb (x y : F) : bool := fltb y x.        (* x > y *)

(** A coordinate is the list [[x, y, z]] of the source. *)
Record coord : Type := Coord { cx : F; cy : F; cz : F }.

(** [==] on two coordinate lists. *)
Definition coord_eqb (a b : coord) : bool :=
  feqb (cx a) (cx b) && feqb (cy a) (cy b) && feqb (cz a) (cz b).

(** [np.linspace(start, stop, num)] for [num >= 0]: [num] samples, the
    last one set to [stop]. *)
Definition linspace (start stop : F) (num : nat) : list F :=
  match num with
  | O => []
  | S O => [start]
  | S (S k) =>
      let step := ((stop - start) / fz (Z.of_nat (S k)))%fl in
      map (fun i => (fz i * step + start)%fl) (zseq 0 (S k)) ++ [stop]
  end.

(** [max(l)]; the first of several equal maxima is kept. *)
Definition py_max (l : list F) : result F :=
  match l with
  | [] => Raise ValueError
  | x :: t => Ok (fold_left (fun a b => if fltb a b then b else a) t x)
  end.
End Numpy.
Arguments coord F : clear implicits.

(** [np.unique(l)]: the sorted distinct values, smallest first. *)
Section Unique.
Context {A : Type} (ltb : A -> A -> bool).

Fixpoint unique_aux (n : nat) (l : list A) : list A :=
  match n, l with
  | S n', x :: t =>
      let lo := fold_left (fun a b => if ltb b a then b else a) t x in
      lo :: unique_aux n' (filter (fun y => ltb lo y) l)
  | _, _ => []
  end.

Definition np_unique (l : list A) : list A := unique_aux (length l) l.
End Unique.

(* ------------------------------------------------------------------ *)
(** ** The helpers of module [static]                                  *)
(* ------------------------------------------------------------------ *)

(** [Mesh.py] starts with [from static import *]; that module is not part
    of the sources at hand.  The helpers whose behaviour the specification
    states are modelled from it below; the others are taken as parameters. *)
Class Static (F : Type) : Type := {
  (* slope and angle of the line through two points *)
  get_slope : coord F -> coord F -> F * F;
  (* find_min_x_dist([p], [q]).tolist(): the distance between two points *)
  find_min_x_dist : coord F -> coord F -> F;
  (* intercept of the line of slope m through (x, z) *)
  get_y_intcp : F -> F -> F -> F;
  (* the profile of a curved sweep path, select_segment_function with curve_flag set *)
  arc_segment : option (F * F * F) -> F -> F -> F
}.

Section StaticModel.
Context {F : Type} `{FloatOps F} `{Static F}.

(** Modelled from the spec: [static.line_func] is missing from the
    sources; the spec has it return the position on the reference line
    at [x] from the stored slope and intercept. *)
Definition line_func (m c x : F) : F := (m * x + c)%fl.

(** Modelled from the spec: [static.select_segment_function] is missing
    from the sources; the spec has it pick the active profile, the
    straight line or the curve segment. *)
Definition select_segment_function (curve_flag : bool) (d : option (F * F * F))
           (m c x r : F) : F :=
  if curve_flag then arc_segment d x r else line_func m c x.

(** Modelled from the spec: [static.findCircle] is missing from the
    sources; the spec has it compute the centre and radius of the circle
    through three points and fail on collinear points, where the
    determinant of the circle fit is zero and the division raises. *)
Definition circle_det (x1 y1 x2 y2 x3 y3 : F) : F :=
  ((x2 - x1) * (y3 - y1) - (x3 - x1) * (y2 - y1))%fl.

Definition findCircle (x1 y1 x2 y2 x3 y3 : F) : result (F * F * F) :=
  let det := circle_det x1 y1 x2 y2 x3 y3 in
  if feqb det (fz 0) then Raise ZeroDivisionError
  else
    let s1 := (x1 * x1 + y1 * y1)%fl in
    let s2 := (x2 * x2 + y2 * y2)%fl in
    let s3 := (x3 * x3 + y3 * y3)%fl in
    let two_det := (fz 2 * det)%fl in
    let h := ((s1 * (y2 - y3) + s2 * (y3 - y1) + s3 * (y1 - y2)) / two_det)%fl in
    let k := ((s1 * (x3 - x2) + s2 * (x1 - x3) + s3 * (x2 - x1)) / two_det)%fl in
    let r := fsqrt ((x1 - h) * (x1 - h) + (y1 - k) * (y1 - k))%fl in
    Ok (h, k, r).
End StaticModel.

(* ------------------------------------------------------------------ *)
(** ** class SweepPath                                                 *)
(* ------------------------------------------------------------------ *)

(** [Point = namedtuple("Point", ['x', 'y', 'z'])]. *)
Record Point (F : Type) : Type := mkPoint { px : F; py : F; pz : F }.
Arguments mkPoint {F} px py pz.
Arguments px {F} p.
Arguments py {F} p.
Arguments pz {F} p.

Module SweepPath.
Section Defs.
Context {F : Type} `{FloatOps F} `{Static F}.

Record t : Type := mk {
  pt1 : Point F;
  pt2 : Point F;
  pt3 : option (Point F);
  decimal_lim : nat;
  curve_path : bool;
  zeta : option F;
  m : option F;
  c : F;
  d : option (F * F * F)
}.

(** [__init__]. *)
Definition init (p1 p2 : Point F) (p3 : option (Point F)) : t :=
  {| pt1 := p1; pt2 := p2; pt3 := p3; decimal_lim := 4%nat; curve_path := false;
     zeta := None; m := None; c := fz 0; d := None |}.

(** What [get_sweep_line_properties] hands back with [return]: the tuple
    [(zeta, m, c)], or an exception object. *)
Inductive returned : Type :=
| RetTuple (zeta : F) (m : option F) (c : F)
| RetException (msg : string).

Definition invalid_arc_msg : string :=
  "Zero div error. Point 3 not valid to construct curve line"%string.

(** [get_sweep_line_properties]: the object afterwards and the value returned. *)
Definition get_sweep_line_properties (self : t) : result (t * returned) :=
  match pt3 self with
  | Some p3 =>
      match findCircle (fz 0) (fz 0) (px (pt2 self)) (pz (pt2 self)) (px p3) (pz p3) with
      | Ok circle =>
          let zeta1 := fz 0 in
          let self' := {| pt1 := pt1 self; pt2 := pt2 self; pt3 := pt3 self;
                          decimal_lim := decimal_lim self; curve_path := true;
                          zeta := Some zeta1; m := m self; c := c self;
                          d := Some circle |} in
          Ok (self', RetTuple zeta1 (m self') (c self'))
      | Raise ZeroDivisionError =>
          (* except ZeroDivisionError: return Exception(...) *)
          Ok (self, RetException invalid_arc_msg)
      | Raise e => Raise e
      end
  | None =>
      let points := [(px (pt1 self), pz (pt1 self)); (px (pt2 self), pz (pt2 self))] in
      let m0 := fst (flstsq points) in
      let zeta1 := (farctan m0 / fpi * fz 180)%fl in
      let self' := {| pt1 := pt1 self; pt2 := pt2 self; pt3 := pt3 self;
                      decimal_lim := decimal_lim self; curve_path := curve_path self;
                      zeta := Some zeta1;
                      m := Some (fround (decimal_lim self) m0); c := c self;
                      d := None |} in
      Ok (self', RetTuple zeta1 (m self') (c self'))
  end.

(** [get_line_function]: [None] is what falling off the [else: pass]
    branch returns; a slope that is still [None] cannot be multiplied. *)
Definition get_line_function (self : t) (x : F) : result (option F) :=
  if negb (curve_path self) then
    match m self with
    | Some m0 => Ok (Some (line_func m0 (c self) x))
    | None => Raise TypeError
    end
  else Ok None.

(** The elevation as the callers use it, in arithmetic: a [None] there
    is a [TypeError]. *)
Definition elevation (self : t) (x : F) : result F :=
  r <- get_line_function self x ;;
  match r with
  | Some z => Ok z
  | None => Raise TypeError
  end.
End Defs.
Arguments t F : clear implicits.
End SweepPath.

(* ------------------------------------------------------------------ *)
(** ** class EdgeConstructionLine                                      *)
(* ------------------------------------------------------------------ *)

Module EdgeConstructionLine.
Section Defs.
Context {F : Type} `{FloatOps F} `{Static F}.

Record t : Type := mk {
  edge_ref_point : coord F;
  width_z : F;
  edge_width_z : F;
  num_long_beam : Z;
  edge_angle : F;
  noz : list F;
  node_list : list (coord F);
  z_group : list Z;
  slope : option F;
  c : option F
}.

(** The comprehension that shears the offsets [noz] by the skew angle and
    moves them to the reference point. *)
Definition edge_nodes (ref : coord F) (angle model_plane_y : F) (noz : list F)
  : list (coord F) :=
  map (fun z =>
         let x := (- (z * ftan (angle / fz 180 * fpi)))%fl in
         Coord (x + cx ref)%fl (model_plane_y + cy ref)%fl (z + cz ref)%fl)
      noz.

(** [__init__]; [np.linspace] refuses a negative number of samples. *)
Definition init (ref : coord F) (width_z edge_width_z edge_angle : F)
           (num_long_beam : Z) (model_plane_y : F) : result t :=
  let last_girder := (width_z - edge_width_z)%fl in
  if num_long_beam - 2 <? 0 then Raise ValueError
  else
    let nox_girder := linspace edge_width_z last_girder (Z.to_nat (num_long_beam - 2)) in
    let noz := (fz 0 :: nox_girder) ++ [width_z] in
    let node_list :=
      if fleb edge_angle (fz 0)
      then edge_nodes ref edge_angle model_plane_y noz
      else edge_nodes ref edge_angle model_plane_y noz in
    let slope :=
      if negb (feqb edge_angle (fz 0))
      then Some (- fz 1 / ftan (edge_angle / fz 180 * fpi))%fl
      else None in
    let c :=
      match slope with
      | Some s => Some (get_y_intcp s (cx ref) (cz ref))
      | None => None
      end in
    Ok {| edge_ref_point := ref; width_z := width_z; edge_width_z := edge_width_z;
          num_long_beam := num_long_beam; edge_angle := edge_angle;
          noz := noz; node_list := node_list;
          z_group := py_range 0 (len noz); slope := slope; c := c |}.

(** [list.index]: the position of the first entry equal to the argument. *)
Fixpoint list_index (coordinate : coord F) (l : list (coord F)) : option Z :=
  match l with
  | [] => None
  | a :: rest =>
      if coord_eqb a coordinate then Some 0
      else match list_index coordinate rest with
           | Some i => Some (i + 1)
           | None => None
           end
  end.

(** [get_node_group_z]: [self.node_list.index(coordinate)], whose miss
    is the [ValueError] of the built-in. *)
Definition get_node_group_z (self : t) (coordinate : coord F) : result Z :=
  match list_index coordinate (node_list self) with
  | Some group => Ok group
  | None => Raise ValueError
  end.
End Defs.
Arguments t F : clear implicits.
End EdgeConstructionLine.

(* ------------------------------------------------------------------ *)
(** ** class Mesh                                                      *)
(* ------------------------------------------------------------------ *)

Module Mesh.
Section Defs.
Context {F : Type} `{FloatOps F} `{Static F}.

(** The arguments of [Mesh.__init__]. *)
Record args : Type := mk_args {
  arg_long_dim : F;
  arg_width : F;
  arg_trans_dim : F;
  arg_edge_width : F;
  arg_num_trans_beam : Z;
  arg_num_long_beam : Z;
  arg_skew_1 : F;
  arg_skew_2 : F;
  arg_orthogonal : bool;
  arg_pt1 : Point F;
  arg_pt2 : Point F;
  arg_pt3 : option (Point F);
  arg_element_counter : Z;
  arg_node_counter : Z;
  arg_transform_counter : Z;
  arg_global_x_grid_count : Z;
  arg_global_edge_count : Z;
  arg_mesh_origin : coord F;
  arg_quad_ele : bool
}.

(** The call [Mesh(long_dim, width, trans_dim, edge_width, num_trans_beam,
    num_long_beam, skew_1, skew_2, orthogonal)] with every other argument
    at its default. *)
Definition default_args (long_dim width trans_dim edge_width : F)
           (num_trans_beam num_long_beam : Z) (skew_1 skew_2 : F) (orthogonal : bool) : args :=
  {| arg_long_dim := long_dim; arg_width := width; arg_trans_dim := trans_dim;
     arg_edge_width := edge_width; arg_num_trans_beam := num_trans_beam;
     arg_num_long_beam := num_long_beam; arg_skew_1 := skew_1; arg_skew_2 := skew_2;
     arg_orthogonal := orthogonal;
     arg_pt1 := mkPoint (fz 0) (fz 0) (fz 0); arg_pt2 := mkPoint (fz 0) (fz 0) (fz 0);
     arg_pt3 := None;
     arg_element_counter := 1; arg_node_counter := 1; arg_transform_counter := 0;
     arg_global_x_grid_count := 0; arg_global_edge_count := 0;
     arg_mesh_origin := Coord (fz 0) (fz 0) (fz 0); arg_quad_ele := false |}.

(** An entry of [node_spec]. *)
Record node : Type := mk_node {
  tag : Z;
  coordinate : coord F;
  x_group : Z;
  z_group : Z
}.

(** An element record [[element_tag, node_i, node_j, group_index, transform_tag]]. *)
Record ele : Type := mk_ele {
  ele_tag : Z;
  node_i : Z;
  node_j : Z;
  group_index : Z;
  transform_tag : Z
}.

(** The attributes that [__init__] fixes before meshing starts. *)
Record env : Type := mk_env {
  long_dim : F;
  width : F;
  trans_dim : F;
  edge_width : F;
  num_trans_beam : Z;
  num_long_beam : Z;
  skew_1 : F;
  skew_2 : F;
  orthogonal : bool;
  decimal_lim : nat;
  skew_threshold : F * F;
  curve : bool;
  search_x_inc : F;
  y_elevation : F;
  m : option F;
  c : F;
  r : F;
  d : option (F * F * F);
  mesh_origin : coord F;
  quad_ele : bool;
  sweep_path : SweepPath.t F;
  zeta : F;
  start_edge_line : EdgeConstructionLine.t F;
  end_edge_line : EdgeConstructionLine.t F;
  sweeping_nodes : list (coord F);
  noz : list F;
  nox : list F
}.

(** The attributes the meshing procedures mutate.  [assigned_node_tag] and
    [previous_node_tag] also stand for the local variables of these names
    in [__fixed_sweep_node_meshing]; [sweep_nodes] and [z_group_recorder]
    are the module globals of [__orthogonal_meshing], unbound at first. *)
Record t : Type := mk {
  node_counter : Z;
  element_counter : Z;
  transform_counter : Z;
  global_x_grid_count : Z;
  global_edge_count : Z;
  edge_node_recorder : dict Z Z;
  long_ele : list ele;
  trans_ele : list ele;
  edge_span_ele : list ele;
  transform_dict : dict string Z;
  node_spec : dict Z node;
  first_connecting_region_nodes : list Z;
  end_connecting_region_nodes : list Z;
  assigned_node_tag : list Z;
  previous_node_tag : list Z;
  sweep_path_points : list (coord F);
  ortho_previous_node_column : list Z;
  sweep_nodes : option (list (coord F));
  z_group_recorder : option (list Z)
}.

Definition set_node_counter (self : t) (v : Z) : t :=
  {| node_counter := v; element_counter := element_counter self;
     transform_counter := transform_counter self;
     global_x_grid_count := global_x_grid_count self;
     global_edge_count := global_edge_count self;
     edge_node_recorder := edge_node_recorder self; long_ele := long_ele self;
     trans_ele := trans_ele self; edge_span_ele := edge_span_ele self;
     transform_dict := transform_dict self; node_spec := node_spec self;
     first_connecting_region_nodes := first_connecting_region_nodes self;
     end_connecting_region_nodes := end_connecting_region_nodes self;
     assigned_node_tag := assigned_node_tag self; previous_node_tag := previous_node_tag self;
     sweep_path_points := sweep_path_points self;
     ortho_previous_node_column := ortho_previous_node_column self;
     sweep_nodes := sweep_nodes self; z_group_recorder := z_group_recorder self |}.

Definition set_element_counter (self : t) (v : Z) : t :=
  {| node_counter := node_counter self; element_counter := v;
     transform_counter := transform_counter self;
     global_x_grid_count := global_x_grid_count self;
     global_edge_count := global_edge_count self;
     edge_node_recorder := edge_node_recorder self; long_ele := long_ele self;
     trans_ele := trans_ele self; edge_span_ele := edge_span_ele self;
     transform_dict := transform_dict self; node_spec := node_spec self;
     first_connecting_region_nodes := first_connecting_region_nodes self;
     end_connecting_region_nodes := end_connecting_region_nodes self;
     assigned_node_tag := assigned_node_tag self; previous_node_tag := previous_node_tag self;
     sweep_path_points := sweep_path_points self;
     ortho_previous_node_column := ortho_previous_node_column self;
     sweep_nodes := sweep_nodes self; z_group_recorder := z_group_recorder self |}.

Definition set_transform_counter (self : t) (v : Z) : t :=
  {| node_counter := node_counter self; element_counter := element_counter self;
     transform_counter := v; global_x_grid_count := global_x_grid_count self;
     global_edge_count := global_edge_count self;
     edge_node_recorder := edge_node_recorder self; long_ele := long_ele self;
     trans_ele := trans_ele self; edge_span_ele := edge_span_ele self;
     transform_dict := transform_dict self; node_spec := node_spec self;
     first_connecting_region_nodes := first_connecting_region_nodes self;
     end_connecting_region_nodes := end_connecting_region_nodes self;
     assigned_node_tag := assigned_node_tag self; previous_node_tag := previous_node_tag self;
     sweep_path_points := sweep_path_points self;
     ortho_previous_node_column := ortho_previous_node_column self;
     sweep_nodes := sweep_nodes self; z_group_recorder := z_group_recorder self |}.

Definition set_global_x_grid_count (self : t) (v : Z) : t :=
  {| node_counter := node_counter self; element_counter := element_counter self;
     transform_counter := transform_counter self; global_x_grid_count := v;
     global_edge_count := global_edge_count self;
     edge_node_recorder := edge_node_recorder self; long_ele := long_ele self;
     trans_ele := trans_ele self; edge_span_ele := edge_span_ele self;
     transform_dict := transform_dict self; node_spec := node_spec self;
     first_connecting_region_nodes := first_connecting_region_nodes self;
     end_connecting_region_nodes := end_connecting_region_nodes self;
     assigned_node_tag := assigned_node_tag self; previous_node_tag := previous_node_tag self;
     sweep_path_points := sweep_path_points self;
     ortho_previous_node_column := ortho_previous_node_column self;
     sweep_nodes := sweep_nodes self; z_group_recorder := z_group_recorder self |}.

Definition set_global_edge_count (self : t) (v : Z) : t :=
  {| node_counter := node_counter self; element_counter := element_counter self;
     transform_counter := transform_counter self;
     global_x_grid_count := global_x_grid_count self; global_edge_count := v;
     edge_node_recorder := edge_node_recorder self; long_ele := long_ele self;
     trans_ele := trans_ele self; edge_span_ele := edge_span_ele self;
     transform_dict := transform_dict self; node_spec := node_spec self;
     first_connecting_region_nodes := first_connecting_region_nodes self;
     end_connecting_region_nodes := end_connecting_region_nodes self;
     assigned_node_tag := assigned_node_tag self; previous_node_tag := previous_node_tag self;
     sweep_path_points := sweep_path_points self;
     ortho_previous_node_column := ortho_previous_node_column self;
     sweep_nodes := sweep_nodes self; z_group_recorder := z_group_recorder self |}.

Definition set_edge_node_recorder (self : t) (v : dict Z Z) : t :=
  {| node_counter := node_counter self; element_counter := element_counter self;
     transform_counter := transform_counter self;
     global_x_grid_count := global_x_grid_count self;
     global_edge_count := global_edge_count self; edge_node_recorder := v;
     long_ele := long_ele self; trans_ele := trans_ele self;
     edge_span_ele := edge_span_ele self; transform_dict := transform_dict self;
     node_spec := node_spec self;
     first_connecting_region_nodes := first_connecting_region_nodes self;
     end_connecting_region_nodes := end_connecting_region_nodes self;
     assigned_node_tag := assigned_node_tag self; previous_node_tag := previous_node_tag self;
     sweep_path_points := sweep_path_points self;
     ortho_previous_node_column := ortho_previous_node_column self;
     sweep_nodes := sweep_nodes self; z_group_recorder := z_group_recorder self |}.

Definition set_long_ele (self : t) (v : list ele) : t :=
  {| node_counter := node_counter self; element_counter := element_counter self;
     transform_counter := transform_counter self;
     global_x_grid_count := global_x_grid_count self;
     global_edge_count := global_edge_count self;
     edge_node_recorder := edge_node_recorder self; long_ele := v; trans_ele := trans_ele self;
     edge_span_ele := edge_span_ele self; transform_dict := transform_dict self;
     node_spec := node_spec self;
     first_connecting_region_nodes := first_connecting_region_nodes self;
     end_connecting_region_nodes := end_connecting_region_nodes self;
     assigned_node_tag := assigned_node_tag self; previous_node_tag := previous_node_tag self;
     sweep_path_points := sweep_path_points self;
     ortho_previous_node_column := ortho_previous_node_column self;
     sweep_nodes := sweep_nodes self; z_group_recorder := z_group_recorder self |}.

Definition set_trans_ele (self : t) (v : list ele) : t :=
  {| node_counter := node_counter self; element_counter := element_counter self;
     transform_counter := transform_counter self;
     global_x_grid_count := global_x_grid_count self;
     global_edge_count := global_edge_count self;
     edge_node_recorder := edge_node_recorder self; long_ele := long_ele self; trans_ele := v;
     edge_span_ele := edge_span_ele self; transform_dict := transform_dict self;
     node_spec := node_spec self;
     first_connecting_region_nodes := first_connecting_region_nodes self;
     end_connecting_region_nodes := end_connecting_region_nodes self;
     assigned_node_tag := assigned_node_tag self; previous_node_tag := previous_node_tag self;
     sweep_path_points := sweep_path_points self;
     ortho_previous_node_column := ortho_previous_node_column self;
     sweep_nodes := sweep_nodes self; z_group_recorder := z_group_recorder self |}.

Definition set_edge_span_ele (self : t) (v : list ele) : t :=
  {| node_counter := node_counter self; element_counter := element_counter self;
     transform_counter := transform_counter self;
     global_x_grid_count := global_x_grid_count self;
     global_edge_count := global_edge_count self;
     edge_node_recorder := edge_node_recorder self; long_ele := long_ele self;
     trans_ele := trans_ele self; edge_span_ele := v; transform_dict := transform_dict self;
     node_spec := node_spec self;
     first_connecting_region_nodes := first_connecting_region_nodes self;
     end_connecting_region_nodes := end_connecting_region_nodes self;
     assigned_node_tag := assigned_node_tag self; previous_node_tag := previous_node_tag self;
     sweep_path_points := sweep_path_points self;
     ortho_previous_node_column := ortho_previous_node_column self;
     sweep_nodes := sweep_nodes self; z_group_recorder := z_group_recorder self |}.

Definition set_transform_dict (self : t) (v : dict string Z) : t :=
  {| node_counter := node_counter self; element_counter := element_counter self;
     transform_counter := transform_counter self;
     global_x_grid_count := global_x_grid_count self;
     global_edge_count := global_edge_count self;
     edge_node_recorder := edge_node_recorder self; long_ele := long_ele self;
     trans_ele := trans_ele self; edge_span_ele := edge_span_ele self; transform_dict := v;
     node_spec := node_spec self;
     first_connecting_region_nodes := first_connecting_region_nodes self;
     end_connecting_region_nodes := end_connecting_region_nodes self;
     assigned_node_tag := assigned_node_tag self; previous_node_tag := previous_node_tag self;
     sweep_path_points := sweep_path_points self;
     ortho_previous_node_column := ortho_previous_node_column self;
     sweep_nodes := sweep_nodes self; z_group_recorder := z_group_recorder self |}.

Definition set_node_spec (self : t) (v : dict Z node) : t :=
  {| node_counter := node_counter self; element_counter := element_counter self;
     transform_counter := transform_counter self;
     global_x_grid_count := global_x_grid_count self;
     global_edge_count := global_edge_count self;
     edge_node_recorder := edge_node_recorder self; long_ele := long_ele self;
     trans_ele := trans_ele self; edge_span_ele := edge_span_ele self;
     transform_dict := transform_dict self; node_spec := v;
     first_connecting_region_nodes := first_connecting_region_nodes self;
     end_connecting_region_nodes := end_connecting_region_nodes self;
     assigned_node_tag := assigned_node_tag self; previous_node_tag := previous_node_tag self;
     sweep_path_points := sweep_path_points self;
     ortho_previous_node_column := ortho_previous_node_column self;
     sweep_nodes := sweep_nodes self; z_group_recorder := z_group_recorder self |}.

Definition set_first_connecting_region_nodes (self : t) (v : list Z) : t :=
  {| node_counter := node_counter self; element_counter := element_counter self;
     transform_counter := transform_counter self;
     global_x_grid_count := global_x_grid_count self;
     global_edge_count := global_edge_count self;
     edge_node_recorder := edge_node_recorder self; long_ele := long_ele self;
     trans_ele := trans_ele self; edge_span_ele := edge_span_ele self;
     transform_dict := transform_dict self; node_spec := node_spec self;
     first_connecting_region_nodes := v;
     end_connecting_region_nodes := end_connecting_region_nodes self;
     assigned_node_tag := assigned_node_tag self; previous_node_tag := previous_node_tag self;
     sweep_path_points := sweep_path_points self;
     ortho_previous_node_column := ortho_previous_node_column self;
     sweep_nodes := sweep_nodes self; z_group_recorder := z_group_recorder self |}.

Definition set_end_connecting_region_nodes (self : t) (v : list Z) : t :=
  {| node_counter := node_counter self; element_counter := element_counter self;
     transform_counter := transform_counter self;
     global_x_grid_count := global_x_grid_count self;
     global_edge_count := global_edge_count self;
     edge_node_recorder := edge_node_recorder self; long_ele := long_ele self;
     trans_ele := trans_ele self; edge_span_ele := edge_span_ele self;
     transform_dict := transform_dict self; node_spec := node_spec self;
     first_connecting_region_nodes := first_connecting_region_nodes self;
     end_connecting_region_nodes := v; assigned_node_tag := assigned_node_tag self;
     previous_node_tag := previous_node_tag self; sweep_path_points := sweep_path_points self;
     ortho_previous_node_column := ortho_previous_node_column self;
     sweep_nodes := sweep_nodes self; z_group_recorder := z_group_recorder self |}.

Definition set_assigned_node_tag (self : t) (v : list Z) : t :=
  {| node_counter := node_counter self; element_counter := element_counter self;
     transform_counter := transform_counter self;
     global_x_grid_count := global_x_grid_count self;
     global_edge_count := global_edge_count self;
     edge_node_recorder := edge_node_recorder self; long_ele := long_ele self;
     trans_ele := trans_ele self; edge_span_ele := edge_span_ele self;
     transform_dict := transform_dict self; node_spec := node_spec self;
     first_connecting_region_nodes := first_connecting_region_nodes self;
     end_connecting_region_nodes := end_connecting_region_nodes self; assigned_node_tag := v;
     previous_node_tag := previous_node_tag self; sweep_path_points := sweep_path_points self;
     ortho_previous_node_column := ortho_previous_node_column self;
     sweep_nodes := sweep_nodes self; z_group_recorder := z_group_recorder self |}.

Definition set_previous_node_tag (self : t) (v : list Z) : t :=
  {| node_counter := node_counter self; element_counter := element_counter self;
     transform_counter := transform_counter self;
     global_x_grid_count := global_x_grid_count self;
     global_edge_count := global_edge_count self;
     edge_node_recorder := edge_node_recorder self; long_ele := long_ele self;
     trans_ele := trans_ele self; edge_span_ele := edge_span_ele self;
     transform_dict := transform_dict self; node_spec := node_spec self;
     first_connecting_region_nodes := first_connecting_region_nodes self;
     end_connecting_region_nodes := end_connecting_region_nodes self;
     assigned_node_tag := assigned_node_tag self; previous_node_tag := v;
     sweep_path_points := sweep_path_points self;
     ortho_previous_node_column := ortho_previous_node_column self;
     sweep_nodes := sweep_nodes self; z_group_recorder := z_group_recorder self |}.

Definition set_sweep_path_points (self : t) (v : list (coord F)) : t :=
  {| node_counter := node_counter self; element_counter := element_counter self;
     transform_counter := transform_counter self;
     global_x_grid_count := global_x_grid_count self;
     global_edge_count := global_edge_count self;
     edge_node_recorder := edge_node_recorder self; long_ele := long_ele self;
     trans_ele := trans_ele self; edge_span_ele := edge_span_ele self;
     transform_dict := transform_dict self; node_spec := node_spec self;
     first_connecting_region_nodes := first_connecting_region_nodes self;
     end_connecting_region_nodes := end_connecting_region_nodes self;
     assigned_node_tag := assigned_node_tag self; previous_node_tag := previous_node_tag self;
     sweep_path_points := v; ortho_previous_node_column := ortho_previous_node_column self;
     sweep_nodes := sweep_nodes self; z_group_recorder := z_group_recorder self |}.

Definition set_ortho_previous_node_column (self : t) (v : list Z) : t :=
  {| node_counter := node_counter self; element_counter := element_counter self;
     transform_counter := transform_counter self;
     global_x_grid_count := global_x_grid_count self;
     global_edge_count := global_edge_count self;
     edge_node_recorder := edge_node_recorder self; long_ele := long_ele self;
     trans_ele := trans_ele self; edge_span_ele := edge_span_ele self;
     transform_dict := transform_dict self; node_spec := node_spec self;
     first_connecting_region_nodes := first_connecting_region_nodes self;
     end_connecting_region_nodes := end_connecting_region_nodes self;
     assigned_node_tag := assigned_node_tag self; previous_node_tag := previous_node_tag self;
     sweep_path_points := sweep_path_points self; ortho_previous_node_column := v;
     sweep_nodes := sweep_nodes self; z_group_recorder := z_group_recorder self |}.

Definition set_sweep_nodes (self : t) (v : option (list (coord F))) : t :=
  {| node_counter := node_counter self; element_counter := element_counter self;
     transform_counter := transform_counter self;
     global_x_grid_count := global_x_grid_count self;
     global_edge_count := global_edge_count self;
     edge_node_recorder := edge_node_recorder self; long_ele := long_ele self;
     trans_ele := trans_ele self; edge_span_ele := edge_span_ele self;
     transform_dict := transform_dict self; node_spec := node_spec self;
     first_connecting_region_nodes := first_connecting_region_nodes self;
     end_connecting_region_nodes := end_connecting_region_nodes self;
     assigned_node_tag := assigned_node_tag self; previous_node_tag := previous_node_tag self;
     sweep_path_points := sweep_path_points self;
     ortho_previous_node_column := ortho_previous_node_column self; sweep_nodes := v;
     z_group_recorder := z_group_recorder self |}.

Definition set_z_group_recorder (self : t) (v : option (list Z)) : t :=
  {| node_counter := node_counter self; element_counter := element_counter self;
     transform_counter := transform_counter self;
     global_x_grid_count := global_x_grid_count self;
     global_edge_count := global_edge_count self;
     edge_node_recorder := edge_node_recorder self; long_ele := long_ele self;
     trans_ele := trans_ele self; edge_span_ele := edge_span_ele self;
     transform_dict := transform_dict self; node_spec := node_spec self;
     first_connecting_region_nodes := first_connecting_region_nodes self;
     end_connecting_region_nodes := end_connecting_region_nodes self;
     assigned_node_tag := assigned_node_tag self; previous_node_tag := previous_node_tag self;
     sweep_path_points := sweep_path_points self;
     ortho_previous_node_column := ortho_previous_node_column self;
     sweep_nodes := sweep_nodes self; z_group_recorder := v |}.

(** *** Node and element bookkeeping *)

(** The three statements that place a node:
    [self.node_spec.setdefault(self.node_counter, {...})],
    [assigned_node_tag.append(self.node_counter)], [self.node_counter += 1]. *)
Definition place_node (self : t) (node_coordinate : coord F) (xg zg : Z) : t :=
  let self := set_node_spec self
                (setdefault Z.eqb (node_counter self)
                   {| tag := node_counter self; coordinate := node_coordinate;
                      x_group := xg; z_group := zg |}
                   (node_spec self)) in
  let self := set_assigned_node_tag self (assigned_node_tag self ++ [node_counter self]) in
  set_node_counter self (node_counter self + 1).

(** [__get_vector_xz]. *)
Definition get_vector_xz (n_i n_j : coord F) : list F :=
  let xi := (cx n_j - cx n_i)%fl in
  let zi := (cz n_j - cz n_i)%fl in
  let x := zi in
  let z := (- xi)%fl in
  let length := fsqrt (x * x + z * z)%fl in
  let x1 := (x / length)%fl in
  let z1 := (z / length)%fl in
  [x1; fz 0; z1].

(** [repr] of a list of numbers. *)
Definition repr_list (l : list F) : string :=
  ("[" ++ String.concat ", " (map frepr l) ++ "]")%string.

(** The key under which the direction of the element from [n_i] to [n_j]
    is filed in [transform_dict]. *)
Definition transform_key (e : env) (n_i n_j : coord F) : string :=
  repr_list (map (fround (decimal_lim e)) (get_vector_xz n_i n_j)).

(** [__get_geo_transform_tag]: the tag and the object afterwards. *)
Definition get_geo_transform_tag (e : env) (self : t) (ele_nodes : Z * Z) : result (Z * t) :=
  n_i <- getitem Z.eqb (fst ele_nodes) (node_spec self) ;;
  n_j <- getitem Z.eqb (snd ele_nodes) (node_spec self) ;;
  let key := transform_key e (coordinate n_i) (coordinate n_j) in
  let tag_value :=
    setdefault_value String.eqb key (transform_counter self + 1) (transform_dict self) in
  let self' :=
    set_transform_dict self
      (setdefault String.eqb key (transform_counter self + 1) (transform_dict self)) in
  (* if tag_value > self.transform_counter: self.transform_counter = tag_value *)
  let self'' :=
    set_transform_counter self'
      (if tag_value >? transform_counter self then tag_value else transform_counter self) in
  Ok (tag_value, self'').

(** [__assign_transverse_members]. *)
Definition assign_transverse_members (e : env) (self : t) (pre_node cur_node : Z) : result t :=
  '(tag, self) <- get_geo_transform_tag e self (pre_node, cur_node) ;;
  let self := set_trans_ele self
                (trans_ele self ++
                 [mk_ele (element_counter self) pre_node cur_node (global_x_grid_count self) tag]) in
  Ok (set_element_counter self (element_counter self + 1)).

(** [__assign_longitudinal_members]. *)
Definition assign_longitudinal_members (e : env) (self : t) (pre_node cur_node cur_z_group : Z)
  : result t :=
  '(tag, self) <- get_geo_transform_tag e self (pre_node, cur_node) ;;
  let self := set_long_ele self
                (long_ele self ++ [mk_ele (element_counter self) pre_node cur_node cur_z_group tag]) in
  Ok (set_element_counter self (element_counter self + 1)).

(** [__assign_edge_trans_members]. *)
Definition assign_edge_trans_members (e : env) (self : t)
           (previous_node assigned_node edge_counter : Z) : result t :=
  '(tag, self) <- get_geo_transform_tag e self (previous_node, assigned_node) ;;
  let self := set_edge_span_ele self
                (edge_span_ele self ++
                 [mk_ele (element_counter self) previous_node assigned_node edge_counter tag]) in
  Ok (set_element_counter self (element_counter self + 1)).

(** The inner loop of every longitudinal join,
    [for cur_node in assigned: if same z_group: link; break]. *)
Fixpoint link_first_match (e : env) (self : t) (pre_node : Z) (cur_nodes : list Z) : result t :=
  match cur_nodes with
  | [] => Ok self
  | cur_node :: rest =>
      cur <- getitem Z.eqb cur_node (node_spec self) ;;
      pre <- getitem Z.eqb pre_node (node_spec self) ;;
      let cur_z_group := z_group cur in
      let prev_z_group := z_group pre in
      if cur_z_group =? prev_z_group
      then assign_longitudinal_members e self pre_node cur_node cur_z_group
      else link_first_match e self pre_node rest
  end.

(** The join itself, [for pre_node in previous: for cur_node in assigned: ...]. *)
Definition link_longitudinal (e : env) (self : t) (previous assigned : list Z) : result t :=
  foldM (fun self pre_node => link_first_match e self pre_node assigned) previous self.

(** [for nodes in previous_node_tag:
       self.edge_node_recorder.setdefault(nodes, self.global_edge_count)]. *)
Definition record_edge_nodes (self : t) (nodes : list Z) : t :=
  fold_left (fun self n =>
               set_edge_node_recorder self
                 (setdefault Z.eqb n (global_edge_count self) (edge_node_recorder self)))
            nodes self.

(** *** [__fixed_sweep_node_meshing] *)

(** The inner loop: one station, one node per sweeping node, each linked
    to the node before it by a transverse element. *)
Definition fixed_sweep_station (e : env) (x_count : Z) (x_inc : F) (self : t) : result t :=
  foldM (fun self '(z_count, ref_point) =>
           m0 <- match m e with Some m0 => Ok m0 | None => Raise TypeError end ;;
           let z_inc := fround (decimal_lim e)
                          (select_segment_function (curve e) (d e) m0 m0 x_inc (r e)) in
           let node_coordinate :=
             Coord (cx ref_point + x_inc)%fl (cy ref_point) (cz ref_point + z_inc)%fl in
           let self := place_node self node_coordinate x_count z_count in
           if z_count >? 0 then
             pre_node <- py_index (assigned_node_tag self) (z_count - 1) ;;
             cur_node <- py_index (assigned_node_tag self) z_count ;;
             '(tag, self) <- get_geo_transform_tag e self (pre_node, cur_node) ;;
             let self := set_trans_ele self
                           (trans_ele self ++
                            [mk_ele (element_counter self) pre_node cur_node x_count tag]) in
             Ok (set_element_counter self (element_counter self + 1))
           else Ok self)
        (enumerate (sweeping_nodes e)) self.

(** The outer loop body. *)
Definition fixed_sweep_step (e : env) (self : t) (x : Z * F) : result t :=
  let '(x_count, x_inc) := x in
  self <- fixed_sweep_station e x_count x_inc self ;;
  self <-
    (if x_count =? 0 then
       let self := set_previous_node_tag self (assigned_node_tag self) in
       let self := record_edge_nodes self (previous_node_tag self) in
       Ok (set_global_edge_count self (global_edge_count self + 1))
     else if x_count >? 0 then
       self <- link_longitudinal e self (previous_node_tag self) (assigned_node_tag self) ;;
       let self := set_previous_node_tag self (assigned_node_tag self) in
       if x_count =? len (nox e) - 1 then
         let self := record_edge_nodes self (previous_node_tag self) in
         Ok (set_global_edge_count self (global_edge_count self + 1))
       else Ok self
     else Ok self) ;;
  Ok (set_assigned_node_tag self []).

Definition fixed_sweep_node_meshing (e : env) (self : t) : result t :=
  let self := set_assigned_node_tag self [] in
  let self := set_previous_node_tag self [] in
  foldM (fixed_sweep_step e) (enumerate (nox e)) self.

(** *** [__search_x_point] *)

(** The local variables of the search loop. *)
Record search_state : Type := mk_search {
  start_point_x : F;
  min_found : bool;
  loop_counter : Z;
  z0 : option F
}.

Definition max_loop : Z := 1000.

(** One pass through the body of [while not min_found]. *)
Definition search_body (e : env) (int_point : coord F) (s : search_state) : result search_state :=
  let x := start_point_x s in
  let inc := search_x_inc e in
  z_0 <- SweepPath.elevation (sweep_path e) x ;;
  z_ub <- SweepPath.elevation (sweep_path e) (x + inc)%fl ;;
  z_lb <- SweepPath.elevation (sweep_path e) (x - inc)%fl ;;
  let d0 := find_min_x_dist int_point (Coord x (y_elevation e) z_0) in
  let d_ub := find_min_x_dist int_point (Coord (x + inc)%fl (y_elevation e) z_ub) in
  let d_lb := find_min_x_dist int_point (Coord (x - inc)%fl (y_elevation e) z_lb) in
  let '(found, x') :=
    if fgtb d_lb d0 && fgtb d_ub d0 then (true, x)
    else if fltb d_lb d0 && fgtb d_ub d0 then (min_found s, (x - inc)%fl)
    else if fgtb d_lb d0 && fltb d_ub d0 then (min_found s, (x + inc)%fl)
    else (min_found s, x) in
  Ok {| start_point_x := x'; min_found := found;
        loop_counter := loop_counter s + 1; z0 := Some z_0 |}.

(** The [while] loop, with fuel for the recursion; [None] would mean that
    the fuel ran out before the loop ended. *)
Fixpoint search_loop (fuel : nat) (e : env) (int_point : coord F) (s : search_state)
  : option (result search_state) :=
  if min_found s then Some (Ok s)
  else
    match fuel with
    | O => None
    | S fuel' =>
        match search_body e int_point s with
        | Raise ex => Some (Raise ex)
        | Ok s' =>
            if loop_counter s' >? max_loop then Some (Ok s')      (* break *)
            else search_loop fuel' e int_point s'
        end
    end.

Definition search_init (int_point : coord F) : search_state :=
  {| start_point_x := cx int_point; min_found := false; loop_counter := 0; z0 := None |}.

(** The fuel that always suffices: the cap of 1000 lets the body run at
    most 1001 times. *)
Definition search_fuel : nat := 1001.

(** [__search_x_point]: the pair [(start_point_x, z0)].  The search starts
    at the abscissa of the intersection point; the parameters
    [start_point_y] and [line_function] of the source are not used. *)
Definition search_x_point (e : env) (int_point : coord F) : result (F * F) :=
  match search_loop search_fuel e int_point (search_init int_point) with
  | Some r =>
      s <- r ;;
      match z0 s with
      | Some z => Ok (start_point_x s, z)
      | None => Raise TypeError      (* the body has run, [z0] is set *)
      end
  | None => Raise (Exception "search_x_point")   (* never: see [search_loop_fuel] *)
  end.

(** *** [__rotate_sweep_nodes] *)

Definition rotate_sweep_nodes (e : env) (angle : F) : list (coord F) :=
  map (fun y =>
         let x0 := fz 0 in
         let x1 := (x0 * fcos angle - y * fsin angle)%fl in
         let z1 := (y * fcos angle + x1 * fsin angle)%fl in
         Coord (x1 + cx (mesh_origin e))%fl (y_elevation e + cy (mesh_origin e))%fl
               (z1 + cz (mesh_origin e))%fl)
      (noz e).

(** *** [__orthogonal_meshing] *)

(** Reading a module global that no assignment has bound yet. *)
Definition read_global {A : Type} (name : string) (v : option A) : result A :=
  match v with
  | Some a => Ok a
  | None => Raise (NameError name)
  end.

(** The edge region below the skew threshold: the nodes of the edge line
    are taken as they are and joined by edge elements.  [at_start] tells
    the first edge line from the second, which differ in the offsets and
    in the connecting region they record. *)
Definition edge_line_as_is (e : env) (at_start : bool) (self : t) : result t :=
  let edge := if at_start then start_edge_line e else end_edge_line e in
  let x_inc := if at_start then cx (mesh_origin e) else fz 0 in
  let z_inc := if at_start then cz (mesh_origin e) else fz 0 in
  foldM (fun self '(z_count_int, nodes) =>
           let node_coordinate :=
             Coord (cx nodes + x_inc)%fl (cy nodes) (cz nodes + z_inc)%fl in
           let self := place_node self node_coordinate (global_x_grid_count self) z_count_int in
           self <-
             (if z_count_int >? 0 then
                if len (assigned_node_tag self) >=? 1 then
                  pre_node <- py_index (assigned_node_tag self) (z_count_int - 1) ;;
                  cur_node <- py_index (assigned_node_tag self) z_count_int ;;
                  self <- assign_edge_trans_members e self pre_node cur_node
                            (global_edge_count self) ;;
                  let self := set_edge_node_recorder self
                                (setdefault Z.eqb pre_node (global_edge_count self)
                                   (edge_node_recorder self)) in
                  Ok (set_edge_node_recorder self
                        (setdefault Z.eqb cur_node (global_edge_count self)
                           (edge_node_recorder self)))
                else Ok self
              else Ok self) ;;
           if len (assigned_node_tag self) =? len (noz e) then
             Ok (if at_start
                 then set_first_connecting_region_nodes self (assigned_node_tag self)
                 else set_end_connecting_region_nodes self (assigned_node_tag self))
           else Ok self)
        (enumerate (EdgeConstructionLine.node_list edge)) self.

(** One column of nodes of the rotated sweep line, joined by transverse
    elements; the row of each node comes from [z_group_recorder]. *)
Definition place_sweep_column (e : env) (ref_point_x ref_point_z : F)
           (column : list (coord F)) (self : t) : result t :=
  foldM (fun self '(z_count_int, nodes) =>
           let node_coordinate :=
             Coord (cx nodes + ref_point_x)%fl (cy nodes) (cz nodes + ref_point_z)%fl in
           rows <- read_global "z_group_recorder" (z_group_recorder self) ;;
           zg <- py_index rows z_count_int ;;
           let self := place_node self node_coordinate (global_x_grid_count self) zg in
           if z_count_int >? 0 then
             pre_node <- py_index (assigned_node_tag self) (z_count_int - 1) ;;
             cur_node <- py_index (assigned_node_tag self) z_count_int ;;
             assign_transverse_members e self pre_node cur_node
           else Ok self)
        (enumerate column) self.

(** The two slicing branches of the search region: which part of the
    rotated sweep line is new at this intersection point.  Neither branch
    assigns when [90 + skew + zeta] is exactly [90]. *)
Definition select_sweep_nodes (e : env) (at_start : bool) (z_count z_group : Z)
           (current_sweep_nodes : list (coord F)) (self : t) : t :=
  let skew := if at_start then skew_1 e else skew_2 e in
  let angle := (fz 90 + skew + zeta e)%fl in
  let tail_part (self : t) :=
    set_z_group_recorder
      (set_sweep_nodes self (Some (slice_from current_sweep_nodes z_count)))
      (Some (py_range z_group (len current_sweep_nodes))) in
  let head_part (self : t) :=
    set_z_group_recorder
      (set_sweep_nodes self (Some (slice_to current_sweep_nodes (z_count + 1))))
      (Some (if negb (z_group =? 0) then py_range 0 (z_group + 1) else [0])) in
  if fgtb angle (fz 90) then (if at_start then tail_part self else head_part self)
  else if fltb angle (fz 90) then (if at_start then head_part self else tail_part self)
  else self.

(** The skewed edge member between two consecutive columns. *)
Definition link_skew_edge (e : env) (at_start : bool) (self : t) : result t :=
  let skew := if at_start then skew_1 e else skew_2 e in
  let angle := (fz 90 + skew + zeta e)%fl in
  let link (i : Z) (self : t) : result t :=
    pre_node <- py_index (previous_node_tag self) i ;;
    cur_node <- py_index (assigned_node_tag self) i ;;
    self <- assign_edge_trans_members e self pre_node cur_node (global_edge_count self) ;;
    let self := set_edge_node_recorder self
                  (setdefault Z.eqb pre_node (global_edge_count self)
                     (edge_node_recorder self)) in
    Ok (set_edge_node_recorder self
          (setdefault Z.eqb cur_node (global_edge_count self) (edge_node_recorder self))) in
  if len (assigned_node_tag self) >=? 1 then
    if fgtb angle (fz 90) then link (if at_start then 0 else -1) self
    else if fltb angle (fz 90) then link (if at_start then -1 else 0) self
    else Ok self
  else Ok self.

(** The body of the loop over the intersection points of an edge line
    beyond the skew threshold. *)
Definition edge_search_step (e : env) (at_start : bool) (self : t) (p : Z * coord F)
  : result t :=
  let '(z_count, int_point) := p in
  let edge := if at_start then start_edge_line e else end_edge_line e in
  '(ref_point_x, ref_point_z) <- search_x_point e int_point ;;
  let self := set_sweep_path_points self
                (sweep_path_points self ++ [Coord ref_point_x (y_elevation e) ref_point_z]) in
  let '(m_prime, phi) := get_slope (Coord ref_point_x (y_elevation e) ref_point_z) int_point in
  let angle :=
    if at_start && fgtb (skew_1 e) (fz 0)
    then farctan (zeta e / fz 180 * fpi)%fl
    else (fpi / fz 2 - fabs phi)%fl in
  let current_sweep_nodes := rotate_sweep_nodes e angle in
  z_group <- EdgeConstructionLine.get_node_group_z edge int_point ;;
  let self := select_sweep_nodes e at_start z_count z_group current_sweep_nodes self in
  column <- read_global "sweep_nodes" (sweep_nodes self) ;;
  self <- place_sweep_column e ref_point_x ref_point_z column self ;;
  let self := if z_count =? 0
              then set_previous_node_tag self (assigned_node_tag self) else self in
  self <-
    (if z_count >? 0 then
       self <- link_longitudinal e self (previous_node_tag self) (assigned_node_tag self) ;;
       self <- link_skew_edge e at_start self ;;
       Ok (set_previous_node_tag self (assigned_node_tag self))
     else Ok self) ;;
  let self := set_global_x_grid_count self (global_x_grid_count self + 1) in
  let self :=
    if len (assigned_node_tag self) =? len (noz e) then
      (if at_start
       then set_first_connecting_region_nodes self (assigned_node_tag self)
       else set_end_connecting_region_nodes self (assigned_node_tag self))
    else self in
  let self := set_ortho_previous_node_column self (assigned_node_tag self) in
  Ok (set_assigned_node_tag self []).

(** An edge region: as it is below the threshold, by search above it. *)
Definition edge_region (e : env) (at_start : bool) (self : t) : result t :=
  let skew := if at_start then skew_1 e else skew_2 e in
  let edge := if at_start then start_edge_line e else end_edge_line e in
  if fltb (fabs (skew + zeta e)%fl) (fst (skew_threshold e)) then
    self <- edge_line_as_is e at_start self ;;
    let self := set_global_x_grid_count self (global_x_grid_count self + 1) in
    (* only the first region resets the list here *)
    Ok (if at_start then set_assigned_node_tag self [] else self)
  else
    self <- foldM (edge_search_step e at_start)
              (enumerate (EdgeConstructionLine.node_list edge)) self ;;
    Ok (set_global_edge_count self (global_edge_count self + 1)).

(** [np.linspace] with the sample count as Python passes it. *)
Definition np_linspace (start stop : F) (num : Z) : result (list F) :=
  if num <? 0 then Raise ValueError else Ok (linspace start stop (Z.to_nat num)).

(** A full column of the uniform region, joined by transverse elements. *)
Definition place_uniform_column (e : env) (x z : F) (column : list (coord F)) (self : t)
  : result t :=
  foldM (fun self '(z_count_int, nodes) =>
           let node_coordinate := Coord (cx nodes + x)%fl (cy nodes) (cz nodes + z)%fl in
           let self := place_node self node_coordinate (global_x_grid_count self) z_count_int in
           if z_count_int >? 0 then
             pre_node <- py_index (assigned_node_tag self) (z_count_int - 1) ;;
             cur_node <- py_index (assigned_node_tag self) z_count_int ;;
             assign_transverse_members e self pre_node cur_node
           else Ok self)
        (enumerate column) self.

(** The body of the loop over [uniform_region_x[1:-1]]; [n_inner] is the
    length of that slice. *)
Definition uniform_step (e : env) (n_inner : Z) (self : t) (p : Z * F) : result t :=
  let '(z_count, x) := p in
  z <- SweepPath.elevation (sweep_path e) x ;;
  let current_sweep_nodes := rotate_sweep_nodes e (zeta e / fz 180 * fpi)%fl in
  self <- place_uniform_column e x z current_sweep_nodes self ;;
  let self := if z_count =? 0
              then set_previous_node_tag self (first_connecting_region_nodes self)
              else self in
  self <- link_longitudinal e self (previous_node_tag self) (assigned_node_tag self) ;;
  let self := set_global_x_grid_count self (global_x_grid_count self + 1) in
  let self := set_previous_node_tag self (assigned_node_tag self) in
  Ok (if negb (z_count =? n_inner - 1)
      then set_assigned_node_tag self []
      else set_assigned_node_tag self (end_connecting_region_nodes self)).

(** The remaining distance, meshed with uniform spacing, and the extra
    step that ties it to the end region. *)
Definition uniform_region (e : env) (self : t) : result t :=
  x_first <- py_index (first_connecting_region_nodes self) 0 ;;
  x_second <- py_index (end_connecting_region_nodes self) 0 ;;
  n_first <- getitem Z.eqb x_first (node_spec self) ;;
  n_second <- getitem Z.eqb x_second (node_spec self) ;;
  uniform_region_x <- np_linspace (cx (coordinate n_first)) (cx (coordinate n_second))
                        (num_trans_beam e) ;;
  let inner := slice_inner uniform_region_x in
  self <- foldM (uniform_step e (len inner)) (enumerate inner) self ;;
  link_longitudinal e self (previous_node_tag self) (assigned_node_tag self).

Definition orthogonal_meshing (e : env) (self : t) : result t :=
  let self := set_assigned_node_tag self [] in
  let self := set_previous_node_tag self [] in
  let self := set_sweep_path_points self [] in
  self <- edge_region e true self ;;
  (* end_point_z = self.sweep_path.get_line_function(end_point_x) *)
  _ <- SweepPath.get_line_function (sweep_path e) (long_dim e) ;;
  self <- edge_region e false self ;;
  let self := set_assigned_node_tag self [] in
  uniform_region e self.

(** *** [__identify_member_groups] *)

(** An entry of a grid cell: a node tag, or the empty list that stands in
    for a missing third bounding node. *)
Inductive grid_entry : Type :=
| GNode (n : Z)
| GEmpty.

(** [n in d] for a node tag [n] and a grid cell [d]. *)
Definition grid_mem (n : Z) (d : list grid_entry) : bool :=
  existsb (fun x => match x with GNode k => k =? n | GEmpty => false end) d.

Definition is_GEmpty (x : grid_entry) : bool :=
  match x with GEmpty => true | GNode _ => false end.

(** [grid.remove([])]: the first empty entry goes. *)
Fixpoint remove_empty (grid : list grid_entry) : list grid_entry :=
  match grid with
  | [] => []
  | GEmpty :: rest => rest
  | x :: rest => x :: remove_empty rest
  end.

(** The sub-dictionary of a grid cell, keyed by ['top'], ['bottom'],
    ['left'] and ['right']. *)
Record vicinity : Type := mk_vicinity {
  top : option Z;
  bottom : option Z;
  left : option Z;
  right : option Z
}.

Record groups : Type := mk_groups {
  common_z_group_element : dict Z (list Z);
  node_width_z_dict : dict Z (list (list F));
  node_connect_z_dict : dict Z (list Z);
  z_group_to_ele : dict Z (list ele);
  x_group_to_ele : dict Z (list ele);
  node_width_x_dict : dict Z (list (list F));
  node_connect_x_dict : dict Z (list Z);
  grid_number_dict : dict Z (list grid_entry);
  grid_vicinity_dict : dict Z vicinity
}.

(** The elements of [others] that have [n] as an end. *)
Definition touching (others : list ele) (n : Z) : list ele :=
  filter (fun o => (node_i o =? n) || (node_j o =? n)) others.

(** The loops [for item in n1] and [for item in n2]: the spans of the
    touching elements and their far ends. *)
Definition spans_and_neighbours (self : t) (el : ele) (items : list ele)
  : result (list (list F) * list Z) :=
  foldM (fun '(dl, pl) item =>
           a <- getitem Z.eqb (node_i item) (node_spec self) ;;
           b <- getitem Z.eqb (node_j item) (node_spec self) ;;
           let ca := coordinate a in
           let cb := coordinate b in
           let dl := dl ++ [[fabs (cx ca - cx cb)%fl; fabs (cy ca - cy cb)%fl;
                             fabs (cz ca - cz cb)%fl]] in
           let pl := if negb (node_i item =? node_i el) && negb (node_i item =? node_j el)
                     then pl ++ [node_i item] else pl in
           let pl := if negb (node_j item =? node_i el) && negb (node_j item =? node_j el)
                     then pl ++ [node_j item] else pl in
           Ok (dl, pl))
        items ([], []).

(** One of the three loops that fill a width and a connect dictionary:
    [for ele in eles], with the touching elements taken from [others]. *)
Definition neighbour_pass (self : t) (eles others : list ele)
           (acc : dict Z (list (list F)) * dict Z (list Z))
  : result (dict Z (list (list F)) * dict Z (list Z)) :=
  foldM (fun '(width_dict, connect_dict) el =>
           let n1 := touching others (node_i el) in
           let n2 := touching others (node_j el) in
           '(d1, p1) <- spans_and_neighbours self el n1 ;;
           '(d2, p2) <- spans_and_neighbours self el n2 ;;
           Ok (setdefault Z.eqb (node_j el) d2 (setdefault Z.eqb (node_i el) d1 width_dict),
               setdefault Z.eqb (node_j el) p2 (setdefault Z.eqb (node_i el) p1 connect_dict)))
        eles acc.

(** The innermost step of the grid numbering, for one [z_node]. *)
Definition grid_cell_step (self : t) (node_tag x_node xg : Z)
           (acc : dict Z (list grid_entry) * Z) (z_node : Z)
  : result (dict Z (list grid_entry) * Z) :=
  let '(grid_dict, counter) := acc in
  zn <- getitem Z.eqb z_node (node_spec self) ;;
  let zg := z_group zn in
  let n3 := map tag (filter (fun n => (x_group n =? xg) && (z_group n =? zg))
                            (values (node_spec self))) in
  match n3 with
  | n3_0 :: _ =>
      if negb (existsb (fun d => grid_mem node_tag d && grid_mem x_node d &&
                                 grid_mem z_node d && grid_mem n3_0 d)
                       (values grid_dict))
      then Ok (setdefault Z.eqb counter [GNode node_tag; GNode x_node; GNode n3_0; GNode z_node]
                 grid_dict, counter + 1)
      else Ok acc
  | [] =>
      if negb (existsb (fun d => grid_mem node_tag d && grid_mem x_node d && grid_mem z_node d)
                       (values grid_dict))
      then Ok (setdefault Z.eqb counter [GNode node_tag; GNode x_node; GEmpty; GNode z_node]
                 grid_dict, counter + 1)
      else Ok acc
  end.

(** The loop that builds [grid_number_dict]. *)
Definition number_grids (self : t) (connect_x connect_z : dict Z (list Z))
  : result (dict Z (list grid_entry)) :=
  r <- foldM (fun acc node_tag =>
                let x_vicinity_nodes := get_default Z.eqb node_tag [] connect_x in
                let z_vicinity_nodes := get_default Z.eqb node_tag [] connect_z in
                foldM (fun acc x_node =>
                         xn <- getitem Z.eqb x_node (node_spec self) ;;
                         foldM (grid_cell_step self node_tag x_node (x_group xn))
                               z_vicinity_nodes acc)
                      x_vicinity_nodes acc)
             (keys (node_spec self)) ([], 0) ;;
  Ok (fst r).

(** The positions, in [values()], of the grid cells that contain [node]. *)
Definition cells_with (node : Z) (grid_dict : dict Z (list grid_entry)) : list Z :=
  map fst (filter (fun p => grid_mem node (snd p)) (enumerate (values grid_dict))).

(** What the vicinity loop collects about the nodes of a cell. *)
Record cell_summary : Type := mk_summary {
  sum_x_group : list Z;
  sum_z_group : list Z;
  sum_x : list F;
  sum_z : list F
}.

(** The loop [for nodes in self.grid_number_dict[neighbour]], which skips
    the entries that are false. *)
Definition summarize_neighbour (self : t) (cell : list grid_entry) : result cell_summary :=
  foldM (fun s entry =>
           match entry with
           | GEmpty => Ok s
           | GNode n =>
               if n =? 0 then Ok s
               else
                 nd <- getitem Z.eqb n (node_spec self) ;;
                 Ok {| sum_x_group := sum_x_group s ++ [x_group nd];
                       sum_z_group := sum_z_group s ++ [z_group nd];
                       sum_x := sum_x s ++ [cx (coordinate nd)];
                       sum_z := sum_z s ++ [cz (coordinate nd)] |}
           end)
        cell (mk_summary [] [] [] []).

(** The loop [for node in grid] of the current cell; an empty list left in
    the cell cannot be looked up in [node_spec]. *)
Definition summarize_current (self : t) (grid_dict : dict Z (list grid_entry))
           (grid : list grid_entry) : result (list Z * cell_summary) :=
  foldM (fun '(record, s) entry =>
           match entry with
           | GEmpty => Raise TypeError
           | GNode n =>
               let record := record ++ cells_with n grid_dict in
               nd <- getitem Z.eqb n (node_spec self) ;;
               Ok (record,
                   {| sum_x_group := sum_x_group s ++ [x_group nd];
                      sum_z_group := sum_z_group s ++ [z_group nd];
                      sum_x := sum_x s ++ [cx (coordinate nd)];
                      sum_z := sum_z s ++ [cz (coordinate nd)] |})
           end)
        grid ([], mk_summary [] [] [] []).

(** The loop [for neighbour in grid_number_record] of one cell. *)
Definition classify_neighbour (self : t) (grid_dict : dict Z (list grid_entry)) (k : Z)
           (current_x_group current_z_group : list Z) (current_x current_z : list F)
           (subdict : vicinity) (neighbour : Z) : result vicinity :=
  if neighbour =? k then Ok subdict
  else
    cell <- getitem Z.eqb neighbour grid_dict ;;
    s <- summarize_neighbour self cell ;;
    let x_group := np_unique Z.ltb (sum_x_group s) in
    let z_group := np_unique Z.ltb (sum_z_group s) in
    let x_coor := np_unique fltb (sum_x s) in
    let z_coor := np_unique fltb (sum_z s) in
    subdict <-
      (if forallb (fun a => zmem a current_x_group) x_group then
         hi <- py_max z_coor ;;
         cur_hi <- py_max current_z ;;
         Ok (if fgtb hi cur_hi
             then mk_vicinity (Some neighbour) (bottom subdict) (left subdict) (right subdict)
             else mk_vicinity (top subdict) (Some neighbour) (left subdict) (right subdict))
       else Ok subdict) ;;
    if forallb (fun a => zmem a current_z_group) z_group then
      hi <- py_max x_coor ;;
      cur_hi <- py_max current_x ;;
      Ok (if fgtb hi cur_hi
          then mk_vicinity (top subdict) (bottom subdict) (left subdict) (Some neighbour)
          else mk_vicinity (top subdict) (bottom subdict) (Some neighbour) (right subdict))
    else Ok subdict.

(** The body of [for k, grid in self.grid_number_dict.items()].  The cell
    is changed in place, so the dictionary is part of the loop state. *)
Definition vicinity_step (self : t)
           (acc : dict Z (list grid_entry) * dict Z vicinity) (k : Z)
  : result (dict Z (list grid_entry) * dict Z vicinity) :=
  let '(grid_dict, vicinity_dict) := acc in
  grid <- getitem Z.eqb k grid_dict ;;
  let grid := if existsb is_GEmpty grid then remove_empty grid else grid in
  let grid_dict := setitem Z.eqb k grid grid_dict in
  '(record, s) <- summarize_current self grid_dict grid ;;
  let current_x_group := np_unique Z.ltb (sum_x_group s) in
  let current_z_group := np_unique Z.ltb (sum_z_group s) in
  let current_x := np_unique fltb (sum_x s) in
  let current_z := np_unique fltb (sum_z s) in
  let grid_number_record := np_unique Z.ltb record in
  subdict <- foldM (classify_neighbour self grid_dict k current_x_group current_z_group
                      current_x current_z)
               grid_number_record (mk_vicinity None None None None) ;;
  Ok (grid_dict, setdefault Z.eqb k subdict vicinity_dict).

Definition identify_member_groups (e : env) (self : t) : result groups :=
  let n := len (noz e) in
  let common := [(0, [0; n - 1]); (1, [1]); (2, py_range 2 (n - 2)); (3, [n - 2])] in
  '(width_z, connect_z) <- neighbour_pass self (long_ele self) (trans_ele self) ([], []) ;;
  let z_to_ele :=
    map (fun '(count, _) => (count, filter (fun el => group_index el =? count) (long_ele self)))
        (enumerate (noz e)) in
  let x_to_ele :=
    map (fun count => (count, filter (fun el => group_index el =? count) (trans_ele self)))
        (py_range 0 (global_x_grid_count self)) in
  '(width_x, connect_x) <- neighbour_pass self (trans_ele self) (long_ele self) ([], []) ;;
  '(width_x, connect_x) <-
     neighbour_pass self (edge_span_ele self) (long_ele self) (width_x, connect_x) ;;
  grid_dict <- number_grids self connect_x connect_z ;;
  '(grid_dict, vicinity_dict) <-
     foldM (vicinity_step self) (keys grid_dict) (grid_dict, []) ;;
  Ok {| common_z_group_element := common;
        node_width_z_dict := width_z; node_connect_z_dict := connect_z;
        z_group_to_ele := z_to_ele; x_group_to_ele := x_to_ele;
        node_width_x_dict := width_x; node_connect_x_dict := connect_x;
        grid_number_dict := grid_dict; grid_vicinity_dict := vicinity_dict |}.

(** *** [__init__] *)

(** A finished [Mesh] object. *)
Record mesh : Type := mk_mesh {
  mesh_env : env;
  mesh_state : t;
  mesh_groups : groups
}.

Definition with_sweeping_nodes (e : env) (nodes : list (coord F)) (stations : list F) : env :=
  {| long_dim := long_dim e; width := width e; trans_dim := trans_dim e;
     edge_width := edge_width e; num_trans_beam := num_trans_beam e;
     num_long_beam := num_long_beam e; skew_1 := skew_1 e; skew_2 := skew_2 e;
     orthogonal := orthogonal e; decimal_lim := decimal_lim e;
     skew_threshold := skew_threshold e; curve := curve e; search_x_inc := search_x_inc e;
     y_elevation := y_elevation e; m := m e; c := c e; r := r e; d := d e;
     mesh_origin := mesh_origin e; quad_ele := quad_ele e; sweep_path := sweep_path e;
     zeta := zeta e; start_edge_line := start_edge_line e; end_edge_line := end_edge_line e;
     sweeping_nodes := nodes; noz := noz e; nox := stations |}.

(** The mutable attributes as [__init__] sets them, with the module
    globals as the interpreter holds them at that moment. *)
Definition initial_state (a : args) (globals : option (list (coord F)) * option (list Z)) : t :=
  {| node_counter := arg_node_counter a; element_counter := arg_element_counter a;
     transform_counter := arg_transform_counter a;
     global_x_grid_count := arg_global_x_grid_count a;
     global_edge_count := arg_global_edge_count a;
     edge_node_recorder := []; long_ele := []; trans_ele := []; edge_span_ele := [];
     transform_dict := []; node_spec := [];
     first_connecting_region_nodes := []; end_connecting_region_nodes := [];
     assigned_node_tag := []; previous_node_tag := [];
     sweep_path_points := []; ortho_previous_node_column := [];
     sweep_nodes := fst globals; z_group_recorder := snd globals |}.

(** The first half of [Mesh.__init__], up to the stations [nox]: the
    sweep path, the two edge construction lines and the sweep nodes. *)
Definition make_env (a : args) : result env :=
  let y_elev := fz 0 in
  let path := SweepPath.init (arg_pt1 a) (arg_pt2 a) (arg_pt3 a) in
  '(path, ret) <- SweepPath.get_sweep_line_properties path ;;
  match ret with
  | SweepPath.RetException _ => Raise TypeError     (* an exception object does not unpack *)
  | SweepPath.RetTuple zeta0 m0 c0 =>
      start_line <- EdgeConstructionLine.init (arg_mesh_origin a) (arg_width a)
                      (arg_edge_width a) (arg_skew_1 a) (arg_num_long_beam a) y_elev ;;
      end_point_z <- SweepPath.elevation path (arg_long_dim a) ;;
      end_line <- EdgeConstructionLine.init (Coord (arg_long_dim a) (fz 0) end_point_z)
                    (arg_width a) (arg_edge_width a) (arg_skew_2 a)
                    (arg_num_long_beam a) y_elev ;;
      let e0 :=
        {| long_dim := arg_long_dim a; width := arg_width a; trans_dim := arg_trans_dim a;
           edge_width := arg_edge_width a; num_trans_beam := arg_num_trans_beam a;
           num_long_beam := arg_num_long_beam a; skew_1 := arg_skew_1 a;
           skew_2 := arg_skew_2 a; orthogonal := arg_orthogonal a; decimal_lim := 3%nat;
           skew_threshold := (fz 11, fz 30); curve := false;
           search_x_inc := of_Q 0.001; y_elevation := y_elev;
           m := m0; c := c0; r := fz 0; d := None;
           mesh_origin := arg_mesh_origin a; quad_ele := arg_quad_ele a;
           sweep_path := path; zeta := zeta0;
           start_edge_line := start_line; end_edge_line := end_line;
           sweeping_nodes := []; noz := EdgeConstructionLine.noz start_line; nox := [] |} in
      let nodes :=
        if arg_orthogonal a
        then rotate_sweep_nodes e0 (zeta0 / fz 180 * fpi)%fl
        else EdgeConstructionLine.node_list start_line in
      stations <- np_linspace (fz 0) (arg_long_dim a) (arg_num_trans_beam a) ;;
      Ok (with_sweeping_nodes e0 nodes stations)
  end.

(** The second half: one of the two meshing procedures. *)
Definition run_meshing (e : env) (self : t) : result t :=
  if orthogonal e then orthogonal_meshing e self
  else if negb (curve e) then fixed_sweep_node_meshing e self
  else Ok self.

(** [Mesh.__init__]; [globals] is what earlier constructions may have left
    in the two module globals. *)
Definition init_from (globals : option (list (coord F)) * option (list Z)) (a : args)
  : result mesh :=
  e <- make_env a ;;
  self <- run_meshing e (initial_state a globals) ;;
  grp <- identify_member_groups e self ;;
  Ok {| mesh_env := e; mesh_state := self; mesh_groups := grp |}.

(** The construction in a fresh interpreter. *)
Definition init (a : args) : result mesh := init_from (None, None) a.

(** *** What the theorems say of the mesh under construction *)

(** Every element of the mesh, in the three lists. *)
Definition all_ele (self : t) : list ele :=
  long_ele self ++ trans_ele self ++ edge_span_ele self.

(** The transform registry, started empty with the counter at [t0]: one
    entry per key, and the ids [t0 + 1, t0 + 2, ...] in the order in which
    the keys came. *)
Definition registry_ok (t0 : Z) (registry : dict string Z) (counter : Z) : Prop :=
  NoDup (keys registry)
  /\ values registry = zseq (t0 + 1) (length registry)
  /\ counter = t0 + len registry.

(** An element joins two different nodes of [node_spec], and its transform
    tag is the id filed under the key of its direction. *)
Definition ele_ok (e : env) (self : t) (el : ele) : Prop :=
  node_i el <> node_j el
  /\ exists n_i n_j,
       dict_get Z.eqb (node_i el) (node_spec self) = Some n_i
       /\ dict_get Z.eqb (node_j el) (node_spec self) = Some n_j
       /\ dict_get String.eqb (transform_key e (coordinate n_i) (coordinate n_j))
                    (transform_dict self)
          = Some (transform_tag el).

(** The invariant of both meshing procedures, for a construction that
    started with the node counter at [n0] and the transform counter at
    [t0]. *)
Record Inv (e : env) (n0 t0 : Z) (self : t) : Prop := mk_inv {
  inv_counter : n0 <= node_counter self;
  inv_keys : keys (node_spec self) = zseq n0 (Z.to_nat (node_counter self - n0));
  inv_tags : forall k nd, In (k, nd) (node_spec self) -> tag nd = k;
  inv_registry : registry_ok t0 (transform_dict self) (transform_counter self);
  inv_ele : forall el, In el (all_ele self) -> ele_ok e self el
}.

(** What the procedures that only add elements leave alone. *)
Definition frame (s s' : t) : Prop :=
  node_counter s' = node_counter s
  /\ node_spec s' = node_spec s
  /\ assigned_node_tag s' = assigned_node_tag s
  /\ previous_node_tag s' = previous_node_tag s
  /\ first_connecting_region_nodes s' = first_connecting_region_nodes s
  /\ end_connecting_region_nodes s' = end_connecting_region_nodes s
  /\ global_x_grid_count s' = global_x_grid_count s
  /\ sweep_nodes s' = sweep_nodes s
  /\ z_group_recorder s' = z_group_recorder s.

(** While a column is placed, [k] nodes in, starting at tag [c] from the
    state [s0]: the assigned tags are [c, ..., c + k - 1] and the rest of
    the bookkeeping is that of [s0]. *)
Definition col_inv (e : env) (n0 t0 c : Z) (s0 : t) (k : Z) (s : t) : Prop :=
  Inv e n0 t0 s
  /\ node_counter s = c + k
  /\ assigned_node_tag s = zseq c (Z.to_nat k)
  /\ previous_node_tag s = previous_node_tag s0
  /\ first_connecting_region_nodes s = first_connecting_region_nodes s0
  /\ end_connecting_region_nodes s = end_connecting_region_nodes s0
  /\ global_x_grid_count s = global_x_grid_count s0
  /\ sweep_nodes s = sweep_nodes s0
  /\ z_group_recorder s = z_group_recorder s0.

(** The same for a column taken from an edge line as it is, which may
    record itself as a connecting region on the way. *)
Definition edge_col_inv (e : env) (n0 t0 c : Z) (s0 : t) (k : Z) (s : t) : Prop :=
  Inv e n0 t0 s
  /\ node_counter s = c + k
  /\ assigned_node_tag s = zseq c (Z.to_nat k)
  /\ previous_node_tag s = previous_node_tag s0
  /\ Forall (fun x => x < c + k) (first_connecting_region_nodes s)
  /\ Forall (fun x => x < c + k) (end_connecting_region_nodes s).

(** Between two columns: no column is open, and the columns on record
    hold tags that have been handed out. *)
Definition cols_ok (e : env) (n0 t0 : Z) (s : t) : Prop :=
  Inv e n0 t0 s
  /\ assigned_node_tag s = []
  /\ Forall (fun x => x < node_counter s) (previous_node_tag s)
  /\ Forall (fun x => x < node_counter s) (first_connecting_region_nodes s)
  /\ Forall (fun x => x < node_counter s) (end_connecting_region_nodes s).

(** In the loop over the uniform region, [j] stations in: no column is
    open before the last station is done, and the two columns that the
    next join ties have no node in common. *)
Definition uniform_inv (e : env) (n0 t0 n_inner : Z) (j : Z) (s : t) : Prop :=
  Inv e n0 t0 s
  /\ Forall (fun x => x < node_counter s) (previous_node_tag s)
  /\ Forall (fun x => x < node_counter s) (first_connecting_region_nodes s)
  /\ Forall (fun x => x < node_counter s) (end_connecting_region_nodes s)
  /\ (j < n_inner -> assigned_node_tag s = [])
  /\ (forall p, In p (previous_node_tag s) -> ~ In p (assigned_node_tag s)).


(** The figures of a finished construction: node counter, element
    counter, the numbers of transverse, longitudinal and edge elements,
    and the keys of [node_spec]. *)
Definition counts (r : result mesh) : option (Z * Z * Z * Z * Z * list Z) :=
  match r with
  | Ok m =>
      let s := mesh_state m in
      Some (node_counter s, element_counter s, len (trans_ele s), len (long_ele s),
            len (edge_span_ele s), keys (node_spec s))
  | Raise _ => None
  end.


(** The element tags handed out so far, in a construction that started
    with the element counter at [ec0]: one tag per element, no tag twice,
    every tag from [ec0] on and below the counter. *)
Definition tags_ok (ec0 : Z) (self : t) : Prop :=
  element_counter self = ec0 + len (all_ele self)
  /\ NoDup (map ele_tag (all_ele self))
  /\ forall el, In el (all_ele self) -> ec0 <= ele_tag el < element_counter self.

(** *** The shape of a skew mesh *)

(** An element record without its two tags: the nodes it joins and its
    group. *)
Definition ele_link (el : ele) : Z * Z * Z := (node_i el, node_j el, group_index el).

(** The entry of [node_spec] that [__fixed_sweep_node_meshing] makes for
    the sweep node [ref_point] at the station [x_inc]; the call of
    [select_segment_function] there passes the slope for the intercept
    too. *)
Definition skew_node (e : env) (m0 : F) (tag x_count z_count : Z) (x_inc : F)
           (ref_point : coord F) : node :=
  let z_inc := fround (decimal_lim e)
                 (select_segment_function (curve e) (d e) m0 m0 x_inc (r e)) in
  {| tag := tag;
     coordinate := Coord (cx ref_point + x_inc)%fl (cy ref_point) (cz ref_point + z_inc)%fl;
     x_group := x_count; z_group := z_count |}.

(** The transverse links of the first [T] stations of [L] nodes each,
    numbered from [c0]: within a station, every node is joined to the next. *)
Definition skew_trans_links (c0 L T : Z) : list (Z * Z * Z) :=
  flat_map (fun i => map (fun k => (c0 + i * L + k - 1, c0 + i * L + k, i))
                         (zseq 1 (Z.to_nat (L - 1))))
           (zseq 0 (Z.to_nat T)).

(** The longitudinal links: every node is joined to the node of its row
    in the station before. *)
Definition skew_long_links (c0 L T : Z) : list (Z * Z * Z) :=
  flat_map (fun i => map (fun k => (c0 + (i - 1) * L + k, c0 + i * L + k, k))
                         (zseq 0 (Z.to_nat L)))
           (zseq 1 (Z.to_nat (T - 1))).

(** The nodes on record as edge nodes after [i] of [T] stations: those of
    the first station under the first edge number, and those of the last
    station, when it is not the first, under the next. *)
Definition skew_edge_record (c0 L T ge0 i : Z) : dict Z Z :=
  (if 1 <=? i then map (fun n => (n, ge0)) (zseq c0 (Z.to_nat L)) else [])
  ++ (if (2 <=? T) && (i =? T)
      then map (fun n => (n, ge0 + 1)) (zseq (c0 + (T - 1) * L) (Z.to_nat L)) else []).

(** While a station is placed, [k] nodes in, from the state [s0]. *)
Definition station_inv (e : env) (m0 : F) (n0 t0 x_count : Z) (x_inc : F) (s0 : t)
           (k : Z) (s : t) : Prop :=
  let c := node_counter s0 in
  Inv e n0 t0 s
  /\ node_counter s = c + k
  /\ assigned_node_tag s = zseq c (Z.to_nat k)
  /\ (forall q v, dict_get Z.eqb q (node_spec s0) = Some v ->
                  dict_get Z.eqb q (node_spec s) = Some v)
  /\ (forall k' ref, 0 <= k' < k ->
        nth_error (sweeping_nodes e) (Z.to_nat k') = Some ref ->
        dict_get Z.eqb (c + k') (node_spec s)
        = Some (skew_node e m0 (c + k') x_count k' x_inc ref))
  /\ map ele_link (trans_ele s)
     = map ele_link (trans_ele s0)
       ++ map (fun k' => (c + k' - 1, c + k', x_count)) (zseq 1 (Z.to_nat (k - 1)))
  /\ element_counter s = element_counter s0 + Z.max 0 (k - 1)
  /\ long_ele s = long_ele s0
  /\ edge_span_ele s = edge_span_ele s0
  /\ previous_node_tag s = previous_node_tag s0
  /\ global_x_grid_count s = global_x_grid_count s0
  /\ global_edge_count s = global_edge_count s0
  /\ edge_node_recorder s = edge_node_recorder s0.

(** While two columns are joined, [k] rows in, from the state [s0]: the
    previous column starts at the tag [cp], the current one at [c]. *)
Definition join_inv (e : env) (n0 t0 cp c : Z) (s0 : t) (k : Z) (s : t) : Prop :=
  Inv e n0 t0 s
  /\ node_counter s = node_counter s0
  /\ node_spec s = node_spec s0
  /\ assigned_node_tag s = assigned_node_tag s0
  /\ previous_node_tag s = previous_node_tag s0
  /\ map ele_link (long_ele s)
     = map ele_link (long_ele s0)
       ++ map (fun k' => (cp + k', c + k', k')) (zseq 0 (Z.to_nat k))
  /\ element_counter s = element_counter s0 + k
  /\ trans_ele s = trans_ele s0
  /\ edge_span_ele s = edge_span_ele s0
  /\ global_x_grid_count s = global_x_grid_count s0
  /\ global_edge_count s = global_edge_count s0
  /\ edge_node_recorder s = edge_node_recorder s0.

(** Between two stations of a skew mesh, [i] stations in, from the state
    [s0]. *)
Definition skew_inv (e : env) (m0 : F) (n0 t0 : Z) (s0 : t) (i : Z) (s : t) : Prop :=
  let L := len (sweeping_nodes e) in
  let T := len (nox e) in
  let c0 := node_counter s0 in
  Inv e n0 t0 s
  /\ node_counter s = c0 + i * L
  /\ assigned_node_tag s = []
  /\ (1 <= i -> previous_node_tag s = zseq (c0 + (i - 1) * L) (Z.to_nat L))
  /\ (forall q v, dict_get Z.eqb q (node_spec s0) = Some v ->
                  dict_get Z.eqb q (node_spec s) = Some v)
  /\ (forall i' k' x ref, 0 <= i' < i -> 0 <= k' ->
        nth_error (nox e) (Z.to_nat i') = Some x ->
        nth_error (sweeping_nodes e) (Z.to_nat k') = Some ref ->
        dict_get Z.eqb (c0 + i' * L + k') (node_spec s)
        = Some (skew_node e m0 (c0 + i' * L + k') i' k' x ref))
  /\ map ele_link (trans_ele s) = map ele_link (trans_ele s0) ++ skew_trans_links c0 L i
  /\ map ele_link (long_ele s) = map ele_link (long_ele s0) ++ skew_long_links c0 L i
  /\ edge_span_ele s = edge_span_ele s0
  /\ element_counter s = element_counter s0 + i * (L - 1) + Z.max 0 (i - 1) * L
  /\ global_x_grid_count s = global_x_grid_count s0
  /\ global_edge_count s
     = global_edge_count s0 + (if 1 <=? i then 1 else 0)
       + (if (2 <=? T) && (i =? T) then 1 else 0)
  /\ edge_node_recorder s = skew_edge_record c0 L T (global_edge_count s0) i.
(** *** The dictionaries of the grouping *)

(** A connect dictionary files under a node tag a list of nodes of the
    mesh, none of them that node itself. *)
Definition connect_ok (self : t) (d : dict Z (list Z)) : Prop :=
  forall k l n, In (k, l) d -> In n l -> In n (keys (node_spec self)) /\ n <> k.

(** A grid cell as the numbering makes it and as the vicinity loop leaves
    it: the node, its neighbour along x, the third bounding node or the
    empty list in its place or nothing, and the neighbour along z. *)
Definition cell_ok (self : t) (cell : list grid_entry) : Prop :=
  exists a b d,
    a <> b
    /\ In a (keys (node_spec self)) /\ In b (keys (node_spec self))
    /\ In d (keys (node_spec self))
    /\ (cell = [GNode a; GNode b; GNode d]
        \/ cell = [GNode a; GNode b; GEmpty; GNode d]
        \/ exists c, In c (keys (node_spec self))
                     /\ cell = [GNode a; GNode b; GNode c; GNode d]).

(** The entries of a sub-dictionary of grid [k] are numbers of other
    grids, out of [n]. *)
Definition vicinity_ok (n k : Z) (v : vicinity) : Prop :=
  forall x, top v = Some x \/ bottom v = Some x \/ left v = Some x \/ right v = Some x ->
            0 <= x < n /\ x <> k.

(** The grid dictionary while it is numbered: the grids 0, 1, ... so far,
    each a cell of nodes of the mesh. *)
Definition numbered (self : t) (acc : dict Z (list grid_entry) * Z) : Prop :=
  0 <= snd acc
  /\ keys (fst acc) = zseq 0 (Z.to_nat (snd acc))
  /\ forall cell, In cell (values (fst acc)) -> cell_ok self cell.

(** The two dictionaries of the vicinity loop over [n] grids before its
    pass [i]: the cells of the grids before [i] have lost their empty list,
    and each of these grids has its sub-dictionary. *)
Definition vicinity_inv (self : t) (n : nat) (i : Z)
           (acc : dict Z (list grid_entry) * dict Z vicinity) : Prop :=
  keys (fst acc) = zseq 0 n
  /\ (forall cell, In cell (values (fst acc)) -> cell_ok self cell)
  /\ (forall k cell, k < i -> dict_get Z.eqb k (fst acc) = Some cell ->
                     existsb is_GEmpty cell = false)
  /\ keys (snd acc) = zseq 0 (Z.to_nat i)
  /\ (forall k v, In (k, v) (snd acc) -> vicinity_ok (Z.of_nat n) k v).

(** *** Rows and columns of the elements *)

(** No key of [node_spec] has reached the node counter. *)
Definition fresh_keys (self : t) : Prop :=
  forall k, In k (keys (node_spec self)) -> k < node_counter self.

(** The two nodes of an element are of the row, or of the column, that
    the element carries as its group. *)
Definition in_row (self : t) (el : ele) : Prop :=
  exists n_i n_j,
    dict_get Z.eqb (node_i el) (node_spec self) = Some n_i
    /\ dict_get Z.eqb (node_j el) (node_spec self) = Some n_j
    /\ z_group n_i = group_index el /\ z_group n_j = group_index el.

Definition in_column (self : t) (el : ele) : Prop :=
  exists n_i n_j,
    dict_get Z.eqb (node_i el) (node_spec self) = Some n_i
    /\ dict_get Z.eqb (node_j el) (node_spec self) = Some n_j
    /\ x_group n_i = group_index el /\ x_group n_j = group_index el.

Definition grouped (self : t) : Prop :=
  fresh_keys self
  /\ (forall el, In el (long_ele self) -> in_row self el)
  /\ (forall el, In el (trans_ele self) -> in_column self el).

(** The nodes assigned so far in the open column are of the column [xg]. *)
Definition column_of (xg : Z) (self : t) : Prop :=
  forall n, In n (assigned_node_tag self) ->
            exists nd, dict_get Z.eqb n (node_spec self) = Some nd /\ x_group nd = xg.

(** What the procedures that place no node leave alone. *)
Definition nodes_same (s s' : t) : Prop :=
  node_counter s' = node_counter s
  /\ node_spec s' = node_spec s
  /\ assigned_node_tag s' = assigned_node_tag s
  /\ global_x_grid_count s' = global_x_grid_count s.

(** Every node is of a column from [gx0] on and below [bound]. *)
Definition x_below (gx0 bound : Z) (self : t) : Prop :=
  forall k nd, In (k, nd) (node_spec self) -> gx0 <= x_group nd < bound.

(** Between two columns of an orthogonal mesh whose column count started
    at [gx0], and within a column. *)
Definition columns_closed (gx0 : Z) (self : t) : Prop :=
  grouped self
  /\ assigned_node_tag self = []
  /\ gx0 <= global_x_grid_count self
  /\ x_below gx0 (global_x_grid_count self) self.

Definition column_open (gx0 gx : Z) (self : t) : Prop :=
  grouped self
  /\ column_of gx self
  /\ global_x_grid_count self = gx
  /\ gx0 <= gx
  /\ x_below gx0 (gx + 1) self.

(** *** The shape of an orthogonal mesh below the skew thresholds *)

(** The entry of [node_spec] that [__orthogonal_meshing] makes for the
    point [p] of a column moved by [dx] and [dz]. *)
Definition ortho_node (tag xg zg : Z) (dx dz : F) (p : coord F) : node :=
  {| tag := tag; coordinate := Coord (cx p + dx)%fl (cy p) (cz p + dz)%fl;
     x_group := xg; z_group := zg |}.

(** The links of the first [k] nodes of a column numbered from [c], each
    to the node before it, under the group [g]; and the links between two
    columns of [n] nodes numbered from [cp] and from [c], row by row. *)
Definition column_links (c k g : Z) : list (Z * Z * Z) :=
  map (fun j => (c + j - 1, c + j, g)) (zseq 1 (Z.to_nat (k - 1))).

Definition row_links (cp c n : Z) : list (Z * Z * Z) :=
  map (fun j => (cp + j, c + j, j)) (zseq 0 (Z.to_nat n)).

(** While a column is placed, [k] nodes in, from the state [s0]: the
    nodes and what every kind of column leaves alone. *)
Definition col_nodes (e : env) (n0 t0 : Z) (column : list (coord F)) (dx dz : F) (s0 : t)
           (k : Z) (s : t) : Prop :=
  Inv e n0 t0 s
  /\ node_counter s = node_counter s0 + k
  /\ assigned_node_tag s = zseq (node_counter s0) (Z.to_nat k)
  /\ (forall q v, dict_get Z.eqb q (node_spec s0) = Some v ->
                  dict_get Z.eqb q (node_spec s) = Some v)
  /\ (forall j p, 0 <= j < k -> nth_error column (Z.to_nat j) = Some p ->
        dict_get Z.eqb (node_counter s0 + j) (node_spec s)
        = Some (ortho_node (node_counter s0 + j) (global_x_grid_count s0) j dx dz p))
  /\ long_ele s = long_ele s0
  /\ previous_node_tag s = previous_node_tag s0
  /\ global_x_grid_count s = global_x_grid_count s0
  /\ global_edge_count s = global_edge_count s0
  /\ element_counter s = element_counter s0 + Z.max 0 (k - 1).

(** The rest for a column taken from an edge line as it is, and for a
    column of the uniform region. *)
Definition edge_col (e : env) (at_start : bool) (s0 : t) (k : Z) (s : t) : Prop :=
  let c := node_counter s0 in
  map ele_link (edge_span_ele s)
  = map ele_link (edge_span_ele s0) ++ column_links c k (global_edge_count s0)
  /\ trans_ele s = trans_ele s0
  /\ edge_node_recorder s
     = edge_node_recorder s0
       ++ (if 2 <=? k then map (fun n => (n, global_edge_count s0)) (zseq c (Z.to_nat k))
           else [])
  /\ first_connecting_region_nodes s
     = (if at_start && (k =? len (noz e)) then zseq c (Z.to_nat k)
        else first_connecting_region_nodes s0)
  /\ end_connecting_region_nodes s
     = (if negb at_start && (k =? len (noz e)) then zseq c (Z.to_nat k)
        else end_connecting_region_nodes s0).

Definition inner_col (s0 : t) (k : Z) (s : t) : Prop :=
  map ele_link (trans_ele s)
  = map ele_link (trans_ele s0) ++ column_links (node_counter s0) k (global_x_grid_count s0)
  /\ edge_span_ele s = edge_span_ele s0
  /\ edge_node_recorder s = edge_node_recorder s0
  /\ first_connecting_region_nodes s = first_connecting_region_nodes s0
  /\ end_connecting_region_nodes s = end_connecting_region_nodes s0.

(** After the two edge regions of a mesh below both thresholds, from the
    state [s0]: a column per edge line, under one edge number. *)
Definition edges_done (e : env) (n0 t0 : Z) (s0 s : t) : Prop :=
  let c0 := node_counter s0 in
  let L := len (noz e) in
  Inv e n0 t0 s
  /\ node_counter s = c0 + 2 * L
  /\ assigned_node_tag s = []
  /\ previous_node_tag s = []
  /\ (forall q v, dict_get Z.eqb q (node_spec s0) = Some v ->
                  dict_get Z.eqb q (node_spec s) = Some v)
  /\ (forall j p, 0 <= j < L ->
        nth_error (EdgeConstructionLine.node_list (start_edge_line e)) (Z.to_nat j) = Some p ->
        dict_get Z.eqb (c0 + j) (node_spec s)
        = Some (ortho_node (c0 + j) (global_x_grid_count s0) j
                  (cx (mesh_origin e)) (cz (mesh_origin e)) p))
  /\ (forall j p, 0 <= j < L ->
        nth_error (EdgeConstructionLine.node_list (end_edge_line e)) (Z.to_nat j) = Some p ->
        dict_get Z.eqb (c0 + L + j) (node_spec s)
        = Some (ortho_node (c0 + L + j) (global_x_grid_count s0 + 1) j (fz 0) (fz 0) p))
  /\ map ele_link (edge_span_ele s)
     = map ele_link (edge_span_ele s0)
       ++ column_links c0 L (global_edge_count s0)
       ++ column_links (c0 + L) L (global_edge_count s0)
  /\ trans_ele s = trans_ele s0
  /\ long_ele s = long_ele s0
  /\ element_counter s = element_counter s0 + 2 * (L - 1)
  /\ edge_node_recorder s
     = edge_node_recorder s0
       ++ map (fun n => (n, global_edge_count s0)) (zseq c0 (Z.to_nat (2 * L)))
  /\ first_connecting_region_nodes s = zseq c0 (Z.to_nat L)
  /\ end_connecting_region_nodes s = zseq (c0 + L) (Z.to_nat L)
  /\ global_x_grid_count s = global_x_grid_count s0 + 2
  /\ global_edge_count s = global_edge_count s0.

(** In the uniform region, [i] columns in, from the state [sE] in which
    the first connecting region starts at the tag [cF]; [elev] is the
    elevation of the sweep path and [inner] the abscissas of the
    columns. *)
Definition inner_inv (e : env) (n0 t0 : Z) (elev : F -> F) (inner : list F) (cF : Z)
           (sE : t) (i : Z) (s : t) : Prop :=
  let cU := node_counter sE in
  let L := len (noz e) in
  let gxU := global_x_grid_count sE in
  let column := rotate_sweep_nodes e (zeta e / fz 180 * fpi)%fl in
  Inv e n0 t0 s
  /\ node_counter s = cU + i * L
  /\ (forall q v, dict_get Z.eqb q (node_spec sE) = Some v ->
                  dict_get Z.eqb q (node_spec s) = Some v)
  /\ (forall i' j x p, 0 <= i' < i -> 0 <= j < L ->
        nth_error inner (Z.to_nat i') = Some x ->
        nth_error column (Z.to_nat j) = Some p ->
        dict_get Z.eqb (cU + i' * L + j) (node_spec s)
        = Some (ortho_node (cU + i' * L + j) (gxU + i') j x (elev x) p))
  /\ map ele_link (trans_ele s)
     = map ele_link (trans_ele sE)
       ++ flat_map (fun i' => column_links (cU + i' * L) L (gxU + i')) (zseq 0 (Z.to_nat i))
  /\ map ele_link (long_ele s)
     = map ele_link (long_ele sE)
       ++ (if 1 <=? i
           then row_links cF cU L
                ++ flat_map (fun i' => row_links (cU + (i' - 1) * L) (cU + i' * L) L)
                            (zseq 1 (Z.to_nat (i - 1)))
           else [])
  /\ element_counter s = element_counter sE + i * (L - 1) + i * L
  /\ edge_span_ele s = edge_span_ele sE
  /\ edge_node_recorder s = edge_node_recorder sE
  /\ first_connecting_region_nodes s = first_connecting_region_nodes sE
  /\ end_connecting_region_nodes s = end_connecting_region_nodes sE
  /\ global_x_grid_count s = gxU + i
  /\ global_edge_count s = global_edge_count sE
  /\ previous_node_tag s
     = (if 1 <=? i then zseq (cU + (i - 1) * L) (Z.to_nat L) else previous_node_tag sE)
  /\ assigned_node_tag s
     = (if (1 <=? i) && (i =? len inner) then end_connecting_region_nodes sE else []).


(** A finished orthogonal mesh below both thresholds, from the state
    [s0]: the column of each edge line, then one column for each of the
    abscissas [inner], the last of them tied to the column of the second
    edge line. *)
Definition ortho_done (e : env) (n0 t0 : Z) (elev : F -> F) (inner : list F) (s0 s : t)
  : Prop :=
  let c0 := node_counter s0 in
  let L := len (noz e) in
  let K := len inner in
  let cU := c0 + 2 * L in
  let gx0 := global_x_grid_count s0 in
  let ge0 := global_edge_count s0 in
  let column := rotate_sweep_nodes e (zeta e / fz 180 * fpi)%fl in
  Inv e n0 t0 s
  /\ node_counter s = c0 + (K + 2) * L
  /\ (forall q v, dict_get Z.eqb q (node_spec s0) = Some v ->
                  dict_get Z.eqb q (node_spec s) = Some v)
  /\ (forall j p, 0 <= j < L ->
        nth_error (EdgeConstructionLine.node_list (start_edge_line e)) (Z.to_nat j) = Some p ->
        dict_get Z.eqb (c0 + j) (node_spec s)
        = Some (ortho_node (c0 + j) gx0 j (cx (mesh_origin e)) (cz (mesh_origin e)) p))
  /\ (forall j p, 0 <= j < L ->
        nth_error (EdgeConstructionLine.node_list (end_edge_line e)) (Z.to_nat j) = Some p ->
        dict_get Z.eqb (c0 + L + j) (node_spec s)
        = Some (ortho_node (c0 + L + j) (gx0 + 1) j (fz 0) (fz 0) p))
  /\ (forall i j x p, 0 <= i < K -> 0 <= j < L ->
        nth_error inner (Z.to_nat i) = Some x ->
        nth_error column (Z.to_nat j) = Some p ->
        dict_get Z.eqb (cU + i * L + j) (node_spec s)
        = Some (ortho_node (cU + i * L + j) (gx0 + 2 + i) j x (elev x) p))
  /\ map ele_link (edge_span_ele s)
     = map ele_link (edge_span_ele s0)
       ++ column_links c0 L ge0 ++ column_links (c0 + L) L ge0
  /\ map ele_link (trans_ele s)
     = map ele_link (trans_ele s0)
       ++ flat_map (fun i => column_links (cU + i * L) L (gx0 + 2 + i)) (zseq 0 (Z.to_nat K))
  /\ map ele_link (long_ele s)
     = map ele_link (long_ele s0)
       ++ (if 1 <=? K
           then row_links c0 cU L
                ++ flat_map (fun i => row_links (cU + (i - 1) * L) (cU + i * L) L)
                            (zseq 1 (Z.to_nat (K - 1)))
                ++ row_links (cU + (K - 1) * L) (c0 + L) L
           else [])
  /\ element_counter s
     = element_counter s0 + 2 * (L - 1) + K * (L - 1) + (if 1 <=? K then (K + 1) * L else 0)
  /\ edge_node_recorder s
     = edge_node_recorder s0 ++ map (fun n => (n, ge0)) (zseq c0 (Z.to_nat (2 * L)))
  /\ global_x_grid_count s = gx0 + 2 + K
  /\ global_edge_count s = ge0.

(** Both edge lines are within the first skew threshold of the sweep
    path, so that [__orthogonal_meshing] takes their nodes as they are. *)
Definition below_thresholds (e : env) : bool :=
  fltb (fabs (skew_1 e + zeta e)%fl) (fst (skew_threshold e))
  && fltb (fabs (skew_2 e + zeta e)%fl) (fst (skew_threshold e)).

(** The ['right'] and ['left'] entries of grid cell [k]. *)
Definition right_of (g : groups) (k : Z) : option Z :=
  match dict_get Z.eqb k (grid_vicinity_dict g) with
  | Some sub => right sub
  | None => None
  end.
Definition left_of (g : groups) (k : Z) : option Z :=
  match dict_get Z.eqb k (grid_vicinity_dict g) with
  | Some sub => left sub
  | None => None
  end.

End Defs.
Arguments args F : clear implicits.
Arguments env F : clear implicits.
Arguments t F : clear implicits.
Arguments node F : clear implicits.
Arguments mesh F : clear implicits.
Arguments groups F : clear implicits.
Arguments search_state F : clear implicits.
End Mesh.

(* ------------------------------------------------------------------ *)
(** ** Exact rationals as numbers                                      *)
(* ------------------------------------------------------------------ *)

(** The instance used to run scenarios.  Sums, products, quotients,
    comparisons and rounding are exact.  The square root is exact on
    squares of rationals, the trigonometric functions are exact at 0 and
    are low-order approximations elsewhere, and a quotient by zero is 0,
    where numpy has [inf] or [nan]. *)
Module QFloat.
Local Open Scope Q_scope.

Definition q_rint (x : Q) : Z :=
  let f := Qfloor x in
  match Qcompare (x - inject_Z f) (1 # 2) with
  | Lt => f
  | Gt => (f + 1)%Z
  | Eq => if Z.even f then f else (f + 1)%Z
  end.

Definition q_round (decimals : nat) (x : Q) : Q :=
  let scale := inject_Z (10 ^ Z.of_nat decimals) in
  Qred (inject_Z (q_rint (x * scale)) / scale).

Definition q_sqrt (x : Q) : Q :=
  Qred (Qmake (Z.sqrt (Qnum x * Zpos (Qden x))) (Qden x)).

Definition q_sin (x : Q) : Q := Qred (x - x * x * x / 6).
Definition q_cos (x : Q) : Q := Qred (1 - x * x / 2).
Definition q_tan (x : Q) : Q := Qred (q_sin x / q_cos x).
Definition q_arctan (x : Q) : Q := Qred (x - x * x * x / 3).

Definition q_repr (x : Q) : string :=
  let r := Qred x in
  (NilZero.string_of_int (Z.to_int (Qnum r)) ++ "/" ++
   NilZero.string_of_uint (Pos.to_uint (Qden r)))%string.

(** The line through two points; for two points on one vertical, the
    least-squares solution of least norm. *)
Definition q_lstsq (points : list (Q * Q)) : Q * Q :=
  match points with
  | [(x1, y1); (x2, y2)] =>
      if Qeq_bool x1 x2 then
        let mean := (y1 + y2) / 2 in
        (Qred (mean * x1 / (x1 * x1 + 1)), Qred (mean / (x1 * x1 + 1)))
      else
        let slope := (y2 - y1) / (x2 - x1) in
        (Qred slope, Qred (y1 - slope * x1))
  | _ => (0, 0)
  end.

#[export] Instance ops : FloatOps Q := {|
  of_Q := Qred;
  fadd := fun x y => Qred (x + y);
  fsub := fun x y => Qred (x - y);
  fmul := fun x y => Qred (x * y);
  fdiv := fun x y => Qred (x / y);
  fneg := fun x => Qred (- x);
  fabs := fun x => Qred (Qabs x);
  fsqrt := q_sqrt;
  ftan := q_tan;
  fsin := q_sin;
  fcos := q_cos;
  farctan := q_arctan;
  fpi := 355 # 113;
  fround := q_round;
  feqb := Qeq_bool;
  fltb := fun x y => negb (Qle_bool y x);
  fleb := Qle_bool;
  frepr := q_repr;
  flstsq := q_lstsq
|}.

(** The helpers of [static] on rationals: slope and angle of a segment,
    the distance between two points in the plane of the deck, and the
    intercept of a line. *)
#[export] Instance static : Static Q := {|
  get_slope := fun p q =>
    let slope := Qred ((cz q - cz p) / (cx q - cx p)) in (slope, q_arctan slope);
  find_min_x_dist := fun p q =>
    q_sqrt ((cx p - cx q) * (cx p - cx q) + (cz p - cz q) * (cz p - cz q));
  get_y_intcp := fun m x z => Qred (z - m * x);
  arc_segment := fun _ _ _ => 0
|}.

End QFloat.

(* ------------------------------------------------------------------ *)
(** ** Scenarios                                                       *)
(* ------------------------------------------------------------------ *)

(** Concrete inputs, on rationals, at which the theorems below are run. *)
Module Scenario.
Import QFloat.
Local Open Scope Q_scope.

Definition origin : Point Q := mkPoint 0 0 0.

(** [SweepPath(Point(0,0,0), Point(1,0,1), Point(2,0,2))]: the three
    points (0,0), (1,1), (2,2) lie on one line. *)
Definition collinear_path : SweepPath.t Q :=
  SweepPath.init origin (mkPoint 1 0 1) (Some (mkPoint 2 0 2)).

(** [SweepPath(Point(0,0,0), Point(1,0,1), Point(2,0,0))]: a valid arc. *)
Definition arc_path : SweepPath.t Q :=
  SweepPath.init origin (mkPoint 1 0 1) (Some (mkPoint 2 0 0)).

(** The arc path after [get_sweep_line_properties]. *)
Definition arc_path_ready : SweepPath.t Q :=
  match SweepPath.get_sweep_line_properties arc_path with
  | Ok (sp, _) => sp
  | Raise _ => arc_path
  end.

(** [Mesh(10, 7, 7, 1, 5, 7, 0, 0, pt2=Point(1,0,1), pt3=Point(2,0,2))]. *)
Definition collinear_mesh_args : Mesh.args Q :=
  {| Mesh.arg_long_dim := 10; Mesh.arg_width := 7; Mesh.arg_trans_dim := 7;
     Mesh.arg_edge_width := 1; Mesh.arg_num_trans_beam := 5%Z;
     Mesh.arg_num_long_beam := 7%Z; Mesh.arg_skew_1 := 0; Mesh.arg_skew_2 := 0;
     Mesh.arg_orthogonal := false;
     Mesh.arg_pt1 := origin; Mesh.arg_pt2 := mkPoint 1 0 1;
     Mesh.arg_pt3 := Some (mkPoint 2 0 2);
     Mesh.arg_element_counter := 1%Z; Mesh.arg_node_counter := 1%Z;
     Mesh.arg_transform_counter := 0%Z;
     Mesh.arg_global_x_grid_count := 0%Z; Mesh.arg_global_edge_count := 0%Z;
     Mesh.arg_mesh_origin := Coord 0 0 0; Mesh.arg_quad_ele := false |}.

(** [EdgeConstructionLine([0,0,0], 7, 1, 0, 4, 0)], whose nodes are
    (0,0,0), (0,0,1), (0,0,6), (0,0,7). *)
Definition edge_line : EdgeConstructionLine.t Q :=
  match EdgeConstructionLine.init (Coord 0 0 0) 7 1 0 4%Z 0 with
  | Ok line => line
  | Raise _ =>
      EdgeConstructionLine.mk (Coord 0 0 0) 7 1 4%Z 0 [] [] [] None None
  end.

(** [Mesh(10, 7, 7, 1, 5, 7, 0, 0)], the skew mesh of the scenario of the
    specification, and its orthogonal counterpart. *)
Definition skew_mesh_args : Mesh.args Q :=
  Mesh.default_args 10 7 7 1 5%Z 7%Z 0 0 false.
Definition orthogonal_mesh_args : Mesh.args Q :=
  Mesh.default_args 10 7 7 1 5%Z 7%Z 0 0 true.

(** [Mesh(10, 7, 7, 1, 5, 2, 0, 0, orthogonal=True, mesh_origin=[3, 0, 0])]. *)
Definition shifted_mesh_args : Mesh.args Q :=
  {| Mesh.arg_long_dim := 10; Mesh.arg_width := 7; Mesh.arg_trans_dim := 7;
     Mesh.arg_edge_width := 1; Mesh.arg_num_trans_beam := 5%Z;
     Mesh.arg_num_long_beam := 2%Z; Mesh.arg_skew_1 := 0; Mesh.arg_skew_2 := 0;
     Mesh.arg_orthogonal := true;
     Mesh.arg_pt1 := origin; Mesh.arg_pt2 := origin; Mesh.arg_pt3 := None;
     Mesh.arg_element_counter := 1%Z; Mesh.arg_node_counter := 1%Z;
     Mesh.arg_transform_counter := 0%Z;
     Mesh.arg_global_x_grid_count := 0%Z; Mesh.arg_global_edge_count := 0%Z;
     Mesh.arg_mesh_origin := Coord 3 0 0; Mesh.arg_quad_ele := false |}.

End Scenario.

(* ================================================================== *)
(** * Theorems                                                         *)
(* ================================================================== *)

(** ** The error monad *)

Lemma bind_ok : forall (A B : Type) (c : result A) (k : A -> result B) (b : B),
  bind c k = Ok b -> exists a, c = Ok a /\ k a = Ok b.
Proof.
  intros A B c k b Hb. destruct c as [a|ex]; simpl in Hb.
  - exists a. split; [reflexivity | exact Hb].
  - discriminate.
Qed.

(** Inverts hypotheses of the form [x <- c ;; k = Ok b]. *)
Ltac bind_inv H :=
  let a := fresh "r" in
  let Ha := fresh "Hr" in
  apply bind_ok in H; destruct H as [a [Ha H]].

(** An invariant of the loop state passes through a [for] loop whose body
    keeps it. *)
Lemma foldM_invariant : forall (A S : Type) (P : S -> Prop) (f : S -> A -> result S) (l : list A),
  (forall s a s', In a l -> P s -> f s a = Ok s' -> P s') ->
  forall s s', P s -> foldM f l s = Ok s' -> P s'.
Proof.
  intros A S P f l. induction l as [|a t IH]; intros Hstep s s' Hs Hrun; simpl in Hrun.
  - inversion Hrun; subst; exact Hs.
  - bind_inv Hrun. apply (IH (fun s0 a0 s1 Hin => Hstep s0 a0 s1 (or_intror Hin)) r s').
    + apply (Hstep s a r); [left; reflexivity | exact Hs | exact Hr].
    + exact Hrun.
Qed.

(** ** SweepPath *)

Section SweepPathFacts.
Context {F : Type} `{FloatOps F} `{Static F}.

(** Collinear control points: the circle fit raises, the handler builds the
    exception and hands it back as the value of the call. *)
Lemma collinear_arc_returns_exception : forall (p1 p2 p3 : Point F),
  feqb (circle_det (fz 0) (fz 0) (px p2) (pz p2) (px p3) (pz p3)) (fz 0) = true ->
  SweepPath.get_sweep_line_properties (SweepPath.init p1 p2 (Some p3))
  = Ok (SweepPath.init p1 p2 (Some p3), SweepPath.RetException SweepPath.invalid_arc_msg).
Proof.
  intros p1 p2 p3 Hdet. unfold SweepPath.get_sweep_line_properties, findCircle. simpl.
  rewrite Hdet. reflexivity.
Qed.

(** A straight path answers the elevation query with the line through the
    stored slope and intercept. *)
Lemma straight_path_elevation : forall (p1 p2 : Point F) (x : F),
  exists sp m0,
    SweepPath.get_sweep_line_properties (SweepPath.init p1 p2 None)
    = Ok (sp, SweepPath.RetTuple (farctan (fst (flstsq [(px p1, pz p1); (px p2, pz p2)]))
                                    / fpi * fz 180)%fl (Some m0) (fz 0))
    /\ SweepPath.get_line_function sp x = Ok (Some (line_func m0 (fz 0) x)).
Proof.
  intros p1 p2 x. eexists. eexists. split.
  - unfold SweepPath.get_sweep_line_properties. simpl. reflexivity.
  - reflexivity.
Qed.

(** C9, as the code has it: on a valid arc (three control points that are
    not collinear) the sweep-line properties are obtained, and afterwards
    [get_line_function] raises nothing and returns [None], no elevation,
    at every position [x]. *)
Theorem arc_line_function_returns_none : forall (p1 p2 p3 : Point F),
  feqb (circle_det (fz 0) (fz 0) (px p2) (pz p2) (px p3) (pz p3)) (fz 0) = false ->
  exists sp,
    SweepPath.get_sweep_line_properties (SweepPath.init p1 p2 (Some p3))
    = Ok (sp, SweepPath.RetTuple (fz 0) None (fz 0))
    /\ SweepPath.curve_path sp = true
    /\ forall x : F, SweepPath.get_line_function sp x = Ok None.
Proof.
  intros p1 p2 p3 Hdet. unfold SweepPath.get_sweep_line_properties, findCircle. simpl.
  rewrite Hdet. eexists. split; [reflexivity|]. split; [reflexivity|].
  intro x. reflexivity.
Qed.

End SweepPathFacts.

(** ** EdgeConstructionLine *)

Section EdgeLineFacts.
Context {F : Type} `{FloatOps F} `{Static F}.

Lemma list_index_some : forall (c : coord F) (l : list (coord F)) (i : Z),
  EdgeConstructionLine.list_index c l = Some i ->
  0 <= i < len l
  /\ (exists a, nth_error l (Z.to_nat i) = Some a /\ coord_eqb a c = true)
  /\ (forall j a, (j < Z.to_nat i)%nat -> nth_error l j = Some a -> coord_eqb a c = false).
Proof.
  intros c l. induction l as [|a t IH]; intros i Hi; simpl in Hi; [discriminate|].
  destruct (coord_eqb a c) eqn:Ha.
  - inversion Hi; subst. unfold len; simpl length. split; [lia|]. split.
    + exists a. split; [reflexivity | exact Ha].
    + intros j b Hj. simpl in Hj. lia.
  - destruct (EdgeConstructionLine.list_index c t) as [k|] eqn:Hk; [|discriminate].
    inversion Hi; subst. destruct (IH k eq_refl) as [Hrange [[b [Hb Hbc]] Hbefore]].
    unfold len in *; simpl length. split; [lia|]. split.
    + exists b. split; [|exact Hbc].
      replace (Z.to_nat (k + 1)) with (S (Z.to_nat k)) by lia. exact Hb.
    + intros j b' Hj Hnth. destruct j as [|j]; simpl in Hnth.
      * inversion Hnth; subst; exact Ha.
      * apply (Hbefore j b'); [lia | exact Hnth].
Qed.

Lemma list_index_none : forall (c : coord F) (l : list (coord F)),
  EdgeConstructionLine.list_index c l = None ->
  forall a, In a l -> coord_eqb a c = false.
Proof.
  intros c l. induction l as [|b t IH]; intros Hnone a Hin; simpl in *; [contradiction|].
  destruct (coord_eqb b c) eqn:Hb; [discriminate|].
  destruct (EdgeConstructionLine.list_index c t) eqn:Ht; [discriminate|].
  destruct Hin as [Heq|Hin]; [subst; exact Hb | apply IH; [reflexivity | exact Hin]].
Qed.

(** C8, as the code has it: [get_node_group_z] returns the position of the
    first entry of [node_list] equal to the coordinate; when no entry is
    equal it raises the [ValueError] of the built-in [list.index]. *)
Theorem get_node_group_z_spec : forall (line : EdgeConstructionLine.t F) (c : coord F),
  match EdgeConstructionLine.get_node_group_z line c with
  | Ok i =>
      0 <= i < len (EdgeConstructionLine.node_list line)
      /\ (exists a, nth_error (EdgeConstructionLine.node_list line) (Z.to_nat i) = Some a
                    /\ coord_eqb a c = true)
      /\ (forall j a, (j < Z.to_nat i)%nat ->
                      nth_error (EdgeConstructionLine.node_list line) j = Some a ->
                      coord_eqb a c = false)
  | Raise ex =>
      ex = ValueError
      /\ (forall a, In a (EdgeConstructionLine.node_list line) -> coord_eqb a c = false)
  end.
Proof.
  intros line c. unfold EdgeConstructionLine.get_node_group_z.
  destruct (EdgeConstructionLine.list_index c (EdgeConstructionLine.node_list line)) as [i|] eqn:Hi.
  - apply list_index_some. exact Hi.
  - split; [reflexivity | apply list_index_none; exact Hi].
Qed.

(** Both branches of [if self.edge_angle <= 0] build the same list. *)
Lemma edge_line_init_eq : forall (ref : coord F) (w ew angle : F) (n : Z) (y : F),
  EdgeConstructionLine.init ref w ew angle n y =
  if n - 2 <? 0 then Raise ValueError
  else
    let noz := (fz 0 :: linspace ew (w - ew)%fl (Z.to_nat (n - 2))) ++ [w] in
    let slope := if negb (feqb angle (fz 0))
                 then Some (- fz 1 / ftan (angle / fz 180 * fpi))%fl else None in
    Ok {| EdgeConstructionLine.edge_ref_point := ref;
          EdgeConstructionLine.width_z := w;
          EdgeConstructionLine.edge_width_z := ew;
          EdgeConstructionLine.num_long_beam := n;
          EdgeConstructionLine.edge_angle := angle;
          EdgeConstructionLine.noz := noz;
          EdgeConstructionLine.node_list := EdgeConstructionLine.edge_nodes ref angle y noz;
          EdgeConstructionLine.z_group := py_range 0 (len noz);
          EdgeConstructionLine.slope := slope;
          EdgeConstructionLine.c :=
            match slope with
            | Some s => Some (get_y_intcp s (cx ref) (cz ref))
            | None => None
            end |}.
Proof.
  intros. unfold EdgeConstructionLine.init.
  destruct (n - 2 <? 0); [reflexivity|]. cbv zeta.
  destruct (fleb angle (fz 0)); reflexivity.
Qed.

End EdgeLineFacts.

(** ** The scenarios of SweepPath and EdgeConstructionLine *)

Section PathScenarios.
Import QFloat.
Local Open Scope Q_scope.

(** C4 at (0,0), (1,1), (2,2): [get_sweep_line_properties] raises nothing;
    it returns the exception object, the path keeps no circle, and the
    construction of a [Mesh] on these points then fails on the unpacking
    with a [TypeError]. *)
Theorem collinear_arc_is_returned_not_raised :
  SweepPath.get_sweep_line_properties Scenario.collinear_path
  = Ok (Scenario.collinear_path, SweepPath.RetException SweepPath.invalid_arc_msg)
  /\ SweepPath.d Scenario.collinear_path = None
  /\ Mesh.init Scenario.collinear_mesh_args = Raise TypeError.
Proof.
  split; [|split].
  - apply collinear_arc_returns_exception. reflexivity.
  - reflexivity.
  - vm_compute. reflexivity.
Qed.

(** C9 fails on the arc through (0,0), (1,1), (2,0): the query at [x = 1]
    yields no elevation. *)
Lemma arc_elevation_undefined :
  SweepPath.curve_path Scenario.arc_path_ready = true
  /\ ~ (exists z : Q, SweepPath.get_line_function Scenario.arc_path_ready 1 = Ok (Some z)).
Proof.
  split; [reflexivity|]. intros [z Hz]. vm_compute in Hz. discriminate.
Qed.

Lemma arc_line_function_returns_none_witness :
  exists sp,
    SweepPath.get_sweep_line_properties Scenario.arc_path
    = Ok (sp, SweepPath.RetTuple (fz 0%Z) None (fz 0%Z))
    /\ SweepPath.curve_path sp = true
    /\ forall x : Q, SweepPath.get_line_function sp x = Ok None.
Proof.
  apply (arc_line_function_returns_none Scenario.origin (mkPoint 1 0 1) (mkPoint 2 0 0)).
  reflexivity.
Defined.

(** C8 fails on the edge line with nodes (0,0,0), (0,0,1), (0,0,6), (0,0,7)
    and the coordinate (0,0,2): the failure is the [ValueError] of the
    list lookup, not an error of the program's own. *)
Lemma node_group_lookup_error_is_builtin :
  EdgeConstructionLine.get_node_group_z Scenario.edge_line (Coord 0 0 2) = Raise ValueError
  /\ ~ (exists msg, EdgeConstructionLine.get_node_group_z Scenario.edge_line (Coord 0 0 2)
                    = Raise (Exception msg)).
Proof.
  split; [reflexivity|]. intros [msg Hmsg]. vm_compute in Hmsg. discriminate.
Qed.

End PathScenarios.

(** ** The environment that [__init__] builds *)

Section EnvFacts.
Context {F : Type} `{FloatOps F} `{Static F}.

(** A construction that gets as far as meshing runs on a straight sweep
    path: on an arc the elevation of the end point is [None] and the second
    edge line cannot be built. *)
Lemma make_env_inv : forall (a : Mesh.args F) (e : Mesh.env F),
  Mesh.make_env a = Ok e ->
  SweepPath.curve_path (Mesh.sweep_path e) = false
  /\ (exists m0, SweepPath.m (Mesh.sweep_path e) = Some m0)
  /\ Mesh.search_x_inc e = of_Q 0.001
  /\ Mesh.skew_threshold e = (fz 11, fz 30)
  /\ Mesh.decimal_lim e = 3%nat
  /\ Mesh.orthogonal e = Mesh.arg_orthogonal a
  /\ Mesh.curve e = false
  /\ Mesh.skew_1 e = Mesh.arg_skew_1 a
  /\ Mesh.skew_2 e = Mesh.arg_skew_2 a.
Proof.
  intros a e He. unfold Mesh.make_env in He.
  bind_inv He. destruct r as [path ret].
  unfold SweepPath.get_sweep_line_properties in Hr. simpl in Hr.
  destruct (Mesh.arg_pt3 a) as [p3|].
  - (* an arc, or collinear points *)
    destruct (findCircle (fz 0) (fz 0) (px (Mesh.arg_pt2 a)) (pz (Mesh.arg_pt2 a)) (px p3) (pz p3))
      as [circle|ex].
    + inversion Hr; subst; clear Hr. bind_inv He. bind_inv He.
      unfold SweepPath.elevation, SweepPath.get_line_function in Hr0. simpl in Hr0. discriminate.
    + destruct ex; inversion Hr; subst; clear Hr. discriminate.
  - inversion Hr; subst; clear Hr.
    bind_inv He. bind_inv He. bind_inv He. bind_inv He.
    inversion He; subst; clear He. simpl.
    repeat split; try reflexivity. eexists; reflexivity.
Qed.

Lemma straight_elevation : forall (sp : SweepPath.t F) (m0 x : F),
  SweepPath.curve_path sp = false -> SweepPath.m sp = Some m0 ->
  SweepPath.elevation sp x = Ok (line_func m0 (SweepPath.c sp) x).
Proof.
  intros sp m0 x Hc Hm. unfold SweepPath.elevation, SweepPath.get_line_function.
  rewrite Hc, Hm. reflexivity.
Qed.

End EnvFacts.

(** ** The search for the normal projection *)

Section SearchFacts.
Context {F : Type} `{FloatOps F} `{Static F}.

(** One pass of the loop body on a straight path: the counter goes up by
    one, [z0] is set, and the abscissa stays or moves by one increment
    towards the nearer neighbour; the minimum is reported only where both
    neighbours are farther. *)
Lemma search_body_step : forall (e : Mesh.env F) (m0 : F) (p : coord F) (s : Mesh.search_state F),
  SweepPath.curve_path (Mesh.sweep_path e) = false ->
  SweepPath.m (Mesh.sweep_path e) = Some m0 ->
  let x := Mesh.start_point_x s in
  let inc := Mesh.search_x_inc e in
  let dist := fun x' =>
    find_min_x_dist p (Coord x' (Mesh.y_elevation e)
                             (line_func m0 (SweepPath.c (Mesh.sweep_path e)) x')) in
  let d0 := dist x in
  let d_ub := dist (x + inc)%fl in
  let d_lb := dist (x - inc)%fl in
  exists s',
    Mesh.search_body e p s = Ok s'
    /\ Mesh.loop_counter s' = Mesh.loop_counter s + 1
    /\ Mesh.z0 s' = Some (line_func m0 (SweepPath.c (Mesh.sweep_path e)) x)
    /\ ((Mesh.min_found s' = true /\ Mesh.start_point_x s' = x
         /\ fgtb d_lb d0 = true /\ fgtb d_ub d0 = true)
        \/ (Mesh.min_found s' = Mesh.min_found s /\ Mesh.start_point_x s' = (x - inc)%fl
            /\ fltb d_lb d0 = true /\ fgtb d_ub d0 = true)
        \/ (Mesh.min_found s' = Mesh.min_found s /\ Mesh.start_point_x s' = (x + inc)%fl
            /\ fgtb d_lb d0 = true /\ fltb d_ub d0 = true)
        \/ (Mesh.min_found s' = Mesh.min_found s /\ Mesh.start_point_x s' = x)).
Proof.
  intros e m0 p s Hc Hm x inc dist d0 d_ub d_lb.
  unfold Mesh.search_body.
  rewrite !(straight_elevation _ m0 _ Hc Hm). simpl bind.
  fold x inc. fold (dist x) (dist (x + inc)%fl) (dist (x - inc)%fl). fold d0 d_ub d_lb.
  destruct (fgtb d_lb d0) eqn:Hlb_gt; destruct (fgtb d_ub d0) eqn:Hub_gt; simpl andb.
  - eexists. split; [reflexivity|]. simpl. split; [reflexivity|]. split; [reflexivity|].
    left. repeat split.
  - destruct (fltb d_lb d0) eqn:Hlb_lt; simpl andb;
      destruct (fltb d_ub d0) eqn:Hub_lt;
      (eexists; split; [reflexivity|]; simpl; split; [reflexivity|]; split; [reflexivity|]).
    + right. right. left. repeat split.
    + right. right. right. repeat split.
    + right. right. left. repeat split.
    + right. right. right. repeat split.
  - destruct (fltb d_lb d0) eqn:Hlb_lt; simpl andb;
      (eexists; split; [reflexivity|]; simpl; split; [reflexivity|]; split; [reflexivity|]).
    + right. left. repeat split.
    + right. right. right. repeat split.
  - destruct (fltb d_lb d0) eqn:Hlb_lt; simpl andb;
      (eexists; split; [reflexivity|]; simpl; split; [reflexivity|]; split; [reflexivity|]);
      right; right; right; repeat split.
Qed.

(** With fuel for the passes the cap still allows, the loop ends: either
    the minimum was found or the counter has passed the cap. *)
Lemma search_loop_fuel : forall (e : Mesh.env F) (m0 : F) (p : coord F),
  SweepPath.curve_path (Mesh.sweep_path e) = false ->
  SweepPath.m (Mesh.sweep_path e) = Some m0 ->
  forall (fuel : nat) (s : Mesh.search_state F),
    Mesh.loop_counter s <= Mesh.max_loop ->
    Mesh.max_loop + 1 - Mesh.loop_counter s <= Z.of_nat fuel ->
    Mesh.min_found s = false ->
    exists s',
      Mesh.search_loop fuel e p s = Some (Ok s')
      /\ Mesh.loop_counter s < Mesh.loop_counter s' <= Mesh.max_loop + 1
      /\ (Mesh.min_found s' = true \/ Mesh.loop_counter s' = Mesh.max_loop + 1)
      /\ Mesh.z0 s' <> None.
Proof.
  intros e m0 p Hc Hm. unfold Mesh.max_loop.
  induction fuel as [|fuel IH]; intros s Hle Hfuel Hnot.
  - lia.
  - simpl. unfold Mesh.max_loop. rewrite Hnot.
    destruct (search_body_step e m0 p s Hc Hm) as [s1 [Hbody [Hcount [Hz _]]]].
    rewrite Hbody.
    destruct (Mesh.loop_counter s1 >? 1000) eqn:Hcap.
    + exists s1. split; [reflexivity|]. apply Z.gtb_lt in Hcap.
      split; [lia|]. split; [right; lia|]. rewrite Hz. discriminate.
    + assert (Hle1 : Mesh.loop_counter s1 <= 1000).
      { destruct (Z.gtb_spec (Mesh.loop_counter s1) 1000); [discriminate | lia]. }
      destruct (Mesh.min_found s1) eqn:Hfound.
      * exists s1. destruct fuel; simpl; rewrite Hfound; (split; [reflexivity|]).
        -- split; [lia|]. split; [left; reflexivity|]. rewrite Hz. discriminate.
        -- split; [lia|]. split; [left; reflexivity|]. rewrite Hz. discriminate.
      * destruct (IH s1 Hle1 ltac:(lia) Hfound) as [s' [Hrun [Hrange [Hend Hz']]]].
        exists s'. split; [exact Hrun|]. split; [lia|]. split; [exact Hend | exact Hz'].
Qed.

(** C7: in every construction, for every intersection point, the search
    loop ends within 1001 passes of its body, without an error and with
    the estimate it has reached: it stops at a minimum of the distance or
    when the counter passes the cap of 1000.  The increment is 0.001, and
    each pass either reports the minimum (both neighbours at one increment
    are farther), moves the abscissa by one increment towards the nearer
    neighbour, or leaves it where it is. *)
Theorem search_x_point_within_cap : forall (a : Mesh.args F) (e : Mesh.env F) (p : coord F),
  Mesh.make_env a = Ok e ->
  (exists s z,
     Mesh.search_loop 1001 e p (Mesh.search_init p) = Some (Ok s)
     /\ 1 <= Mesh.loop_counter s <= 1001
     /\ (Mesh.min_found s = true \/ Mesh.loop_counter s = 1001)
     /\ Mesh.search_x_point e p = Ok (Mesh.start_point_x s, z))
  /\ Mesh.search_x_inc e = of_Q 0.001
  /\ (exists m0,
        SweepPath.m (Mesh.sweep_path e) = Some m0
        /\ forall s : Mesh.search_state F,
             let x := Mesh.start_point_x s in
             let inc := Mesh.search_x_inc e in
             let dist := fun x' =>
               find_min_x_dist p (Coord x' (Mesh.y_elevation e)
                                        (line_func m0 (SweepPath.c (Mesh.sweep_path e)) x')) in
             exists s',
               Mesh.search_body e p s = Ok s'
               /\ Mesh.loop_counter s' = Mesh.loop_counter s + 1
               /\ ((Mesh.min_found s' = true /\ Mesh.start_point_x s' = x
                    /\ fgtb (dist (x - inc)%fl) (dist x) = true
                    /\ fgtb (dist (x + inc)%fl) (dist x) = true)
                   \/ (Mesh.min_found s' = Mesh.min_found s
                       /\ Mesh.start_point_x s' = (x - inc)%fl
                       /\ fltb (dist (x - inc)%fl) (dist x) = true)
                   \/ (Mesh.min_found s' = Mesh.min_found s
                       /\ Mesh.start_point_x s' = (x + inc)%fl
                       /\ fltb (dist (x + inc)%fl) (dist x) = true)
                   \/ (Mesh.min_found s' = Mesh.min_found s
                       /\ Mesh.start_point_x s' = x))).
Proof.
  intros a e p He.
  destruct (make_env_inv a e He) as [Hc [[m0 Hm] [Hinc _]]].
  split; [|split].
  - destruct (search_loop_fuel e m0 p Hc Hm 1001 (Mesh.search_init p)) as [s [Hrun [Hrange [Hend Hz]]]];
      try (unfold Mesh.max_loop; simpl; lia); try reflexivity.
    destruct (Mesh.z0 s) as [z|] eqn:Hz0; [|congruence].
    exists s, z. split; [exact Hrun|]. unfold Mesh.max_loop in *. simpl in Hrange.
    split; [lia|]. split; [destruct Hend as [Hend|Hend]; [left; exact Hend | right; lia]|].
    unfold Mesh.search_x_point, Mesh.search_fuel. rewrite Hrun. simpl. rewrite Hz0. reflexivity.
  - exact Hinc.
  - exists m0. split; [exact Hm|]. intros s x inc dist.
    destruct (search_body_step e m0 p s Hc Hm) as [s' [Hbody [Hcount [_ Hcases]]]].
    exists s'. split; [exact Hbody|]. split; [exact Hcount|].
    destruct Hcases as [[Hf [Hx [Hl Hu]]] | [[Hf [Hx [Hl _]]] | [[Hf [Hx [_ Hu]]] | [Hf Hx]]]].
    + left. repeat split; assumption.
    + right. left. repeat split; assumption.
    + right. right. left. repeat split; assumption.
    + right. right. right. split; assumption.
Qed.

End SearchFacts.
(** ** Where an unbound global can be met *)






Section NameErrors.
Context {F : Type} `{FloatOps F} `{Static F}.
Variable e : Mesh.env F.















End NameErrors.

(** ** The slicing branches of the search region *)

Section SliceFacts.
Import QFloat.






Lemma search_x_point_within_cap_witness :
  exists e : Mesh.env Q,
    Mesh.make_env Scenario.skew_mesh_args = Ok e
    /\ (exists s z,
          Mesh.search_loop 1001 e (Coord 1 0 1)%Q (Mesh.search_init (Coord 1 0 1)%Q) = Some (Ok s)
          /\ 1 <= Mesh.loop_counter s <= 1001
          /\ (Mesh.min_found s = true \/ Mesh.loop_counter s = 1001)
          /\ Mesh.search_x_point e (Coord 1 0 1)%Q = Ok (Mesh.start_point_x s, z)).
Proof.
  eexists. split.
  - vm_compute. reflexivity.
  - apply (search_x_point_within_cap Scenario.skew_mesh_args _ (Coord 1 0 1)%Q).
    vm_compute. reflexivity.
Defined.

End SliceFacts.

(** ** Ranges and dictionaries *)

Lemma zseq_length : forall (n : nat) (a : Z), length (zseq a n) = n.
Proof. induction n as [|n IH]; intro a; simpl; [reflexivity | rewrite IH; reflexivity]. Qed.

Lemma zseq_In : forall (n : nat) (a x : Z), In x (zseq a n) <-> a <= x < a + Z.of_nat n.
Proof.
  induction n as [|n IH]; intros a x; simpl.
  - split; [contradiction | lia].
  - rewrite IH. split.
    + intros [Heq | Hin]; lia.
    + intro Hr. destruct (Z.eq_dec a x) as [Heq|Hne]; [left; exact Heq | right; lia].
Qed.

Lemma zseq_snoc : forall (n : nat) (a : Z), zseq a (S n) = zseq a n ++ [a + Z.of_nat n].
Proof.
  induction n as [|n IH]; intro a.
  - simpl. rewrite Z.add_0_r. reflexivity.
  - change (zseq a (S (S n))) with (a :: zseq (a + 1) (S n)). rewrite IH. simpl.
    replace (a + 1 + Z.of_nat n) with (a + Z.pos (Pos.of_succ_nat n)) by lia. reflexivity.
Qed.

Lemma zseq_nth : forall (n : nat) (a : Z) (i : nat),
  (i < n)%nat -> nth_error (zseq a n) i = Some (a + Z.of_nat i).
Proof.
  induction n as [|n IH]; intros a i Hi; [lia|].
  destruct i as [|i]; simpl.
  - rewrite Z.add_0_r. reflexivity.
  - rewrite IH by lia. f_equal. lia.
Qed.

Lemma zseq_NoDup : forall (n : nat) (a : Z), NoDup (zseq a n).
Proof.
  induction n as [|n IH]; intro a; simpl; constructor.
  - rewrite zseq_In. lia.
  - apply IH.
Qed.

Lemma enumerate_from_length : forall (A : Type) (l : list A) (i : Z),
  length (enumerate_from i l) = length l.
Proof. induction l as [|a t IH]; intro i; simpl; [reflexivity | rewrite IH; reflexivity]. Qed.

(** A loop over [enumerate(l)] keeps an invariant that may depend on the
    index reached. *)
Lemma foldM_enumerate_invariant :
  forall (A St : Type) (P : Z -> St -> Prop) (f : St -> Z * A -> result St) (l : list A) (i : Z),
    (forall j a s s', i <= j < i + len l -> In a l -> P j s -> f s (j, a) = Ok s' -> P (j + 1) s') ->
    forall s s', P i s -> foldM f (enumerate_from i l) s = Ok s' -> P (i + len l) s'.
Proof.
  intros A St P f l. induction l as [|a t IH]; intros i Hstep s s' Hs Hrun; simpl in Hrun.
  - inversion Hrun; subst. unfold len. simpl. rewrite Z.add_0_r. exact Hs.
  - bind_inv Hrun. unfold len in *. simpl length in *.
    replace (i + Z.of_nat (S (length t))) with ((i + 1) + Z.of_nat (length t)) by lia.
    apply (IH (i + 1)) with (s := r).
    + intros j b s1 s2 Hj Hin. apply Hstep; [lia | right; exact Hin].
    + apply (Hstep i a s r); [lia | left; reflexivity | exact Hs | exact Hr].
    + exact Hrun.
Qed.

Section DictFacts.
Context {K V : Type} (eqb : K -> K -> bool).
Hypothesis eqb_eq : forall a b : K, eqb a b = true <-> a = b.

Lemma dict_get_app : forall (k : K) (d1 d2 : dict K V),
  dict_get eqb k (d1 ++ d2) =
  match dict_get eqb k d1 with
  | Some v => Some v
  | None => dict_get eqb k d2
  end.
Proof.
  intros k d1 d2. induction d1 as [|[k' v'] t IH]; simpl; [reflexivity|].
  destruct (eqb k k'); [reflexivity | exact IH].
Qed.

Lemma dict_get_none : forall (k : K) (d : dict K V),
  dict_get eqb k d = None <-> ~ In k (keys d).
Proof.
  intros k d. induction d as [|[k' v'] t IH]; simpl.
  - split; [intros _ []| reflexivity].
  - destruct (eqb k k') eqn:Hk.
    + apply eqb_eq in Hk. subst. split; [discriminate | intro Hn; exfalso; apply Hn; left; reflexivity].
    + rewrite IH. split.
      * intros Hn [Heq|Hin]; [|exact (Hn Hin)].
        subst. assert (Ht : eqb k k = true) by (apply eqb_eq; reflexivity). congruence.
      * intros Hn Hin. apply Hn. right. exact Hin.
Qed.

Lemma dict_get_some_in : forall (k : K) (v : V) (d : dict K V),
  dict_get eqb k d = Some v -> In (k, v) d.
Proof.
  intros k v d. induction d as [|[k' v'] t IH]; simpl; [discriminate|].
  destruct (eqb k k') eqn:Hk.
  - intro Hv. inversion Hv; subst. apply eqb_eq in Hk. subst. left. reflexivity.
  - intro Hv. right. apply IH. exact Hv.
Qed.

Lemma dict_get_in_keys : forall (k : K) (v : V) (d : dict K V),
  dict_get eqb k d = Some v -> In k (keys d).
Proof.
  intros k v d Hv. apply dict_get_some_in in Hv. unfold keys.
  apply (in_map fst) in Hv. exact Hv.
Qed.

Lemma in_keys_dict_get : forall (k : K) (d : dict K V),
  In k (keys d) -> exists v, dict_get eqb k d = Some v.
Proof.
  intros k d Hin. destruct (dict_get eqb k d) as [v|] eqn:Hv; [exists v; reflexivity|].
  apply dict_get_none in Hv. contradiction.
Qed.

(** [setdefault] leaves every entry that was there as it was. *)
Lemma setdefault_keeps : forall (k k0 : K) (v v0 : V) (d : dict K V),
  dict_get eqb k d = Some v -> dict_get eqb k (setdefault eqb k0 v0 d) = Some v.
Proof.
  intros k k0 v v0 d Hv. unfold setdefault.
  destruct (dict_get eqb k0 d); [exact Hv|]. rewrite dict_get_app, Hv. reflexivity.
Qed.

(** What [setdefault] returns is what the dictionary holds afterwards. *)
Lemma setdefault_get : forall (k : K) (v : V) (d : dict K V),
  dict_get eqb k (setdefault eqb k v d) = Some (setdefault_value eqb k v d).
Proof.
  intros k v d. unfold setdefault, setdefault_value, get_default.
  destruct (dict_get eqb k d) as [v'|] eqn:Hv; [exact Hv|].
  rewrite dict_get_app, Hv. simpl.
  assert (Ht : eqb k k = true) by (apply eqb_eq; reflexivity). rewrite Ht. reflexivity.
Qed.

Lemma setdefault_fresh : forall (k : K) (v : V) (d : dict K V),
  ~ In k (keys d) -> setdefault eqb k v d = d ++ [(k, v)].
Proof.
  intros k v d Hn. unfold setdefault. apply dict_get_none in Hn. rewrite Hn. reflexivity.
Qed.

Lemma setdefault_in : forall (k : K) (v : V) (d : dict K V) (p : K * V),
  In p d -> In p (setdefault eqb k v d).
Proof.
  intros k v d p Hin. unfold setdefault. destruct (dict_get eqb k d); [exact Hin|].
  apply in_or_app. left. exact Hin.
Qed.

End DictFacts.

Lemma Zeqb_eq : forall a b : Z, (a =? b) = true <-> a = b.
Proof. intros a b. apply Z.eqb_eq. Qed.

Lemma Seqb_eq : forall a b : string, String.eqb a b = true <-> a = b.
Proof. intros a b. apply String.eqb_eq. Qed.

(** ** The invariant of the meshing procedures *)

Section MeshInvariant.
Context {F : Type} `{FloatOps F} `{Static F}.
Variable e : Mesh.env F.
Variables n0 t0 : Z.

Local Notation "'Inv'" := (Mesh.Inv e n0 t0).

Lemma frame_refl : forall s : Mesh.t F, Mesh.frame s s.
Proof. intro s. unfold Mesh.frame. repeat split. Qed.

Lemma frame_trans : forall s1 s2 s3 : Mesh.t F,
  Mesh.frame s1 s2 -> Mesh.frame s2 s3 -> Mesh.frame s1 s3.
Proof.
  unfold Mesh.frame. intros s1 s2 s3 H12 H23.
  destruct H12 as (A1 & A2 & A3 & A4 & A5 & A6 & A7 & A8 & A9).
  destruct H23 as (B1 & B2 & B3 & B4 & B5 & B6 & B7 & B8 & B9).
  repeat split; congruence.
Qed.

(** The keys of [node_spec] are the tags handed out so far. *)
Lemma Inv_key_range : forall (s : Mesh.t F) (k : Z),
  Inv s -> (In k (keys (Mesh.node_spec s)) <-> n0 <= k < Mesh.node_counter s).
Proof.
  intros s k HI. rewrite (Mesh.inv_keys _ _ _ _ HI), zseq_In.
  pose proof (Mesh.inv_counter _ _ _ _ HI). split; intro; lia.
Qed.

Lemma Inv_getitem_range : forall (s : Mesh.t F) (k : Z) (nd : Mesh.node F),
  Inv s -> getitem Z.eqb k (Mesh.node_spec s) = Ok nd ->
  n0 <= k < Mesh.node_counter s /\ dict_get Z.eqb k (Mesh.node_spec s) = Some nd.
Proof.
  intros s k nd HI Hget. unfold getitem in Hget.
  destruct (dict_get Z.eqb k (Mesh.node_spec s)) as [v|] eqn:Hv; [|discriminate].
  inversion Hget; subst. split; [|reflexivity].
  apply (Inv_key_range s k HI). apply (dict_get_in_keys Z.eqb Zeqb_eq k nd). exact Hv.
Qed.

(** A state that differs only outside nodes and registry, and whose new
    elements are sound, keeps the invariant. *)
Lemma Inv_same_nodes : forall s s' : Mesh.t F,
  Inv s ->
  Mesh.node_counter s' = Mesh.node_counter s ->
  Mesh.node_spec s' = Mesh.node_spec s ->
  Mesh.transform_dict s' = Mesh.transform_dict s ->
  Mesh.transform_counter s' = Mesh.transform_counter s ->
  (forall el, In el (Mesh.all_ele s') -> In el (Mesh.all_ele s) \/ Mesh.ele_ok e s' el) ->
  Inv s'.
Proof.
  intros s s' HI Hc Hn Hd Ht Hel. destruct HI as [I1 I2 I3 I4 I5].
  constructor.
  - rewrite Hc. exact I1.
  - rewrite Hn, Hc. exact I2.
  - rewrite Hn. exact I3.
  - rewrite Hd, Ht. exact I4.
  - intros el Hin. destruct (Hel el Hin) as [Hold|Hnew]; [|exact Hnew].
    destruct (I5 el Hold) as [Hne [ni [nj [Hi [Hj Hk]]]]].
    split; [exact Hne|]. exists ni, nj. rewrite Hn, Hd. repeat split; assumption.
Qed.

(** Placing a node extends the range of tags by the current counter. *)
Lemma place_node_inv : forall (s : Mesh.t F) (co : coord F) (xg zg : Z),
  Inv s ->
  let s' := Mesh.place_node s co xg zg in
  Inv s'
  /\ Mesh.node_counter s' = Mesh.node_counter s + 1
  /\ Mesh.assigned_node_tag s' = Mesh.assigned_node_tag s ++ [Mesh.node_counter s]
  /\ Mesh.previous_node_tag s' = Mesh.previous_node_tag s
  /\ Mesh.first_connecting_region_nodes s' = Mesh.first_connecting_region_nodes s
  /\ Mesh.end_connecting_region_nodes s' = Mesh.end_connecting_region_nodes s
  /\ Mesh.global_x_grid_count s' = Mesh.global_x_grid_count s
  /\ Mesh.sweep_nodes s' = Mesh.sweep_nodes s
  /\ Mesh.z_group_recorder s' = Mesh.z_group_recorder s.
Proof.
  intros s co xg zg HI s'. unfold s', Mesh.place_node. simpl.
  split; [|repeat split].
  pose proof HI as [I1 I2 I3 I4 I5].
  assert (Hfresh : ~ In (Mesh.node_counter s) (keys (Mesh.node_spec s))).
  { rewrite (Inv_key_range s _ HI). lia. }
  constructor; simpl.
  - lia.
  - rewrite (setdefault_fresh Z.eqb Zeqb_eq _ _ _ Hfresh).
    unfold keys in *. rewrite map_app, I2. simpl.
    replace (Z.to_nat (Mesh.node_counter s + 1 - n0))
      with (S (Z.to_nat (Mesh.node_counter s - n0))) by lia.
    rewrite zseq_snoc. do 2 f_equal. lia.
  - intros k nd Hin. rewrite (setdefault_fresh Z.eqb Zeqb_eq _ _ _ Hfresh) in Hin.
    apply in_app_or in Hin. destruct Hin as [Hin|[Hin|[]]].
    + exact (I3 k nd Hin).
    + inversion Hin; subst. reflexivity.
  - exact I4.
  - intros el Hin. destruct (I5 el Hin) as [Hne [ni [nj [Hi [Hj Hk]]]]].
    split; [exact Hne|]. exists ni, nj. simpl.
    split; [apply setdefault_keeps; exact Hi|].
    split; [apply setdefault_keeps; exact Hj | exact Hk].
Qed.

(** The registry after one lookup: the key's id is on file, ids on file
    stay, and a key seen for the first time gets the next id. *)
Lemma registry_step : forall (d : dict string Z) (tc : Z) (key : string),
  Mesh.registry_ok t0 d tc ->
  let tag := setdefault_value String.eqb key (tc + 1) d in
  let d' := setdefault String.eqb key (tc + 1) d in
  let tc' := if tag >? tc then tag else tc in
  Mesh.registry_ok t0 d' tc'
  /\ dict_get String.eqb key d' = Some tag
  /\ (forall k v, dict_get String.eqb k d = Some v -> dict_get String.eqb k d' = Some v)
  /\ (In key (keys d) -> d' = d /\ tc' = tc)
  /\ (~ In key (keys d) -> d' = d ++ [(key, tc + 1)] /\ tag = tc + 1 /\ tc' = tc + 1).
Proof.
  intros d tc key [Hnd [Hval Htc]] tag d' tc'.
  assert (Hget : dict_get String.eqb key d' = Some tag) by apply (setdefault_get String.eqb Seqb_eq).
  assert (Hkeep : forall k v, dict_get String.eqb k d = Some v -> dict_get String.eqb k d' = Some v).
  { intros k v Hk. apply setdefault_keeps. exact Hk. }
  destruct (dict_get String.eqb key d) as [v|] eqn:Hv.
  - (* a key on file *)
    assert (Hd : d' = d) by (unfold d', setdefault; rewrite Hv; reflexivity).
    assert (Htag : tag = v) by (unfold tag, setdefault_value, get_default; rewrite Hv; reflexivity).
    assert (Hle : v <= tc).
    { apply dict_get_some_in in Hv; [|exact Seqb_eq].
      apply (in_map snd) in Hv. simpl in Hv. fold (values d) in Hv.
      rewrite Hval in Hv. apply zseq_In in Hv. unfold len in Htc. lia. }
    assert (Hc : tc' = tc).
    { unfold tc'. rewrite Htag. destruct (Z.gtb_spec v tc); [lia | reflexivity]. }
    rewrite Hd in *. rewrite Hc.
    split; [split; [exact Hnd | split; [exact Hval | exact Htc]]|].
    split; [exact Hget|]. split; [exact Hkeep|].
    split; [intros _; split; reflexivity|].
    intro Hn. apply (proj2 (dict_get_none String.eqb Seqb_eq key d)) in Hn. congruence.
  - (* a new key *)
    assert (Hn : ~ In key (keys d)) by (apply (dict_get_none String.eqb Seqb_eq); exact Hv).
    assert (Hd : d' = d ++ [(key, tc + 1)]) by (unfold d', setdefault; rewrite Hv; reflexivity).
    assert (Htag : tag = tc + 1)
      by (unfold tag, setdefault_value, get_default; rewrite Hv; reflexivity).
    assert (Hc : tc' = tc + 1).
    { unfold tc'. rewrite Htag. destruct (Z.gtb_spec (tc + 1) tc); [reflexivity | lia]. }
    split.
    + rewrite Hd, Hc. unfold Mesh.registry_ok, keys, values, len in *.
      rewrite !map_app, length_app. simpl. split; [|split].
      * apply NoDup_app; [exact Hnd | constructor; [intros [] | constructor] |].
        intros k Hk [Heq|[]]. subst. exact (Hn Hk).
      * rewrite Hval. replace (length d + 1)%nat with (S (length d)) by lia.
        rewrite zseq_snoc. do 2 f_equal. lia.
      * lia.
    + split; [exact Hget|]. split; [exact Hkeep|].
      split; [intro Hin; contradiction|]. intros _. repeat split; assumption.
Qed.

(** [__get_geo_transform_tag] keeps the invariant and changes the registry
    only; the tag it returns is the id on file for the direction of the
    two nodes, which both exist. *)
Lemma get_geo_transform_tag_inv : forall (s s' : Mesh.t F) (i j tag : Z),
  Inv s -> Mesh.get_geo_transform_tag e s (i, j) = Ok (tag, s') ->
  Inv s' /\ Mesh.frame s s'
  /\ Mesh.long_ele s' = Mesh.long_ele s
  /\ Mesh.trans_ele s' = Mesh.trans_ele s
  /\ Mesh.edge_span_ele s' = Mesh.edge_span_ele s
  /\ Mesh.element_counter s' = Mesh.element_counter s
  /\ exists n_i n_j,
       dict_get Z.eqb i (Mesh.node_spec s') = Some n_i
       /\ dict_get Z.eqb j (Mesh.node_spec s') = Some n_j
       /\ dict_get String.eqb (Mesh.transform_key e (Mesh.coordinate n_i) (Mesh.coordinate n_j))
                   (Mesh.transform_dict s')
          = Some tag.
Proof.
  intros s s' i j tag HI Hrun. unfold Mesh.get_geo_transform_tag in Hrun. simpl fst in Hrun.
  simpl snd in Hrun. bind_inv Hrun. bind_inv Hrun. rename r into ni, r0 into nj.
  inversion Hrun; subst; clear Hrun.
  destruct (Inv_getitem_range s i ni HI Hr) as [_ Hi].
  destruct (Inv_getitem_range s j nj HI Hr0) as [_ Hj].
  pose proof HI as [I1 I2 I3 I4 I5].
  destruct (registry_step _ _ (Mesh.transform_key e (Mesh.coordinate ni) (Mesh.coordinate nj)) I4)
    as [Hreg [Hget [Hkeep _]]].
  split; [|split; [unfold Mesh.frame; simpl; repeat split|]].
  - constructor; simpl; try assumption.
    intros el Hin. destruct (I5 el Hin) as [Hne [a [b [Ha [Hb Hk]]]]].
    split; [exact Hne|]. exists a, b. simpl. repeat split; try assumption.
    apply Hkeep. exact Hk.
  - simpl. repeat split. exists ni, nj. repeat split; assumption.
Qed.

(** Appending a sound element to one of the three lists keeps the
    invariant, whatever the element counter becomes. *)
Lemma append_long_inv : forall (s : Mesh.t F) (el : Mesh.ele) (ec : Z),
  Inv s -> Mesh.ele_ok e s el ->
  let s' := Mesh.set_element_counter (Mesh.set_long_ele s (Mesh.long_ele s ++ [el])) ec in
  Inv s' /\ Mesh.frame s s'.
Proof.
  intros s el ec HI Hel s'. split; [|unfold Mesh.frame; simpl; repeat split].
  apply (Inv_same_nodes s); try reflexivity; [exact HI|].
  intros x Hin. unfold Mesh.all_ele in *. simpl in Hin.
  rewrite <- !app_assoc in Hin. apply in_app_or in Hin. destruct Hin as [Hin|Hin].
  - left. apply in_or_app. left. exact Hin.
  - simpl in Hin. destruct Hin as [Heq|Hin].
    + right. subst x. exact Hel.
    + left. apply in_or_app. right. exact Hin.
Qed.

Lemma append_trans_inv : forall (s : Mesh.t F) (el : Mesh.ele) (ec : Z),
  Inv s -> Mesh.ele_ok e s el ->
  let s' := Mesh.set_element_counter (Mesh.set_trans_ele s (Mesh.trans_ele s ++ [el])) ec in
  Inv s' /\ Mesh.frame s s'.
Proof.
  intros s el ec HI Hel s'. split; [|unfold Mesh.frame; simpl; repeat split].
  apply (Inv_same_nodes s); try reflexivity; [exact HI|].
  intros x Hin. unfold Mesh.all_ele in *. simpl in Hin.
  apply in_app_or in Hin. destruct Hin as [Hin|Hin];
    [left; apply in_or_app; left; exact Hin|].
  rewrite <- app_assoc in Hin. apply in_app_or in Hin. destruct Hin as [Hin|Hin];
    [left; apply in_or_app; right; apply in_or_app; left; exact Hin|].
  simpl in Hin. destruct Hin as [Heq|Hin].
  - right. subst x. exact Hel.
  - left. apply in_or_app. right. apply in_or_app. right. exact Hin.
Qed.

Lemma append_edge_inv : forall (s : Mesh.t F) (el : Mesh.ele) (ec : Z),
  Inv s -> Mesh.ele_ok e s el ->
  let s' := Mesh.set_element_counter (Mesh.set_edge_span_ele s (Mesh.edge_span_ele s ++ [el])) ec in
  Inv s' /\ Mesh.frame s s'.
Proof.
  intros s el ec HI Hel s'. split; [|unfold Mesh.frame; simpl; repeat split].
  apply (Inv_same_nodes s); try reflexivity; [exact HI|].
  intros x Hin. unfold Mesh.all_ele in *. simpl in Hin.
  rewrite !app_assoc in Hin. apply in_app_or in Hin. destruct Hin as [Hin|Hin].
  - left. rewrite !app_assoc. exact Hin.
  - simpl in Hin. destruct Hin as [Heq|[]]. right. subst x. exact Hel.
Qed.

(** The tag of a fresh element between two different nodes makes the
    element sound. *)
Lemma tagged_ele_ok : forall (s s' : Mesh.t F) (pre cur tag ec g : Z),
  Inv s -> pre <> cur -> Mesh.get_geo_transform_tag e s (pre, cur) = Ok (tag, s') ->
  Inv s' /\ Mesh.frame s s' /\ Mesh.ele_ok e s' (Mesh.mk_ele ec pre cur g tag).
Proof.
  intros s s' pre cur tag ec g HI Hne Hrun.
  destruct (get_geo_transform_tag_inv _ _ _ _ _ HI Hrun)
    as (HI1 & Hf & _ & _ & _ & _ & ni & nj & Hi & Hj & Hk).
  split; [exact HI1|]. split; [exact Hf|].
  split; [exact Hne|]. exists ni, nj. simpl. repeat split; assumption.
Qed.

Lemma assign_longitudinal_members_inv : forall (s s' : Mesh.t F) (pre cur g : Z),
  Inv s -> pre <> cur -> Mesh.assign_longitudinal_members e s pre cur g = Ok s' ->
  Inv s' /\ Mesh.frame s s'.
Proof.
  intros s s' pre cur g HI Hne Hrun. unfold Mesh.assign_longitudinal_members in Hrun.
  bind_inv Hrun. destruct r as [tag s1]. inversion Hrun; subst; clear Hrun.
  destruct (tagged_ele_ok _ _ _ _ _ (Mesh.element_counter s1) g HI Hne Hr) as (HI1 & Hf & Hel).
  destruct (append_long_inv s1 _ (Mesh.element_counter s1 + 1) HI1 Hel) as [HI2 Hf2].
  split; [exact HI2 | exact (frame_trans _ _ _ Hf Hf2)].
Qed.

Lemma assign_transverse_members_inv : forall (s s' : Mesh.t F) (pre cur : Z),
  Inv s -> pre <> cur -> Mesh.assign_transverse_members e s pre cur = Ok s' ->
  Inv s' /\ Mesh.frame s s'.
Proof.
  intros s s' pre cur HI Hne Hrun. unfold Mesh.assign_transverse_members in Hrun.
  bind_inv Hrun. destruct r as [tag s1]. inversion Hrun; subst; clear Hrun.
  destruct (tagged_ele_ok _ _ _ _ _ (Mesh.element_counter s1) (Mesh.global_x_grid_count s1)
              HI Hne Hr) as (HI1 & Hf & Hel).
  destruct (append_trans_inv s1 _ (Mesh.element_counter s1 + 1) HI1 Hel) as [HI2 Hf2].
  split; [exact HI2 | exact (frame_trans _ _ _ Hf Hf2)].
Qed.

Lemma assign_edge_trans_members_inv : forall (s s' : Mesh.t F) (pre cur g : Z),
  Inv s -> pre <> cur -> Mesh.assign_edge_trans_members e s pre cur g = Ok s' ->
  Inv s' /\ Mesh.frame s s'.
Proof.
  intros s s' pre cur g HI Hne Hrun. unfold Mesh.assign_edge_trans_members in Hrun.
  bind_inv Hrun. destruct r as [tag s1]. inversion Hrun; subst; clear Hrun.
  destruct (tagged_ele_ok _ _ _ _ _ (Mesh.element_counter s1) g HI Hne Hr) as (HI1 & Hf & Hel).
  destruct (append_edge_inv s1 _ (Mesh.element_counter s1 + 1) HI1 Hel) as [HI2 Hf2].
  split; [exact HI2 | exact (frame_trans _ _ _ Hf Hf2)].
Qed.

(** The longitudinal join of two columns without a common node. *)
Lemma link_first_match_inv : forall (curs : list Z) (s s' : Mesh.t F) (pre : Z),
  Inv s -> ~ In pre curs -> Mesh.link_first_match e s pre curs = Ok s' ->
  Inv s' /\ Mesh.frame s s'.
Proof.
  induction curs as [|cur rest IH]; intros s s' pre HI Hne Hrun; simpl in Hrun.
  - inversion Hrun; subst. split; [exact HI | apply frame_refl].
  - bind_inv Hrun. bind_inv Hrun.
    destruct (Mesh.z_group r =? Mesh.z_group r0).
    + apply (assign_longitudinal_members_inv s s' pre cur (Mesh.z_group r) HI); [|exact Hrun].
      intro Heq. apply Hne. left. symmetry. exact Heq.
    + apply (IH s s' pre HI); [|exact Hrun]. intro Hin. apply Hne. right. exact Hin.
Qed.

Lemma link_longitudinal_inv : forall (previous assigned : list Z) (s s' : Mesh.t F),
  Inv s -> (forall p, In p previous -> ~ In p assigned) ->
  Mesh.link_longitudinal e s previous assigned = Ok s' ->
  Inv s' /\ Mesh.frame s s'.
Proof.
  unfold Mesh.link_longitudinal.
  induction previous as [|p rest IH]; intros assigned s s' HI Hdisj Hrun; simpl in Hrun.
  - inversion Hrun; subst. split; [exact HI | apply frame_refl].
  - bind_inv Hrun.
    destruct (link_first_match_inv assigned s r p HI (Hdisj p (or_introl eq_refl)) Hr)
      as [HI1 Hf1].
    destruct (IH assigned r s' HI1 (fun q Hq => Hdisj q (or_intror Hq)) Hrun) as [HI2 Hf2].
    split; [exact HI2 | exact (frame_trans _ _ _ Hf1 Hf2)].
Qed.

(** Recording edge nodes changes [edge_node_recorder] and nothing else. *)
Lemma record_edge_nodes_eq : forall (nodes : list Z) (s : Mesh.t F),
  Mesh.record_edge_nodes s nodes =
  Mesh.set_edge_node_recorder s
    (fold_left (fun d n => setdefault Z.eqb n (Mesh.global_edge_count s) d) nodes
               (Mesh.edge_node_recorder s)).
Proof.
  unfold Mesh.record_edge_nodes.
  induction nodes as [|n rest IH]; intro s; simpl.
  - destruct s; reflexivity.
  - rewrite IH. reflexivity.
Qed.

(** A state with the nodes, registry and elements of [s] has its invariant. *)
Lemma Inv_same_mesh : forall s s' : Mesh.t F,
  Inv s ->
  Mesh.node_counter s' = Mesh.node_counter s ->
  Mesh.node_spec s' = Mesh.node_spec s ->
  Mesh.transform_dict s' = Mesh.transform_dict s ->
  Mesh.transform_counter s' = Mesh.transform_counter s ->
  Mesh.all_ele s' = Mesh.all_ele s ->
  Inv s'.
Proof.
  intros s s' HI Hc Hn Hd Ht Hel. apply (Inv_same_nodes s); try assumption.
  intros el Hin. left. rewrite <- Hel. exact Hin.
Qed.

End MeshInvariant.

(** ** Columns of nodes *)

Lemma py_index_zseq : forall (c : Z) (n : nat) (i : Z),
  0 <= i < Z.of_nat n -> py_index (zseq c n) i = Ok (c + i).
Proof.
  intros c n i Hi. unfold py_index.
  destruct (Z.ltb_spec i 0); [lia|]. destruct (Z.ltb_spec i 0); [lia|].
  rewrite zseq_nth by lia. f_equal. lia.
Qed.

Lemma py_index_In : forall (A : Type) (l : list A) (i : Z) (a : A),
  py_index l i = Ok a -> In a l.
Proof.
  intros A l i a Hi. unfold py_index in Hi.
  destruct ((if i <? 0 then i + len l else i) <? 0); [discriminate|].
  destruct (nth_error l (Z.to_nat (if i <? 0 then i + len l else i))) as [b|] eqn:Hb;
    [|discriminate].
  inversion Hi; subst. apply nth_error_In in Hb. exact Hb.
Qed.

Lemma Forall_lt_weaken : forall (l : list Z) (a b : Z),
  a <= b -> Forall (fun x => x < a) l -> Forall (fun x => x < b) l.
Proof.
  intros l a b Hab Hl. apply (Forall_impl _ (P := fun x => x < a)); [|exact Hl].
  intros x Hx. simpl in *. lia.
Qed.

Lemma zseq_lt : forall (c : Z) (n : nat), Forall (fun x => x < c + Z.of_nat n) (zseq c n).
Proof. intros c n. apply Forall_forall. intros x Hx. apply zseq_In in Hx. lia. Qed.

(** Tags below [c] are none of the tags from [c] on. *)
Lemma below_not_in_zseq : forall (l : list Z) (c : Z) (n : nat),
  Forall (fun x => x < c) l -> forall p, In p l -> ~ In p (zseq c n).
Proof.
  intros l c n Hl p Hp Hin. rewrite Forall_forall in Hl. specialize (Hl p Hp).
  apply zseq_In in Hin. simpl in Hl. lia.
Qed.

Section Columns.
Context {F : Type} `{FloatOps F} `{Static F}.
Variable e : Mesh.env F.
Variables n0 t0 : Z.

Local Notation "'Inv'" := (Mesh.Inv e n0 t0).
Local Notation "'col_inv'" := (Mesh.col_inv e n0 t0).

Lemma col_inv_start : forall s : Mesh.t F,
  Inv s -> Mesh.assigned_node_tag s = [] -> col_inv (Mesh.node_counter s) s 0 s.
Proof.
  intros s HI Ha. unfold Mesh.col_inv. rewrite Ha. simpl.
  split; [exact HI|]. repeat split. lia.
Qed.

(** One more node in the column. *)
Lemma col_inv_place : forall (c : Z) (s0 s : Mesh.t F) (j : Z) (co : coord F) (xg zg : Z),
  0 <= j -> col_inv c s0 j s -> col_inv c s0 (j + 1) (Mesh.place_node s co xg zg).
Proof.
  intros c s0 s j co xg zg Hj (HI & Hc & Ha & Hp & Hf & He & Hg & Hs & Hz).
  destruct (place_node_inv e n0 t0 s co xg zg HI)
    as (HI1 & Hc1 & Ha1 & Hp1 & Hf1 & He1 & Hg1 & Hs1 & Hz1).
  unfold Mesh.col_inv. rewrite Hc1, Ha1, Hp1, Hf1, He1, Hg1, Hs1, Hz1.
  split; [exact HI1|]. split; [lia|]. split; [|repeat split; assumption].
  rewrite Ha, Hc. replace (Z.to_nat (j + 1)) with (S (Z.to_nat j)) by lia.
  rewrite zseq_snoc. do 2 f_equal. lia.
Qed.

(** A step that leaves the frame alone keeps the column. *)
Lemma col_inv_frame : forall (c : Z) (s0 s s' : Mesh.t F) (j : Z),
  col_inv c s0 j s -> Inv s' -> Mesh.frame s s' -> col_inv c s0 j s'.
Proof.
  intros c s0 s s' j (HI & Hc & Ha & Hp & Hf & He & Hg & Hs & Hz) HI'
         (A1 & A2 & A3 & A4 & A5 & A6 & A7 & A8 & A9).
  unfold Mesh.col_inv. split; [exact HI'|]. repeat split; congruence.
Qed.

(** The link between the last two nodes of the column, whatever element
    the link adds. *)
Lemma col_inv_link : forall (link : Mesh.t F -> Z -> Z -> result (Mesh.t F)),
  (forall s pre cur s', Inv s -> pre <> cur -> link s pre cur = Ok s' ->
                        Inv s' /\ Mesh.frame s s') ->
  forall (c : Z) (s0 s s' : Mesh.t F) (j : Z),
    0 <= j -> col_inv c s0 (j + 1) s ->
    (if j >? 0 then
       pre_node <- py_index (Mesh.assigned_node_tag s) (j - 1) ;;
       cur_node <- py_index (Mesh.assigned_node_tag s) j ;;
       link s pre_node cur_node
     else Ok s) = Ok s' ->
    col_inv c s0 (j + 1) s'.
Proof.
  intros link Hlink c s0 s s' j Hj Hcol Hrun.
  destruct (Z.gtb_spec j 0) as [Hpos|Hzero].
  - pose proof Hcol as (HI & Hc & Ha & _).
    rewrite Ha in Hrun. rewrite !py_index_zseq in Hrun by lia. simpl in Hrun.
    destruct (Hlink s (c + (j - 1)) (c + j) s' HI ltac:(lia) Hrun) as [HI' Hf].
    exact (col_inv_frame c s0 s s' (j + 1) Hcol HI' Hf).
  - inversion Hrun; subst. exact Hcol.
Qed.

(** The stations of the skew mesh. *)
Lemma fixed_sweep_station_inv : forall (x_count : Z) (x_inc : F) (s s' : Mesh.t F),
  Inv s -> Mesh.assigned_node_tag s = [] ->
  Mesh.fixed_sweep_station e x_count x_inc s = Ok s' ->
  col_inv (Mesh.node_counter s) s (len (Mesh.sweeping_nodes e)) s'.
Proof.
  intros x_count x_inc s s' HI Ha Hrun. unfold Mesh.fixed_sweep_station, enumerate in Hrun.
  refine (foldM_enumerate_invariant _ _ (col_inv (Mesh.node_counter s) s) _ _ 0 _ s s'
            (col_inv_start s HI Ha) Hrun).
  intros j ref_point s1 s2 Hj _ Hcol Hbody. cbv beta iota in Hbody. bind_inv Hbody.
  apply (col_inv_link
           (fun st pre cur =>
              '(tag, st1) <- Mesh.get_geo_transform_tag e st (pre, cur) ;;
              Ok (Mesh.set_element_counter
                    (Mesh.set_trans_ele st1
                       (Mesh.trans_ele st1 ++
                        [Mesh.mk_ele (Mesh.element_counter st1) pre cur x_count tag]))
                    (Mesh.element_counter st1 + 1)))) with (s := Mesh.place_node s1
             (Coord (cx ref_point + x_inc)%fl (cy ref_point)
                (cz ref_point + fround (Mesh.decimal_lim e)
                   (select_segment_function (Mesh.curve e) (Mesh.d e) r r x_inc (Mesh.r e)))%fl)
             x_count j).
  - intros st pre cur st' HIst Hne Hl. bind_inv Hl. destruct r0 as [tag st1].
    inversion Hl; subst; clear Hl.
    destruct (tagged_ele_ok e n0 t0 _ _ _ _ _ (Mesh.element_counter st1) x_count HIst Hne Hr0)
      as (HI1 & Hf & Hel).
    destruct (append_trans_inv e n0 t0 st1 _ (Mesh.element_counter st1 + 1) HI1 Hel) as [HI2 Hf2].
    split; [exact HI2 | exact (frame_trans _ _ _ Hf Hf2)].
  - lia.
  - apply col_inv_place; [lia | exact Hcol].
  - exact Hbody.
Qed.

(** The columns of the uniform region. *)
Lemma place_uniform_column_inv : forall (x z : F) (column : list (coord F)) (s s' : Mesh.t F),
  Inv s -> Mesh.assigned_node_tag s = [] ->
  Mesh.place_uniform_column e x z column s = Ok s' ->
  col_inv (Mesh.node_counter s) s (len column) s'.
Proof.
  intros x z column s s' HI Ha Hrun. unfold Mesh.place_uniform_column, enumerate in Hrun.
  refine (foldM_enumerate_invariant _ _ (col_inv (Mesh.node_counter s) s) _ _ 0 _ s s'
            (col_inv_start s HI Ha) Hrun).
  intros j nodes s1 s2 Hj _ Hcol Hbody. cbv beta iota in Hbody.
  apply (col_inv_link (Mesh.assign_transverse_members e))
    with (s := Mesh.place_node s1 (Coord (cx nodes + x)%fl (cy nodes) (cz nodes + z)%fl)
                 (Mesh.global_x_grid_count s1) j).
  - intros st pre cur st'. apply assign_transverse_members_inv.
  - lia.
  - apply col_inv_place; [lia | exact Hcol].
  - exact Hbody.
Qed.

(** The columns of a search region. *)
Lemma place_sweep_column_inv : forall (x z : F) (column : list (coord F)) (s s' : Mesh.t F),
  Inv s -> Mesh.assigned_node_tag s = [] ->
  Mesh.place_sweep_column e x z column s = Ok s' ->
  col_inv (Mesh.node_counter s) s (len column) s'.
Proof.
  intros x z column s s' HI Ha Hrun. unfold Mesh.place_sweep_column, enumerate in Hrun.
  refine (foldM_enumerate_invariant _ _ (col_inv (Mesh.node_counter s) s) _ _ 0 _ s s'
            (col_inv_start s HI Ha) Hrun).
  intros j nodes s1 s2 Hj _ Hcol Hbody. cbv beta iota in Hbody. bind_inv Hbody. bind_inv Hbody.
  apply (col_inv_link (Mesh.assign_transverse_members e))
    with (s := Mesh.place_node s1 (Coord (cx nodes + x)%fl (cy nodes) (cz nodes + z)%fl)
                 (Mesh.global_x_grid_count s1) r0).
  - intros st pre cur st'. apply assign_transverse_members_inv.
  - lia.
  - apply col_inv_place; [lia | exact Hcol].
  - exact Hbody.
Qed.

End Columns.

(** ** The meshing procedures keep the invariant *)

Section Procedures.
Context {F : Type} `{FloatOps F} `{Static F}.
Variable e : Mesh.env F.
Variables n0 t0 : Z.

Local Notation "'Inv'" := (Mesh.Inv e n0 t0).
Local Notation "'col_inv'" := (Mesh.col_inv e n0 t0).
Local Notation "'edge_col_inv'" := (Mesh.edge_col_inv e n0 t0).
Local Notation "'cols_ok'" := (Mesh.cols_ok e n0 t0).

(** Closes the goals about states that differ from a state with the
    invariant in bookkeeping fields only. *)
Ltac same_mesh HI :=
  apply (Inv_same_mesh e n0 t0 _ _ HI); reflexivity.

(** *** The skew mesh *)

Lemma fixed_sweep_step_inv : forall (s s' : Mesh.t F) (x : Z * F),
  cols_ok s -> Mesh.fixed_sweep_step e s x = Ok s' -> cols_ok s'.
Proof.
  intros s s' [x_count x_inc] (HI & Ha & Hp & Hf & He) Hrun.
  unfold Mesh.fixed_sweep_step in Hrun. bind_inv Hrun. bind_inv Hrun.
  inversion Hrun; subst; clear Hrun.
  destruct (fixed_sweep_station_inv e n0 t0 _ _ _ _ HI Ha Hr)
    as (HI1 & Hc1 & Ha1 & Hp1 & Hf1 & He1 & _).
  assert (Hgrow : Mesh.node_counter s <= Mesh.node_counter r).
  { rewrite Hc1. unfold len. lia. }
  assert (Hcol : Forall (fun x => x < Mesh.node_counter r) (Mesh.assigned_node_tag r)).
  { rewrite Ha1, Hc1. unfold len. rewrite Nat2Z.id. apply zseq_lt. }
  assert (Hgoal : Inv r0
                  /\ Mesh.node_counter r0 = Mesh.node_counter r
                  /\ Forall (fun x => x < Mesh.node_counter r) (Mesh.previous_node_tag r0)
                  /\ Mesh.first_connecting_region_nodes r0 = Mesh.first_connecting_region_nodes r
                  /\ Mesh.end_connecting_region_nodes r0 = Mesh.end_connecting_region_nodes r).
  { destruct (x_count =? 0).
    - inversion Hr0; subst; clear Hr0. rewrite record_edge_nodes_eq. simpl.
      split; [same_mesh HI1|]. repeat split. exact Hcol.
    - destruct (x_count >? 0).
      + bind_inv Hr0.
        assert (Hdisj : forall q, In q (Mesh.previous_node_tag r) ->
                                  ~ In q (Mesh.assigned_node_tag r)).
        { rewrite Hp1, Ha1. apply below_not_in_zseq. exact Hp. }
        destruct (link_longitudinal_inv e n0 t0 _ _ _ _ HI1 Hdisj Hr1)
          as [HI2 (B1 & B2 & B3 & B4 & B5 & B6 & _)].
        destruct (x_count =? len (Mesh.nox e) - 1); inversion Hr0; subst; clear Hr0.
        * rewrite record_edge_nodes_eq. simpl.
          split; [same_mesh HI2|]. rewrite B1, B3, B5, B6. repeat split. exact Hcol.
        * simpl. split; [same_mesh HI2|]. rewrite B1, B3, B5, B6. repeat split. exact Hcol.
      + inversion Hr0; subst; clear Hr0. split; [exact HI1|]. repeat split.
        rewrite Hp1. exact (Forall_lt_weaken _ _ _ Hgrow Hp). }
  destruct Hgoal as (HI3 & Hc3 & Hp3 & Hf3 & He3).
  unfold Mesh.cols_ok. simpl. split; [same_mesh HI3|]. split; [reflexivity|].
  rewrite Hc3, Hf3, He3, Hf1, He1.
  split; [exact Hp3|].
  split; [exact (Forall_lt_weaken _ _ _ Hgrow Hf) | exact (Forall_lt_weaken _ _ _ Hgrow He)].
Qed.

Lemma fixed_sweep_node_meshing_inv : forall s s' : Mesh.t F,
  Inv s ->
  Forall (fun x => x < Mesh.node_counter s) (Mesh.first_connecting_region_nodes s) ->
  Forall (fun x => x < Mesh.node_counter s) (Mesh.end_connecting_region_nodes s) ->
  Mesh.fixed_sweep_node_meshing e s = Ok s' -> Inv s'.
Proof.
  intros s s' HI Hf He Hrun. unfold Mesh.fixed_sweep_node_meshing in Hrun.
  apply (foldM_invariant _ _ cols_ok) in Hrun.
  - destruct Hrun as [HI' _]. exact HI'.
  - intros st a st' _. apply fixed_sweep_step_inv.
  - unfold Mesh.cols_ok. simpl. split; [same_mesh HI|]. repeat split; try assumption.
    constructor.
Qed.

(** *** The edge regions of the orthogonal mesh *)

Lemma edge_line_as_is_inv : forall (at_start : bool) (s s' : Mesh.t F),
  cols_ok s -> Mesh.edge_line_as_is e at_start s = Ok s' ->
  edge_col_inv (Mesh.node_counter s) s
    (len (EdgeConstructionLine.node_list
            (if at_start then Mesh.start_edge_line e else Mesh.end_edge_line e))) s'.
Proof.
  intros at_start s s' (HI & Ha & Hp & Hf & He) Hrun.
  unfold Mesh.edge_line_as_is, enumerate in Hrun.
  refine (foldM_enumerate_invariant _ _ (edge_col_inv (Mesh.node_counter s) s) _ _ 0 _ s s' _ Hrun).
  - intros j nodes s1 s2 Hj _ (HI1 & Hc1 & Ha1 & Hp1 & Hf1 & He1) Hbody.
    cbv beta iota in Hbody. bind_inv Hbody.
    set (s1' := Mesh.place_node s1 _ _ _) in *.
    destruct (place_node_inv e n0 t0 s1
                (Coord (cx nodes + (if at_start then cx (Mesh.mesh_origin e) else fz 0))%fl
                       (cy nodes)
                       (cz nodes + (if at_start then cz (Mesh.mesh_origin e) else fz 0))%fl)
                (Mesh.global_x_grid_count s1) j HI1)
      as (HI2 & Hc2 & Ha2 & Hp2 & Hf2 & He2 & _).
    fold s1' in HI2, Hc2, Ha2, Hp2, Hf2, He2.
    assert (Hseq : Mesh.assigned_node_tag s1' = zseq (Mesh.node_counter s) (Z.to_nat (j + 1))).
    { rewrite Ha2, Ha1, Hc1. replace (Z.to_nat (j + 1)) with (S (Z.to_nat j)) by lia.
      rewrite zseq_snoc. do 2 f_equal. lia. }
    assert (Hlink : Inv r /\ Mesh.frame s1' r).
    { destruct (Z.gtb_spec j 0) as [Hpos|Hzero].
      - destruct (len (Mesh.assigned_node_tag s1') >=? 1).
        + rewrite Hseq in Hr. rewrite !py_index_zseq in Hr by lia. simpl in Hr.
          bind_inv Hr. inversion Hr; subst; clear Hr.
          assert (Hne : Mesh.node_counter s + (j - 1) <> Mesh.node_counter s + j) by lia.
          destruct (assign_edge_trans_members_inv e n0 t0 _ _ _ _ _ HI2 Hne Hr0)
            as [HI3 Hfr].
          split; [same_mesh HI3|].
          eapply frame_trans; [exact Hfr|]. unfold Mesh.frame. simpl. repeat split.
        + inversion Hr; subst. split; [exact HI2 | apply frame_refl].
      - inversion Hr; subst. split; [exact HI2 | apply frame_refl]. }
    destruct Hlink as [HI3 (B1 & B2 & B3 & B4 & B5 & B6 & _)].
    assert (Hbound : Forall (fun x => x < Mesh.node_counter s + (j + 1)) (Mesh.assigned_node_tag r)).
    { rewrite B3, Hseq. apply Forall_forall. intros x Hx. apply zseq_In in Hx. lia. }
    assert (Hf3 : Forall (fun x => x < Mesh.node_counter s + (j + 1))
                         (Mesh.first_connecting_region_nodes r)).
    { rewrite B5, Hf2. apply (Forall_lt_weaken _ (Mesh.node_counter s + j)); [lia | exact Hf1]. }
    assert (He3 : Forall (fun x => x < Mesh.node_counter s + (j + 1))
                         (Mesh.end_connecting_region_nodes r)).
    { rewrite B6, He2. apply (Forall_lt_weaken _ (Mesh.node_counter s + j)); [lia | exact He1]. }
    assert (Hbase : edge_col_inv (Mesh.node_counter s) s (j + 1) r).
    { unfold Mesh.edge_col_inv. split; [exact HI3|]. rewrite B1, B3, B4, Hc2, Hc1, Hp2, Hp1.
      split; [lia|]. split; [exact Hseq|]. split; [reflexivity|]. split; assumption. }
    destruct (len (Mesh.assigned_node_tag r) =? len (Mesh.noz e));
      inversion Hbody; subst; clear Hbody; [|exact Hbase].
    destruct Hbase as (_ & C2 & C3 & C4 & C5 & C6).
    destruct at_start; unfold Mesh.edge_col_inv; simpl;
      (split; [same_mesh HI3|]); repeat split; assumption.
  - unfold Mesh.edge_col_inv. rewrite Ha, Z.add_0_r. simpl.
    split; [exact HI|]. repeat split; assumption.
Qed.

(** The skewed edge member joins a node of the previous column and a node
    of the column just placed. *)
Lemma link_skew_edge_inv : forall (at_start : bool) (s s' : Mesh.t F),
  Inv s ->
  (forall p, In p (Mesh.previous_node_tag s) -> ~ In p (Mesh.assigned_node_tag s)) ->
  Mesh.link_skew_edge e at_start s = Ok s' ->
  Inv s' /\ Mesh.frame s s'.
Proof.
  intros at_start s s' HI Hdisj Hrun. unfold Mesh.link_skew_edge in Hrun.
  assert (Hlink : forall i st,
             (pre_node <- py_index (Mesh.previous_node_tag s) i ;;
              cur_node <- py_index (Mesh.assigned_node_tag s) i ;;
              self <- Mesh.assign_edge_trans_members e s pre_node cur_node
                        (Mesh.global_edge_count s) ;;
              Ok (Mesh.set_edge_node_recorder
                    (Mesh.set_edge_node_recorder self
                       (setdefault Z.eqb pre_node (Mesh.global_edge_count self)
                          (Mesh.edge_node_recorder self)))
                    (setdefault Z.eqb cur_node
                       (Mesh.global_edge_count
                          (Mesh.set_edge_node_recorder self
                             (setdefault Z.eqb pre_node (Mesh.global_edge_count self)
                                (Mesh.edge_node_recorder self))))
                       (Mesh.edge_node_recorder
                          (Mesh.set_edge_node_recorder self
                             (setdefault Z.eqb pre_node (Mesh.global_edge_count self)
                                (Mesh.edge_node_recorder self))))))) = Ok st ->
             Inv st /\ Mesh.frame s st).
  { intros i st Hst. bind_inv Hst. bind_inv Hst. bind_inv Hst.
    inversion Hst; subst; clear Hst.
    assert (Hne : r <> r0).
    { intro Heq. subst r0. apply (Hdisj r); eapply py_index_In; eassumption. }
    destruct (assign_edge_trans_members_inv e n0 t0 _ _ _ _ _ HI Hne Hr1) as [HI1 Hf1].
    split; [same_mesh HI1|].
    eapply frame_trans; [exact Hf1|]. unfold Mesh.frame. simpl. repeat split. }
  destruct (len (Mesh.assigned_node_tag s) >=? 1);
    [|inversion Hrun; subst; split; [exact HI | apply frame_refl]].
  destruct (fgtb _ _); [eapply Hlink; exact Hrun|].
  destruct (fltb _ _); [eapply Hlink; exact Hrun|].
  inversion Hrun; subst; split; [exact HI | apply frame_refl].
Qed.

Lemma select_sweep_nodes_same : forall (at_start : bool) (zc zg : Z) (cur : list (coord F))
                                       (s : Mesh.t F),
  let s' := Mesh.select_sweep_nodes e at_start zc zg cur s in
  Mesh.node_counter s' = Mesh.node_counter s
  /\ Mesh.node_spec s' = Mesh.node_spec s
  /\ Mesh.transform_dict s' = Mesh.transform_dict s
  /\ Mesh.transform_counter s' = Mesh.transform_counter s
  /\ Mesh.all_ele s' = Mesh.all_ele s
  /\ Mesh.assigned_node_tag s' = Mesh.assigned_node_tag s
  /\ Mesh.previous_node_tag s' = Mesh.previous_node_tag s
  /\ Mesh.first_connecting_region_nodes s' = Mesh.first_connecting_region_nodes s
  /\ Mesh.end_connecting_region_nodes s' = Mesh.end_connecting_region_nodes s.
Proof.
  intros at_start zc zg cur s. unfold Mesh.select_sweep_nodes.
  destruct (fgtb _ _); [destruct at_start; simpl; repeat split|].
  destruct (fltb _ _); [destruct at_start; simpl; repeat split|].
  simpl. repeat split.
Qed.

Lemma edge_search_step_inv : forall (at_start : bool) (s s' : Mesh.t F) (p : Z * coord F),
  cols_ok s -> Mesh.edge_search_step e at_start s p = Ok s' -> cols_ok s'.
Proof.
  intros at_start s s' [z_count int_point] (HI & Ha & Hp & Hf & He) Hrun.
  unfold Mesh.edge_search_step in Hrun.
  apply bind_ok in Hrun. destruct Hrun as [[ref_x ref_z] [Hsearch Hrun]].
  cbv beta iota zeta in Hrun.
  destruct (get_slope (Coord ref_x (Mesh.y_elevation e) ref_z) int_point) as [m_prime phi].
  apply bind_ok in Hrun. destruct Hrun as [z_group [Hgroup Hrun]].
  apply bind_ok in Hrun. destruct Hrun as [column [Hcolumn Hrun]].
  apply bind_ok in Hrun. destruct Hrun as [s3 [Hplace Hrun]].
  apply bind_ok in Hrun. destruct Hrun as [s5 [Hjoin Hrun]].
  inversion Hrun; subst; clear Hrun.
  set (s2 := Mesh.select_sweep_nodes e at_start z_count z_group _ _) in *.
  destruct (select_sweep_nodes_same at_start z_count z_group
              (Mesh.rotate_sweep_nodes e
                 (if at_start && fgtb (Mesh.skew_1 e) (fz 0)
                  then farctan (Mesh.zeta e / fz 180 * fpi)%fl
                  else (fpi / fz 2 - fabs phi)%fl))
              (Mesh.set_sweep_path_points s
                 (Mesh.sweep_path_points s ++ [Coord ref_x (Mesh.y_elevation e) ref_z])))
    as (S1 & S2 & S3 & S4 & S5 & S6 & S7 & S8 & S9).
  fold s2 in S1, S2, S3, S4, S5, S6, S7, S8, S9. simpl in S1, S2, S3, S4, S5, S6, S7, S8, S9.
  assert (HI2 : Inv s2) by (apply (Inv_same_mesh e n0 t0 s); assumption).
  assert (Ha2 : Mesh.assigned_node_tag s2 = []) by (rewrite S6; exact Ha).
  destruct (place_sweep_column_inv e n0 t0 _ _ _ _ _ HI2 Ha2 Hplace)
    as (HI3 & Hc3 & Ha3 & Hp3 & Hf3 & He3 & _).
  rewrite S1 in Hc3, Ha3. rewrite S7 in Hp3. rewrite S8 in Hf3. rewrite S9 in He3.
  assert (Hgrow : Mesh.node_counter s <= Mesh.node_counter s3).
  { rewrite Hc3. unfold len. lia. }
  assert (Hcol : Forall (fun x => x < Mesh.node_counter s3) (Mesh.assigned_node_tag s3)).
  { rewrite Ha3, Hc3. unfold len. rewrite Nat2Z.id. apply zseq_lt. }
  assert (Hgoal : Inv s5
                  /\ Mesh.node_counter s5 = Mesh.node_counter s3
                  /\ Mesh.assigned_node_tag s5 = Mesh.assigned_node_tag s3
                  /\ Forall (fun x => x < Mesh.node_counter s3) (Mesh.previous_node_tag s5)
                  /\ Mesh.first_connecting_region_nodes s5 = Mesh.first_connecting_region_nodes s3
                  /\ Mesh.end_connecting_region_nodes s5 = Mesh.end_connecting_region_nodes s3).
  { destruct (Z.gtb_spec z_count 0) as [Hpos|Hnpos].
    - destruct (Z.eqb_spec z_count 0) as [Hz|_]; [lia|].
      bind_inv Hjoin. bind_inv Hjoin. inversion Hjoin; subst; clear Hjoin.
      assert (Hdisj : forall q, In q (Mesh.previous_node_tag s3) ->
                                ~ In q (Mesh.assigned_node_tag s3)).
      { rewrite Hp3, Ha3. apply below_not_in_zseq. exact Hp. }
      destruct (link_longitudinal_inv e n0 t0 _ _ _ _ HI3 Hdisj Hr)
        as [HI4 (B1 & B2 & B3 & B4 & B5 & B6 & _)].
      assert (Hdisj4 : forall q, In q (Mesh.previous_node_tag r) ->
                                 ~ In q (Mesh.assigned_node_tag r)).
      { rewrite B3, B4. exact Hdisj. }
      destruct (link_skew_edge_inv at_start _ _ HI4 Hdisj4 Hr0)
        as [HI5 (C1 & C2 & C3 & C4 & C5 & C6 & _)].
      simpl. split; [same_mesh HI5|]. rewrite C1, C3, C5, C6, B1, B3, B5, B6.
      repeat split. exact Hcol.
    - inversion Hjoin; subst; clear Hjoin.
      destruct (z_count =? 0); simpl.
      + split; [same_mesh HI3|]. repeat split. exact Hcol.
      + split; [exact HI3|]. repeat split. rewrite Hp3.
        exact (Forall_lt_weaken _ _ _ Hgrow Hp). }
  destruct Hgoal as (HI5 & Hc5 & Ha5 & Hp5 & Hf5 & He5).
  unfold Mesh.cols_ok.
  destruct (len _ =? len (Mesh.noz e)); [destruct at_start|]; simpl;
    (split; [same_mesh HI5|]); (split; [reflexivity|]);
    rewrite ?Hc5, ?Ha5, ?Hf5, ?He5, ?Hf3, ?He3;
    repeat split;
    first [ exact Hp5 | exact Hcol
          | exact (Forall_lt_weaken _ _ _ Hgrow Hf)
          | exact (Forall_lt_weaken _ _ _ Hgrow He) ].
Qed.

(** An edge region leaves the recorded columns sound; the first region
    also leaves no column open. *)
Lemma edge_region_inv : forall (at_start : bool) (s s' : Mesh.t F),
  cols_ok s -> Mesh.edge_region e at_start s = Ok s' ->
  cols_ok (Mesh.set_assigned_node_tag s' [])
  /\ (at_start = true -> Mesh.assigned_node_tag s' = []).
Proof.
  intros at_start s s' Hok Hrun. unfold Mesh.edge_region in Hrun.
  destruct (fltb _ _).
  - bind_inv Hrun. inversion Hrun; subst; clear Hrun.
    destruct (edge_line_as_is_inv at_start s r Hok Hr) as (HI1 & Hc1 & Ha1 & Hp1 & Hf1 & He1).
    destruct Hok as (HI & Ha & Hp & Hf & He).
    rewrite <- Hc1 in Hf1, He1.
    assert (Hgrow : Mesh.node_counter s <= Mesh.node_counter r).
    { rewrite Hc1. unfold len. lia. }
    destruct at_start; unfold Mesh.cols_ok; simpl;
      (split; [split; [same_mesh HI1|]; split; [reflexivity|]; rewrite Hp1;
               split; [exact (Forall_lt_weaken _ _ _ Hgrow Hp) | split; assumption]
              | try (intros _; reflexivity); try discriminate ]).
  - bind_inv Hrun. inversion Hrun; subst; clear Hrun.
    apply (foldM_invariant _ _ cols_ok) in Hr.
    + destruct Hr as (HI1 & Ha1 & Hp1 & Hf1 & He1). unfold Mesh.cols_ok. simpl.
      split; [|intros _; exact Ha1].
      split; [same_mesh HI1|]. repeat split; assumption.
    + intros st a st' _. apply edge_search_step_inv.
    + exact Hok.
Qed.


(** *** The uniform region and the whole orthogonal mesh *)

Lemma uniform_step_inv : forall (n_inner j : Z) (x : F) (s s' : Mesh.t F),
  0 <= j < n_inner ->
  Mesh.uniform_inv e n0 t0 n_inner j s ->
  Mesh.uniform_step e n_inner s (j, x) = Ok s' ->
  Mesh.uniform_inv e n0 t0 n_inner (j + 1) s'.
Proof.
  intros n_inner j x s s' Hj (HI & Hp & Hf & He & Ha & _) Hrun.
  specialize (Ha ltac:(lia)).
  unfold Mesh.uniform_step in Hrun.
  apply bind_ok in Hrun. destruct Hrun as [z [Hz Hrun]].
  apply bind_ok in Hrun. destruct Hrun as [s1 [Hplace Hrun]].
  apply bind_ok in Hrun. destruct Hrun as [s3 [Hjoin Hrun]].
  inversion Hrun; subst; clear Hrun.
  destruct (place_uniform_column_inv e n0 t0 _ _ _ _ _ HI Ha Hplace)
    as (HI1 & Hc1 & Ha1 & Hp1 & Hf1 & He1 & _).
  set (n_col := len (Mesh.rotate_sweep_nodes e (Mesh.zeta e / fz 180 * fpi)%fl)) in *.
  assert (Hgrow : Mesh.node_counter s <= Mesh.node_counter s1).
  { rewrite Hc1. unfold n_col, len. lia. }
  assert (Hcol : Forall (fun x => x < Mesh.node_counter s1) (Mesh.assigned_node_tag s1)).
  { rewrite Ha1, Hc1. apply Forall_forall. intros y Hy. apply zseq_In in Hy.
    unfold n_col, len in *. lia. }
  set (s2 := if j =? 0
             then Mesh.set_previous_node_tag s1 (Mesh.first_connecting_region_nodes s1)
             else s1) in *.
  assert (Hs2 : Inv s2
                /\ Mesh.node_counter s2 = Mesh.node_counter s1
                /\ Mesh.assigned_node_tag s2 = Mesh.assigned_node_tag s1
                /\ Forall (fun x => x < Mesh.node_counter s) (Mesh.previous_node_tag s2)
                /\ Mesh.first_connecting_region_nodes s2 = Mesh.first_connecting_region_nodes s1
                /\ Mesh.end_connecting_region_nodes s2 = Mesh.end_connecting_region_nodes s1).
  { unfold s2. destruct (j =? 0); simpl.
    - split; [same_mesh HI1|]. repeat split. rewrite Hf1. exact Hf.
    - split; [exact HI1|]. repeat split. rewrite Hp1. exact Hp. }
  destruct Hs2 as (HI2 & Hc2 & Ha2 & Hp2 & Hf2 & He2).
  assert (Hdisj : forall q, In q (Mesh.previous_node_tag s2) ->
                            ~ In q (Mesh.assigned_node_tag s2)).
  { rewrite Ha2, Ha1. apply below_not_in_zseq. exact Hp2. }
  destruct (link_longitudinal_inv e n0 t0 _ _ _ _ HI2 Hdisj Hjoin)
    as [HI3 (B1 & B2 & B3 & B4 & B5 & B6 & _)].
  assert (Hend : Forall (fun x => x < Mesh.node_counter s) (Mesh.end_connecting_region_nodes s3)).
  { rewrite B6, He2, He1. exact He. }
  unfold Mesh.uniform_inv.
  destruct (negb (j =? n_inner - 1)) eqn:Hlast; simpl;
    (split; [same_mesh HI3|]);
    rewrite ?B1, ?B3, ?B5, ?B6, ?Hc2, ?Ha2, ?Hf2, ?He2, ?Hf1, ?He1;
    (split; [exact Hcol|]);
    (split; [exact (Forall_lt_weaken _ _ _ Hgrow Hf)|]);
    (split; [exact (Forall_lt_weaken _ _ _ Hgrow He)|]).
  - split; [reflexivity | intros q _ []].
  - split.
    + intro Hlt. apply negb_false_iff in Hlast. apply Z.eqb_eq in Hlast. lia.
    + intros q Hq Hin. rewrite Ha1 in Hq. apply zseq_In in Hq.
      rewrite Forall_forall in He. specialize (He q Hin). simpl in He. lia.
Qed.

Lemma uniform_region_inv : forall s s' : Mesh.t F,
  cols_ok s -> Mesh.uniform_region e s = Ok s' -> Inv s'.
Proof.
  intros s s' (HI & Ha & Hp & Hf & He) Hrun. unfold Mesh.uniform_region in Hrun.
  apply bind_ok in Hrun. destruct Hrun as [x_first [_ Hrun]].
  apply bind_ok in Hrun. destruct Hrun as [x_second [_ Hrun]].
  apply bind_ok in Hrun. destruct Hrun as [n_first [_ Hrun]].
  apply bind_ok in Hrun. destruct Hrun as [n_second [_ Hrun]].
  apply bind_ok in Hrun. destruct Hrun as [xs [_ Hrun]].
  apply bind_ok in Hrun. destruct Hrun as [s1 [Hloop Hrun]].
  unfold enumerate in Hloop.
  assert (H1 : Mesh.uniform_inv e n0 t0 (len (slice_inner xs)) (0 + len (slice_inner xs)) s1).
  { refine (foldM_enumerate_invariant _ _ (Mesh.uniform_inv e n0 t0 (len (slice_inner xs)))
              _ _ 0 _ s s1 _ Hloop).
    - intros j a st st' Hj _ Hst Hbody. apply (uniform_step_inv _ j a st st'); [lia | exact Hst | exact Hbody].
    - unfold Mesh.uniform_inv. split; [exact HI|].
      split; [exact Hp|]. split; [exact Hf|]. split; [exact He|].
      split; [intros _; exact Ha|]. rewrite Ha. intros q _ []. }
  destruct H1 as (HI1 & _ & _ & _ & _ & Hdisj).
  destruct (link_longitudinal_inv e n0 t0 _ _ _ _ HI1 Hdisj Hrun) as [HI2 _]. exact HI2.
Qed.

Lemma orthogonal_meshing_inv : forall s s' : Mesh.t F,
  Inv s ->
  Forall (fun x => x < Mesh.node_counter s) (Mesh.first_connecting_region_nodes s) ->
  Forall (fun x => x < Mesh.node_counter s) (Mesh.end_connecting_region_nodes s) ->
  Mesh.orthogonal_meshing e s = Ok s' -> Inv s'.
Proof.
  intros s s' HI Hf He Hrun. unfold Mesh.orthogonal_meshing in Hrun.
  apply bind_ok in Hrun. destruct Hrun as [s1 [Hstart Hrun]].
  apply bind_ok in Hrun. destruct Hrun as [z [_ Hrun]].
  apply bind_ok in Hrun. destruct Hrun as [s2 [Hend Hrun]].
  assert (H0' : cols_ok (Mesh.set_sweep_path_points
                          (Mesh.set_previous_node_tag (Mesh.set_assigned_node_tag s []) []) [])).
  { unfold Mesh.cols_ok. simpl. split; [same_mesh HI|]. repeat split; try assumption.
    constructor. }
  destruct (edge_region_inv true _ _ H0' Hstart) as [H1 Hopen].
  assert (H1' : cols_ok s1).
  { specialize (Hopen eq_refl). destruct H1 as (A1 & A2 & A3 & A4 & A5). simpl in *.
    unfold Mesh.cols_ok. split; [apply (Inv_same_mesh e n0 t0 _ _ A1); reflexivity|].
    repeat split; assumption. }
  destruct (edge_region_inv false _ _ H1' Hend) as [H2 _].
  exact (uniform_region_inv _ _ H2 Hrun).
Qed.

Lemma run_meshing_inv : forall s s' : Mesh.t F,
  Inv s ->
  Forall (fun x => x < Mesh.node_counter s) (Mesh.first_connecting_region_nodes s) ->
  Forall (fun x => x < Mesh.node_counter s) (Mesh.end_connecting_region_nodes s) ->
  Mesh.run_meshing e s = Ok s' -> Inv s'.
Proof.
  intros s s' HI Hf He Hrun. unfold Mesh.run_meshing in Hrun.
  destruct (Mesh.orthogonal e); [exact (orthogonal_meshing_inv s s' HI Hf He Hrun)|].
  destruct (negb (Mesh.curve e)); [exact (fixed_sweep_node_meshing_inv s s' HI Hf He Hrun)|].
  inversion Hrun; subst. exact HI.
Qed.

End Procedures.

(** ** Finished constructions *)

Section Construction.
Context {F : Type} `{FloatOps F} `{Static F}.

Lemma initial_state_inv : forall (e : Mesh.env F) (a : Mesh.args F)
                                 (g : option (list (coord F)) * option (list Z)),
  Mesh.Inv e (Mesh.arg_node_counter a) (Mesh.arg_transform_counter a) (Mesh.initial_state a g).
Proof.
  intros e a g. constructor; simpl.
  - lia.
  - rewrite Z.sub_diag. reflexivity.
  - intros k nd [].
  - unfold Mesh.registry_ok, len. simpl. split; [constructor|]. split; [reflexivity | lia].
  - intros el [].
Qed.

(** Every finished construction satisfies the invariant, for the counters
    it was started with. *)
Lemma init_from_inv : forall (g : option (list (coord F)) * option (list Z))
                             (a : Mesh.args F) (m : Mesh.mesh F),
  Mesh.init_from g a = Ok m ->
  Mesh.Inv (Mesh.mesh_env m) (Mesh.arg_node_counter a) (Mesh.arg_transform_counter a)
           (Mesh.mesh_state m).
Proof.
  intros g a m Hrun. unfold Mesh.init_from in Hrun.
  apply bind_ok in Hrun. destruct Hrun as [e [_ Hrun]].
  apply bind_ok in Hrun. destruct Hrun as [s [Hmesh Hrun]].
  apply bind_ok in Hrun. destruct Hrun as [grp [_ Hrun]].
  inversion Hrun; subst; clear Hrun. simpl.
  apply (run_meshing_inv e _ _ (Mesh.initial_state a g) s); try exact Hmesh.
  - apply initial_state_inv.
  - simpl. constructor.
  - simpl. constructor.
Qed.

End Construction.

(** ** Nodes, elements and transforms of a finished mesh *)


Section FinishedMesh.
Context {F : Type} `{FloatOps F} `{Static F}.

(** C2: in every finished construction started with the node counter at
    its default 1, the keys of [node_spec] are exactly 1, 2, ...,
    [node_counter - 1], in this order: unique, from 1 on and without gaps.
    Every entry stores its key as its ['tag'], and placing a node files it
    under the current counter and moves the counter up by one. *)
Theorem node_tags_contiguous :
  forall (g : option (list (coord F)) * option (list Z)) (a : Mesh.args F) (m : Mesh.mesh F),
  Mesh.arg_node_counter a = 1 ->
  Mesh.init_from g a = Ok m ->
  let s := Mesh.mesh_state m in
  1 <= Mesh.node_counter s
  /\ keys (Mesh.node_spec s) = zseq 1 (Z.to_nat (Mesh.node_counter s - 1))
  /\ NoDup (keys (Mesh.node_spec s))
  /\ (forall k nd, In (k, nd) (Mesh.node_spec s) -> Mesh.tag nd = k)
  /\ (forall (st : Mesh.t F) (co : coord F) (xg zg : Z),
        Mesh.node_counter (Mesh.place_node st co xg zg) = Mesh.node_counter st + 1
        /\ exists nd, dict_get Z.eqb (Mesh.node_counter st)
                               (Mesh.node_spec (Mesh.place_node st co xg zg)) = Some nd
                      /\ (~ In (Mesh.node_counter st) (keys (Mesh.node_spec st)) ->
                          Mesh.tag nd = Mesh.node_counter st)).
Proof.
  intros g a m Hdefault Hrun s.
  pose proof (init_from_inv g a m Hrun) as [I1 I2 I3 _ _]. fold s in I1, I2, I3.
  rewrite Hdefault in I1, I2.
  split; [exact I1|]. split; [exact I2|]. split; [rewrite I2; apply zseq_NoDup|].
  split; [exact I3|].
  intros st co xg zg. split; [reflexivity|].
  unfold Mesh.place_node. simpl.
  rewrite (setdefault_get Z.eqb Zeqb_eq). eexists. split; [reflexivity|].
  intro Hfresh. unfold setdefault_value, get_default.
  apply (dict_get_none Z.eqb Zeqb_eq) in Hfresh. rewrite Hfresh. reflexivity.
Qed.

(** The same for any starting value [n0] of the node counter. *)
Lemma node_tags_from_start :
  forall (g : option (list (coord F)) * option (list Z)) (a : Mesh.args F) (m : Mesh.mesh F),
  Mesh.init_from g a = Ok m ->
  keys (Mesh.node_spec (Mesh.mesh_state m))
  = zseq (Mesh.arg_node_counter a)
         (Z.to_nat (Mesh.node_counter (Mesh.mesh_state m) - Mesh.arg_node_counter a)).
Proof.
  intros g a m Hrun. exact (Mesh.inv_keys _ _ _ _ (init_from_inv g a m Hrun)).
Qed.

(** C3: in every finished construction, every record of [long_ele],
    [trans_ele] and [edge_span_ele] refers to two keys of [node_spec], and
    the two are different. *)
Theorem element_nodes_exist_and_differ :
  forall (g : option (list (coord F)) * option (list Z)) (a : Mesh.args F) (m : Mesh.mesh F),
  Mesh.init_from g a = Ok m ->
  let s := Mesh.mesh_state m in
  forall el,
    In el (Mesh.long_ele s) \/ In el (Mesh.trans_ele s) \/ In el (Mesh.edge_span_ele s) ->
    In (Mesh.node_i el) (keys (Mesh.node_spec s))
    /\ In (Mesh.node_j el) (keys (Mesh.node_spec s))
    /\ Mesh.node_i el <> Mesh.node_j el.
Proof.
  intros g a m Hrun s el Hin.
  pose proof (init_from_inv g a m Hrun) as [_ _ _ _ I5]. fold s in I5.
  assert (Hall : In el (Mesh.all_ele s)).
  { unfold Mesh.all_ele. rewrite !in_app_iff. exact Hin. }
  destruct (I5 el Hall) as [Hne [ni [nj [Hi [Hj _]]]]].
  split; [exact (dict_get_in_keys Z.eqb Zeqb_eq _ _ _ Hi)|].
  split; [exact (dict_get_in_keys Z.eqb Zeqb_eq _ _ _ Hj) | exact Hne].
Qed.


(** C5: the call [Mesh(10, 7, trans_dim, edge_width, 5, 7, 0, 0)], a skew
    mesh with every other argument at its default, finishes, whatever the
    two arguments without a default and whatever the arithmetic; it places
    the 35 nodes 1, ..., 35 and leaves the node counter at 36, it holds 30
    transverse and 28 longitudinal elements and no edge element, and it
    leaves the element counter at 59. *)
Theorem skew_scenario_counts : forall trans_dim edge_width : F,
  exists m : Mesh.mesh F,
    Mesh.init (Mesh.default_args (fz 10) (fz 7) trans_dim edge_width 5 7 (fz 0) (fz 0) false)
    = Ok m
    /\ Mesh.node_counter (Mesh.mesh_state m) = 36
    /\ keys (Mesh.node_spec (Mesh.mesh_state m)) = zseq 1 35
    /\ len (Mesh.trans_ele (Mesh.mesh_state m)) = (7 - 1) * 5
    /\ len (Mesh.long_ele (Mesh.mesh_state m)) = (5 - 1) * 7
    /\ len (Mesh.edge_span_ele (Mesh.mesh_state m)) = 0
    /\ Mesh.element_counter (Mesh.mesh_state m) = 58 + 1.
Proof.
  intros trans_dim edge_width.
  assert (Hcounts :
    Mesh.counts
      (Mesh.init (Mesh.default_args (fz 10) (fz 7) trans_dim edge_width 5 7 (fz 0) (fz 0) false))
    = Some (36, 59, 30, 28, 0, zseq 1 35)).
  { unfold Mesh.init, Mesh.init_from, Mesh.make_env.
    cbn [Mesh.arg_pt1 Mesh.arg_pt2 Mesh.arg_pt3 Mesh.default_args Mesh.arg_mesh_origin
         Mesh.arg_width Mesh.arg_edge_width Mesh.arg_skew_1 Mesh.arg_skew_2
         Mesh.arg_num_long_beam Mesh.arg_long_dim].
    (* the nodes of the first edge line do not depend on the sign test *)
    rewrite edge_line_init_eq. vm_compute. reflexivity. }
  destruct (Mesh.init _) as [m|ex]; unfold Mesh.counts in Hcounts; [|discriminate].
  exists m. split; [reflexivity|]. injection Hcounts as Hn He Ht Hl Hs Hk.
  rewrite Hn, He, Ht, Hl, Hs, Hk. repeat split.
Qed.

End FinishedMesh.

(** ** The scenarios of the mesh *)

Section MeshScenarios.
Import QFloat.
Local Open Scope Q_scope.

Lemma node_tags_contiguous_witness :
  exists m : Mesh.mesh Q,
    Mesh.init_from (None, None) Scenario.orthogonal_mesh_args = Ok m
    /\ (1 <= Mesh.node_counter (Mesh.mesh_state m))%Z
    /\ keys (Mesh.node_spec (Mesh.mesh_state m))
       = zseq 1 (Z.to_nat (Mesh.node_counter (Mesh.mesh_state m) - 1)).
Proof.
  eexists. split.
  - vm_compute. reflexivity.
  - split; apply (node_tags_contiguous (None, None) Scenario.orthogonal_mesh_args);
      vm_compute; reflexivity.
Defined.

Lemma element_nodes_exist_and_differ_witness :
  exists m : Mesh.mesh Q,
    Mesh.init_from (None, None) Scenario.orthogonal_mesh_args = Ok m
    /\ forall el,
         In el (Mesh.long_ele (Mesh.mesh_state m))
         \/ In el (Mesh.trans_ele (Mesh.mesh_state m))
         \/ In el (Mesh.edge_span_ele (Mesh.mesh_state m)) ->
         In (Mesh.node_i el) (keys (Mesh.node_spec (Mesh.mesh_state m)))
         /\ In (Mesh.node_j el) (keys (Mesh.node_spec (Mesh.mesh_state m)))
         /\ Mesh.node_i el <> Mesh.node_j el.
Proof.
  eexists. split.
  - vm_compute. reflexivity.
  - apply (element_nodes_exist_and_differ (None, None) Scenario.orthogonal_mesh_args).
    vm_compute. reflexivity.
Defined.


(** C6 at [Mesh(10, 7, 7, 1, 5, 2, 0, 0, orthogonal=True,
    mesh_origin=[3, 0, 0])]: the start column is placed at x = 6, the end
    column (x_group 1) at x = 10 and the three columns between them
    (x_group 2, 3, 4) at x = 10, 11, 12.
    Grid cell 1 has cell 2 as its ['right'] neighbour, and cell 2 has cell
    3, not cell 1, as its ['left'] neighbour. *)
Theorem shifted_origin_breaks_adjacency_symmetry :
  exists m : Mesh.mesh Q,
    Mesh.init Scenario.shifted_mesh_args = Ok m
    /\ map (fun p => Mesh.x_group (snd p)) (Mesh.node_spec (Mesh.mesh_state m))
       = [0; 0; 1; 1; 2; 2; 3; 3; 4; 4]%Z
    /\ map (fun p => cx (Mesh.coordinate (snd p))) (Mesh.node_spec (Mesh.mesh_state m))
       = [6; 6; 10; 10; 10; 10; 11; 11; 12; 12]
    /\ Mesh.right_of (Mesh.mesh_groups m) 1 = Some 2%Z
    /\ Mesh.left_of (Mesh.mesh_groups m) 2 = Some 3%Z.
Proof.
  eexists. split.
  - vm_compute. reflexivity.
  - vm_compute. repeat split.
Qed.

End MeshScenarios.

(* ================================================================== *)
(** * Further properties of the mesh engine                            *)
(* ================================================================== *)

(** ** The edge construction line, row by row *)

Section EdgeLineRows.
Context {F : Type} `{FloatOps F} `{Static F}.

Lemma linspace_length : forall (a b : F) (n : nat), length (linspace a b n) = n.
Proof.
  intros a b [|[|k]]; [reflexivity | reflexivity |].
  unfold linspace. rewrite length_app, length_map, zseq_length. simpl. lia.
Qed.

Lemma last_snoc : forall (A : Type) (l : list A) (x d : A), last (l ++ [x]) d = x.
Proof.
  intros A l x d. induction l as [|a t IH]; [reflexivity|].
  simpl. destruct (t ++ [x]) eqn:Ht; [destruct t; discriminate | exact IH].
Qed.

(** An edge construction line needs two longitudinal beams at least, the
    two edge beams; it then holds one node per beam, in the rows 0, ...,
    n - 1, the first at the offset 0 and the last at the width.  Every node
    is its offset [z], sheared by [- z tan(angle)] along x and moved to
    the reference point, whatever the sign of the angle.  With two beams
    the edge distance plays no part, and with three the inner beam sits at
    the edge distance. *)
Theorem edge_line_one_node_per_beam :
  forall (ref : coord F) (w ew angle : F) (n : Z) (y : F),
  (n < 2 -> EdgeConstructionLine.init ref w ew angle n y = Raise ValueError)
  /\ (2 <= n ->
      exists line,
        EdgeConstructionLine.init ref w ew angle n y = Ok line
        /\ len (EdgeConstructionLine.noz line) = n
        /\ len (EdgeConstructionLine.node_list line) = n
        /\ EdgeConstructionLine.z_group line = py_range 0 n
        /\ hd_error (EdgeConstructionLine.noz line) = Some (fz 0)
        /\ last (EdgeConstructionLine.noz line) (fz 0) = w
        /\ EdgeConstructionLine.node_list line
           = map (fun z => Coord (- (z * ftan (angle / fz 180 * fpi)) + cx ref)%fl
                                 (y + cy ref)%fl (z + cz ref)%fl)
                 (EdgeConstructionLine.noz line)
        /\ (n = 2 -> EdgeConstructionLine.noz line = [fz 0; w])
        /\ (n = 3 -> EdgeConstructionLine.noz line = [fz 0; ew; w])).
Proof.
  intros ref w ew angle n y. rewrite edge_line_init_eq. split.
  - intro Hn. destruct (Z.ltb_spec (n - 2) 0) as [_|Hge]; [reflexivity | lia].
  - intro Hn. destruct (Z.ltb_spec (n - 2) 0) as [Hlt|_]; [lia|].
    eexists. split; [reflexivity|]. cbn [EdgeConstructionLine.noz EdgeConstructionLine.node_list
                                          EdgeConstructionLine.z_group].
    assert (Hlen : len ((fz 0 :: linspace ew (w - ew)%fl (Z.to_nat (n - 2))) ++ [w]) = n).
    { unfold len. rewrite length_app. simpl. rewrite linspace_length. lia. }
    split; [exact Hlen|]. split.
    { unfold EdgeConstructionLine.edge_nodes, len in *. rewrite length_map. exact Hlen. }
    split; [rewrite Hlen; reflexivity|]. split; [reflexivity|].
    split; [apply last_snoc|]. split; [reflexivity|]. split.
    + intro H2. subst n. reflexivity.
    + intro H3. subst n. reflexivity.
Qed.

(** A coordinate that is an entry of the node list, equal to itself and
    to no entry before it, is found at its own position. *)
Theorem get_node_group_z_finds_own_row :
  forall (line : EdgeConstructionLine.t F) (i : nat) (a : coord F),
  nth_error (EdgeConstructionLine.node_list line) i = Some a ->
  coord_eqb a a = true ->
  (forall j b, (j < i)%nat -> nth_error (EdgeConstructionLine.node_list line) j = Some b ->
               coord_eqb b a = false) ->
  EdgeConstructionLine.get_node_group_z line a = Ok (Z.of_nat i).
Proof.
  intros line i a. unfold EdgeConstructionLine.get_node_group_z.
  generalize (EdgeConstructionLine.node_list line) as l. intro l. revert i.
  induction l as [|b t IH]; intros i Hnth Hrefl Hbefore.
  - destruct i; discriminate.
  - destruct i as [|i]; simpl in *.
    + inversion Hnth; subst. rewrite Hrefl. reflexivity.
    + rewrite (Hbefore 0%nat b ltac:(lia) eq_refl).
      specialize (IH i Hnth Hrefl (fun j c Hj Hc => Hbefore (S j) c ltac:(lia) Hc)).
      destruct (EdgeConstructionLine.list_index a t) as [k|]; [|discriminate].
      inversion IH; subst. f_equal. lia.
Qed.

End EdgeLineRows.

(** ** Constructions that are refused *)

Section Refusals.
Context {F : Type} `{FloatOps F} `{Static F}.

(** The parts of a finished construction. *)
Lemma init_from_parts : forall (g : option (list (coord F)) * option (list Z))
                               (a : Mesh.args F) (m : Mesh.mesh F),
  Mesh.init_from g a = Ok m ->
  Mesh.make_env a = Ok (Mesh.mesh_env m)
  /\ Mesh.run_meshing (Mesh.mesh_env m) (Mesh.initial_state a g) = Ok (Mesh.mesh_state m)
  /\ Mesh.identify_member_groups (Mesh.mesh_env m) (Mesh.mesh_state m) = Ok (Mesh.mesh_groups m).
Proof.
  intros g a m Hrun. unfold Mesh.init_from in Hrun.
  apply bind_ok in Hrun. destruct Hrun as [e [He Hrun]].
  apply bind_ok in Hrun. destruct Hrun as [s [Hs Hrun]].
  apply bind_ok in Hrun. destruct Hrun as [grp [Hg Hrun]].
  inversion Hrun; subst. simpl. repeat split; assumption.
Qed.

(** On a straight sweep path, [Mesh.__init__] fails with the [ValueError]
    of [np.linspace] when it is asked for fewer than two longitudinal
    beams or for a negative number of transverse beams, for both meshing
    algorithms and before any node is placed. *)
Theorem init_rejects_bad_beam_counts :
  forall (g : option (list (coord F)) * option (list Z)) (a : Mesh.args F),
  Mesh.arg_pt3 a = None ->
  Mesh.arg_num_long_beam a < 2 \/ Mesh.arg_num_trans_beam a < 0 ->
  Mesh.init_from g a = Raise ValueError.
Proof.
  intros g a Hpt3 Hbad. unfold Mesh.init_from, Mesh.make_env.
  unfold SweepPath.get_sweep_line_properties, SweepPath.init. cbn [SweepPath.pt3].
  rewrite Hpt3. cbn [bind SweepPath.pt1 SweepPath.pt2 SweepPath.decimal_lim SweepPath.c
                     SweepPath.curve_path SweepPath.m].
  rewrite (edge_line_init_eq (Mesh.arg_mesh_origin a)).
  destruct (Z.ltb_spec (Mesh.arg_num_long_beam a - 2) 0) as [Hlt|Hge]; [reflexivity|].
  cbn [bind]. unfold SweepPath.elevation, SweepPath.get_line_function.
  cbn [SweepPath.curve_path SweepPath.m negb bind].
  rewrite edge_line_init_eq.
  destruct (Z.ltb_spec (Mesh.arg_num_long_beam a - 2) 0) as [Hlt|_]; [lia|].
  cbn [bind]. unfold Mesh.np_linspace.
  destruct (Z.ltb_spec (Mesh.arg_num_trans_beam a) 0) as [_|Hge']; [reflexivity | lia].
Qed.


End Refusals.

(** ** What the search hands back *)

Section SearchResult.
Context {F : Type} `{FloatOps F} `{Static F}.

(** The state in which the loop ends remembers the elevation of the
    abscissa that its last pass looked at. *)
Lemma search_loop_last_pass : forall (e : Mesh.env F) (m0 : F) (p : coord F),
  SweepPath.curve_path (Mesh.sweep_path e) = false ->
  SweepPath.m (Mesh.sweep_path e) = Some m0 ->
  forall (fuel : nat) (s r : Mesh.search_state F),
    Mesh.min_found s = false ->
    Mesh.search_loop fuel e p s = Some (Ok r) ->
    exists x_last,
      Mesh.z0 r = Some (line_func m0 (SweepPath.c (Mesh.sweep_path e)) x_last)
      /\ (Mesh.start_point_x r = x_last
          \/ Mesh.start_point_x r = (x_last - Mesh.search_x_inc e)%fl
          \/ Mesh.start_point_x r = (x_last + Mesh.search_x_inc e)%fl)
      /\ (Mesh.min_found r = true -> Mesh.start_point_x r = x_last).
Proof.
  intros e m0 p Hstraight Hm. induction fuel as [|fuel IH]; intros s r Hs Hrun;
    simpl in Hrun; rewrite Hs in Hrun; [discriminate|].
  destruct (search_body_step e m0 p s Hstraight Hm) as [s1 [Hbody [_ [Hz Hcases]]]].
  rewrite Hbody in Hrun.
  assert (Hhere : exists x_last,
             Mesh.z0 s1 = Some (line_func m0 (SweepPath.c (Mesh.sweep_path e)) x_last)
             /\ (Mesh.start_point_x s1 = x_last
                 \/ Mesh.start_point_x s1 = (x_last - Mesh.search_x_inc e)%fl
                 \/ Mesh.start_point_x s1 = (x_last + Mesh.search_x_inc e)%fl)
             /\ (Mesh.min_found s1 = true -> Mesh.start_point_x s1 = x_last)).
  { exists (Mesh.start_point_x s). split; [exact Hz|].
    destruct Hcases as [(Hf & Hx & _) | [(Hf & Hx & _) | [(Hf & Hx & _) | (Hf & Hx)]]].
    - split; [left; exact Hx | intros _; exact Hx].
    - split; [right; left; exact Hx | rewrite Hf, Hs; discriminate].
    - split; [right; right; exact Hx | rewrite Hf, Hs; discriminate].
    - split; [left; exact Hx | intros _; exact Hx]. }
  destruct (Mesh.loop_counter s1 >? Mesh.max_loop).
  - inversion Hrun; subst. exact Hhere.
  - destruct (Bool.bool_dec (Mesh.min_found s1) true) as [Hfound|Hnot].
    + destruct fuel; simpl in Hrun; rewrite Hfound in Hrun; inversion Hrun; subst; exact Hhere.
    + apply not_true_is_false in Hnot. exact (IH s1 r Hnot Hrun).
Qed.

(** In every construction, [__search_x_point] returns a pair [(x, z)] in
    which [z] is the elevation of the sweep path, a line through the origin
    of the stored slope, at the abscissa of the last pass of the loop.
    The abscissa [x] is that of the last pass when the search stopped at a
    minimum; when it stopped at the cap, [x] may already have moved one
    increment on, and then [z] is not the elevation at [x]. *)
Theorem search_x_point_returns_last_elevation :
  forall (a : Mesh.args F) (e : Mesh.env F) (p : coord F),
  Mesh.make_env a = Ok e ->
  exists m0 s x_last,
    SweepPath.m (Mesh.sweep_path e) = Some m0
    /\ SweepPath.c (Mesh.sweep_path e) = fz 0
    /\ Mesh.search_loop Mesh.search_fuel e p (Mesh.search_init p) = Some (Ok s)
    /\ Mesh.search_x_point e p = Ok (Mesh.start_point_x s, line_func m0 (fz 0) x_last)
    /\ (Mesh.start_point_x s = x_last
        \/ Mesh.start_point_x s = (x_last - Mesh.search_x_inc e)%fl
        \/ Mesh.start_point_x s = (x_last + Mesh.search_x_inc e)%fl)
    /\ (Mesh.min_found s = true -> Mesh.start_point_x s = x_last).
Proof.
  intros a e p He.
  destruct (make_env_inv a e He) as (Hstraight & [m0 Hm] & _).
  assert (Hc : SweepPath.c (Mesh.sweep_path e) = fz 0).
  { unfold Mesh.make_env in He. apply bind_ok in He. destruct He as [[path ret] [Hpath He]].
    unfold SweepPath.get_sweep_line_properties, SweepPath.init in Hpath.
    cbn [SweepPath.pt3] in Hpath.
    destruct (Mesh.arg_pt3 a) as [p3|].
    - destruct (findCircle _ _ _ _ _ _) as [circle|[]]; inversion Hpath; subst; clear Hpath.
      + apply bind_ok in He. destruct He as [l1 [_ He]]. discriminate.
      + discriminate.
    - inversion Hpath; subst; clear Hpath.
      apply bind_ok in He. destruct He as [l1 [_ He]].
      apply bind_ok in He. destruct He as [z [_ He]].
      apply bind_ok in He. destruct He as [l2 [_ He]].
      apply bind_ok in He. destruct He as [st [_ He]].
      inversion He; subst. reflexivity. }
  destruct (search_loop_fuel e m0 p Hstraight Hm Mesh.search_fuel (Mesh.search_init p))
    as [s [Hloop _]]; [simpl; unfold Mesh.max_loop; lia | simpl; unfold Mesh.max_loop; lia
                       | reflexivity |].
  destruct (search_loop_last_pass e m0 p Hstraight Hm Mesh.search_fuel (Mesh.search_init p) s
              eq_refl Hloop)
    as [x_last [Hz [Hx Hmin]]].
  exists m0, s, x_last. split; [exact Hm|]. split; [exact Hc|]. split; [exact Hloop|].
  split; [|split; [exact Hx | exact Hmin]].
  unfold Mesh.search_x_point. rewrite Hloop. cbn [bind]. rewrite Hz, Hc. reflexivity.
Qed.

End SearchResult.

(** ** Element tags *)

Section ElementTags.
Context {F : Type} `{FloatOps F} `{Static F}.
Variable e : Mesh.env F.
Variable ec0 : Z.

Local Notation "'tags_ok'" := (Mesh.tags_ok ec0).

Lemma tags_ok_same : forall s s' : Mesh.t F,
  tags_ok s ->
  Mesh.element_counter s' = Mesh.element_counter s ->
  Mesh.all_ele s' = Mesh.all_ele s ->
  tags_ok s'.
Proof.
  intros s s' Ht Hc Ha. unfold Mesh.tags_ok. rewrite Hc, Ha. exact Ht.
Qed.

(** Closes the goals about states that hold the same elements. *)
Ltac tags_same Ht := apply (tags_ok_same _ _ Ht); reflexivity.

(** A new element takes the counter as its tag and moves the counter up. *)
Lemma tags_ok_insert : forall (s s' : Mesh.t F) (l1 l2 : list Mesh.ele) (el : Mesh.ele),
  tags_ok s ->
  Mesh.all_ele s = l1 ++ l2 ->
  Mesh.all_ele s' = l1 ++ el :: l2 ->
  Mesh.ele_tag el = Mesh.element_counter s ->
  Mesh.element_counter s' = Mesh.element_counter s + 1 ->
  tags_ok s'.
Proof.
  intros s s' l1 l2 el (Hc & Hnd & Hr) Hs Hs' Htag Hc'. unfold Mesh.tags_ok.
  rewrite Hs in Hc, Hnd, Hr. rewrite Hs', Hc'.
  assert (Hfresh : ~ In (Mesh.ele_tag el) (map Mesh.ele_tag (l1 ++ l2))).
  { intro Hin. apply in_map_iff in Hin. destruct Hin as [el' [Heq Hin]].
    specialize (Hr el' Hin). lia. }
  split; [|split].
  - unfold len in *. rewrite length_app in *. simpl. lia.
  - rewrite map_app. simpl. rewrite map_app in Hnd, Hfresh.
    apply (NoDup_Add (Add_app (Mesh.ele_tag el) (map Mesh.ele_tag l1) (map Mesh.ele_tag l2))).
    split; assumption.
  - intros el' Hin. apply in_app_iff in Hin. simpl in Hin.
    assert (Hcases : el' = el \/ In el' (l1 ++ l2)).
    { rewrite in_app_iff. destruct Hin as [Hin | [Hin | Hin]]; [right; left; exact Hin
                                                   | left; symmetry; exact Hin
                                                   | right; right; exact Hin]. }
    destruct Hcases as [Heq|Hold].
    + subst el'. unfold len in Hc. lia.
    + specialize (Hr el' Hold). lia.
Qed.

Lemma get_geo_transform_tag_tags : forall (s s' : Mesh.t F) (p : Z * Z) (tag : Z),
  tags_ok s -> Mesh.get_geo_transform_tag e s p = Ok (tag, s') ->
  tags_ok s'
  /\ Mesh.element_counter s' = Mesh.element_counter s
  /\ Mesh.long_ele s' = Mesh.long_ele s
  /\ Mesh.trans_ele s' = Mesh.trans_ele s
  /\ Mesh.edge_span_ele s' = Mesh.edge_span_ele s.
Proof.
  intros s s' p tag Ht Hrun. unfold Mesh.get_geo_transform_tag in Hrun.
  bind_inv Hrun. bind_inv Hrun. inversion Hrun; subst; clear Hrun.
  split; [tags_same Ht | repeat split].
Qed.

Lemma assign_transverse_members_tags : forall (s s' : Mesh.t F) (pre cur : Z),
  tags_ok s -> Mesh.assign_transverse_members e s pre cur = Ok s' -> tags_ok s'.
Proof.
  intros s s' pre cur Ht Hrun. unfold Mesh.assign_transverse_members in Hrun.
  bind_inv Hrun. destruct r as [tag s1]. inversion Hrun; subst; clear Hrun.
  destruct (get_geo_transform_tag_tags _ _ _ _ Ht Hr) as (Ht1 & _).
  apply (tags_ok_insert s1 _ (Mesh.long_ele s1 ++ Mesh.trans_ele s1) (Mesh.edge_span_ele s1)
           (Mesh.mk_ele (Mesh.element_counter s1) pre cur (Mesh.global_x_grid_count s1) tag) Ht1).
  - unfold Mesh.all_ele. rewrite app_assoc. reflexivity.
  - unfold Mesh.all_ele. simpl. rewrite <- !app_assoc. reflexivity.
  - reflexivity.
  - reflexivity.
Qed.

Lemma append_trans_tags : forall (s : Mesh.t F) (pre cur g tag : Z),
  tags_ok s ->
  tags_ok (Mesh.set_element_counter
             (Mesh.set_trans_ele s
                (Mesh.trans_ele s ++ [Mesh.mk_ele (Mesh.element_counter s) pre cur g tag]))
             (Mesh.element_counter s + 1)).
Proof.
  intros s pre cur g tag Ht.
  apply (tags_ok_insert s _ (Mesh.long_ele s ++ Mesh.trans_ele s) (Mesh.edge_span_ele s)
           (Mesh.mk_ele (Mesh.element_counter s) pre cur g tag) Ht).
  - unfold Mesh.all_ele. rewrite app_assoc. reflexivity.
  - unfold Mesh.all_ele. simpl. rewrite <- !app_assoc. reflexivity.
  - reflexivity.
  - reflexivity.
Qed.

Lemma assign_longitudinal_members_tags : forall (s s' : Mesh.t F) (pre cur g : Z),
  tags_ok s -> Mesh.assign_longitudinal_members e s pre cur g = Ok s' -> tags_ok s'.
Proof.
  intros s s' pre cur g Ht Hrun. unfold Mesh.assign_longitudinal_members in Hrun.
  bind_inv Hrun. destruct r as [tag s1]. inversion Hrun; subst; clear Hrun.
  destruct (get_geo_transform_tag_tags _ _ _ _ Ht Hr) as (Ht1 & _).
  apply (tags_ok_insert s1 _ (Mesh.long_ele s1) (Mesh.trans_ele s1 ++ Mesh.edge_span_ele s1)
           (Mesh.mk_ele (Mesh.element_counter s1) pre cur g tag) Ht1).
  - reflexivity.
  - unfold Mesh.all_ele. simpl. rewrite <- !app_assoc. reflexivity.
  - reflexivity.
  - reflexivity.
Qed.

Lemma assign_edge_trans_members_tags : forall (s s' : Mesh.t F) (pre cur g : Z),
  tags_ok s -> Mesh.assign_edge_trans_members e s pre cur g = Ok s' -> tags_ok s'.
Proof.
  intros s s' pre cur g Ht Hrun. unfold Mesh.assign_edge_trans_members in Hrun.
  bind_inv Hrun. destruct r as [tag s1]. inversion Hrun; subst; clear Hrun.
  destruct (get_geo_transform_tag_tags _ _ _ _ Ht Hr) as (Ht1 & _).
  apply (tags_ok_insert s1 _ (Mesh.all_ele s1) []
           (Mesh.mk_ele (Mesh.element_counter s1) pre cur g tag) Ht1).
  - rewrite app_nil_r. reflexivity.
  - unfold Mesh.all_ele. simpl. rewrite !app_assoc. reflexivity.
  - reflexivity.
  - reflexivity.
Qed.

Lemma link_first_match_tags : forall (curs : list Z) (s s' : Mesh.t F) (pre : Z),
  tags_ok s -> Mesh.link_first_match e s pre curs = Ok s' -> tags_ok s'.
Proof.
  induction curs as [|cur rest IH]; intros s s' pre Ht Hrun; simpl in Hrun.
  - inversion Hrun; subst; exact Ht.
  - bind_inv Hrun. bind_inv Hrun. destruct (_ =? _).
    + exact (assign_longitudinal_members_tags _ _ _ _ _ Ht Hrun).
    + exact (IH _ _ _ Ht Hrun).
Qed.

Lemma link_longitudinal_tags : forall (previous assigned : list Z) (s s' : Mesh.t F),
  tags_ok s -> Mesh.link_longitudinal e s previous assigned = Ok s' -> tags_ok s'.
Proof.
  intros previous assigned s s' Ht Hrun. unfold Mesh.link_longitudinal in Hrun.
  apply (foldM_invariant _ _ tags_ok) in Hrun; [exact Hrun | | exact Ht].
  intros st pre st' _ Hst Hbody. exact (link_first_match_tags _ _ _ _ Hst Hbody).
Qed.

Lemma fixed_sweep_station_tags : forall (x_count : Z) (x_inc : F) (s s' : Mesh.t F),
  tags_ok s -> Mesh.fixed_sweep_station e x_count x_inc s = Ok s' -> tags_ok s'.
Proof.
  intros x_count x_inc s s' Ht Hrun. unfold Mesh.fixed_sweep_station in Hrun.
  apply (foldM_invariant _ _ tags_ok) in Hrun; [exact Hrun | | exact Ht].
  intros st [j ref] st' _ Hst Hbody. cbv beta iota in Hbody. bind_inv Hbody.
  destruct (j >? 0).
  - bind_inv Hbody. bind_inv Hbody. bind_inv Hbody. destruct r2 as [tag st1].
    inversion Hbody; subst; clear Hbody.
    assert (Hp : tags_ok (Mesh.place_node st
                            (Coord (cx ref + x_inc)%fl (cy ref)
                               (cz ref + fround (Mesh.decimal_lim e)
                                  (select_segment_function (Mesh.curve e) (Mesh.d e) r r x_inc
                                     (Mesh.r e)))%fl) x_count j)) by tags_same Hst.
    destruct (get_geo_transform_tag_tags _ _ _ _ Hp Hr2) as (Ht1 & _).
    apply append_trans_tags. exact Ht1.
  - inversion Hbody; subst; clear Hbody. tags_same Hst.
Qed.

Lemma fixed_sweep_step_tags : forall (s s' : Mesh.t F) (x : Z * F),
  tags_ok s -> Mesh.fixed_sweep_step e s x = Ok s' -> tags_ok s'.
Proof.
  intros s s' [x_count x_inc] Ht Hrun. unfold Mesh.fixed_sweep_step in Hrun.
  bind_inv Hrun. bind_inv Hrun. inversion Hrun; subst; clear Hrun.
  pose proof (fixed_sweep_station_tags _ _ _ _ Ht Hr) as Ht1.
  assert (Ht2 : tags_ok r0).
  { destruct (x_count =? 0).
    - inversion Hr0; subst; clear Hr0. rewrite record_edge_nodes_eq. tags_same Ht1.
    - destruct (x_count >? 0).
      + bind_inv Hr0. pose proof (link_longitudinal_tags _ _ _ _ Ht1 Hr1) as Ht3.
        destruct (x_count =? len (Mesh.nox e) - 1); inversion Hr0; subst; clear Hr0.
        * rewrite record_edge_nodes_eq. tags_same Ht3.
        * tags_same Ht3.
      + inversion Hr0; subst; exact Ht1. }
  tags_same Ht2.
Qed.

Lemma fixed_sweep_node_meshing_tags : forall s s' : Mesh.t F,
  tags_ok s -> Mesh.fixed_sweep_node_meshing e s = Ok s' -> tags_ok s'.
Proof.
  intros s s' Ht Hrun. unfold Mesh.fixed_sweep_node_meshing in Hrun.
  apply (foldM_invariant _ _ tags_ok) in Hrun; [exact Hrun | | tags_same Ht].
  intros st a st' _. apply fixed_sweep_step_tags.
Qed.

(** The records of an edge member in [edge_node_recorder] touch no element. *)
Lemma edge_link_tags : forall (s s' : Mesh.t F) (i j : Z),
  tags_ok s ->
  (pre_node <- py_index (Mesh.previous_node_tag s) i ;;
   cur_node <- py_index (Mesh.assigned_node_tag s) j ;;
   self <- Mesh.assign_edge_trans_members e s pre_node cur_node (Mesh.global_edge_count s) ;;
   let self := Mesh.set_edge_node_recorder self
                 (setdefault Z.eqb pre_node (Mesh.global_edge_count self)
                    (Mesh.edge_node_recorder self)) in
   Ok (Mesh.set_edge_node_recorder self
         (setdefault Z.eqb cur_node (Mesh.global_edge_count self)
            (Mesh.edge_node_recorder self)))) = Ok s' ->
  tags_ok s'.
Proof.
  intros s s' i j Ht Hrun. bind_inv Hrun. bind_inv Hrun. bind_inv Hrun.
  inversion Hrun; subst; clear Hrun.
  pose proof (assign_edge_trans_members_tags _ _ _ _ _ Ht Hr1) as Ht1. tags_same Ht1.
Qed.

Lemma edge_line_as_is_tags : forall (at_start : bool) (s s' : Mesh.t F),
  tags_ok s -> Mesh.edge_line_as_is e at_start s = Ok s' -> tags_ok s'.
Proof.
  intros at_start s s' Ht Hrun. unfold Mesh.edge_line_as_is in Hrun.
  apply (foldM_invariant _ _ tags_ok) in Hrun; [exact Hrun | | exact Ht].
  intros st [j nodes] st' _ Hst Hbody. cbv beta iota in Hbody. bind_inv Hbody.
  set (st1 := Mesh.place_node st _ _ _) in *.
  assert (Hp : tags_ok st1) by tags_same Hst.
  assert (Hr' : tags_ok r).
  { destruct (j >? 0); [|inversion Hr; subst; exact Hp].
    destruct (len _ >=? 1); [|inversion Hr; subst; exact Hp].
    bind_inv Hr. bind_inv Hr. bind_inv Hr. inversion Hr; subst; clear Hr.
    pose proof (assign_edge_trans_members_tags _ _ _ _ _ Hp Hr2) as Ht1. tags_same Ht1. }
  destruct (len _ =? len (Mesh.noz e)); inversion Hbody; subst; clear Hbody; [|exact Hr'].
  destruct at_start; tags_same Hr'.
Qed.

Lemma place_sweep_column_tags : forall (x z : F) (column : list (coord F)) (s s' : Mesh.t F),
  tags_ok s -> Mesh.place_sweep_column e x z column s = Ok s' -> tags_ok s'.
Proof.
  intros x z column s s' Ht Hrun. unfold Mesh.place_sweep_column in Hrun.
  apply (foldM_invariant _ _ tags_ok) in Hrun; [exact Hrun | | exact Ht].
  intros st [j nodes] st' _ Hst Hbody. cbv beta iota in Hbody. bind_inv Hbody. bind_inv Hbody.
  set (st1 := Mesh.place_node st _ _ _) in *.
  assert (Hp : tags_ok st1) by tags_same Hst.
  destruct (j >? 0); [|inversion Hbody; subst; exact Hp].
  bind_inv Hbody. bind_inv Hbody.
  exact (assign_transverse_members_tags _ _ _ _ Hp Hbody).
Qed.

Lemma place_uniform_column_tags : forall (x z : F) (column : list (coord F)) (s s' : Mesh.t F),
  tags_ok s -> Mesh.place_uniform_column e x z column s = Ok s' -> tags_ok s'.
Proof.
  intros x z column s s' Ht Hrun. unfold Mesh.place_uniform_column in Hrun.
  apply (foldM_invariant _ _ tags_ok) in Hrun; [exact Hrun | | exact Ht].
  intros st [j nodes] st' _ Hst Hbody. cbv beta iota in Hbody.
  set (st1 := Mesh.place_node st _ _ _) in *.
  assert (Hp : tags_ok st1) by tags_same Hst.
  destruct (j >? 0); [|inversion Hbody; subst; exact Hp].
  bind_inv Hbody. bind_inv Hbody.
  exact (assign_transverse_members_tags _ _ _ _ Hp Hbody).
Qed.

Lemma link_skew_edge_tags : forall (at_start : bool) (s s' : Mesh.t F),
  tags_ok s -> Mesh.link_skew_edge e at_start s = Ok s' -> tags_ok s'.
Proof.
  intros at_start s s' Ht Hrun. unfold Mesh.link_skew_edge in Hrun.
  destruct (len _ >=? 1); [|inversion Hrun; subst; exact Ht].
  destruct (fgtb _ _); [exact (edge_link_tags _ _ _ _ Ht Hrun)|].
  destruct (fltb _ _); [exact (edge_link_tags _ _ _ _ Ht Hrun)|].
  inversion Hrun; subst; exact Ht.
Qed.

Lemma select_sweep_nodes_tags : forall (at_start : bool) (zc zg : Z) (cur : list (coord F))
                                       (s : Mesh.t F),
  tags_ok s -> tags_ok (Mesh.select_sweep_nodes e at_start zc zg cur s).
Proof.
  intros at_start zc zg cur s Ht. unfold Mesh.select_sweep_nodes.
  destruct (fgtb _ _); [destruct at_start; tags_same Ht|].
  destruct (fltb _ _); [destruct at_start; tags_same Ht | exact Ht].
Qed.

Lemma edge_search_step_tags : forall (at_start : bool) (s s' : Mesh.t F) (p : Z * coord F),
  tags_ok s -> Mesh.edge_search_step e at_start s p = Ok s' -> tags_ok s'.
Proof.
  intros at_start s s' [z_count int_point] Ht Hrun. unfold Mesh.edge_search_step in Hrun.
  apply bind_ok in Hrun. destruct Hrun as [[ref_x ref_z] [_ Hrun]].
  cbv beta iota zeta in Hrun.
  destruct (get_slope (Coord ref_x (Mesh.y_elevation e) ref_z) int_point) as [m_prime phi].
  apply bind_ok in Hrun. destruct Hrun as [z_group [_ Hrun]].
  apply bind_ok in Hrun. destruct Hrun as [column [_ Hrun]].
  apply bind_ok in Hrun. destruct Hrun as [s3 [Hplace Hrun]].
  apply bind_ok in Hrun. destruct Hrun as [s5 [Hjoin Hrun]].
  inversion Hrun; subst; clear Hrun.
  assert (Ht2 : tags_ok (Mesh.select_sweep_nodes e at_start z_count z_group
                           (Mesh.rotate_sweep_nodes e
                              (if at_start && fgtb (Mesh.skew_1 e) (fz 0)
                               then farctan (Mesh.zeta e / fz 180 * fpi)%fl
                               else (fpi / fz 2 - fabs phi)%fl))
                           (Mesh.set_sweep_path_points s
                              (Mesh.sweep_path_points s
                               ++ [Coord ref_x (Mesh.y_elevation e) ref_z])))).
  { apply select_sweep_nodes_tags. tags_same Ht. }
  pose proof (place_sweep_column_tags _ _ _ _ _ Ht2 Hplace) as Ht3.
  assert (Ht5 : tags_ok s5).
  { destruct (z_count >? 0).
    - bind_inv Hjoin. bind_inv Hjoin. inversion Hjoin; subst; clear Hjoin.
      assert (Ht4 : tags_ok (if z_count =? 0
                             then Mesh.set_previous_node_tag s3 (Mesh.assigned_node_tag s3)
                             else s3)) by (destruct (z_count =? 0); [tags_same Ht3 | exact Ht3]).
      pose proof (link_longitudinal_tags _ _ _ _ Ht4 Hr) as Ht6.
      pose proof (link_skew_edge_tags _ _ _ Ht6 Hr0) as Ht7. tags_same Ht7.
    - inversion Hjoin; subst; clear Hjoin. destruct (z_count =? 0); [tags_same Ht3 | exact Ht3]. }
  destruct (len _ =? len (Mesh.noz e)); [destruct at_start|]; tags_same Ht5.
Qed.

Lemma edge_region_tags : forall (at_start : bool) (s s' : Mesh.t F),
  tags_ok s -> Mesh.edge_region e at_start s = Ok s' -> tags_ok s'.
Proof.
  intros at_start s s' Ht Hrun. unfold Mesh.edge_region in Hrun.
  destruct (fltb _ _).
  - bind_inv Hrun. inversion Hrun; subst; clear Hrun.
    pose proof (edge_line_as_is_tags _ _ _ Ht Hr) as Ht1. destruct at_start; tags_same Ht1.
  - bind_inv Hrun. inversion Hrun; subst; clear Hrun.
    apply (foldM_invariant _ _ tags_ok) in Hr; [tags_same Hr | | exact Ht].
    intros st a st' _. apply edge_search_step_tags.
Qed.

Lemma uniform_step_tags : forall (n_inner : Z) (s s' : Mesh.t F) (p : Z * F),
  tags_ok s -> Mesh.uniform_step e n_inner s p = Ok s' -> tags_ok s'.
Proof.
  intros n_inner s s' [j x] Ht Hrun. unfold Mesh.uniform_step in Hrun.
  apply bind_ok in Hrun. destruct Hrun as [z [_ Hrun]].
  apply bind_ok in Hrun. destruct Hrun as [s1 [Hplace Hrun]].
  apply bind_ok in Hrun. destruct Hrun as [s3 [Hjoin Hrun]].
  inversion Hrun; subst; clear Hrun.
  pose proof (place_uniform_column_tags _ _ _ _ _ Ht Hplace) as Ht1.
  assert (Ht2 : tags_ok (if j =? 0
                         then Mesh.set_previous_node_tag s1 (Mesh.first_connecting_region_nodes s1)
                         else s1)) by (destruct (j =? 0); [tags_same Ht1 | exact Ht1]).
  pose proof (link_longitudinal_tags _ _ _ _ Ht2 Hjoin) as Ht3.
  destruct (negb _); tags_same Ht3.
Qed.

Lemma uniform_region_tags : forall s s' : Mesh.t F,
  tags_ok s -> Mesh.uniform_region e s = Ok s' -> tags_ok s'.
Proof.
  intros s s' Ht Hrun. unfold Mesh.uniform_region in Hrun.
  do 5 (apply bind_ok in Hrun; destruct Hrun as [? [_ Hrun]]).
  apply bind_ok in Hrun. destruct Hrun as [s1 [Hloop Hrun]].
  apply (foldM_invariant _ _ tags_ok) in Hloop.
  - exact (link_longitudinal_tags _ _ _ _ Hloop Hrun).
  - intros st a st' _. apply uniform_step_tags.
  - exact Ht.
Qed.

Lemma run_meshing_tags : forall s s' : Mesh.t F,
  tags_ok s -> Mesh.run_meshing e s = Ok s' -> tags_ok s'.
Proof.
  intros s s' Ht Hrun. unfold Mesh.run_meshing in Hrun.
  destruct (Mesh.orthogonal e).
  - unfold Mesh.orthogonal_meshing in Hrun.
    apply bind_ok in Hrun. destruct Hrun as [s1 [Hstart Hrun]].
    apply bind_ok in Hrun. destruct Hrun as [z [_ Hrun]].
    apply bind_ok in Hrun. destruct Hrun as [s2 [Hend Hrun]].
    assert (Ht0 : tags_ok (Mesh.set_sweep_path_points
                             (Mesh.set_previous_node_tag (Mesh.set_assigned_node_tag s []) []) []))
      by tags_same Ht.
    pose proof (edge_region_tags _ _ _ Ht0 Hstart) as Ht1.
    pose proof (edge_region_tags _ _ _ Ht1 Hend) as Ht2.
    assert (Ht3 : tags_ok (Mesh.set_assigned_node_tag s2 [])) by tags_same Ht2.
    exact (uniform_region_tags _ _ Ht3 Hrun).
  - destruct (negb (Mesh.curve e)).
    + exact (fixed_sweep_node_meshing_tags _ _ Ht Hrun).
    + inversion Hrun; subst; exact Ht.
Qed.

End ElementTags.

Section FinishedElements.
Context {F : Type} `{FloatOps F} `{Static F}.

(** In every finished construction, by either meshing algorithm, the tags
    of the elements of [long_ele], [trans_ele] and [edge_span_ele] taken
    together are pairwise different and are exactly the integers from the
    initial value of the element counter up to the final value less one:
    every element takes the counter as its tag and moves it up by one. *)
Theorem element_tags_contiguous :
  forall (g : option (list (coord F)) * option (list Z)) (a : Mesh.args F) (m : Mesh.mesh F),
  Mesh.init_from g a = Ok m ->
  let s := Mesh.mesh_state m in
  let tags := map Mesh.ele_tag (Mesh.all_ele s) in
  Mesh.element_counter s = Mesh.arg_element_counter a + len (Mesh.all_ele s)
  /\ NoDup tags
  /\ (forall t, In t tags <-> Mesh.arg_element_counter a <= t < Mesh.element_counter s).
Proof.
  intros g a m Hrun s tags.
  destruct (init_from_parts g a m Hrun) as (_ & Hmesh & _).
  assert (H0' : Mesh.tags_ok (Mesh.arg_element_counter a) (Mesh.initial_state a g)).
  { unfold Mesh.tags_ok, Mesh.all_ele, len. simpl. split; [lia|].
    split; [constructor | intros el []]. }
  destruct (run_meshing_tags _ _ _ _ H0' Hmesh) as (Hc & Hnd & Hr). fold s in Hc, Hnd, Hr.
  split; [exact Hc|]. split; [exact Hnd|].
  intro t. split.
  - intro Hin. apply in_map_iff in Hin. destruct Hin as [el [Heq Hin]]. subst t.
    exact (Hr el Hin).
  - intro Hrange.
    (* an injection of the tags into a range of the same size is onto *)
    assert (Hincl : incl tags (zseq (Mesh.arg_element_counter a) (length tags))).
    { intros x Hx. apply zseq_In. apply in_map_iff in Hx. destruct Hx as [el [Heq Hin]].
      subst x. specialize (Hr el Hin). unfold tags. rewrite length_map.
      unfold len in Hc. lia. }
    assert (Hlen : (length (zseq (Mesh.arg_element_counter a) (length tags)) <= length tags)%nat).
    { rewrite zseq_length. lia. }
    apply (NoDup_length_incl Hnd Hlen Hincl). apply zseq_In.
    unfold tags. rewrite length_map. unfold len in Hc. lia.
Qed.

End FinishedElements.

(** ** Loops that run to their end *)

Lemma foldM_enumerate_total :
  forall (A St : Type) (P : Z -> St -> Prop) (f : St -> Z * A -> result St) (l : list A) (i : Z),
    (forall j a s, i <= j < i + len l -> nth_error l (Z.to_nat (j - i)) = Some a -> P j s ->
                   exists s', f s (j, a) = Ok s' /\ P (j + 1) s') ->
    forall s, P i s ->
              exists s', foldM f (enumerate_from i l) s = Ok s' /\ P (i + len l) s'.
Proof.
  intros A St P f l. induction l as [|a t IH]; intros i Hstep s Hs.
  - exists s. split; [reflexivity|]. unfold len. simpl. rewrite Z.add_0_r. exact Hs.
  - unfold len in *. simpl length in *. rewrite Nat2Z.inj_succ in *.
    destruct (Hstep i a s) as [s1 [Hf Hs1]];
      [lia | rewrite Z.sub_diag; reflexivity | exact Hs |].
    destruct (IH (i + 1)) with (s := s1) as [s' [Hrun Hs']]; [|exact Hs1|].
    + intros j b s0 Hj Hnth. apply Hstep; [lia|].
      replace (Z.to_nat (j - i)) with (S (Z.to_nat (j - (i + 1)))) by lia. exact Hnth.
    + exists s'. split.
      * simpl. rewrite Hf. exact Hrun.
      * replace (i + Z.succ (Z.of_nat (length t))) with (i + 1 + Z.of_nat (length t)) by lia.
        exact Hs'.
Qed.

Lemma foldM_zseq_total :
  forall (St : Type) (P : Z -> St -> Prop) (f : St -> Z -> result St) (n : nat) (a : Z),
    (forall j s, a <= j < a + Z.of_nat n -> P j s -> exists s', f s j = Ok s' /\ P (j + 1) s') ->
    forall s, P a s -> exists s', foldM f (zseq a n) s = Ok s' /\ P (a + Z.of_nat n) s'.
Proof.
  intros St P f n. induction n as [|n IH]; intros a Hstep s Hs.
  - exists s. split; [reflexivity|]. simpl. rewrite Z.add_0_r. exact Hs.
  - rewrite Nat2Z.inj_succ in *.
    destruct (Hstep a s) as [s1 [Hf Hs1]]; [lia | exact Hs |].
    destruct (IH (a + 1)) with (s := s1) as [s' [Hrun Hs']]; [|exact Hs1|].
    + intros j s0 Hj. apply Hstep. lia.
    + exists s'. split.
      * simpl. rewrite Hf. exact Hrun.
      * replace (a + Z.succ (Z.of_nat n)) with (a + 1 + Z.of_nat n) by lia. exact Hs'.
Qed.

Lemma nth_error_len : forall (A : Type) (l : list A) (j : Z),
  0 <= j < len l -> exists a, nth_error l (Z.to_nat j) = Some a.
Proof.
  intros A l j Hj. destruct (nth_error l (Z.to_nat j)) as [a|] eqn:Hn; [exists a; reflexivity|].
  apply nth_error_None in Hn. unfold len in Hj. lia.
Qed.

Lemma nth_error_in_len : forall (A : Type) (l : list A) (j : Z) (a : A),
  0 <= j -> nth_error l (Z.to_nat j) = Some a -> j < len l.
Proof.
  intros A l j a Hj Hn. assert (Hlt : (Z.to_nat j < length l)%nat).
  { apply nth_error_Some. rewrite Hn. discriminate. }
  unfold len. lia.
Qed.

(** Recording nodes that are not on record yet appends them, in order. *)
Lemma fold_setdefault_fresh : forall (nodes : list Z) (g : Z) (d : dict Z Z),
  NoDup nodes -> (forall n, In n nodes -> ~ In n (keys d)) ->
  fold_left (fun d n => setdefault Z.eqb n g d) nodes d = d ++ map (fun n => (n, g)) nodes.
Proof.
  induction nodes as [|a t IH]; intros g d Hnd Hfresh; simpl.
  - rewrite app_nil_r. reflexivity.
  - inversion Hnd as [|a' t' Hnotin Hnd']; subst.
    rewrite (setdefault_fresh Z.eqb Zeqb_eq a g d (Hfresh a (or_introl eq_refl))).
    rewrite IH; [rewrite <- app_assoc; reflexivity | exact Hnd' |].
    intros n Hn Hin. unfold keys in Hin. rewrite map_app in Hin. apply in_app_or in Hin.
    destruct Hin as [Hin | [Heq | []]].
    + exact (Hfresh n (or_intror Hn) Hin).
    + simpl in Heq. subst a. contradiction.
Qed.

(** ** The skew mesh, station by station *)

Section SkewMesh.
Context {F : Type} `{FloatOps F} `{Static F}.
Variable e : Mesh.env F.
Variables n0 t0 : Z.
Variable m0 : F.
Hypothesis Hslope : Mesh.m e = Some m0.

Local Notation "'Inv'" := (Mesh.Inv e n0 t0).
Local Notation "'L'" := (len (Mesh.sweeping_nodes e)).
Local Notation "'T'" := (len (Mesh.nox e)).

(** A transform lookup between two nodes on record succeeds, and touches
    the registry only. *)
Lemma get_geo_transform_tag_total : forall (s : Mesh.t F) (i j : Z),
  Inv s -> n0 <= i < Mesh.node_counter s -> n0 <= j < Mesh.node_counter s ->
  exists tag d tc,
    Mesh.get_geo_transform_tag e s (i, j)
    = Ok (tag, Mesh.set_transform_counter (Mesh.set_transform_dict s d) tc).
Proof.
  intros s i j HI Hi Hj. unfold Mesh.get_geo_transform_tag. cbn [fst snd].
  destruct (in_keys_dict_get Z.eqb Zeqb_eq i (Mesh.node_spec s)) as [ni Hni];
    [apply (Inv_key_range e n0 t0 s i HI); exact Hi|].
  destruct (in_keys_dict_get Z.eqb Zeqb_eq j (Mesh.node_spec s)) as [nj Hnj];
    [apply (Inv_key_range e n0 t0 s j HI); exact Hj|].
  unfold getitem. rewrite Hni, Hnj. cbn [bind].
  eexists. eexists. eexists. reflexivity.
Qed.

Lemma fixed_sweep_station_total : forall (x_count : Z) (x_inc : F) (s : Mesh.t F),
  Inv s -> Mesh.assigned_node_tag s = [] ->
  exists s',
    Mesh.fixed_sweep_station e x_count x_inc s = Ok s'
    /\ Mesh.station_inv e m0 n0 t0 x_count x_inc s L s'.
Proof.
  intros x_count x_inc s HI Ha. unfold Mesh.fixed_sweep_station, enumerate.
  match goal with
  | |- exists s', foldM ?f _ _ = _ /\ _ =>
      destruct (foldM_enumerate_total _ _ (Mesh.station_inv e m0 n0 t0 x_count x_inc s) f
                  (Mesh.sweeping_nodes e) 0) with (s := s) as [s' [Hrun Hs']];
        [| | exists s'; split; [exact Hrun | rewrite Z.add_0_l in Hs'; exact Hs']]
  end.
  - intros j ref s1 Hj Hnth (HI1 & Hc & Has & Hext & Hrow & Htr & Hec & Hlo & Hed & Hpr & Hgx
                              & Hge & Hrec).
    rewrite Z.sub_0_r in Hnth. cbv beta iota. rewrite Hslope. cbn [bind].
    pose proof (Mesh.inv_counter _ _ _ _ HI) as Hn0.
    set (co := Coord (cx ref + x_inc)%fl (cy ref)
                 (cz ref + fround (Mesh.decimal_lim e)
                    (select_segment_function (Mesh.curve e) (Mesh.d e) m0 m0 x_inc (Mesh.r e)))%fl).
    pose proof (place_node_inv e n0 t0 s1 co x_count j HI1) as HP. cbv zeta in HP.
    destruct HP as (HI2 & Hc2 & Ha2 & _).
    set (s2 := Mesh.place_node s1 co x_count j) in *.
    assert (Hfresh : ~ In (Mesh.node_counter s1) (keys (Mesh.node_spec s1))).
    { rewrite (Inv_key_range e n0 t0 s1 _ HI1). lia. }
    assert (Hns2 : Mesh.node_spec s2
                   = Mesh.node_spec s1
                     ++ [(Mesh.node_counter s1,
                          Mesh.skew_node e m0 (Mesh.node_counter s1) x_count j x_inc ref)]).
    { unfold s2, Mesh.place_node. simpl.
      rewrite (setdefault_fresh Z.eqb Zeqb_eq _ _ _ Hfresh). reflexivity. }
    assert (Hext2 : forall q v, dict_get Z.eqb q (Mesh.node_spec s) = Some v ->
                                dict_get Z.eqb q (Mesh.node_spec s2) = Some v).
    { intros q v Hq. rewrite Hns2, dict_get_app, (Hext q v Hq). reflexivity. }
    assert (Hrow2 : forall k' ref', 0 <= k' < j + 1 ->
               nth_error (Mesh.sweeping_nodes e) (Z.to_nat k') = Some ref' ->
               dict_get Z.eqb (Mesh.node_counter s + k') (Mesh.node_spec s2)
               = Some (Mesh.skew_node e m0 (Mesh.node_counter s + k') x_count k' x_inc ref')).
    { intros k' ref' Hk' Hn'. rewrite Hns2, dict_get_app.
      destruct (Z.eq_dec k' j) as [Heq|Hne].
      - subst k'. rewrite Hn' in Hnth. inversion Hnth; subst ref'.
        rewrite <- Hc. apply (dict_get_none Z.eqb Zeqb_eq) in Hfresh. rewrite Hfresh.
        simpl. rewrite Z.eqb_refl. reflexivity.
      - rewrite (Hrow k' ref' ltac:(lia) Hn'). reflexivity. }
    assert (Has2 : Mesh.assigned_node_tag s2 = zseq (Mesh.node_counter s) (Z.to_nat (j + 1))).
    { rewrite Ha2, Has, Hc. replace (Z.to_nat (j + 1)) with (S (Z.to_nat j)) by lia.
      rewrite zseq_snoc. do 2 f_equal. lia. }
    destruct (Z.gtb_spec j 0) as [Hpos|Hzero].
    + rewrite Has2. rewrite !py_index_zseq by lia. cbn [bind].
      destruct (get_geo_transform_tag_total s2 (Mesh.node_counter s + (j - 1))
                  (Mesh.node_counter s + j) HI2) as [tag [d [tc Hgeo]]];
        [rewrite Hc2, Hc; lia | rewrite Hc2, Hc; lia |].
      rewrite Hgeo. cbn [bind].
      eexists. split; [reflexivity|].
      assert (Hne : Mesh.node_counter s + (j - 1) <> Mesh.node_counter s + j) by lia.
      destruct (tagged_ele_ok e n0 t0 _ _ _ _ _
                  (Mesh.element_counter
                     (Mesh.set_transform_counter (Mesh.set_transform_dict s2 d) tc))
                  x_count HI2 Hne Hgeo) as (HI3 & _ & Hel).
      destruct (append_trans_inv e n0 t0 _ _
                  (Mesh.element_counter
                     (Mesh.set_transform_counter (Mesh.set_transform_dict s2 d) tc) + 1)
                  HI3 Hel) as [HI4 _].
      match goal with |- Mesh.station_inv _ _ _ _ _ _ _ _ ?st => set (fin := st) in * end.
      assert (E1 : Mesh.node_counter fin = Mesh.node_counter s2) by reflexivity.
      assert (E2 : Mesh.assigned_node_tag fin = Mesh.assigned_node_tag s2) by reflexivity.
      assert (E3 : Mesh.node_spec fin = Mesh.node_spec s2) by reflexivity.
      assert (E4 : Mesh.trans_ele fin
                   = Mesh.trans_ele s1
                     ++ [Mesh.mk_ele (Mesh.element_counter s1)
                           (Mesh.node_counter s + (j - 1)) (Mesh.node_counter s + j)
                           x_count tag]) by reflexivity.
      assert (E5 : Mesh.element_counter fin = Mesh.element_counter s1 + 1) by reflexivity.
      assert (E6 : Mesh.long_ele fin = Mesh.long_ele s1) by reflexivity.
      assert (E7 : Mesh.edge_span_ele fin = Mesh.edge_span_ele s1) by reflexivity.
      assert (E8 : Mesh.previous_node_tag fin = Mesh.previous_node_tag s1) by reflexivity.
      assert (E9 : Mesh.global_x_grid_count fin = Mesh.global_x_grid_count s1) by reflexivity.
      assert (E10 : Mesh.global_edge_count fin = Mesh.global_edge_count s1) by reflexivity.
      assert (E11 : Mesh.edge_node_recorder fin = Mesh.edge_node_recorder s1) by reflexivity.
      unfold Mesh.station_inv. rewrite E1, E2, E3, E4, E5, E6, E7, E8, E9, E10, E11.
      split; [exact HI4|]. rewrite Hc2, Hc.
      split; [lia|]. split; [exact Has2|]. split; [exact Hext2|]. split; [exact Hrow2|].
      split.
      { rewrite map_app, Htr, <- app_assoc. f_equal.
        replace (Z.to_nat (j + 1 - 1)) with (S (Z.to_nat (j - 1))) by lia.
        rewrite zseq_snoc, map_app. f_equal. cbn [map]. unfold Mesh.ele_link.
        cbn [Mesh.node_i Mesh.node_j Mesh.group_index].
        rewrite Z2Nat.id by lia. replace (1 + (j - 1)) with j by lia.
        replace (Mesh.node_counter s + j - 1) with (Mesh.node_counter s + (j - 1)) by lia.
        reflexivity. }
      split; [rewrite Hec; lia|].
      repeat split; assumption.
    + cbn [bind]. exists s2. split; [reflexivity|].
      assert (j = 0) by lia. subst j.
      assert (E4 : Mesh.trans_ele s2 = Mesh.trans_ele s1) by reflexivity.
      assert (E5 : Mesh.element_counter s2 = Mesh.element_counter s1) by reflexivity.
      assert (E6 : Mesh.long_ele s2 = Mesh.long_ele s1) by reflexivity.
      assert (E7 : Mesh.edge_span_ele s2 = Mesh.edge_span_ele s1) by reflexivity.
      assert (E8 : Mesh.previous_node_tag s2 = Mesh.previous_node_tag s1) by reflexivity.
      assert (E9 : Mesh.global_x_grid_count s2 = Mesh.global_x_grid_count s1) by reflexivity.
      assert (E10 : Mesh.global_edge_count s2 = Mesh.global_edge_count s1) by reflexivity.
      assert (E11 : Mesh.edge_node_recorder s2 = Mesh.edge_node_recorder s1) by reflexivity.
      unfold Mesh.station_inv. rewrite E4, E5, E6, E7, E8, E9, E10, E11.
      split; [exact HI2|]. rewrite Hc2, Hc.
      split; [lia|]. split; [exact Has2|]. split; [exact Hext2|]. split; [exact Hrow2|].
      split; [rewrite Htr; reflexivity|]. split; [rewrite Hec; lia|].
      repeat split; assumption.
  - unfold Mesh.station_inv. rewrite Ha. simpl.
    split; [exact HI|]. split; [lia|]. split; [reflexivity|]. split; [intros q v Hq; exact Hq|].
    split; [intros k' ref Hk; lia|]. split; [rewrite app_nil_r; reflexivity|].
    split; [lia|]. repeat split.
Qed.

(** A longitudinal element between two different nodes on record is
    made, and changes the registry, the element list and the counter
    only. *)
Lemma assign_longitudinal_members_total : forall (s : Mesh.t F) (pre cur g : Z),
  Inv s -> n0 <= pre < Mesh.node_counter s -> n0 <= cur < Mesh.node_counter s -> pre <> cur ->
  exists s',
    Mesh.assign_longitudinal_members e s pre cur g = Ok s'
    /\ Inv s'
    /\ Mesh.node_counter s' = Mesh.node_counter s
    /\ Mesh.node_spec s' = Mesh.node_spec s
    /\ Mesh.assigned_node_tag s' = Mesh.assigned_node_tag s
    /\ Mesh.previous_node_tag s' = Mesh.previous_node_tag s
    /\ map Mesh.ele_link (Mesh.long_ele s') = map Mesh.ele_link (Mesh.long_ele s) ++ [(pre, cur, g)]
    /\ Mesh.element_counter s' = Mesh.element_counter s + 1
    /\ Mesh.trans_ele s' = Mesh.trans_ele s
    /\ Mesh.edge_span_ele s' = Mesh.edge_span_ele s
    /\ Mesh.global_x_grid_count s' = Mesh.global_x_grid_count s
    /\ Mesh.global_edge_count s' = Mesh.global_edge_count s
    /\ Mesh.edge_node_recorder s' = Mesh.edge_node_recorder s.
Proof.
  intros s pre cur g HI Hpre Hcur Hne.
  destruct (get_geo_transform_tag_total s pre cur HI Hpre Hcur) as [tag [d [tc Hgeo]]].
  assert (Hrun : exists s', Mesh.assign_longitudinal_members e s pre cur g = Ok s'
                            /\ s' = Mesh.set_element_counter
                                      (Mesh.set_long_ele
                                         (Mesh.set_transform_counter (Mesh.set_transform_dict s d) tc)
                                         (Mesh.long_ele s
                                          ++ [Mesh.mk_ele (Mesh.element_counter s) pre cur g tag]))
                                      (Mesh.element_counter s + 1)).
  { unfold Mesh.assign_longitudinal_members. rewrite Hgeo. cbn [bind].
    eexists. split; reflexivity. }
  destruct Hrun as [s' [Hrun Hs']]. exists s'. split; [exact Hrun|].
  destruct (assign_longitudinal_members_inv e n0 t0 s s' pre cur g HI Hne Hrun) as [HI' _].
  split; [exact HI'|]. subst s'. cbn [Mesh.node_counter Mesh.set_element_counter].
  repeat split. cbn [Mesh.long_ele Mesh.set_element_counter Mesh.set_long_ele].
  rewrite map_app. reflexivity.
Qed.

(** The scan [for cur_node in assigned] stops at the node of the row of
    [pre_node]. *)
Lemma link_first_match_row : forall (n : nat) (s : Mesh.t F) (pre c k k' : Z),
  (forall j, k' <= j < k' + Z.of_nat n ->
             exists nd, dict_get Z.eqb (c + j) (Mesh.node_spec s) = Some nd
                        /\ Mesh.z_group nd = j) ->
  (exists nd, dict_get Z.eqb pre (Mesh.node_spec s) = Some nd /\ Mesh.z_group nd = k) ->
  k' <= k < k' + Z.of_nat n ->
  Mesh.link_first_match e s pre (zseq (c + k') n)
  = Mesh.assign_longitudinal_members e s pre (c + k) k.
Proof.
  induction n as [|n IH]; intros s pre c k k' Hcur Hpre Hk; [lia|].
  simpl. destruct (Hcur k') as [nd [Hnd Hz]]; [lia|]. destruct Hpre as [np [Hnp Hzp]].
  unfold getitem. rewrite Hnd, Hnp. cbn [bind]. rewrite Hz, Hzp.
  destruct (Z.eqb_spec k' k) as [Heq|Hne].
  - rewrite Heq. reflexivity.
  - replace (c + k' + 1) with (c + (k' + 1)) by lia. apply IH.
    + intros j Hj. apply Hcur. lia.
    + exists np. split; assumption.
    + lia.
Qed.

Lemma link_longitudinal_total : forall (cp c n : Z) (s : Mesh.t F),
  Inv s -> 0 <= n -> n0 <= cp -> cp + n <= c -> c + n <= Mesh.node_counter s ->
  (forall k, 0 <= k < n ->
             exists nd, dict_get Z.eqb (cp + k) (Mesh.node_spec s) = Some nd
                        /\ Mesh.z_group nd = k) ->
  (forall k, 0 <= k < n ->
             exists nd, dict_get Z.eqb (c + k) (Mesh.node_spec s) = Some nd
                        /\ Mesh.z_group nd = k) ->
  exists s',
    Mesh.link_longitudinal e s (zseq cp (Z.to_nat n)) (zseq c (Z.to_nat n)) = Ok s'
    /\ Mesh.join_inv e n0 t0 cp c s n s'.
Proof.
  intros cp c n s HI Hn Hcp Hc Hnc Hprev Hcur. unfold Mesh.link_longitudinal.
  destruct (foldM_zseq_total _ (fun j st => Mesh.join_inv e n0 t0 cp c s (j - cp) st)
              (fun self pre_node => Mesh.link_first_match e self pre_node (zseq c (Z.to_nat n)))
              (Z.to_nat n) cp) with (s := s) as [s' [Hrun Hs']].
  - intros j st Hj (HI1 & A1 & A2 & A3 & A4 & A5 & A6 & A7 & A8 & A9 & A10 & A11).
    rewrite Z2Nat.id in Hj by lia.
    assert (Hscan : Mesh.link_first_match e st j (zseq c (Z.to_nat n))
                    = Mesh.assign_longitudinal_members e st j (c + (j - cp)) (j - cp)).
    { pose proof (link_first_match_row (Z.to_nat n) st j c (j - cp) 0) as Hrow.
      rewrite Z.add_0_r in Hrow. apply Hrow.
      - intros k Hk. rewrite A2. apply Hcur. lia.
      - destruct (Hprev (j - cp)) as [nd [Hd Hz]]; [lia|]. exists nd. rewrite A2.
        replace (cp + (j - cp)) with j in Hd by lia. split; assumption.
      - lia. }
    rewrite Hscan.
    destruct (assign_longitudinal_members_total st j (c + (j - cp)) (j - cp) HI1)
      as [st' [Hst' (HI2 & B1 & B2 & B3 & B4 & B5 & B6 & B7 & B8 & B9 & B10 & B11)]];
      [rewrite A1; lia | rewrite A1; lia | lia |].
    exists st'. split; [exact Hst'|]. unfold Mesh.join_inv.
    rewrite B1, B2, B3, B4, B5, B6, B7, B8, B9, B10, B11.
    split; [exact HI2|]. repeat (split; [assumption|]).
    split; [|split; [lia | repeat split; assumption]].
    rewrite A5, <- app_assoc. f_equal.
    replace (Z.to_nat (j + 1 - cp)) with (S (Z.to_nat (j - cp))) by lia.
    rewrite zseq_snoc, map_app. f_equal. cbn [map]. rewrite Z2Nat.id by lia.
    replace (cp + (0 + (j - cp))) with j by lia.
    replace (0 + (j - cp)) with (j - cp) by lia. reflexivity.
  - unfold Mesh.join_inv. rewrite Z.sub_diag. simpl. rewrite app_nil_r.
    split; [exact HI|]. repeat split. lia.
  - exists s'. split; [exact Hrun|]. rewrite Z2Nat.id in Hs' by lia.
    replace (cp + n - cp) with n in Hs' by lia. exact Hs'.
Qed.

Lemma skew_trans_links_snoc : forall c0 l i : Z,
  0 <= i ->
  Mesh.skew_trans_links c0 l (i + 1)
  = Mesh.skew_trans_links c0 l i
    ++ map (fun k => (c0 + i * l + k - 1, c0 + i * l + k, i)) (zseq 1 (Z.to_nat (l - 1))).
Proof.
  intros c0 l i Hi. unfold Mesh.skew_trans_links.
  replace (Z.to_nat (i + 1)) with (S (Z.to_nat i)) by lia.
  rewrite zseq_snoc, flat_map_app. cbn [flat_map]. rewrite app_nil_r, Z2Nat.id by lia.
  reflexivity.
Qed.

Lemma skew_long_links_snoc : forall c0 l i : Z,
  1 <= i ->
  Mesh.skew_long_links c0 l (i + 1)
  = Mesh.skew_long_links c0 l i
    ++ map (fun k => (c0 + (i - 1) * l + k, c0 + i * l + k, k)) (zseq 0 (Z.to_nat l)).
Proof.
  intros c0 l i Hi. unfold Mesh.skew_long_links.
  replace (Z.to_nat (i + 1 - 1)) with (S (Z.to_nat (i - 1))) by lia.
  rewrite zseq_snoc, flat_map_app. cbn [flat_map]. rewrite app_nil_r, Z2Nat.id by lia.
  replace (1 + (i - 1)) with i by lia. reflexivity.
Qed.

(** One pass of the loop over the stations. *)
Lemma fixed_sweep_step_total : forall (s0 s : Mesh.t F) (i : Z) (x : F),
  1 <= L -> n0 <= Mesh.node_counter s0 ->
  0 <= i < T -> nth_error (Mesh.nox e) (Z.to_nat i) = Some x ->
  Mesh.skew_inv e m0 n0 t0 s0 i s ->
  exists s',
    Mesh.fixed_sweep_step e s (i, x) = Ok s' /\ Mesh.skew_inv e m0 n0 t0 s0 (i + 1) s'.
Proof.
  intros s0 s i x HL Hn0 Hi Hx
         (HI & Hc & Ha & Hp & Hext & Hrow & Htr & Hlo & Hed & Hec & Hgx & Hge & Hrec).
  cbv zeta in *.
  destruct (fixed_sweep_station_total i x s HI Ha)
    as [s1 [Hst (HI1 & C1 & C2 & C3 & C4 & C5 & C6 & C7 & C8 & C9 & C10 & C11 & C12)]].
  cbv zeta in *.
  unfold Mesh.fixed_sweep_step. rewrite Hst. cbn [bind].
  (* the rows of the station just placed, and of all stations before *)
  assert (Hrow1 : forall i' k' x' ref, 0 <= i' < i + 1 -> 0 <= k' ->
             nth_error (Mesh.nox e) (Z.to_nat i') = Some x' ->
             nth_error (Mesh.sweeping_nodes e) (Z.to_nat k') = Some ref ->
             dict_get Z.eqb (Mesh.node_counter s0 + i' * L + k') (Mesh.node_spec s1)
             = Some (Mesh.skew_node e m0 (Mesh.node_counter s0 + i' * L + k') i' k' x' ref)).
  { intros i' k' x' ref Hi' Hk' Hx' Href.
    destruct (Z.eq_dec i' i) as [Heq|Hne].
    - subst i'. rewrite Hx' in Hx. inversion Hx; subst x'. rewrite <- Hc.
      apply C4; [|exact Href]. split; [exact Hk' | exact (nth_error_in_len _ _ _ _ Hk' Href)].
    - apply C3. apply Hrow; [lia | exact Hk' | exact Hx' | exact Href]. }
  assert (Hext1 : forall q v, dict_get Z.eqb q (Mesh.node_spec s0) = Some v ->
                              dict_get Z.eqb q (Mesh.node_spec s1) = Some v).
  { intros q v Hq. apply C3. apply Hext. exact Hq. }
  assert (Htr1 : map Mesh.ele_link (Mesh.trans_ele s1)
                 = map Mesh.ele_link (Mesh.trans_ele s0)
                   ++ Mesh.skew_trans_links (Mesh.node_counter s0) L (i + 1)).
  { rewrite C5, Htr, <- app_assoc, skew_trans_links_snoc by lia. rewrite Hc. reflexivity. }
  destruct (Z.eqb_spec i 0) as [Hzero|Hnz].
  - (* the first station *)
    subst i. rewrite record_edge_nodes_eq. eexists. split; [reflexivity|].
    match goal with |- Mesh.skew_inv _ _ _ _ _ _ ?st => set (fin := st) in * end.
    assert (E1 : Mesh.node_counter fin = Mesh.node_counter s1) by reflexivity.
    assert (E2 : Mesh.assigned_node_tag fin = []) by reflexivity.
    assert (E3 : Mesh.previous_node_tag fin = Mesh.assigned_node_tag s1) by reflexivity.
    assert (E4 : Mesh.node_spec fin = Mesh.node_spec s1) by reflexivity.
    assert (E5 : Mesh.trans_ele fin = Mesh.trans_ele s1) by reflexivity.
    assert (E6 : Mesh.long_ele fin = Mesh.long_ele s1) by reflexivity.
    assert (E7 : Mesh.edge_span_ele fin = Mesh.edge_span_ele s1) by reflexivity.
    assert (E8 : Mesh.element_counter fin = Mesh.element_counter s1) by reflexivity.
    assert (E9 : Mesh.global_x_grid_count fin = Mesh.global_x_grid_count s1) by reflexivity.
    assert (E10 : Mesh.global_edge_count fin = Mesh.global_edge_count s1 + 1) by reflexivity.
    assert (E11 : Mesh.edge_node_recorder fin
                  = fold_left (fun d n => setdefault Z.eqb n (Mesh.global_edge_count s1) d)
                              (Mesh.assigned_node_tag s1) (Mesh.edge_node_recorder s1))
      by reflexivity.
    assert (HIf : Inv fin) by (apply (Inv_same_mesh e n0 t0 s1); [exact HI1 | reflexivity..]).
    unfold Mesh.skew_inv. cbv zeta.
    rewrite E1, E2, E3, E4, E5, E6, E7, E8, E9, E10, E11.
    rewrite C1, C2, C7, C8, C6, C10, C11, C12, Hc, Hec, Hlo, Hed, Hgx, Hge, Hrec.
    split; [exact HIf|]. split; [lia|]. split; [reflexivity|].
    split; [intros _; do 2 f_equal; lia|]. split; [exact Hext1|]. split; [exact Hrow1|].
    split; [rewrite <- E5; exact Htr1|].
    split; [reflexivity|]. split; [reflexivity|]. split; [lia|]. split; [reflexivity|].
    assert (HT0 : (0 =? T) = false) by (apply Z.eqb_neq; lia).
    assert (HT1 : ((2 <=? T) && (0 + 1 =? T)) = false).
    { rewrite andb_false_iff. destruct (Z.le_gt_cases 2 T) as [H2|H2].
      - right. apply Z.eqb_neq. lia.
      - left. apply Z.leb_gt. lia. }
    split.
    + rewrite HT1, HT0, andb_false_r. change (1 <=? 0) with false.
      change (1 <=? 0 + 1) with true. cbv iota. lia.
    + unfold Mesh.skew_edge_record. rewrite HT1, HT0, andb_false_r.
      change (1 <=? 0) with false. change (1 <=? 0 + 1) with true. cbv iota. cbn [app].
      rewrite app_nil_r.
      rewrite fold_setdefault_fresh;
        [simpl; rewrite !Z.add_0_r; reflexivity | apply zseq_NoDup |].
      intros n _ [].
  - (* a later station: joined to the one before *)
    destruct (Z.gtb_spec i 0) as [Hpos|Hnpos]; [|lia].
    rewrite C9, (Hp ltac:(lia)), C2, Hc.
    destruct (link_longitudinal_total (Mesh.node_counter s0 + (i - 1) * L)
                (Mesh.node_counter s0 + i * L) L s1 HI1)
      as [s2 [Hjoin (HI2 & D1 & D2 & D3 & D4 & D5 & D6 & D7 & D8 & D9 & D10 & D11)]];
      [lia | nia | nia | rewrite C1, Hc; lia | | |].
    { intros k Hk. destruct (nth_error_len _ (Mesh.nox e) (i - 1) ltac:(lia)) as [x' Hx'].
      destruct (nth_error_len _ (Mesh.sweeping_nodes e) k Hk) as [ref Href].
      eexists. split; [apply (Hrow1 (i - 1) k x' ref); [lia | lia | exact Hx' | exact Href]|].
      reflexivity. }
    { intros k Hk. destruct (nth_error_len _ (Mesh.sweeping_nodes e) k Hk) as [ref Href].
      eexists. split; [apply (Hrow1 i k x ref); [lia | lia | exact Hx | exact Href]|].
      reflexivity. }
    rewrite Hjoin. cbn [bind].
    assert (Hlo2 : map Mesh.ele_link (Mesh.long_ele s2)
                   = map Mesh.ele_link (Mesh.long_ele s0)
                     ++ Mesh.skew_long_links (Mesh.node_counter s0) L (i + 1)).
    { rewrite D5, C7, Hlo, <- app_assoc, skew_long_links_snoc by lia. reflexivity. }
    assert (Hfirst : (1 <=? i) = true) by (apply Z.leb_le; lia).
    assert (Hfirst' : (1 <=? i + 1) = true) by (apply Z.leb_le; lia).
    assert (Hnot : ((2 <=? T) && (i =? T)) = false).
    { rewrite andb_false_iff. right. apply Z.eqb_neq. lia. }
    destruct (Z.eqb_spec i (T - 1)) as [Hlast|Hmid].
    + (* the last station is put on record as the second edge *)
      rewrite record_edge_nodes_eq. eexists. split; [reflexivity|].
      match goal with |- Mesh.skew_inv _ _ _ _ _ _ ?st => set (fin := st) in * end.
      assert (E1 : Mesh.node_counter fin = Mesh.node_counter s2) by reflexivity.
      assert (E2 : Mesh.assigned_node_tag fin = []) by reflexivity.
      assert (E3 : Mesh.previous_node_tag fin = Mesh.assigned_node_tag s2) by reflexivity.
      assert (E4 : Mesh.node_spec fin = Mesh.node_spec s2) by reflexivity.
      assert (E5 : Mesh.trans_ele fin = Mesh.trans_ele s2) by reflexivity.
      assert (E6 : Mesh.long_ele fin = Mesh.long_ele s2) by reflexivity.
      assert (E7 : Mesh.edge_span_ele fin = Mesh.edge_span_ele s2) by reflexivity.
      assert (E8 : Mesh.element_counter fin = Mesh.element_counter s2) by reflexivity.
      assert (E9 : Mesh.global_x_grid_count fin = Mesh.global_x_grid_count s2) by reflexivity.
      assert (E10 : Mesh.global_edge_count fin = Mesh.global_edge_count s2 + 1) by reflexivity.
      assert (E11 : Mesh.edge_node_recorder fin
                    = fold_left (fun d n => setdefault Z.eqb n (Mesh.global_edge_count s2) d)
                                (Mesh.assigned_node_tag s2) (Mesh.edge_node_recorder s2))
        by reflexivity.
      assert (HIf : Inv fin) by (apply (Inv_same_mesh e n0 t0 s2); [exact HI2 | reflexivity..]).
      unfold Mesh.skew_inv. cbv zeta.
      rewrite E1, E2, E3, E4, E6, E7, E8, E9, E10, E11.
      rewrite D1, D2, D3, D6, D8, D9, D10, D11, C1, C2, C6, C8, C10, C11, C12,
              Hc, Hec, Hed, Hgx, Hge, Hrec.
      split; [exact HIf|]. split; [lia|]. split; [reflexivity|].
      split; [intros _; do 2 f_equal; lia|]. split; [exact Hext1|]. split; [exact Hrow1|].
      split; [rewrite E5, D7; exact Htr1|].
      split; [rewrite <- E6; exact Hlo2|].
      split; [reflexivity|].
      split; [rewrite (Z.max_r 0 (i - 1)), (Z.max_r 0 (L - 1)), (Z.max_r 0 (i + 1 - 1)) by lia;
              ring|].
      split; [reflexivity|].
      assert (Hlast' : ((2 <=? T) && (i + 1 =? T)) = true).
      { rewrite andb_true_iff. split; [apply Z.leb_le; lia | apply Z.eqb_eq; lia]. }
      rewrite Hfirst, Hfirst', Hnot, Hlast'. split; [lia|].
      unfold Mesh.skew_edge_record. rewrite Hfirst, Hfirst', Hnot, Hlast'.
      rewrite app_nil_r.
      rewrite fold_setdefault_fresh;
        [rewrite Z.add_0_r; replace (T - 1) with i by lia; reflexivity | apply zseq_NoDup |].
      intros n Hn Hin. apply zseq_In in Hn. unfold keys in Hin. rewrite map_map in Hin.
      cbn [fst] in Hin. rewrite map_id in Hin. apply zseq_In in Hin. nia.
    + eexists. split; [reflexivity|].
      match goal with |- Mesh.skew_inv _ _ _ _ _ _ ?st => set (fin := st) in * end.
      assert (E1 : Mesh.node_counter fin = Mesh.node_counter s2) by reflexivity.
      assert (E2 : Mesh.assigned_node_tag fin = []) by reflexivity.
      assert (E3 : Mesh.previous_node_tag fin = Mesh.assigned_node_tag s2) by reflexivity.
      assert (E4 : Mesh.node_spec fin = Mesh.node_spec s2) by reflexivity.
      assert (E5 : Mesh.trans_ele fin = Mesh.trans_ele s2) by reflexivity.
      assert (E6 : Mesh.long_ele fin = Mesh.long_ele s2) by reflexivity.
      assert (E7 : Mesh.edge_span_ele fin = Mesh.edge_span_ele s2) by reflexivity.
      assert (E8 : Mesh.element_counter fin = Mesh.element_counter s2) by reflexivity.
      assert (E9 : Mesh.global_x_grid_count fin = Mesh.global_x_grid_count s2) by reflexivity.
      assert (E10 : Mesh.global_edge_count fin = Mesh.global_edge_count s2) by reflexivity.
      assert (E11 : Mesh.edge_node_recorder fin = Mesh.edge_node_recorder s2) by reflexivity.
      assert (HIf : Inv fin) by (apply (Inv_same_mesh e n0 t0 s2); [exact HI2 | reflexivity..]).
      unfold Mesh.skew_inv. cbv zeta.
      rewrite E1, E2, E3, E4, E6, E7, E8, E9, E10, E11.
      rewrite D1, D2, D3, D6, D8, D9, D10, D11, C1, C2, C6, C8, C10, C11, C12,
              Hc, Hec, Hed, Hgx, Hge, Hrec.
      split; [exact HIf|]. split; [lia|]. split; [reflexivity|].
      split; [intros _; do 2 f_equal; lia|]. split; [exact Hext1|]. split; [exact Hrow1|].
      split; [rewrite E5, D7; exact Htr1|].
      split; [rewrite <- E6; exact Hlo2|].
      split; [reflexivity|].
      split; [rewrite (Z.max_r 0 (i - 1)), (Z.max_r 0 (L - 1)), (Z.max_r 0 (i + 1 - 1)) by lia;
              ring|].
      split; [reflexivity|].
      assert (Hmid' : ((2 <=? T) && (i + 1 =? T)) = false).
      { rewrite andb_false_iff. right. apply Z.eqb_neq. lia. }
      rewrite Hfirst, Hfirst', Hnot, Hmid'. split; [lia|].
      unfold Mesh.skew_edge_record. rewrite Hfirst, Hfirst', Hnot, Hmid'. reflexivity.
Qed.

(** The whole procedure: it runs to its end, through all the stations. *)
Lemma fixed_sweep_node_meshing_total : forall s0 : Mesh.t F,
  1 <= L -> Inv s0 -> Mesh.edge_node_recorder s0 = [] ->
  exists s',
    Mesh.fixed_sweep_node_meshing e s0 = Ok s' /\ Mesh.skew_inv e m0 n0 t0 s0 T s'.
Proof.
  intros s0 HL HI Hrec. unfold Mesh.fixed_sweep_node_meshing, enumerate.
  pose proof (Mesh.inv_counter _ _ _ _ HI) as Hn0.
  destruct (foldM_enumerate_total _ _ (Mesh.skew_inv e m0 n0 t0 s0) (Mesh.fixed_sweep_step e)
              (Mesh.nox e) 0)
    with (s := Mesh.set_previous_node_tag (Mesh.set_assigned_node_tag s0 []) [])
    as [s' [Hrun Hs']].
  - intros j x s Hj Hx Hs. rewrite Z.sub_0_r in Hx.
    apply fixed_sweep_step_total; [exact HL | exact Hn0 | lia | exact Hx | exact Hs].
  - assert (Hnone : ((2 <=? T) && (0 =? T)) = false).
    { rewrite andb_false_iff. destruct (Z.le_gt_cases 2 T) as [H2|H2].
      - right. apply Z.eqb_neq. lia.
      - left. apply Z.leb_gt. lia. }
    unfold Mesh.skew_inv. cbv zeta.
    split; [apply (Inv_same_mesh e n0 t0 s0); [exact HI | reflexivity..]|].
    cbn [Mesh.node_counter Mesh.assigned_node_tag Mesh.previous_node_tag Mesh.node_spec
         Mesh.trans_ele Mesh.long_ele Mesh.edge_span_ele Mesh.element_counter
         Mesh.global_x_grid_count Mesh.global_edge_count Mesh.edge_node_recorder
         Mesh.set_previous_node_tag Mesh.set_assigned_node_tag].
    unfold Mesh.skew_edge_record. rewrite Hnone, Hrec.
    change (1 <=? 0) with false. cbv iota.
    split; [lia|]. split; [reflexivity|]. split; [intro; lia|].
    split; [intros q v Hq; exact Hq|]. split; [intros i' k' x ref Hi'; lia|].
    split; [symmetry; apply app_nil_r|]. split; [symmetry; apply app_nil_r|].
    split; [reflexivity|]. split; [lia|]. split; [reflexivity|]. split; [lia | reflexivity].
  - exists s'. split; [exact Hrun | rewrite Z.add_0_l in Hs'; exact Hs'].
Qed.

End SkewMesh.

(** ** The environment of a construction *)

Section EnvShape.
Context {F : Type} `{FloatOps F} `{Static F}.

Lemma edge_nodes_length : forall (ref : coord F) (angle y : F) (noz : list F),
  length (EdgeConstructionLine.edge_nodes ref angle y noz) = length noz.
Proof. intros. unfold EdgeConstructionLine.edge_nodes. apply length_map. Qed.

Lemma noz_length : forall (w ew : F) (n : Z),
  2 <= n -> len ((fz 0 :: linspace ew (w - ew)%fl (Z.to_nat (n - 2))) ++ [w]) = n.
Proof.
  intros w ew n Hn. unfold len. rewrite length_app. simpl. rewrite linspace_length. lia.
Qed.

(** What [__init__] has fixed when meshing starts: a straight sweep path,
    one row per longitudinal beam, one station per transverse beam. *)
Lemma make_env_shape : forall (a : Mesh.args F) (e : Mesh.env F),
  Mesh.make_env a = Ok e ->
  let n := Mesh.arg_num_long_beam a in
  let nt := Mesh.arg_num_trans_beam a in
  Mesh.arg_pt3 a = None
  /\ 2 <= n /\ 0 <= nt
  /\ len (Mesh.noz e) = n
  /\ len (Mesh.sweeping_nodes e) = n
  /\ len (Mesh.nox e) = nt
  /\ Mesh.nox e = linspace (fz 0) (Mesh.arg_long_dim a) (Z.to_nat nt)
  /\ (exists m0, Mesh.m e = Some m0)
  /\ Mesh.orthogonal e = Mesh.arg_orthogonal a
  /\ Mesh.curve e = false
  /\ Mesh.d e = None
  /\ Mesh.r e = fz 0
  /\ Mesh.decimal_lim e = 3%nat
  /\ Mesh.noz e
     = (fz 0 :: linspace (Mesh.arg_edge_width a) (Mesh.arg_width a - Mesh.arg_edge_width a)%fl
                         (Z.to_nat (n - 2))) ++ [Mesh.arg_width a]
  /\ EdgeConstructionLine.node_list (Mesh.start_edge_line e)
     = EdgeConstructionLine.edge_nodes (Mesh.arg_mesh_origin a) (Mesh.arg_skew_1 a) (fz 0)
         (Mesh.noz e)
  /\ len (EdgeConstructionLine.node_list (Mesh.end_edge_line e)) = n
  /\ (Mesh.arg_orthogonal a = false ->
      Mesh.sweeping_nodes e = EdgeConstructionLine.node_list (Mesh.start_edge_line e)).
Proof.
  intros a e He n nt. unfold Mesh.make_env in He.
  apply bind_ok in He. destruct He as [[path ret] [Hpath He]].
  unfold SweepPath.get_sweep_line_properties, SweepPath.init in Hpath.
  cbn [SweepPath.pt3] in Hpath.
  destruct (Mesh.arg_pt3 a) as [p3|].
  { destruct (findCircle _ _ _ _ _ _) as [circle|[]]; inversion Hpath; subst; clear Hpath.
    - apply bind_ok in He. destruct He as [l1 [_ He]]. discriminate.
    - discriminate. }
  inversion Hpath; subst; clear Hpath.
  rewrite (edge_line_init_eq (Mesh.arg_mesh_origin a)) in He.
  fold n in He. destruct (Z.ltb_spec (n - 2) 0) as [Hlt|Hge]; [discriminate|].
  cbn [bind] in He. unfold SweepPath.elevation, SweepPath.get_line_function in He.
  cbn [SweepPath.curve_path SweepPath.m negb bind] in He.
  rewrite edge_line_init_eq in He. fold n in He.
  destruct (Z.ltb_spec (n - 2) 0) as [Hlt|_]; [lia|].
  cbn [bind] in He. unfold Mesh.np_linspace in He. fold nt in He.
  destruct (Z.ltb_spec nt 0) as [Hneg|Hnt]; [discriminate|].
  cbn [bind] in He. injection He as He. subst e.
  assert (Hnoz : len ((fz 0 :: linspace (Mesh.arg_edge_width a)
                                 (Mesh.arg_width a - Mesh.arg_edge_width a)%fl
                                 (Z.to_nat (n - 2))) ++ [Mesh.arg_width a]) = n)
    by (apply noz_length; lia).
  split; [reflexivity|]. split; [lia|]. split; [lia|]. split; [exact Hnoz|].
  split.
  { cbn [Mesh.sweeping_nodes Mesh.with_sweeping_nodes].
    destruct (Mesh.arg_orthogonal a).
    - unfold Mesh.rotate_sweep_nodes, len. rewrite length_map. exact Hnoz.
    - exact (eq_trans (f_equal Z.of_nat
                         (edge_nodes_length (Mesh.arg_mesh_origin a) (Mesh.arg_skew_1 a) (fz 0) _))
                      Hnoz). }
  split.
  { cbn [Mesh.nox Mesh.with_sweeping_nodes]. unfold len. rewrite linspace_length. lia. }
  split; [reflexivity|]. split; [eexists; reflexivity|].
  split; [reflexivity|]. split; [reflexivity|]. split; [reflexivity|]. split; [reflexivity|].
  split; [reflexivity|]. split; [reflexivity|]. split; [reflexivity|].
  split.
  { match goal with
    | |- len (EdgeConstructionLine.node_list
                (Mesh.end_edge_line
                   (Mesh.with_sweeping_nodes
                      {| Mesh.long_dim := _; Mesh.width := _; Mesh.trans_dim := _;
                         Mesh.edge_width := _; Mesh.num_trans_beam := _;
                         Mesh.num_long_beam := _; Mesh.skew_1 := _; Mesh.skew_2 := _;
                         Mesh.orthogonal := _; Mesh.decimal_lim := _;
                         Mesh.skew_threshold := _; Mesh.curve := _; Mesh.search_x_inc := _;
                         Mesh.y_elevation := _; Mesh.m := _; Mesh.c := _; Mesh.r := _;
                         Mesh.d := _; Mesh.mesh_origin := _; Mesh.quad_ele := _;
                         Mesh.sweep_path := _; Mesh.zeta := _; Mesh.start_edge_line := _;
                         Mesh.end_edge_line := ?line; Mesh.sweeping_nodes := _;
                         Mesh.noz := _; Mesh.nox := _ |} _ _))) = _ =>
        exact (eq_trans (f_equal Z.of_nat
                           (edge_nodes_length (EdgeConstructionLine.edge_ref_point line)
                              (Mesh.arg_skew_2 a) (fz 0) _)) Hnoz)
    end. }
  intro Hskew. cbn [Mesh.sweeping_nodes Mesh.with_sweeping_nodes]. rewrite Hskew. reflexivity.
Qed.

End EnvShape.

(** ** Finished skew meshes *)

Lemma flat_map_length_const : forall (A B : Type) (f : A -> list B) (l : list A) (n : nat),
  (forall a, In a l -> length (f a) = n) -> length (flat_map f l) = (length l * n)%nat.
Proof.
  intros A B f l n Hf. induction l as [|a t IH]; [reflexivity|].
  simpl. rewrite length_app, (Hf a (or_introl eq_refl)), IH; [reflexivity|].
  intros b Hb. apply Hf. right. exact Hb.
Qed.

Lemma filter_zseq_eq : forall (n : nat) (a k : Z),
  a <= k < a + Z.of_nat n -> filter (fun k' => k' =? k) (zseq a n) = [k].
Proof.
  induction n as [|n IH]; intros a k Hk; [lia|].
  simpl. destruct (Z.eqb_spec a k) as [Heq|Hne].
  - subst a. f_equal.
    assert (Hnone : forall (n' : nat) (b : Z), k < b -> filter (fun k' => k' =? k) (zseq b n') = []).
    { induction n' as [|n' IH']; intros b Hb; [reflexivity|]. simpl.
      destruct (Z.eqb_spec b k); [lia|]. apply IH'. lia. }
    apply Hnone. lia.
  - apply IH. lia.
Qed.

Lemma filter_map_comm : forall (A B : Type) (f : A -> B) (p : B -> bool) (l : list A),
  filter p (map f l) = map f (filter (fun a => p (f a)) l).
Proof.
  intros A B f p l. induction l as [|a t IH]; [reflexivity|].
  simpl. destruct (p (f a)); simpl; rewrite IH; reflexivity.
Qed.

Lemma filter_flat_map : forall (A B : Type) (f : A -> list B) (p : B -> bool) (l : list A),
  filter p (flat_map f l) = flat_map (fun a => filter p (f a)) l.
Proof.
  intros A B f p l. induction l as [|a t IH]; [reflexivity|].
  simpl. rewrite filter_app, IH. reflexivity.
Qed.

Lemma flat_map_singleton : forall (A B : Type) (f : A -> B) (l : list A),
  flat_map (fun a => [f a]) l = map f l.
Proof.
  intros A B f l. induction l as [|a t IH]; [reflexivity|]. simpl. rewrite IH. reflexivity.
Qed.

Lemma dict_get_enumerate_map : forall (A V : Type) (f : Z -> V) (l : list A) (i k : Z),
  i <= k < i + len l ->
  dict_get Z.eqb k (map (fun '(count, _) => (count, f count)) (enumerate_from i l)) = Some (f k).
Proof.
  intros A V f l. induction l as [|a t IH]; intros i k Hk; unfold len in *; simpl in *; [lia|].
  destruct (Z.eqb_spec k i) as [Heq|Hne]; [subst; reflexivity|].
  apply IH. lia.
Qed.

Lemma keys_enumerate_map : forall (A V : Type) (f : Z -> V) (l : list A) (i : Z),
  keys (map (fun '(count, _) => (count, f count)) (enumerate_from i l)) = zseq i (length l).
Proof.
  intros A V f l. induction l as [|a t IH]; intro i; [reflexivity|].
  simpl. f_equal. apply IH.
Qed.

Section FinishedSkewMesh.
Context {F : Type} `{FloatOps F} `{Static F}.

(** A finished skew mesh has gone through all its stations. *)
Lemma skew_mesh_inv :
  forall (g : option (list (coord F)) * option (list Z)) (a : Mesh.args F) (m : Mesh.mesh F),
  Mesh.arg_orthogonal a = false ->
  Mesh.init_from g a = Ok m ->
  exists m0,
    Mesh.m (Mesh.mesh_env m) = Some m0
    /\ 2 <= Mesh.arg_num_long_beam a
    /\ 0 <= Mesh.arg_num_trans_beam a
    /\ len (Mesh.sweeping_nodes (Mesh.mesh_env m)) = Mesh.arg_num_long_beam a
    /\ len (Mesh.nox (Mesh.mesh_env m)) = Mesh.arg_num_trans_beam a
    /\ Mesh.skew_inv (Mesh.mesh_env m) m0 (Mesh.arg_node_counter a)
         (Mesh.arg_transform_counter a) (Mesh.initial_state a g)
         (Mesh.arg_num_trans_beam a) (Mesh.mesh_state m).
Proof.
  intros g a m Hskew Hrun.
  destruct (init_from_parts g a m Hrun) as (He & Hmesh & _).
  destruct (make_env_shape a _ He)
    as (_ & Hn & Hnt & _ & HL & HT & _ & [m0 Hm0] & Horth & Hcurve & _).
  exists m0. split; [exact Hm0|]. split; [exact Hn|]. split; [exact Hnt|].
  split; [exact HL|]. split; [exact HT|].
  unfold Mesh.run_meshing in Hmesh. rewrite Horth, Hskew, Hcurve in Hmesh. cbn [negb] in Hmesh.
  destruct (fixed_sweep_node_meshing_total (Mesh.mesh_env m) (Mesh.arg_node_counter a)
              (Mesh.arg_transform_counter a) m0 Hm0 (Mesh.initial_state a g))
    as [s' [Hrun' Hinv]]; [lia | apply initial_state_inv | reflexivity |].
  rewrite Hrun' in Hmesh. injection Hmesh as Hmesh. subst s'.
  rewrite HT in Hinv. exact Hinv.
Qed.

(** In every finished skew mesh of [T] transverse and [L] longitudinal
    beams there are [T] stations of [L] nodes, [L - 1] transverse elements
    in every station and [L] longitudinal elements between two stations
    that follow each other, and no edge element; the node counter and the
    element counter have moved up by these numbers. *)
Theorem skew_mesh_counts :
  forall (g : option (list (coord F)) * option (list Z)) (a : Mesh.args F) (m : Mesh.mesh F),
  Mesh.arg_orthogonal a = false ->
  Mesh.init_from g a = Ok m ->
  let s := Mesh.mesh_state m in
  let L := Mesh.arg_num_long_beam a in
  let T := Mesh.arg_num_trans_beam a in
  2 <= L /\ 0 <= T
  /\ Mesh.node_counter s = Mesh.arg_node_counter a + T * L
  /\ len (Mesh.node_spec s) = T * L
  /\ len (Mesh.trans_ele s) = T * (L - 1)
  /\ len (Mesh.long_ele s) = Z.max 0 (T - 1) * L
  /\ Mesh.edge_span_ele s = []
  /\ Mesh.element_counter s
     = Mesh.arg_element_counter a + T * (L - 1) + Z.max 0 (T - 1) * L.
Proof.
  intros g a m Hskew Hrun s L T.
  destruct (skew_mesh_inv g a m Hskew Hrun)
    as [m0 (_ & HL & HT & HLe & HTe & HI & Hc & _ & _ & _ & _ & Htr & Hlo & Hed & Hec & _)].
  cbv zeta in *. rewrite HLe in *. fold s L T in HI, Hc, Htr, Hlo, Hed, Hec.
  cbn [Mesh.initial_state Mesh.node_counter Mesh.trans_ele Mesh.long_ele Mesh.edge_span_ele
       Mesh.element_counter map app] in *.
  split; [exact HL|]. split; [exact HT|]. split; [exact Hc|].
  split.
  { pose proof (Mesh.inv_keys _ _ _ _ HI) as Hk. apply (f_equal (@length Z)) in Hk.
    unfold keys in Hk. rewrite length_map, zseq_length in Hk. unfold len. rewrite Hk, Hc.
    fold L T. nia. }
  split.
  { apply (f_equal (@length _)) in Htr. rewrite length_map in Htr. unfold len. rewrite Htr.
    unfold Mesh.skew_trans_links.
    rewrite (flat_map_length_const _ _ _ _ (Z.to_nat (L - 1))).
    - rewrite zseq_length. nia.
    - intros i _. rewrite length_map, zseq_length. reflexivity. }
  split.
  { apply (f_equal (@length _)) in Hlo. rewrite length_map in Hlo. unfold len. rewrite Hlo.
    unfold Mesh.skew_long_links.
    rewrite (flat_map_length_const _ _ _ _ (Z.to_nat L)).
    - rewrite zseq_length. nia.
    - intros i _. rewrite length_map, zseq_length. reflexivity. }
  split; [exact Hed | exact Hec].
Qed.

(** In every finished skew mesh the node with the tag [c0 + i L + k],
    where [c0] is the first tag, is the node of row [k] of station [i]:
    these are its [z_group] and [x_group], which are therefore the
    remainder and the quotient of its tag less [c0] by [L].  It sits at
    node [k] of the first edge line, moved along x by the abscissa of the
    station and along z by the rounded elevation term, in which the slope
    of the sweep path is passed for the intercept as well. *)
Theorem skew_mesh_nodes :
  forall (g : option (list (coord F)) * option (list Z)) (a : Mesh.args F) (m : Mesh.mesh F),
  Mesh.arg_orthogonal a = false ->
  Mesh.init_from g a = Ok m ->
  let s := Mesh.mesh_state m in
  let e := Mesh.mesh_env m in
  let L := Mesh.arg_num_long_beam a in
  let T := Mesh.arg_num_trans_beam a in
  let c0 := Mesh.arg_node_counter a in
  (forall i k, 0 <= i < T -> 0 <= k < L ->
     exists m0 x ref nd,
       Mesh.m e = Some m0
       /\ nth_error (Mesh.nox e) (Z.to_nat i) = Some x
       /\ nth_error (EdgeConstructionLine.node_list (Mesh.start_edge_line e)) (Z.to_nat k)
          = Some ref
       /\ dict_get Z.eqb (c0 + i * L + k) (Mesh.node_spec s) = Some nd
       /\ Mesh.tag nd = c0 + i * L + k
       /\ Mesh.x_group nd = i
       /\ Mesh.z_group nd = k
       /\ Mesh.coordinate nd
          = Coord (cx ref + x)%fl (cy ref)
                  (cz ref + fround 3 (select_segment_function false None m0 m0 x (fz 0)))%fl)
  /\ (forall q nd, dict_get Z.eqb q (Mesh.node_spec s) = Some nd ->
        c0 <= q < c0 + T * L
        /\ Mesh.x_group nd = (q - c0) / L
        /\ Mesh.z_group nd = (q - c0) mod L).
Proof.
  intros g a m Hskew Hrun s e L T c0.
  destruct (skew_mesh_inv g a m Hskew Hrun)
    as [m0 (Hm0 & HL & HT & HLe & HTe & HI & Hc & _ & _ & _ & Hrow & _)].
  destruct (init_from_parts g a m Hrun) as (He & _).
  destruct (make_env_shape a _ He)
    as (_ & _ & _ & _ & _ & _ & _ & _ & _ & Hcurve & Hd & Hr & Hlim & _ & _ & _ & Hsweep).
  specialize (Hsweep Hskew).
  cbv zeta in *. rewrite HLe in *. fold s e L T c0 in HI, Hc, Hrow, Hm0, HTe, Hsweep, HLe.
  cbn [Mesh.initial_state Mesh.node_counter] in *. fold c0 in Hc, Hrow.
  assert (Hpoint : forall i k, 0 <= i < T -> 0 <= k < L ->
            exists x ref,
              nth_error (Mesh.nox e) (Z.to_nat i) = Some x
              /\ nth_error (Mesh.sweeping_nodes e) (Z.to_nat k) = Some ref
              /\ dict_get Z.eqb (c0 + i * L + k) (Mesh.node_spec s)
                 = Some (Mesh.skew_node e m0 (c0 + i * L + k) i k x ref)).
  { intros i k Hi Hk.
    destruct (nth_error_len _ (Mesh.nox e) i ltac:(lia)) as [x Hx].
    destruct (nth_error_len _ (Mesh.sweeping_nodes e) k ltac:(lia)) as [ref Href].
    exists x, ref. split; [exact Hx|]. split; [exact Href|].
    apply Hrow; [exact Hi | lia | exact Hx | exact Href]. }
  split.
  - intros i k Hi Hk. destruct (Hpoint i k Hi Hk) as [x [ref [Hx [Href Hnd]]]].
    exists m0, x, ref. eexists. split; [exact Hm0|]. split; [exact Hx|].
    split; [rewrite <- Hsweep; exact Href|]. split; [exact Hnd|].
    unfold Mesh.skew_node. cbn [Mesh.tag Mesh.x_group Mesh.z_group Mesh.coordinate].
    unfold e. rewrite Hcurve, Hd, Hr, Hlim. repeat split.
  - intros q nd Hq.
    assert (Hrange : c0 <= q < c0 + T * L).
    { apply (dict_get_in_keys Z.eqb Zeqb_eq) in Hq.
      apply (Inv_key_range _ _ _ _ _ HI) in Hq. rewrite Hc in Hq. exact Hq. }
    split; [exact Hrange|].
    assert (Hdiv : q - c0 = L * ((q - c0) / L) + (q - c0) mod L) by (apply Z.div_mod; lia).
    assert (Hmod : 0 <= (q - c0) mod L < L) by (apply Z.mod_pos_bound; lia).
    assert (Hquot : 0 <= (q - c0) / L < T).
    { split; [apply Z.div_pos; lia|]. apply Z.div_lt_upper_bound; [lia | nia]. }
    destruct (Hpoint ((q - c0) / L) ((q - c0) mod L) Hquot Hmod) as [x [ref [_ [_ Hnd]]]].
    replace (c0 + (q - c0) / L * L + (q - c0) mod L) with q in Hnd by lia.
    rewrite Hq in Hnd. injection Hnd as Hnd. subst nd. split; reflexivity.
Qed.

(** In every finished skew mesh the transverse elements join, station by
    station, every node to the next node of its station, under the number
    of the station; the longitudinal elements join, from the second station
    on, every node to the node of its row in the station before, under the
    number of the row. *)
Theorem skew_mesh_links :
  forall (g : option (list (coord F)) * option (list Z)) (a : Mesh.args F) (m : Mesh.mesh F),
  Mesh.arg_orthogonal a = false ->
  Mesh.init_from g a = Ok m ->
  let s := Mesh.mesh_state m in
  let L := Mesh.arg_num_long_beam a in
  let T := Mesh.arg_num_trans_beam a in
  let c0 := Mesh.arg_node_counter a in
  map Mesh.ele_link (Mesh.trans_ele s)
  = flat_map (fun i => map (fun k => (c0 + i * L + k - 1, c0 + i * L + k, i))
                           (zseq 1 (Z.to_nat (L - 1))))
             (zseq 0 (Z.to_nat T))
  /\ map Mesh.ele_link (Mesh.long_ele s)
     = flat_map (fun i => map (fun k => (c0 + (i - 1) * L + k, c0 + i * L + k, k))
                              (zseq 0 (Z.to_nat L)))
                (zseq 1 (Z.to_nat (T - 1)))
  /\ (forall el, In el (Mesh.trans_ele s) ->
        Mesh.node_j el = Mesh.node_i el + 1
        /\ Mesh.group_index el = (Mesh.node_i el - c0) / L
        /\ Mesh.group_index el = (Mesh.node_j el - c0) / L)
  /\ (forall el, In el (Mesh.long_ele s) ->
        Mesh.node_j el = Mesh.node_i el + L
        /\ Mesh.group_index el = (Mesh.node_i el - c0) mod L).
Proof.
  intros g a m Hskew Hrun s L T c0.
  destruct (skew_mesh_inv g a m Hskew Hrun)
    as [m0 (_ & HL & HT & HLe & _ & _ & _ & _ & _ & _ & _ & Htr & Hlo & _)].
  cbv zeta in *. rewrite HLe in *. fold s L T in Htr, Hlo.
  cbn [Mesh.initial_state Mesh.node_counter Mesh.trans_ele Mesh.long_ele map app] in *.
  fold c0 in Htr, Hlo.
  split; [exact Htr|]. split; [exact Hlo|]. split.
  - intros el Hin. apply (in_map Mesh.ele_link) in Hin. rewrite Htr in Hin.
    unfold Mesh.skew_trans_links in Hin. apply in_flat_map in Hin.
    destruct Hin as [i [Hi Hin]]. apply in_map_iff in Hin. destruct Hin as [k [Heq Hk]].
    apply zseq_In in Hi, Hk. unfold Mesh.ele_link in Heq. injection Heq as Hni Hnj Hgr.
    rewrite <- Hni, <- Hnj, <- Hgr. split; [lia|]. split.
    + replace (c0 + i * L + k - 1 - c0) with (i * L + (k - 1)) by lia.
      rewrite Z.div_add_l by lia. rewrite (Z.div_small (k - 1) L) by lia. lia.
    + replace (c0 + i * L + k - c0) with (i * L + k) by lia.
      rewrite Z.div_add_l by lia. rewrite (Z.div_small k L) by lia. lia.
  - intros el Hin. apply (in_map Mesh.ele_link) in Hin. rewrite Hlo in Hin.
    unfold Mesh.skew_long_links in Hin. apply in_flat_map in Hin.
    destruct Hin as [i [Hi Hin]]. apply in_map_iff in Hin. destruct Hin as [k [Heq Hk]].
    apply zseq_In in Hi, Hk. unfold Mesh.ele_link in Heq. injection Heq as Hni Hnj Hgr.
    rewrite <- Hni, <- Hnj, <- Hgr. split; [lia|].
    replace (c0 + (i - 1) * L + k - c0) with (k + (i - 1) * L) by lia.
    rewrite Z.mod_add by lia. rewrite Z.mod_small by lia. reflexivity.
Qed.

(** In every finished skew mesh the nodes of the first station are on
    record in [edge_node_recorder] under the edge number the construction
    started with, and the nodes of the last station under the next number;
    a mesh of one station records one edge only, a mesh without a station
    none.  [global_edge_count] has moved up once per recorded edge, and
    [global_x_grid_count] has not moved. *)
Theorem skew_mesh_edges :
  forall (g : option (list (coord F)) * option (list Z)) (a : Mesh.args F) (m : Mesh.mesh F),
  Mesh.arg_orthogonal a = false ->
  Mesh.init_from g a = Ok m ->
  let s := Mesh.mesh_state m in
  let L := Mesh.arg_num_long_beam a in
  let T := Mesh.arg_num_trans_beam a in
  let c0 := Mesh.arg_node_counter a in
  let ge0 := Mesh.arg_global_edge_count a in
  Mesh.edge_node_recorder s
  = (if 1 <=? T then map (fun n => (n, ge0)) (zseq c0 (Z.to_nat L)) else [])
    ++ (if 2 <=? T
        then map (fun n => (n, ge0 + 1)) (zseq (c0 + (T - 1) * L) (Z.to_nat L)) else [])
  /\ Mesh.global_edge_count s
     = ge0 + (if 1 <=? T then 1 else 0) + (if 2 <=? T then 1 else 0)
  /\ Mesh.global_x_grid_count s = Mesh.arg_global_x_grid_count a.
Proof.
  intros g a m Hskew Hrun s L T c0 ge0.
  destruct (skew_mesh_inv g a m Hskew Hrun)
    as [m0 (_ & HL & HT & HLe & HTe & _ & _ & _ & _ & _ & _ & _ & _ & _ & _ & Hgx & Hge & Hrec)].
  cbv zeta in *. rewrite HLe, HTe in *. fold s L T in Hgx, Hge, Hrec.
  cbn [Mesh.initial_state Mesh.node_counter Mesh.global_edge_count Mesh.global_x_grid_count]
    in *.
  unfold Mesh.skew_edge_record in Hrec. rewrite Z.eqb_refl, andb_true_r in Hge, Hrec.
  split; [exact Hrec|]. split; [exact Hge | exact Hgx].
Qed.

(** The two dictionaries of a finished construction that file the
    elements by group. *)
Lemma group_dicts : forall (e : Mesh.env F) (s : Mesh.t F) (grp : Mesh.groups F),
  Mesh.identify_member_groups e s = Ok grp ->
  Mesh.z_group_to_ele grp
  = map (fun '(count, _) =>
           (count, filter (fun el => Mesh.group_index el =? count) (Mesh.long_ele s)))
        (enumerate (Mesh.noz e))
  /\ Mesh.x_group_to_ele grp
     = map (fun count =>
              (count, filter (fun el => Mesh.group_index el =? count) (Mesh.trans_ele s)))
           (py_range 0 (Mesh.global_x_grid_count s))
  /\ Mesh.common_z_group_element grp
     = [(0, [0; len (Mesh.noz e) - 1]); (1, [1]); (2, py_range 2 (len (Mesh.noz e) - 2));
        (3, [len (Mesh.noz e) - 2])].
Proof.
  intros e s grp Hrun. unfold Mesh.identify_member_groups in Hrun.
  apply bind_ok in Hrun. destruct Hrun as [[wz cz] [_ Hrun]].
  apply bind_ok in Hrun. destruct Hrun as [[wx cx] [_ Hrun]].
  apply bind_ok in Hrun. destruct Hrun as [[wx' cx'] [_ Hrun]].
  apply bind_ok in Hrun. destruct Hrun as [gd [_ Hrun]].
  apply bind_ok in Hrun. destruct Hrun as [[gd' vd] [_ Hrun]].
  injection Hrun as Hrun. subst grp. repeat split.
Qed.

(** In every finished skew mesh, [z_group_to_ele] has one key per row and
    lists under the row [k] the longitudinal elements of that row, station
    after station.  [x_group_to_ele] has one key per value that
    [global_x_grid_count] has passed, and a skew mesh never moves that
    counter: the dictionary has the keys from 0 to the initial value, none
    by default, and no transverse element of the mesh is filed under a key
    beyond them. *)
Theorem skew_mesh_group_dicts :
  forall (g : option (list (coord F)) * option (list Z)) (a : Mesh.args F) (m : Mesh.mesh F),
  Mesh.arg_orthogonal a = false ->
  Mesh.init_from g a = Ok m ->
  let grp := Mesh.mesh_groups m in
  let L := Mesh.arg_num_long_beam a in
  let T := Mesh.arg_num_trans_beam a in
  let c0 := Mesh.arg_node_counter a in
  keys (Mesh.z_group_to_ele grp) = zseq 0 (Z.to_nat L)
  /\ (forall k, 0 <= k < L ->
        exists l,
          dict_get Z.eqb k (Mesh.z_group_to_ele grp) = Some l
          /\ map Mesh.ele_link l
             = map (fun i => (c0 + (i - 1) * L + k, c0 + i * L + k, k))
                   (zseq 1 (Z.to_nat (T - 1))))
  /\ keys (Mesh.x_group_to_ele grp) = py_range 0 (Mesh.arg_global_x_grid_count a)
  /\ (Mesh.arg_global_x_grid_count a <= 0 -> Mesh.x_group_to_ele grp = []).
Proof.
  intros g a m Hskew Hrun grp L T c0.
  destruct (skew_mesh_inv g a m Hskew Hrun)
    as [m0 (_ & HL & HT & HLe & HTe & _ & _ & _ & _ & _ & _ & _ & Hlo & _ & _ & Hgx & _)].
  destruct (init_from_parts g a m Hrun) as (He & _ & Hgrp).
  destruct (make_env_shape a _ He) as (_ & _ & _ & Hnoz & _).
  destruct (group_dicts _ _ _ Hgrp) as (Hz & Hx & _). fold grp in Hz, Hx.
  cbv zeta in *. rewrite HLe in *. fold L T in Hlo, Hnoz.
  cbn [Mesh.initial_state Mesh.node_counter Mesh.long_ele Mesh.global_x_grid_count map app] in *.
  fold c0 in Hlo.
  split; [|split; [|split]].
  - rewrite Hz. unfold enumerate. rewrite keys_enumerate_map. f_equal.
    unfold len in Hnoz. lia.
  - intros k Hk. eexists. split.
    + rewrite Hz. unfold enumerate.
      apply (dict_get_enumerate_map _ _
               (fun count => filter (fun el => Mesh.group_index el =? count)
                                    (Mesh.long_ele (Mesh.mesh_state m)))).
      lia.
    + rewrite <- (filter_map_comm _ _ Mesh.ele_link (fun t => snd t =? k)).
      rewrite Hlo. unfold Mesh.skew_long_links. rewrite filter_flat_map.
      rewrite <- flat_map_singleton. apply flat_map_ext. intro i.
      rewrite (filter_map_comm _ _ _ (fun t : Z * Z * Z => snd t =? k)). cbn [snd].
      rewrite filter_zseq_eq by lia. reflexivity.
  - rewrite Hx, Hgx. unfold keys. rewrite map_map. cbn [fst]. apply map_id.
  - intro Hzero. rewrite Hx, Hgx. unfold py_range.
    replace (Z.to_nat (Mesh.arg_global_x_grid_count a - 0)) with 0%nat by lia. reflexivity.
Qed.

End FinishedSkewMesh.

(** ** The grouping of a finished mesh *)

(** A loop whose body succeeds on every state that satisfies an invariant
    and keeps it runs to its end. *)
Lemma foldM_total :
  forall (A St : Type) (P : St -> Prop) (f : St -> A -> result St) (l : list A),
    (forall s a, In a l -> P s -> exists s', f s a = Ok s' /\ P s') ->
    forall s, P s -> exists s', foldM f l s = Ok s' /\ P s'.
Proof.
  intros A St P f l. induction l as [|a t IH]; intros Hstep s Hs.
  - exists s. split; [reflexivity | exact Hs].
  - destruct (Hstep s a (or_introl eq_refl) Hs) as [s1 [Hf Hs1]].
    destruct (IH (fun s0 b Hb => Hstep s0 b (or_intror Hb)) s1 Hs1) as [s' [Hrun Hs']].
    exists s'. split; [simpl; rewrite Hf; exact Hrun | exact Hs'].
Qed.

Lemma setdefault_in_inv : forall (K V : Type) (eqb : K -> K -> bool) (k : K) (v : V)
                                 (d : dict K V) (p : K * V),
  In p (setdefault eqb k v d) -> In p d \/ p = (k, v).
Proof.
  intros K V eqb k v d p Hin. unfold setdefault in Hin.
  destruct (dict_get eqb k d); [left; exact Hin|].
  apply in_app_or in Hin. destruct Hin as [Hin | [Heq | []]];
    [left; exact Hin | right; symmetry; exact Heq].
Qed.

Lemma setitem_keys : forall (V : Type) (k : Z) (v : V) (d : dict Z V),
  In k (keys d) -> keys (setitem Z.eqb k v d) = keys d.
Proof.
  intros V k v d. induction d as [|[k' v'] t IH]; intro Hin; [contradiction|].
  simpl. destruct (Z.eqb_spec k k') as [Heq|Hne]; [reflexivity|].
  simpl. f_equal. apply IH. destruct Hin as [Heq|Hin]; [simpl in Heq; congruence | exact Hin].
Qed.

Lemma setitem_values : forall (V : Type) (k : Z) (v c : V) (d : dict Z V),
  In c (values (setitem Z.eqb k v d)) -> c = v \/ In c (values d).
Proof.
  intros V k v c d. induction d as [|[k' v'] t IH]; simpl.
  - intros [Heq | []]. left. symmetry. exact Heq.
  - destruct (Z.eqb_spec k k') as [Heq|Hne]; simpl.
    + intros [Hc | Hc]; [left; symmetry; exact Hc | right; right; exact Hc].
    + intros [Hc | Hc]; [right; left; exact Hc|].
      destruct (IH Hc) as [Hv | Hv]; [left; exact Hv | right; right; exact Hv].
Qed.

Lemma setitem_get : forall (V : Type) (k k' : Z) (v : V) (d : dict Z V),
  dict_get Z.eqb k' (setitem Z.eqb k v d)
  = if k' =? k then Some v else dict_get Z.eqb k' d.
Proof.
  intros V k k' v d. induction d as [|[k0 v0] t IH]; simpl.
  - destruct (k' =? k); reflexivity.
  - destruct (Z.eqb_spec k k0) as [Heq|Hne]; simpl.
    + subst k0. destruct (k' =? k); reflexivity.
    + rewrite IH. destruct (Z.eqb_spec k' k0) as [Heq'|Hne'].
      * subst k0. destruct (Z.eqb_spec k' k); [congruence | reflexivity].
      * reflexivity.
Qed.

Lemma enumerate_from_In : forall (A : Type) (l : list A) (i j : Z) (a : A),
  In (j, a) (enumerate_from i l) -> i <= j < i + len l.
Proof.
  intros A l. induction l as [|b t IH]; intros i j a Hin; [contradiction|].
  unfold len in *. simpl length. destruct Hin as [Heq | Hin].
  - injection Heq as Hj _. lia.
  - apply IH in Hin. lia.
Qed.

Section UniqueFacts.
Context {A : Type} (ltb : A -> A -> bool).

Lemma fold_min_In : forall (t : list A) (x : A),
  In (fold_left (fun a b => if ltb b a then b else a) t x) (x :: t).
Proof.
  induction t as [|b t IH]; intro x; [left; reflexivity|].
  simpl fold_left. destruct (IH (if ltb b x then b else x)) as [Heq | Hin].
  - rewrite <- Heq. destruct (ltb b x); [right; left; reflexivity | left; reflexivity].
  - right. right. exact Hin.
Qed.

Lemma unique_aux_In : forall (n : nat) (l : list A) (x : A),
  In x (unique_aux ltb n l) -> In x l.
Proof.
  induction n as [|n IH]; intros l x Hin; [contradiction|].
  destruct l as [|y t]; [contradiction|].
  cbn [unique_aux] in Hin. destruct Hin as [Heq | Hin].
  - rewrite <- Heq. apply fold_min_In.
  - apply IH in Hin. apply filter_In in Hin. exact (proj1 Hin).
Qed.

(** [np.unique] returns values of its argument, and at least one when the
    argument is not empty. *)
Lemma np_unique_In : forall (l : list A) (x : A), In x (np_unique ltb l) -> In x l.
Proof. intros l x. apply unique_aux_In. Qed.

Lemma np_unique_cons : forall l : list A,
  l <> [] -> exists x t, np_unique ltb l = x :: t.
Proof.
  intros [|y t] Hne; [contradiction|]. unfold np_unique. simpl. eexists. eexists. reflexivity.
Qed.

End UniqueFacts.

Lemma py_max_unique : forall (F : Type) (ops : FloatOps F) (l : list F),
  l <> [] -> exists hi, py_max (np_unique fltb l) = Ok hi.
Proof.
  intros F ops l Hne. destruct (np_unique_cons fltb l Hne) as [x [t Heq]].
  rewrite Heq. eexists. reflexivity.
Qed.

Section Grouping.
Context {F : Type} `{FloatOps F} `{Static F}.
Variable e : Mesh.env F.
Variables n0 t0 : Z.
Variable s : Mesh.t F.
Hypothesis HI : Mesh.Inv e n0 t0 s.

Local Notation "'nodes'" := (keys (Mesh.node_spec s)).
Local Notation "'numbered'" := (Mesh.numbered s).

Lemma getitem_node : forall n : Z,
  In n nodes -> exists nd, getitem Z.eqb n (Mesh.node_spec s) = Ok nd.
Proof.
  intros n Hin. destruct (in_keys_dict_get Z.eqb Zeqb_eq n _ Hin) as [nd Hnd].
  exists nd. unfold getitem. rewrite Hnd. reflexivity.
Qed.

Lemma element_ends : forall el : Mesh.ele,
  In el (Mesh.all_ele s) ->
  In (Mesh.node_i el) nodes /\ In (Mesh.node_j el) nodes.
Proof.
  intros el Hin. destruct (Mesh.inv_ele _ _ _ _ HI el Hin) as [_ [ni [nj [Hi [Hj _]]]]].
  split; eapply (dict_get_in_keys Z.eqb Zeqb_eq); eassumption.
Qed.

Lemma spans_and_neighbours_total : forall (el : Mesh.ele) (items : list Mesh.ele),
  (forall it, In it items -> In (Mesh.node_i it) nodes /\ In (Mesh.node_j it) nodes) ->
  exists dl pl,
    Mesh.spans_and_neighbours s el items = Ok (dl, pl)
    /\ forall n, In n pl -> In n nodes /\ n <> Mesh.node_i el /\ n <> Mesh.node_j el.
Proof.
  intros el items Hitems. unfold Mesh.spans_and_neighbours.
  match goal with
  | |- exists dl pl, foldM ?f _ ?s0 = _ /\ _ =>
      destruct (foldM_total _ _
                  (fun acc : list (list F) * list Z =>
                     forall n, In n (snd acc) ->
                               In n nodes /\ n <> Mesh.node_i el /\ n <> Mesh.node_j el)
                  f items) with (s := s0) as [[dl pl] [Hrun Hpl]]
  end.
  - intros [dl pl] item Hitem Hacc. destruct (Hitems item Hitem) as [Hi Hj].
    destruct (getitem_node _ Hi) as [a Ha]. destruct (getitem_node _ Hj) as [b Hb].
    rewrite Ha. cbn [bind]. rewrite Hb. cbn [bind].
    eexists. split; [reflexivity|]. cbn [snd] in *. intros n Hn.
    destruct (negb (Mesh.node_j item =? Mesh.node_i el)
              && negb (Mesh.node_j item =? Mesh.node_j el)) eqn:Hcj.
    + apply in_app_or in Hn. destruct Hn as [Hn | [Hn | []]].
      * destruct (negb (Mesh.node_i item =? Mesh.node_i el)
                  && negb (Mesh.node_i item =? Mesh.node_j el)) eqn:Hci.
        -- apply in_app_or in Hn. destruct Hn as [Hn | [Hn | []]]; [exact (Hacc n Hn)|].
           subst n. apply andb_prop in Hci. destruct Hci as [H1 H2].
           apply negb_true_iff in H1, H2. apply Z.eqb_neq in H1, H2. tauto.
        -- exact (Hacc n Hn).
      * subst n. apply andb_prop in Hcj. destruct Hcj as [H1 H2].
        apply negb_true_iff in H1, H2. apply Z.eqb_neq in H1, H2. tauto.
    + destruct (negb (Mesh.node_i item =? Mesh.node_i el)
                && negb (Mesh.node_i item =? Mesh.node_j el)) eqn:Hci.
      * apply in_app_or in Hn. destruct Hn as [Hn | [Hn | []]]; [exact (Hacc n Hn)|].
        subst n. apply andb_prop in Hci. destruct Hci as [H1 H2].
        apply negb_true_iff in H1, H2. apply Z.eqb_neq in H1, H2. tauto.
      * exact (Hacc n Hn).
  - intros n [].
  - exists dl, pl. split; [exact Hrun | exact Hpl].
Qed.

Lemma neighbour_pass_total :
  forall (eles others : list Mesh.ele) (acc : dict Z (list (list F)) * dict Z (list Z)),
  (forall it, In it others -> In (Mesh.node_i it) nodes /\ In (Mesh.node_j it) nodes) ->
  Mesh.connect_ok s (snd acc) ->
  exists acc',
    Mesh.neighbour_pass s eles others acc = Ok acc' /\ Mesh.connect_ok s (snd acc').
Proof.
  intros eles others acc Hothers Hacc. unfold Mesh.neighbour_pass.
  apply (foldM_total _ _ (fun a : dict Z (list (list F)) * dict Z (list Z) =>
                            Mesh.connect_ok s (snd a))); [|exact Hacc].
  intros [wd cd] el _ Hcd. cbn [snd] in Hcd.
  assert (Htouch : forall n it, In it (Mesh.touching others n) ->
                                In (Mesh.node_i it) nodes /\ In (Mesh.node_j it) nodes).
  { intros n it Hit. unfold Mesh.touching in Hit. apply filter_In in Hit.
    apply Hothers. exact (proj1 Hit). }
  destruct (spans_and_neighbours_total el (Mesh.touching others (Mesh.node_i el))
              (Htouch _)) as [d1 [p1 [H1 Hp1]]].
  destruct (spans_and_neighbours_total el (Mesh.touching others (Mesh.node_j el))
              (Htouch _)) as [d2 [p2 [H2 Hp2]]].
  rewrite H1. cbn [bind]. rewrite H2. cbn [bind].
  eexists. split; [reflexivity|]. cbn [snd]. intros k l n Hin Hn.
  apply setdefault_in_inv in Hin. destruct Hin as [Hin | Heq].
  - apply setdefault_in_inv in Hin. destruct Hin as [Hin | Heq].
    + exact (Hcd k l n Hin Hn).
    + injection Heq as Hk Hl. subst k l. destruct (Hp1 n Hn) as (Hk & Hi & _).
      split; assumption.
  - injection Heq as Hk Hl. subst k l. destruct (Hp2 n Hn) as (Hk & _ & Hj).
    split; assumption.
Qed.

Lemma third_node : forall (p : Mesh.node F -> bool) (n : Z),
  In n (map Mesh.tag (filter p (values (Mesh.node_spec s)))) -> In n nodes.
Proof.
  intros p n Hin. apply in_map_iff in Hin. destruct Hin as [nd [Htag Hnd]].
  apply filter_In in Hnd. destruct Hnd as [Hnd _].
  unfold values in Hnd. apply in_map_iff in Hnd. destruct Hnd as [[k nd'] [Hsnd Hin]].
  simpl in Hsnd. subst nd'. rewrite (Mesh.inv_tags _ _ _ _ HI k nd Hin) in Htag.
  subst n. unfold keys. apply (in_map fst) in Hin. exact Hin.
Qed.

Lemma numbered_add : forall (gd : dict Z (list Mesh.grid_entry)) (counter : Z)
                            (cell : list Mesh.grid_entry),
  numbered (gd, counter) -> Mesh.cell_ok s cell ->
  numbered (setdefault Z.eqb counter cell gd, counter + 1).
Proof.
  intros gd counter cell (Hc & Hk & Hcells) Hcell. cbn [fst snd] in *.
  assert (Hfresh : ~ In counter (keys gd)).
  { rewrite Hk. intro Hin. apply zseq_In in Hin. lia. }
  rewrite (setdefault_fresh Z.eqb Zeqb_eq _ _ _ Hfresh).
  split; [cbn [snd]; lia|]. cbn [fst snd]. split.
  - unfold keys in *. rewrite map_app, Hk. cbn [map fst].
    replace (Z.to_nat (counter + 1)) with (S (Z.to_nat counter)) by lia.
    rewrite zseq_snoc. f_equal. f_equal. lia.
  - intros c Hin. unfold values in Hin. rewrite map_app in Hin. apply in_app_or in Hin.
    destruct Hin as [Hin | [Heq | []]]; [exact (Hcells c Hin)|].
    cbn [snd] in Heq. subst c. exact Hcell.
Qed.

Lemma grid_cell_step_total :
  forall (node_tag x_node xg : Z) (acc : dict Z (list Mesh.grid_entry) * Z) (z_node : Z),
  In node_tag nodes -> In x_node nodes -> In z_node nodes -> node_tag <> x_node ->
  numbered acc ->
  exists acc', Mesh.grid_cell_step s node_tag x_node xg acc z_node = Ok acc' /\ numbered acc'.
Proof.
  intros node_tag x_node xg [gd counter] z_node Hn Hx Hz Hne Hacc.
  unfold Mesh.grid_cell_step. destruct (getitem_node _ Hz) as [zn Hzn].
  rewrite Hzn. cbn [bind].
  destruct (map Mesh.tag _) as [|n3 rest] eqn:Hn3.
  - destruct (negb _).
    + eexists. split; [reflexivity|]. apply numbered_add; [exact Hacc|].
      exists node_tag, x_node, z_node. repeat split; try assumption.
      right. left. reflexivity.
    + eexists. split; [reflexivity | exact Hacc].
  - destruct (negb _).
    + eexists. split; [reflexivity|]. apply numbered_add; [exact Hacc|].
      exists node_tag, x_node, z_node. repeat split; try assumption.
      right. right. exists n3. split; [|reflexivity].
      apply (third_node (fun n => (Mesh.x_group n =? xg)
                                  && (Mesh.z_group n =? Mesh.z_group zn))).
      rewrite Hn3. left. reflexivity.
    + eexists. split; [reflexivity | exact Hacc].
Qed.

Lemma get_default_connect : forall (d : dict Z (list Z)) (k n : Z),
  Mesh.connect_ok s d -> In n (get_default Z.eqb k [] d) -> In n nodes /\ n <> k.
Proof.
  intros d k n Hd Hin. unfold get_default in Hin.
  destruct (dict_get Z.eqb k d) as [l|] eqn:Hl; [|contradiction].
  apply (dict_get_some_in Z.eqb Zeqb_eq) in Hl. exact (Hd k l n Hl Hin).
Qed.

Lemma number_grids_total : forall connect_x connect_z : dict Z (list Z),
  Mesh.connect_ok s connect_x -> Mesh.connect_ok s connect_z ->
  exists gd,
    Mesh.number_grids s connect_x connect_z = Ok gd
    /\ (exists n : nat, keys gd = zseq 0 n)
    /\ forall cell, In cell (values gd) -> Mesh.cell_ok s cell.
Proof.
  intros connect_x connect_z Hcx Hcz. unfold Mesh.number_grids.
  match goal with
  | |- exists gd, bind (foldM ?f ?l ?a0) _ = _ /\ _ =>
      destruct (foldM_total _ _ numbered f l) with (s := a0) as [[gd counter] [Hrun Hnum]]
  end.
  - intros acc node_tag Hnode Hacc.
    apply (foldM_total _ _ numbered); [|exact Hacc].
    intros acc1 x_node Hxn Hacc1.
    destruct (get_default_connect _ _ _ Hcx Hxn) as [Hx Hxne].
    destruct (getitem_node _ Hx) as [xn Hxnd]. rewrite Hxnd. cbn [bind].
    apply (foldM_total _ _ numbered); [|exact Hacc1].
    intros acc2 z_node Hzn Hacc2.
    destruct (get_default_connect _ _ _ Hcz Hzn) as [Hz _].
    apply grid_cell_step_total; try assumption. congruence.
  - split; [cbn [snd]; lia|]. split; [reflexivity | intros cell []].
  - rewrite Hrun. cbn [bind fst]. exists gd. split; [reflexivity|].
    destruct Hnum as (_ & Hk & Hcells). cbn [fst snd] in *.
    split; [exists (Z.to_nat counter); exact Hk | exact Hcells].
Qed.

Lemma summarize_neighbour_from : forall (cell : list Mesh.grid_entry) (sm0 : @Mesh.cell_summary F),
  (forall n, In (Mesh.GNode n) cell -> In n nodes) ->
  exists sm,
    foldM (fun sm entry =>
             match entry with
             | Mesh.GEmpty => Ok sm
             | Mesh.GNode n =>
                 if n =? 0 then Ok sm
                 else
                   nd <- getitem Z.eqb n (Mesh.node_spec s) ;;
                   Ok {| Mesh.sum_x_group := Mesh.sum_x_group sm ++ [Mesh.x_group nd];
                         Mesh.sum_z_group := Mesh.sum_z_group sm ++ [Mesh.z_group nd];
                         Mesh.sum_x := Mesh.sum_x sm ++ [cx (Mesh.coordinate nd)];
                         Mesh.sum_z := Mesh.sum_z sm ++ [cz (Mesh.coordinate nd)] |}
             end) cell sm0 = Ok sm
    /\ ((Mesh.sum_x sm0 <> [] /\ Mesh.sum_z sm0 <> [])
        \/ (exists n, In (Mesh.GNode n) cell /\ n <> 0) ->
        Mesh.sum_x sm <> [] /\ Mesh.sum_z sm <> []).
Proof.
  induction cell as [|entry t IH]; intros sm0 Hcell.
  - exists sm0. split; [reflexivity|]. intros [Hne | [n [[] _]]]. exact Hne.
  - assert (Ht : forall n, In (Mesh.GNode n) t -> In n nodes).
    { intros n Hn. apply Hcell. right. exact Hn. }
    destruct entry as [n|].
    + cbn [foldM]. destruct (Z.eqb_spec n 0) as [Hz|Hnz].
      * cbn [bind]. destruct (IH sm0 Ht) as [sm [Hrun Hsm]].
        exists sm. split; [exact Hrun|]. intros [Hne | [n' [[Heq | Hin] Hn']]].
        -- apply Hsm. left. exact Hne.
        -- injection Heq as Heq. congruence.
        -- apply Hsm. right. exists n'. split; assumption.
      * destruct (getitem_node n (Hcell n (or_introl eq_refl))) as [nd Hnd].
        rewrite Hnd. cbn [bind].
        match goal with
        | |- exists sm, foldM _ _ ?sm1 = _ /\ _ => destruct (IH sm1 Ht) as [sm [Hrun Hsm]]
        end.
        exists sm. split; [exact Hrun|]. intros _. apply Hsm. left.
        cbn [Mesh.sum_x Mesh.sum_z].
        split; intro Hnil; apply app_eq_nil in Hnil; destruct Hnil; discriminate.
    + cbn [foldM bind]. destruct (IH sm0 Ht) as [sm [Hrun Hsm]].
      exists sm. split; [exact Hrun|]. intros [Hne | [n' [[Heq | Hin] Hn']]].
      * apply Hsm. left. exact Hne.
      * discriminate.
      * apply Hsm. right. exists n'. split; assumption.
Qed.

Lemma cell_ok_nodes : forall (cell : list Mesh.grid_entry) (n : Z),
  Mesh.cell_ok s cell -> In (Mesh.GNode n) cell -> In n nodes.
Proof.
  intros cell n (a & b & d & _ & Ha & Hb & Hd & Hform) Hin.
  destruct Hform as [Hc | [Hc | [c [Hcin Hc]]]]; subst cell; simpl in Hin;
    repeat (destruct Hin as [Hin | Hin]; [try discriminate; injection Hin as Hin; subst n; assumption|]);
    contradiction.
Qed.

Lemma cell_ok_nonzero : forall cell : list Mesh.grid_entry,
  Mesh.cell_ok s cell -> exists n, In (Mesh.GNode n) cell /\ n <> 0.
Proof.
  intros cell (a & b & d & Hab & _ & _ & _ & Hform).
  assert (Hina : In (Mesh.GNode a) cell /\ In (Mesh.GNode b) cell).
  { destruct Hform as [Hc | [Hc | [c [_ Hc]]]]; subst cell; simpl; tauto. }
  destruct (Z.eq_dec a 0) as [Hz|Hnz].
  - exists b. split; [tauto | lia].
  - exists a. split; [tauto | exact Hnz].
Qed.

Lemma summarize_neighbour_total : forall cell : list Mesh.grid_entry,
  Mesh.cell_ok s cell ->
  exists sm,
    Mesh.summarize_neighbour s cell = Ok sm /\ Mesh.sum_x sm <> [] /\ Mesh.sum_z sm <> [].
Proof.
  intros cell Hcell. unfold Mesh.summarize_neighbour.
  destruct (summarize_neighbour_from cell (Mesh.mk_summary [] [] [] [])
              (fun n => cell_ok_nodes cell n Hcell)) as [sm [Hrun Hsm]].
  exists sm. split; [exact Hrun|]. apply Hsm. right. apply cell_ok_nonzero. exact Hcell.
Qed.

Lemma cells_with_range : forall (n : Z) (gd : dict Z (list Mesh.grid_entry)) (i : Z),
  In i (Mesh.cells_with n gd) -> 0 <= i < len gd.
Proof.
  intros n gd i Hin. unfold Mesh.cells_with in Hin. apply in_map_iff in Hin.
  destruct Hin as [[j c] [Hj Hin]]. simpl in Hj. subst j.
  apply filter_In in Hin. destruct Hin as [Hin _]. unfold enumerate in Hin.
  apply enumerate_from_In in Hin. unfold len, values in *. rewrite length_map in Hin. lia.
Qed.

Lemma summarize_current_from :
  forall (gd : dict Z (list Mesh.grid_entry)) (grid : list Mesh.grid_entry)
         (acc : list Z * @Mesh.cell_summary F),
  (forall x, In x grid -> exists n, x = Mesh.GNode n /\ In n nodes) ->
  (forall i, In i (fst acc) -> 0 <= i < len gd) ->
  exists record sm,
    foldM (fun '(record, sm) entry =>
             match entry with
             | Mesh.GEmpty => Raise TypeError
             | Mesh.GNode n =>
                 let record := record ++ Mesh.cells_with n gd in
                 nd <- getitem Z.eqb n (Mesh.node_spec s) ;;
                 Ok (record,
                     {| Mesh.sum_x_group := Mesh.sum_x_group sm ++ [Mesh.x_group nd];
                        Mesh.sum_z_group := Mesh.sum_z_group sm ++ [Mesh.z_group nd];
                        Mesh.sum_x := Mesh.sum_x sm ++ [cx (Mesh.coordinate nd)];
                        Mesh.sum_z := Mesh.sum_z sm ++ [cz (Mesh.coordinate nd)] |})
             end) grid acc = Ok (record, sm)
    /\ (forall i, In i record -> 0 <= i < len gd)
    /\ ((Mesh.sum_x (snd acc) <> [] /\ Mesh.sum_z (snd acc) <> []) \/ grid <> [] ->
        Mesh.sum_x sm <> [] /\ Mesh.sum_z sm <> []).
Proof.
  intros gd grid. induction grid as [|entry t IH]; intros [record0 sm0] Hgrid Hacc.
  - exists record0, sm0. split; [reflexivity|]. split; [exact Hacc|].
    intros [Hne | Hne]; [exact Hne | contradiction].
  - destruct (Hgrid entry (or_introl eq_refl)) as [n [Heq Hn]]. subst entry.
    destruct (getitem_node n Hn) as [nd Hnd]. cbn [foldM]. rewrite Hnd. cbn [bind].
    match goal with
    | |- exists record sm, foldM _ _ ?acc1 = _ /\ _ =>
        destruct (IH acc1) as [record [sm [Hrun [Hrec Hsm]]]]
    end.
    + intros x Hx. apply Hgrid. right. exact Hx.
    + cbn [fst]. intros i Hi. apply in_app_or in Hi. destruct Hi as [Hi | Hi].
      * apply Hacc. exact Hi.
      * exact (cells_with_range _ _ _ Hi).
    + exists record, sm. split; [exact Hrun|]. split; [exact Hrec|].
      intros _. apply Hsm. left. cbn [snd Mesh.sum_x Mesh.sum_z].
      split; intro Hnil; apply app_eq_nil in Hnil; destruct Hnil; discriminate.
Qed.

Lemma summarize_current_total :
  forall (gd : dict Z (list Mesh.grid_entry)) (grid : list Mesh.grid_entry),
  (forall x, In x grid -> exists n, x = Mesh.GNode n /\ In n nodes) -> grid <> [] ->
  exists record sm,
    Mesh.summarize_current s gd grid = Ok (record, sm)
    /\ (forall i, In i record -> 0 <= i < len gd)
    /\ Mesh.sum_x sm <> [] /\ Mesh.sum_z sm <> [].
Proof.
  intros gd grid Hgrid Hne. unfold Mesh.summarize_current.
  destruct (summarize_current_from gd grid ([], Mesh.mk_summary [] [] [] []) Hgrid)
    as [record [sm [Hrun [Hrec Hsm]]]]; [intros i []|].
  exists record, sm. split; [exact Hrun|]. split; [exact Hrec|]. apply Hsm. right. exact Hne.
Qed.

(** What [if [] in grid: grid.remove([])] leaves of a cell. *)
Lemma clean_cell : forall grid : list Mesh.grid_entry,
  Mesh.cell_ok s grid ->
  let grid' := if existsb Mesh.is_GEmpty grid then Mesh.remove_empty grid else grid in
  Mesh.cell_ok s grid'
  /\ existsb Mesh.is_GEmpty grid' = false
  /\ (forall x, In x grid' -> exists n, x = Mesh.GNode n /\ In n nodes)
  /\ grid' <> [].
Proof.
  intros grid (a & b & d & Hab & Ha & Hb & Hd & Hform).
  destruct Hform as [Hc | [Hc | [c [Hcin Hc]]]]; subst grid; cbn.
  - split; [exists a, b, d; repeat split; try assumption; left; reflexivity|].
    split; [reflexivity|]. split; [|discriminate].
    intros x [Hx | [Hx | [Hx | []]]]; subst x; eexists; (split; [reflexivity | assumption]).
  - split; [exists a, b, d; repeat split; try assumption; left; reflexivity|].
    split; [reflexivity|]. split; [|discriminate].
    intros x [Hx | [Hx | [Hx | []]]]; subst x; eexists; (split; [reflexivity | assumption]).
  - split; [exists a, b, d; repeat split; try assumption; right; right; exists c;
            split; [assumption | reflexivity]|].
    split; [reflexivity|]. split; [|discriminate].
    intros x [Hx | [Hx | [Hx | [Hx | []]]]]; subst x; eexists;
      (split; [reflexivity | assumption]).
Qed.

Ltac vicinity_case Hsub Hrange Hk :=
  let x := fresh "x" in
  let Hx := fresh "Hx" in
  intros x Hx; cbn [Mesh.top Mesh.bottom Mesh.left Mesh.right] in Hx;
  destruct Hx as [Hx | [Hx | [Hx | Hx]]];
  first [ injection Hx as Hx; subst x; split; [exact Hrange | exact Hk]
        | apply Hsub; tauto ].

Lemma classify_neighbour_total :
  forall (gd : dict Z (list Mesh.grid_entry)) (n : nat) (k : Z)
         (current_x_group current_z_group : list Z) (current_x current_z : list F)
         (subdict : Mesh.vicinity) (neighbour : Z),
  keys gd = zseq 0 n ->
  (forall cell, In cell (values gd) -> Mesh.cell_ok s cell) ->
  0 <= neighbour < Z.of_nat n ->
  (exists hi, py_max current_x = Ok hi) -> (exists hi, py_max current_z = Ok hi) ->
  Mesh.vicinity_ok (Z.of_nat n) k subdict ->
  exists v,
    Mesh.classify_neighbour s gd k current_x_group current_z_group current_x current_z
      subdict neighbour = Ok v
    /\ Mesh.vicinity_ok (Z.of_nat n) k v.
Proof.
  intros gd n k cxg czg curx curz subdict neighbour Hkeys Hcells Hrange [hx Hhx] [hz Hhz] Hsub.
  unfold Mesh.classify_neighbour. destruct (Z.eqb_spec neighbour k) as [Heq|Hk].
  - exists subdict. split; [reflexivity | exact Hsub].
  - assert (Hin : In neighbour (keys gd)) by (rewrite Hkeys; apply zseq_In; lia).
    destruct (in_keys_dict_get Z.eqb Zeqb_eq _ _ Hin) as [cell Hcell].
    unfold getitem. rewrite Hcell. cbn [bind].
    assert (Hok : Mesh.cell_ok s cell).
    { apply Hcells. apply (dict_get_some_in Z.eqb Zeqb_eq) in Hcell.
      unfold values. apply (in_map snd) in Hcell. exact Hcell. }
    destruct (summarize_neighbour_total cell Hok) as [sm [Hsm [Hsx Hsz]]].
    rewrite Hsm. cbn [bind].
    destruct (py_max_unique F _ _ Hsx) as [mx Hmx].
    destruct (py_max_unique F _ _ Hsz) as [mz Hmz].
    destruct (forallb (fun a => zmem a cxg) _).
    + rewrite Hmz. cbn [bind]. rewrite Hhz. cbn [bind].
      destruct (forallb (fun a => zmem a czg) _).
      * rewrite Hmx. cbn [bind]. rewrite Hhx. cbn [bind].
        eexists. split; [reflexivity|].
        destruct (fgtb mz hz), (fgtb mx hx); vicinity_case Hsub Hrange Hk.
      * eexists. split; [reflexivity|].
        destruct (fgtb mz hz); vicinity_case Hsub Hrange Hk.
    + cbn [bind]. destruct (forallb (fun a => zmem a czg) _).
      * rewrite Hmx. cbn [bind]. rewrite Hhx. cbn [bind].
        eexists. split; [reflexivity|].
        destruct (fgtb mx hx); vicinity_case Hsub Hrange Hk.
      * eexists. split; [reflexivity | exact Hsub].
Qed.

Lemma vicinity_step_total :
  forall (n : nat) (i : Z) (acc : dict Z (list Mesh.grid_entry) * dict Z Mesh.vicinity),
  0 <= i < Z.of_nat n -> Mesh.vicinity_inv s n i acc ->
  exists acc', Mesh.vicinity_step s acc i = Ok acc' /\ Mesh.vicinity_inv s n (i + 1) acc'.
Proof.
  intros n i [gd vd] Hi (Hkeys & Hcells & Hdone & Hvk & Hvd). cbn [fst snd] in *.
  unfold Mesh.vicinity_step.
  assert (Hin : In i (keys gd)) by (rewrite Hkeys; apply zseq_In; lia).
  destruct (in_keys_dict_get Z.eqb Zeqb_eq _ _ Hin) as [grid Hgrid].
  unfold getitem at 1. rewrite Hgrid. cbn [bind].
  assert (Hok : Mesh.cell_ok s grid).
  { apply Hcells. apply (dict_get_some_in Z.eqb Zeqb_eq) in Hgrid.
    unfold values. apply (in_map snd) in Hgrid. exact Hgrid. }
  destruct (clean_cell grid Hok) as (Hok' & Hclean & Hnodes & Hne).
  set (grid' := if existsb Mesh.is_GEmpty grid then Mesh.remove_empty grid else grid) in *.
  set (gd' := setitem Z.eqb i grid' gd).
  assert (Hkeys' : keys gd' = zseq 0 n).
  { unfold gd'. rewrite setitem_keys by exact Hin. exact Hkeys. }
  assert (Hcells' : forall cell, In cell (values gd') -> Mesh.cell_ok s cell).
  { intros cell Hc. unfold gd' in Hc. apply setitem_values in Hc.
    destruct Hc as [Hc | Hc]; [subst cell; exact Hok' | exact (Hcells cell Hc)]. }
  assert (Hlen : len gd' = Z.of_nat n).
  { unfold len. rewrite <- (length_map fst gd'). fold (keys gd'). rewrite Hkeys', zseq_length.
    reflexivity. }
  destruct (summarize_current_total gd' grid' Hnodes Hne) as [record [sm [Hsum [Hrec [Hsx Hsz]]]]].
  rewrite Hsum. cbn [bind].
  match goal with
  | |- exists acc', bind (foldM ?f ?l ?v0) _ = _ /\ _ =>
      destruct (foldM_total _ _ (Mesh.vicinity_ok (Z.of_nat n) i) f l) with (s := v0)
        as [subdict [Hrun Hsub]]
  end.
  - intros v neighbour Hnb Hv. apply classify_neighbour_total; try assumption.
    + apply np_unique_In in Hnb. rewrite <- Hlen. exact (Hrec _ Hnb).
    + apply py_max_unique. exact Hsx.
    + apply py_max_unique. exact Hsz.
  - intros x Hx. cbn in Hx. destruct Hx as [Hx | [Hx | [Hx | Hx]]]; discriminate.
  - rewrite Hrun. cbn [bind]. eexists. split; [reflexivity|].
    split; [exact Hkeys'|]. cbn [fst snd]. split; [exact Hcells'|]. split.
    + intros k cell Hk Hget. unfold gd' in Hget. rewrite setitem_get in Hget.
      destruct (Z.eqb_spec k i) as [Heq|Hneq].
      * injection Hget as Hget. subst cell. exact Hclean.
      * apply (Hdone k cell); [lia | exact Hget].
    + assert (Hfresh : ~ In i (keys vd)).
      { rewrite Hvk. intro Hc. apply zseq_In in Hc. lia. }
      rewrite (setdefault_fresh Z.eqb Zeqb_eq _ _ _ Hfresh). split.
      * unfold keys in *. rewrite map_app, Hvk. cbn [map fst].
        replace (Z.to_nat (i + 1)) with (S (Z.to_nat i)) by lia.
        rewrite zseq_snoc. f_equal. f_equal. lia.
      * intros k v Hkv. apply in_app_or in Hkv. destruct Hkv as [Hkv | [Heq | []]].
        -- exact (Hvd k v Hkv).
        -- injection Heq as Hk Hv. subst k v. exact Hsub.
Qed.

(** [__identify_member_groups] runs to its end on every mesh that
    satisfies the invariant of the meshing procedures. *)
Lemma identify_member_groups_total :
  exists (grp : Mesh.groups F) (n : nat),
    Mesh.identify_member_groups e s = Ok grp
    /\ Mesh.vicinity_inv s n (Z.of_nat n)
         (Mesh.grid_number_dict grp, Mesh.grid_vicinity_dict grp).
Proof.
  unfold Mesh.identify_member_groups.
  assert (Hlong : forall it, In it (Mesh.long_ele s) ->
                             In (Mesh.node_i it) nodes /\ In (Mesh.node_j it) nodes).
  { intros it Hit. apply element_ends. unfold Mesh.all_ele. apply in_or_app. left. exact Hit. }
  assert (Htrans : forall it, In it (Mesh.trans_ele s) ->
                              In (Mesh.node_i it) nodes /\ In (Mesh.node_j it) nodes).
  { intros it Hit. apply element_ends. unfold Mesh.all_ele. apply in_or_app. right.
    apply in_or_app. left. exact Hit. }
  assert (Hnil : Mesh.connect_ok s (snd (@nil (Z * list (list F)), @nil (Z * list Z)))).
  { intros k l n []. }
  destruct (neighbour_pass_total (Mesh.long_ele s) (Mesh.trans_ele s) ([], []) Htrans Hnil)
    as [[wz cz] [Hz Hcz]].
  rewrite Hz. cbn [bind].
  destruct (neighbour_pass_total (Mesh.trans_ele s) (Mesh.long_ele s) ([], []) Hlong Hnil)
    as [[wx cx] [Hx Hcx]].
  rewrite Hx. cbn [bind].
  destruct (neighbour_pass_total (Mesh.edge_span_ele s) (Mesh.long_ele s) (wx, cx) Hlong Hcx)
    as [[wx' cx'] [Hx' Hcx']].
  rewrite Hx'. cbn [bind]. cbn [snd] in *.
  destruct (number_grids_total cx' cz Hcx' Hcz) as [gd [Hgd [[n Hkeys] Hcells]]].
  rewrite Hgd. cbn [bind]. rewrite Hkeys.
  destruct (foldM_zseq_total _ (Mesh.vicinity_inv s n) (Mesh.vicinity_step s) n 0)
    with (s := (gd, @nil (Z * Mesh.vicinity))) as [[gd' vd] [Hrun Hinv]].
  - intros j acc Hj Hacc. apply vicinity_step_total; [lia | exact Hacc].
  - split; [exact Hkeys|]. cbn [fst snd]. split; [exact Hcells|].
    split; [intros k cell Hk Hget; apply (dict_get_in_keys Z.eqb Zeqb_eq) in Hget;
            rewrite Hkeys in Hget; apply zseq_In in Hget; lia|].
    split; [reflexivity | intros k v []].
  - rewrite Hrun. cbn [bind]. eexists. exists n. split; [reflexivity|].
    cbn [Mesh.grid_number_dict Mesh.grid_vicinity_dict]. rewrite Z.add_0_l in Hinv. exact Hinv.
Qed.

End Grouping.

Lemma in_dict_get_nodup : forall (V : Type) (d : dict Z V) (k : Z) (v : V),
  NoDup (keys d) -> In (k, v) d -> dict_get Z.eqb k d = Some v.
Proof.
  intros V d. induction d as [|[k' v'] t IH]; intros k v Hnd Hin; [contradiction|].
  simpl in Hnd. inversion Hnd as [|? ? Hnotin Hnd']; subst. simpl.
  destruct Hin as [Heq | Hin].
  - injection Heq as Hk Hv. subst. rewrite Z.eqb_refl. reflexivity.
  - destruct (Z.eqb_spec k k') as [Heq|Hne].
    + subst k'. exfalso. apply Hnotin. unfold keys. apply (in_map fst) in Hin. exact Hin.
    + apply IH; assumption.
Qed.

Section FinishedGrouping.
Context {F : Type} `{FloatOps F} `{Static F}.

(** The first half of a construction goes through on a straight sweep
    path with two longitudinal beams or more and no negative number of
    transverse beams. *)
Lemma make_env_total : forall a : Mesh.args F,
  Mesh.arg_pt3 a = None -> 2 <= Mesh.arg_num_long_beam a -> 0 <= Mesh.arg_num_trans_beam a ->
  exists e, Mesh.make_env a = Ok e.
Proof.
  intros a Hpt3 HL HT. unfold Mesh.make_env.
  unfold SweepPath.get_sweep_line_properties, SweepPath.init. cbn [SweepPath.pt3].
  rewrite Hpt3. cbn [bind SweepPath.pt1 SweepPath.pt2 SweepPath.decimal_lim SweepPath.c
                     SweepPath.curve_path SweepPath.m].
  rewrite (edge_line_init_eq (Mesh.arg_mesh_origin a)).
  destruct (Z.ltb_spec (Mesh.arg_num_long_beam a - 2) 0) as [Hlt|_]; [lia|].
  cbn [bind]. unfold SweepPath.elevation, SweepPath.get_line_function.
  cbn [SweepPath.curve_path SweepPath.m negb bind].
  rewrite edge_line_init_eq.
  destruct (Z.ltb_spec (Mesh.arg_num_long_beam a - 2) 0) as [Hlt|_]; [lia|].
  cbn [bind]. unfold Mesh.np_linspace.
  destruct (Z.ltb_spec (Mesh.arg_num_trans_beam a) 0) as [Hlt|_]; [lia|].
  cbn [bind]. eexists. reflexivity.
Qed.

(** Once the nodes and the elements are placed, by either meshing
    algorithm, [__identify_member_groups] runs to its end and the
    construction is finished: no node of an element or of a grid cell is
    missing from [node_spec], no grid number is missing from
    [grid_number_dict], no empty list is left in the cell that is looked up
    node by node, and no [max()] is taken of an empty list. *)
Theorem grouping_never_fails :
  forall (g : option (list (coord F)) * option (list Z)) (a : Mesh.args F)
         (e : Mesh.env F) (s : Mesh.t F),
  Mesh.make_env a = Ok e ->
  Mesh.run_meshing e (Mesh.initial_state a g) = Ok s ->
  exists grp,
    Mesh.identify_member_groups e s = Ok grp
    /\ Mesh.init_from g a = Ok (Mesh.mk_mesh e s grp).
Proof.
  intros g a e s He Hs.
  assert (HI : Mesh.Inv e (Mesh.arg_node_counter a) (Mesh.arg_transform_counter a) s).
  { apply (run_meshing_inv e _ _ (Mesh.initial_state a g) s); try exact Hs.
    - apply initial_state_inv.
    - simpl. constructor.
    - simpl. constructor. }
  destruct (identify_member_groups_total e _ _ s HI) as [grp [n [Hgrp _]]].
  exists grp. split; [exact Hgrp|].
  unfold Mesh.init_from. rewrite He. cbn [bind]. rewrite Hs. cbn [bind]. rewrite Hgrp.
  reflexivity.
Qed.

(** A skew construction succeeds exactly when the sweep path is straight
    (no third control point), there are two longitudinal beams or more and
    the number of transverse beams is not negative: whatever the lengths,
    the angles, the counters it starts from and the module globals. *)
Theorem skew_construction_succeeds_iff :
  forall (g : option (list (coord F)) * option (list Z)) (a : Mesh.args F),
  Mesh.arg_orthogonal a = false ->
  ((exists m, Mesh.init_from g a = Ok m)
   <-> Mesh.arg_pt3 a = None /\ 2 <= Mesh.arg_num_long_beam a /\ 0 <= Mesh.arg_num_trans_beam a).
Proof.
  intros g a Hskew. split.
  - intros [m Hrun]. destruct (init_from_parts g a m Hrun) as (He & _).
    destruct (make_env_shape a _ He) as (Hpt3 & HL & HT & _).
    split; [exact Hpt3|]. split; [exact HL | exact HT].
  - intros (Hpt3 & HL & HT). destruct (make_env_total a Hpt3 HL HT) as [e He].
    destruct (make_env_shape a e He)
      as (_ & _ & _ & _ & HLe & _ & _ & [m0 Hm0] & Horth & Hcurve & _).
    destruct (fixed_sweep_node_meshing_total e (Mesh.arg_node_counter a)
                (Mesh.arg_transform_counter a) m0 Hm0 (Mesh.initial_state a g))
      as [s [Hs Hinv]]; [lia | apply initial_state_inv | reflexivity |].
    destruct Hinv as [HI _].
    destruct (identify_member_groups_total e _ _ s HI) as [grp [n [Hgrp _]]].
    exists (Mesh.mk_mesh e s grp). unfold Mesh.init_from. rewrite He. cbn [bind].
    unfold Mesh.run_meshing. rewrite Horth, Hskew, Hcurve. cbn [negb]. rewrite Hs. cbn [bind].
    rewrite Hgrp. reflexivity.
Qed.

(** In every finished mesh the grids are numbered 0, 1, ... without a
    gap, and every grid has its entry in [grid_vicinity_dict].  A grid cell
    lists three or four nodes of [node_spec], the first two different, and
    the empty list that stood for a missing third bounding node is gone.
    The neighbours on record for a grid are numbers of other grids. *)
Theorem grids_numbered_and_cleaned :
  forall (g : option (list (coord F)) * option (list Z)) (a : Mesh.args F) (m : Mesh.mesh F),
  Mesh.init_from g a = Ok m ->
  let grp := Mesh.mesh_groups m in
  let nodes := keys (Mesh.node_spec (Mesh.mesh_state m)) in
  exists n : nat,
    keys (Mesh.grid_number_dict grp) = zseq 0 n
    /\ keys (Mesh.grid_vicinity_dict grp) = zseq 0 n
    /\ (forall k cell, In (k, cell) (Mesh.grid_number_dict grp) ->
          exists a b d,
            a <> b /\ In a nodes /\ In b nodes /\ In d nodes
            /\ (cell = [Mesh.GNode a; Mesh.GNode b; Mesh.GNode d]
                \/ exists c, In c nodes
                             /\ cell = [Mesh.GNode a; Mesh.GNode b; Mesh.GNode c; Mesh.GNode d]))
    /\ (forall k v x, In (k, v) (Mesh.grid_vicinity_dict grp) ->
          Mesh.top v = Some x \/ Mesh.bottom v = Some x
          \/ Mesh.left v = Some x \/ Mesh.right v = Some x ->
          In x (keys (Mesh.grid_number_dict grp)) /\ x <> k).
Proof.
  intros g a m Hrun grp nodes.
  destruct (init_from_parts g a m Hrun) as (_ & _ & Hgrp).
  pose proof (init_from_inv g a m Hrun) as HI.
  destruct (identify_member_groups_total _ _ _ _ HI) as [grp' [n [Hgrp' Hinv]]].
  rewrite Hgrp in Hgrp'. injection Hgrp' as Hgrp'. subst grp'. fold grp in Hinv.
  destruct Hinv as (Hkeys & Hcells & Hdone & Hvk & Hvd). cbn [fst snd] in *.
  exists n. split; [exact Hkeys|]. split; [rewrite Hvk, Nat2Z.id; reflexivity|]. split.
  - intros k cell Hin.
    assert (Hget : dict_get Z.eqb k (Mesh.grid_number_dict grp) = Some cell).
    { apply in_dict_get_nodup; [rewrite Hkeys; apply zseq_NoDup | exact Hin]. }
    assert (Hk : k < Z.of_nat n).
    { apply (dict_get_in_keys Z.eqb Zeqb_eq) in Hget. rewrite Hkeys in Hget.
      apply zseq_In in Hget. lia. }
    pose proof (Hdone k cell Hk Hget) as Hclean.
    destruct (Hcells cell) as (x & y & d & Hxy & Hx & Hy & Hd & Hform).
    { unfold values. apply (in_map snd) in Hin. exact Hin. }
    exists x, y, d. repeat (split; [assumption|]).
    destruct Hform as [Hc | [Hc | Hc]].
    + left. exact Hc.
    + subst cell. discriminate.
    + right. exact Hc.
  - intros k v x Hin Hx. destruct (Hvd k v Hin x Hx) as [Hrange Hne].
    split; [|exact Hne]. rewrite Hkeys. apply zseq_In. lia.
Qed.

End FinishedGrouping.

(** ** Rows and columns *)

Lemma getitem_ok_get : forall (V : Type) (k : Z) (d : dict Z V) (v : V),
  getitem Z.eqb k d = Ok v -> dict_get Z.eqb k d = Some v.
Proof.
  intros V k d v Hget. unfold getitem in Hget.
  destruct (dict_get Z.eqb k d); [injection Hget as Hget; subst; reflexivity | discriminate].
Qed.

Section ElementGroups.
Context {F : Type} `{FloatOps F} `{Static F}.
Variable e : Mesh.env F.

Lemma nodes_same_refl : forall s : Mesh.t F, Mesh.nodes_same s s.
Proof. intro s. repeat split. Qed.

Lemma nodes_same_trans : forall s1 s2 s3 : Mesh.t F,
  Mesh.nodes_same s1 s2 -> Mesh.nodes_same s2 s3 -> Mesh.nodes_same s1 s3.
Proof.
  intros s1 s2 s3 (A1 & A2 & A3 & A4) (B1 & B2 & B3 & B4).
  repeat split; congruence.
Qed.

Lemma grouped_same : forall s s' : Mesh.t F,
  Mesh.grouped s ->
  Mesh.node_counter s' = Mesh.node_counter s ->
  Mesh.node_spec s' = Mesh.node_spec s ->
  Mesh.long_ele s' = Mesh.long_ele s ->
  Mesh.trans_ele s' = Mesh.trans_ele s ->
  Mesh.grouped s'.
Proof.
  intros s s' Hg Hc Hn Hl Ht.
  unfold Mesh.grouped, Mesh.fresh_keys, Mesh.in_row, Mesh.in_column in *.
  rewrite Hc, Hn, Hl, Ht. exact Hg.
Qed.

(** Closes the goals about states that hold the same nodes and elements. *)
Ltac grouped_same Hg := apply (grouped_same _ _ Hg); reflexivity.

Lemma column_same : forall (xg : Z) (s s' : Mesh.t F),
  Mesh.column_of xg s ->
  Mesh.assigned_node_tag s' = Mesh.assigned_node_tag s ->
  Mesh.node_spec s' = Mesh.node_spec s ->
  Mesh.column_of xg s'.
Proof.
  intros xg s s' Hcol Ha Hn. unfold Mesh.column_of in *. rewrite Ha, Hn. exact Hcol.
Qed.

Lemma x_below_same : forall (gx0 bound : Z) (s s' : Mesh.t F),
  Mesh.x_below gx0 bound s -> Mesh.node_spec s' = Mesh.node_spec s ->
  Mesh.x_below gx0 bound s'.
Proof.
  intros gx0 bound s s' Hx Hn. unfold Mesh.x_below in *. rewrite Hn. exact Hx.
Qed.

Lemma column_open_same : forall (gx0 gx : Z) (s s' : Mesh.t F),
  Mesh.column_open gx0 gx s -> Mesh.grouped s' -> Mesh.nodes_same s s' ->
  Mesh.column_open gx0 gx s'.
Proof.
  intros gx0 gx s s' (_ & Hcol & Hgx & Hle & Hx) Hg (_ & Hn & Ha & Hg').
  split; [exact Hg|]. split; [exact (column_same _ _ _ Hcol Ha Hn)|].
  split; [congruence|]. split; [exact Hle | exact (x_below_same _ _ _ _ Hx Hn)].
Qed.

(** A new longitudinal element between two nodes of one row, and a new
    transverse element between two nodes of one column. *)
Lemma grouped_add_long : forall (s s' : Mesh.t F) (el : Mesh.ele),
  Mesh.grouped s ->
  Mesh.node_counter s' = Mesh.node_counter s ->
  Mesh.node_spec s' = Mesh.node_spec s ->
  Mesh.long_ele s' = Mesh.long_ele s ++ [el] ->
  Mesh.trans_ele s' = Mesh.trans_ele s ->
  Mesh.in_row s el ->
  Mesh.grouped s'.
Proof.
  intros s s' el (Hf & Hl & Ht) Hc Hn Hlo Htr Hel.
  unfold Mesh.grouped, Mesh.fresh_keys, Mesh.in_row, Mesh.in_column in *.
  rewrite Hc, Hn, Hlo, Htr. split; [exact Hf|]. split; [|exact Ht].
  intros el' Hin. apply in_app_or in Hin. destruct Hin as [Hin | [Heq | []]].
  - exact (Hl el' Hin).
  - subst el'. exact Hel.
Qed.

Lemma grouped_add_trans : forall (s s' : Mesh.t F) (el : Mesh.ele),
  Mesh.grouped s ->
  Mesh.node_counter s' = Mesh.node_counter s ->
  Mesh.node_spec s' = Mesh.node_spec s ->
  Mesh.long_ele s' = Mesh.long_ele s ->
  Mesh.trans_ele s' = Mesh.trans_ele s ++ [el] ->
  Mesh.in_column s el ->
  Mesh.grouped s'.
Proof.
  intros s s' el (Hf & Hl & Ht) Hc Hn Hlo Htr Hel.
  unfold Mesh.grouped, Mesh.fresh_keys, Mesh.in_row, Mesh.in_column in *.
  rewrite Hc, Hn, Hlo, Htr. split; [exact Hf|]. split; [exact Hl|].
  intros el' Hin. apply in_app_or in Hin. destruct Hin as [Hin | [Heq | []]].
  - exact (Ht el' Hin).
  - subst el'. exact Hel.
Qed.

(** Placing a node keeps the entries there are and files the new node
    under a key that was free. *)
Lemma place_node_grouped : forall (s : Mesh.t F) (co : coord F) (xg zg : Z),
  Mesh.grouped s -> Mesh.grouped (Mesh.place_node s co xg zg).
Proof.
  intros s co xg zg (Hf & Hl & Ht). unfold Mesh.grouped. split; [|split].
  - intros k Hk. unfold Mesh.place_node in *.
    cbn [Mesh.node_spec Mesh.node_counter Mesh.set_node_spec Mesh.set_assigned_node_tag
         Mesh.set_node_counter] in *.
    unfold keys in Hk. apply in_map_iff in Hk. destruct Hk as [[k' v] [Hfst Hin]].
    simpl in Hfst. subst k'. apply setdefault_in_inv in Hin. destruct Hin as [Hin | Heq].
    + apply (in_map fst) in Hin. specialize (Hf k Hin). lia.
    + injection Heq as Hk _. lia.
  - intros el Hin. destruct (Hl el Hin) as (ni & nj & Hi & Hj & Hz).
    exists ni, nj. split; [|split; [|exact Hz]];
      apply (setdefault_keeps Z.eqb); assumption.
  - intros el Hin. destruct (Ht el Hin) as (ni & nj & Hi & Hj & Hz).
    exists ni, nj. split; [|split; [|exact Hz]];
      apply (setdefault_keeps Z.eqb); assumption.
Qed.

Lemma place_node_column : forall (s : Mesh.t F) (co : coord F) (xg zg : Z),
  Mesh.grouped s -> Mesh.column_of xg s ->
  Mesh.column_of xg (Mesh.place_node s co xg zg).
Proof.
  intros s co xg zg (Hf & _) Hcol n Hn. unfold Mesh.place_node in *.
  cbn [Mesh.node_spec Mesh.assigned_node_tag Mesh.set_node_spec Mesh.set_assigned_node_tag
       Mesh.set_node_counter] in *.
  apply in_app_or in Hn. destruct Hn as [Hn | [Heq | []]].
  - destruct (Hcol n Hn) as [nd [Hnd Hx]]. exists nd. split; [|exact Hx].
    apply (setdefault_keeps Z.eqb). exact Hnd.
  - subst n.
    assert (Hnone : dict_get Z.eqb (Mesh.node_counter s) (Mesh.node_spec s) = None).
    { apply (dict_get_none Z.eqb Zeqb_eq). intro Hin. specialize (Hf _ Hin). lia. }
    eexists. split.
    + rewrite (setdefault_get Z.eqb Zeqb_eq). unfold setdefault_value, get_default.
      rewrite Hnone. reflexivity.
    + reflexivity.
Qed.

Lemma place_node_x_below : forall (gx0 bound : Z) (s : Mesh.t F) (co : coord F) (xg zg : Z),
  gx0 <= xg < bound -> Mesh.x_below gx0 bound s ->
  Mesh.x_below gx0 bound (Mesh.place_node s co xg zg).
Proof.
  intros gx0 bound s co xg zg Hxg Hx k nd Hin. unfold Mesh.place_node in Hin.
  cbn [Mesh.node_spec Mesh.set_node_spec Mesh.set_assigned_node_tag Mesh.set_node_counter] in Hin.
  apply setdefault_in_inv in Hin. destruct Hin as [Hin | Heq].
  - exact (Hx k nd Hin).
  - injection Heq as _ Hnd. subst nd. exact Hxg.
Qed.

Lemma place_node_open : forall (gx0 : Z) (s : Mesh.t F) (co : coord F) (zg : Z),
  Mesh.column_open gx0 (Mesh.global_x_grid_count s) s ->
  Mesh.column_open gx0 (Mesh.global_x_grid_count s)
    (Mesh.place_node s co (Mesh.global_x_grid_count s) zg).
Proof.
  intros gx0 s co zg (Hg & Hcol & _ & Hle & Hx).
  split; [apply place_node_grouped; exact Hg|].
  split; [apply place_node_column; assumption|]. split; [reflexivity|].
  split; [exact Hle|]. apply place_node_x_below; [lia | exact Hx].
Qed.

Lemma get_geo_transform_tag_nodes : forall (s s' : Mesh.t F) (p : Z * Z) (tag : Z),
  Mesh.get_geo_transform_tag e s p = Ok (tag, s') ->
  Mesh.nodes_same s s'
  /\ Mesh.long_ele s' = Mesh.long_ele s
  /\ Mesh.trans_ele s' = Mesh.trans_ele s.
Proof.
  intros s s' p tag Hrun. unfold Mesh.get_geo_transform_tag in Hrun.
  bind_inv Hrun. bind_inv Hrun. inversion Hrun; subst; clear Hrun. repeat split.
Qed.

Lemma assign_longitudinal_members_grouped : forall (s s' : Mesh.t F) (pre cur g : Z),
  Mesh.grouped s ->
  (exists n_i n_j,
     dict_get Z.eqb pre (Mesh.node_spec s) = Some n_i
     /\ dict_get Z.eqb cur (Mesh.node_spec s) = Some n_j
     /\ Mesh.z_group n_i = g /\ Mesh.z_group n_j = g) ->
  Mesh.assign_longitudinal_members e s pre cur g = Ok s' ->
  Mesh.grouped s' /\ Mesh.nodes_same s s'.
Proof.
  intros s s' pre cur g Hg Hrow Hrun. unfold Mesh.assign_longitudinal_members in Hrun.
  bind_inv Hrun. destruct r as [tag s1]. inversion Hrun; subst; clear Hrun.
  destruct (get_geo_transform_tag_nodes _ _ _ _ Hr) as (Hsame & Hlo & Htr).
  pose proof Hsame as (Hc & Hn & Ha & Hgx).
  assert (Hg1 : Mesh.grouped s1) by (apply (grouped_same _ _ Hg); assumption).
  split.
  - apply (grouped_add_long s1 _ (Mesh.mk_ele (Mesh.element_counter s1) pre cur g tag) Hg1);
      try reflexivity.
    unfold Mesh.in_row. rewrite Hn. exact Hrow.
  - apply (nodes_same_trans _ _ _ Hsame). repeat split.
Qed.

Lemma assign_transverse_members_grouped : forall (s s' : Mesh.t F) (pre cur : Z),
  Mesh.grouped s -> Mesh.column_of (Mesh.global_x_grid_count s) s ->
  In pre (Mesh.assigned_node_tag s) -> In cur (Mesh.assigned_node_tag s) ->
  Mesh.assign_transverse_members e s pre cur = Ok s' ->
  Mesh.grouped s' /\ Mesh.nodes_same s s'.
Proof.
  intros s s' pre cur Hg Hcol Hpre Hcur Hrun. unfold Mesh.assign_transverse_members in Hrun.
  bind_inv Hrun. destruct r as [tag s1]. inversion Hrun; subst; clear Hrun.
  destruct (get_geo_transform_tag_nodes _ _ _ _ Hr) as (Hsame & Hlo & Htr).
  pose proof Hsame as (Hc & Hn & Ha & Hgx).
  assert (Hg1 : Mesh.grouped s1) by (apply (grouped_same _ _ Hg); assumption).
  split.
  - apply (grouped_add_trans s1 _
             (Mesh.mk_ele (Mesh.element_counter s1) pre cur (Mesh.global_x_grid_count s1) tag)
             Hg1); try reflexivity.
    destruct (Hcol pre Hpre) as [ni [Hi Hxi]]. destruct (Hcol cur Hcur) as [nj [Hj Hxj]].
    exists ni, nj. rewrite Hn, Hgx. cbn [Mesh.node_i Mesh.node_j Mesh.group_index].
    repeat split; assumption.
  - apply (nodes_same_trans _ _ _ Hsame). repeat split.
Qed.

Lemma assign_edge_trans_members_grouped : forall (s s' : Mesh.t F) (pre cur g : Z),
  Mesh.grouped s -> Mesh.assign_edge_trans_members e s pre cur g = Ok s' ->
  Mesh.grouped s' /\ Mesh.nodes_same s s'.
Proof.
  intros s s' pre cur g Hg Hrun. unfold Mesh.assign_edge_trans_members in Hrun.
  bind_inv Hrun. destruct r as [tag s1]. inversion Hrun; subst; clear Hrun.
  destruct (get_geo_transform_tag_nodes _ _ _ _ Hr) as (Hsame & Hlo & Htr).
  pose proof Hsame as (Hc & Hn & Ha & Hgx).
  assert (Hg1 : Mesh.grouped s1) by (apply (grouped_same _ _ Hg); assumption).
  split; [grouped_same Hg1|]. apply (nodes_same_trans _ _ _ Hsame). repeat split.
Qed.

Lemma link_first_match_grouped : forall (curs : list Z) (s s' : Mesh.t F) (pre : Z),
  Mesh.grouped s -> Mesh.link_first_match e s pre curs = Ok s' ->
  Mesh.grouped s' /\ Mesh.nodes_same s s'.
Proof.
  induction curs as [|cur rest IH]; intros s s' pre Hg Hrun; simpl in Hrun.
  - inversion Hrun; subst. split; [exact Hg | apply nodes_same_refl].
  - bind_inv Hrun. bind_inv Hrun. destruct (Z.eqb_spec (Mesh.z_group r) (Mesh.z_group r0)).
    + apply (assign_longitudinal_members_grouped s s' pre cur (Mesh.z_group r) Hg);
        [|exact Hrun].
      exists r0, r. split; [apply getitem_ok_get; exact Hr0|].
      split; [apply getitem_ok_get; exact Hr|]. split; [symmetry; assumption | reflexivity].
    + exact (IH _ _ _ Hg Hrun).
Qed.

Lemma link_longitudinal_grouped : forall (previous assigned : list Z) (s s' : Mesh.t F),
  Mesh.grouped s -> Mesh.link_longitudinal e s previous assigned = Ok s' ->
  Mesh.grouped s' /\ Mesh.nodes_same s s'.
Proof.
  intros previous assigned s s' Hg Hrun. unfold Mesh.link_longitudinal in Hrun.
  apply (foldM_invariant _ _ (fun st => Mesh.grouped st /\ Mesh.nodes_same s st)) in Hrun;
    [exact Hrun | | split; [exact Hg | apply nodes_same_refl]].
  intros st pre st' _ [Hst Hsame] Hbody.
  destruct (link_first_match_grouped _ _ _ _ Hst Hbody) as [Hst' Hsame'].
  split; [exact Hst' | exact (nodes_same_trans _ _ _ Hsame Hsame')].
Qed.

(** *** The skew mesh *)

Lemma fixed_sweep_station_grouped : forall (x_count : Z) (x_inc : F) (s s' : Mesh.t F),
  Mesh.grouped s -> Mesh.assigned_node_tag s = [] ->
  Mesh.fixed_sweep_station e x_count x_inc s = Ok s' -> Mesh.grouped s'.
Proof.
  intros x_count x_inc s s' Hg Ha Hrun. unfold Mesh.fixed_sweep_station in Hrun.
  apply (foldM_invariant _ _ (fun st => Mesh.grouped st /\ Mesh.column_of x_count st)) in Hrun.
  - exact (proj1 Hrun).
  - intros st [j ref] st' _ [Hst Hcol] Hbody. cbv beta iota in Hbody. bind_inv Hbody.
    set (st0 := Mesh.place_node st _ x_count j) in *.
    assert (Hg0 : Mesh.grouped st0) by (apply place_node_grouped; exact Hst).
    assert (Hc0 : Mesh.column_of x_count st0) by (apply place_node_column; assumption).
    destruct (j >? 0).
    + bind_inv Hbody. bind_inv Hbody. bind_inv Hbody. destruct r2 as [tag st1].
      inversion Hbody; subst; clear Hbody.
      destruct (get_geo_transform_tag_nodes _ _ _ _ Hr2) as (Hsame & Hlo & Htr).
      pose proof Hsame as (Hc & Hn & Has & Hgx).
      assert (Hg1 : Mesh.grouped st1) by (apply (grouped_same _ _ Hg0); assumption).
      split.
      * apply (grouped_add_trans st1 _
                 (Mesh.mk_ele (Mesh.element_counter st1) r0 r1 x_count tag) Hg1);
          try reflexivity.
        destruct (Hc0 r0 (py_index_In _ _ _ _ Hr0)) as [ni [Hi Hxi]].
        destruct (Hc0 r1 (py_index_In _ _ _ _ Hr1)) as [nj [Hj Hxj]].
        exists ni, nj. rewrite Hn. cbn [Mesh.node_i Mesh.node_j Mesh.group_index].
        repeat split; assumption.
      * apply (column_same _ st0); [exact Hc0 | exact Has | exact Hn].
    + inversion Hbody; subst; clear Hbody. split; assumption.
  - split; [exact Hg|]. intros n Hn. rewrite Ha in Hn. contradiction.
Qed.

Lemma fixed_sweep_step_grouped : forall (s s' : Mesh.t F) (x : Z * F),
  Mesh.grouped s -> Mesh.assigned_node_tag s = [] ->
  Mesh.fixed_sweep_step e s x = Ok s' ->
  Mesh.grouped s' /\ Mesh.assigned_node_tag s' = [].
Proof.
  intros s s' [x_count x_inc] Hg Ha Hrun. unfold Mesh.fixed_sweep_step in Hrun.
  bind_inv Hrun. bind_inv Hrun. inversion Hrun; subst; clear Hrun.
  pose proof (fixed_sweep_station_grouped _ _ _ _ Hg Ha Hr) as Hg1.
  assert (Hg2 : Mesh.grouped r0).
  { destruct (x_count =? 0).
    - inversion Hr0; subst; clear Hr0. rewrite record_edge_nodes_eq. grouped_same Hg1.
    - destruct (x_count >? 0).
      + bind_inv Hr0. destruct (link_longitudinal_grouped _ _ _ _ Hg1 Hr1) as [Hg3 _].
        destruct (x_count =? len (Mesh.nox e) - 1); inversion Hr0; subst; clear Hr0.
        * rewrite record_edge_nodes_eq. grouped_same Hg3.
        * grouped_same Hg3.
      + inversion Hr0; subst; exact Hg1. }
  split; [grouped_same Hg2 | reflexivity].
Qed.

Lemma fixed_sweep_node_meshing_grouped : forall s s' : Mesh.t F,
  Mesh.grouped s -> Mesh.fixed_sweep_node_meshing e s = Ok s' -> Mesh.grouped s'.
Proof.
  intros s s' Hg Hrun. unfold Mesh.fixed_sweep_node_meshing in Hrun.
  apply (foldM_invariant _ _ (fun st => Mesh.grouped st /\ Mesh.assigned_node_tag st = []))
    in Hrun.
  - exact (proj1 Hrun).
  - intros st a st' _ [Hst Ha]. apply fixed_sweep_step_grouped; assumption.
  - split; [grouped_same Hg | reflexivity].
Qed.

(** *** The orthogonal mesh *)

(** The step that follows the placing of a node in a column: the node is
    joined to the one before it. *)
Lemma column_link_open : forall (gx0 : Z) (s s' : Mesh.t F) (j : Z),
  Mesh.column_open gx0 (Mesh.global_x_grid_count s) s ->
  (if j >? 0 then
     pre_node <- py_index (Mesh.assigned_node_tag s) (j - 1) ;;
     cur_node <- py_index (Mesh.assigned_node_tag s) j ;;
     Mesh.assign_transverse_members e s pre_node cur_node
   else Ok s) = Ok s' ->
  Mesh.column_open gx0 (Mesh.global_x_grid_count s) s'.
Proof.
  intros gx0 s s' j Hopen Hrun. destruct (j >? 0).
  - bind_inv Hrun. bind_inv Hrun. pose proof Hopen as (Hg & Hcol & _).
    destruct (assign_transverse_members_grouped _ _ _ _ Hg Hcol
                (py_index_In _ _ _ _ Hr) (py_index_In _ _ _ _ Hr0) Hrun) as [Hg' Hsame].
    exact (column_open_same _ _ _ _ Hopen Hg' Hsame).
  - inversion Hrun; subst. exact Hopen.
Qed.

Lemma columns_closed_open : forall (gx0 : Z) (s : Mesh.t F),
  Mesh.columns_closed gx0 s -> Mesh.column_open gx0 (Mesh.global_x_grid_count s) s.
Proof.
  intros gx0 s (Hg & Ha & Hle & Hx). split; [exact Hg|].
  split; [intros n Hn; rewrite Ha in Hn; contradiction|]. split; [reflexivity|].
  split; [exact Hle|]. intros k nd Hin. specialize (Hx k nd Hin). lia.
Qed.

Lemma place_sweep_column_grouped :
  forall (gx0 : Z) (x z : F) (column : list (coord F)) (s s' : Mesh.t F),
  Mesh.column_open gx0 (Mesh.global_x_grid_count s) s ->
  Mesh.place_sweep_column e x z column s = Ok s' ->
  Mesh.column_open gx0 (Mesh.global_x_grid_count s) s'.
Proof.
  intros gx0 x z column s s' Hopen Hrun. unfold Mesh.place_sweep_column in Hrun.
  apply (foldM_invariant _ _ (Mesh.column_open gx0 (Mesh.global_x_grid_count s))) in Hrun;
    [exact Hrun | | exact Hopen].
  intros st [j nodes] st' _ Hst Hbody. cbv beta iota in Hbody. bind_inv Hbody. bind_inv Hbody.
  pose proof Hst as (_ & _ & Hgx & _). rewrite <- Hgx in Hst |- *.
  apply (column_link_open gx0 _ st' j
           (place_node_open gx0 st (Coord (cx nodes + x)%fl (cy nodes) (cz nodes + z)%fl)
              r0 Hst)).
  exact Hbody.
Qed.

Lemma place_uniform_column_grouped :
  forall (gx0 : Z) (x z : F) (column : list (coord F)) (s s' : Mesh.t F),
  Mesh.column_open gx0 (Mesh.global_x_grid_count s) s ->
  Mesh.place_uniform_column e x z column s = Ok s' ->
  Mesh.column_open gx0 (Mesh.global_x_grid_count s) s'.
Proof.
  intros gx0 x z column s s' Hopen Hrun. unfold Mesh.place_uniform_column in Hrun.
  apply (foldM_invariant _ _ (Mesh.column_open gx0 (Mesh.global_x_grid_count s))) in Hrun;
    [exact Hrun | | exact Hopen].
  intros st [j nodes] st' _ Hst Hbody. cbv beta iota in Hbody.
  pose proof Hst as (_ & _ & Hgx & _). rewrite <- Hgx in Hst |- *.
  apply (column_link_open gx0 _ st' j
           (place_node_open gx0 st (Coord (cx nodes + x)%fl (cy nodes) (cz nodes + z)%fl)
              j Hst)).
  exact Hbody.
Qed.

Lemma edge_line_as_is_grouped : forall (gx0 : Z) (at_start : bool) (s s' : Mesh.t F),
  Mesh.column_open gx0 (Mesh.global_x_grid_count s) s ->
  Mesh.edge_line_as_is e at_start s = Ok s' ->
  Mesh.column_open gx0 (Mesh.global_x_grid_count s) s'.
Proof.
  intros gx0 at_start s s' Hopen Hrun. unfold Mesh.edge_line_as_is in Hrun.
  apply (foldM_invariant _ _ (Mesh.column_open gx0 (Mesh.global_x_grid_count s))) in Hrun;
    [exact Hrun | | exact Hopen].
  intros st [j nodes] st' _ Hst Hbody. cbv beta iota in Hbody. bind_inv Hbody.
  pose proof Hst as (_ & _ & Hgx & _). rewrite <- Hgx in Hst |- *.
  pose proof (place_node_open gx0 st
                (Coord (cx nodes + (if at_start then cx (Mesh.mesh_origin e) else fz 0))%fl
                       (cy nodes)
                       (cz nodes + (if at_start then cz (Mesh.mesh_origin e) else fz 0))%fl)
                j Hst) as Hp.
  set (st1 := Mesh.place_node st _ _ _) in *.
  assert (Hr' : Mesh.column_open gx0 (Mesh.global_x_grid_count st) r).
  { destruct (j >? 0); [|inversion Hr; subst; exact Hp].
    destruct (len _ >=? 1); [|inversion Hr; subst; exact Hp].
    bind_inv Hr. bind_inv Hr. bind_inv Hr. inversion Hr; subst; clear Hr.
    destruct (assign_edge_trans_members_grouped _ _ _ _ _ (proj1 Hp) Hr2) as [Hg' Hsame].
    pose proof (column_open_same _ _ _ _ Hp Hg' Hsame) as Hopen2.
    apply (column_open_same _ _ _ _ Hopen2); [grouped_same Hg' | repeat split]. }
  destruct (len _ =? len (Mesh.noz e)); inversion Hbody; subst; clear Hbody; [|exact Hr'].
  destruct at_start; (apply (column_open_same _ _ _ _ Hr');
                      [grouped_same (proj1 Hr') | repeat split]).
Qed.

Lemma close_column : forall (gx0 gx : Z) (s s' : Mesh.t F),
  Mesh.column_open gx0 gx s -> Mesh.grouped s' ->
  Mesh.node_spec s' = Mesh.node_spec s ->
  Mesh.assigned_node_tag s' = [] ->
  Mesh.global_x_grid_count s' = gx + 1 ->
  Mesh.columns_closed gx0 s'.
Proof.
  intros gx0 gx s s' (_ & _ & _ & Hle & Hx) Hg Hn Ha Hgx.
  split; [exact Hg|]. split; [exact Ha|]. split; [lia|].
  rewrite Hgx. exact (x_below_same _ _ _ _ Hx Hn).
Qed.

Lemma columns_closed_same : forall (gx0 : Z) (s s' : Mesh.t F),
  Mesh.columns_closed gx0 s -> Mesh.grouped s' ->
  Mesh.node_spec s' = Mesh.node_spec s ->
  Mesh.assigned_node_tag s' = [] ->
  Mesh.global_x_grid_count s' = Mesh.global_x_grid_count s ->
  Mesh.columns_closed gx0 s'.
Proof.
  intros gx0 s s' (_ & _ & Hle & Hx) Hg Hn Ha Hgx.
  split; [exact Hg|]. split; [exact Ha|]. rewrite Hgx. split; [exact Hle|].
  exact (x_below_same _ _ _ _ Hx Hn).
Qed.

Lemma edge_link_grouped : forall (s s' : Mesh.t F) (i j : Z),
  Mesh.grouped s ->
  (pre_node <- py_index (Mesh.previous_node_tag s) i ;;
   cur_node <- py_index (Mesh.assigned_node_tag s) j ;;
   self <- Mesh.assign_edge_trans_members e s pre_node cur_node (Mesh.global_edge_count s) ;;
   let self := Mesh.set_edge_node_recorder self
                 (setdefault Z.eqb pre_node (Mesh.global_edge_count self)
                    (Mesh.edge_node_recorder self)) in
   Ok (Mesh.set_edge_node_recorder self
         (setdefault Z.eqb cur_node (Mesh.global_edge_count self)
            (Mesh.edge_node_recorder self)))) = Ok s' ->
  Mesh.grouped s' /\ Mesh.nodes_same s s'.
Proof.
  intros s s' i j Hg Hrun. bind_inv Hrun. bind_inv Hrun. bind_inv Hrun.
  inversion Hrun; subst; clear Hrun.
  destruct (assign_edge_trans_members_grouped _ _ _ _ _ Hg Hr1) as [Hg1 Hsame].
  split; [grouped_same Hg1|]. apply (nodes_same_trans _ _ _ Hsame). repeat split.
Qed.

Lemma link_skew_edge_grouped : forall (at_start : bool) (s s' : Mesh.t F),
  Mesh.grouped s -> Mesh.link_skew_edge e at_start s = Ok s' ->
  Mesh.grouped s' /\ Mesh.nodes_same s s'.
Proof.
  intros at_start s s' Hg Hrun. unfold Mesh.link_skew_edge in Hrun.
  destruct (len _ >=? 1);
    [|inversion Hrun; subst; split; [exact Hg | apply nodes_same_refl]].
  destruct (fgtb _ _); [exact (edge_link_grouped _ _ _ _ Hg Hrun)|].
  destruct (fltb _ _); [exact (edge_link_grouped _ _ _ _ Hg Hrun)|].
  inversion Hrun; subst. split; [exact Hg | apply nodes_same_refl].
Qed.

Lemma select_sweep_nodes_open :
  forall (gx0 : Z) (at_start : bool) (zc zg : Z) (cur : list (coord F)) (s : Mesh.t F),
  Mesh.columns_closed gx0 s ->
  let s' := Mesh.select_sweep_nodes e at_start zc zg cur s in
  Mesh.column_open gx0 (Mesh.global_x_grid_count s') s'
  /\ Mesh.global_x_grid_count s' = Mesh.global_x_grid_count s.
Proof.
  intros gx0 at_start zc zg cur s Hc. pose proof (columns_closed_open _ _ Hc) as Hopen.
  unfold Mesh.select_sweep_nodes. cbv zeta.
  destruct (fgtb _ _); [destruct at_start|destruct (fltb _ _); [destruct at_start|]];
    (split; [|reflexivity]);
    try exact Hopen;
    (apply (column_open_same _ _ _ _ Hopen); [grouped_same (proj1 Hc) | repeat split]).
Qed.

Lemma edge_search_step_grouped :
  forall (gx0 : Z) (at_start : bool) (s s' : Mesh.t F) (p : Z * coord F),
  Mesh.columns_closed gx0 s -> Mesh.edge_search_step e at_start s p = Ok s' ->
  Mesh.columns_closed gx0 s'.
Proof.
  intros gx0 at_start s s' [z_count int_point] Hc Hrun. unfold Mesh.edge_search_step in Hrun.
  apply bind_ok in Hrun. destruct Hrun as [[ref_x ref_z] [_ Hrun]].
  cbv beta iota zeta in Hrun.
  destruct (get_slope (Coord ref_x (Mesh.y_elevation e) ref_z) int_point) as [m_prime phi].
  apply bind_ok in Hrun. destruct Hrun as [z_group [_ Hrun]].
  apply bind_ok in Hrun. destruct Hrun as [column [_ Hrun]].
  apply bind_ok in Hrun. destruct Hrun as [s3 [Hplace Hrun]].
  apply bind_ok in Hrun. destruct Hrun as [s5 [Hjoin Hrun]].
  inversion Hrun; subst; clear Hrun.
  assert (Hc1 : Mesh.columns_closed gx0
                  (Mesh.set_sweep_path_points s
                     (Mesh.sweep_path_points s ++ [Coord ref_x (Mesh.y_elevation e) ref_z]))).
  { apply (columns_closed_same _ _ _ Hc); [grouped_same (proj1 Hc) | reflexivity | | reflexivity].
    exact (proj1 (proj2 Hc)). }
  match type of Hplace with
  | Mesh.place_sweep_column _ _ _ _ (Mesh.select_sweep_nodes _ _ _ _ ?cur ?s1) = _ =>
      destruct (select_sweep_nodes_open gx0 at_start z_count z_group cur s1 Hc1)
        as [Hopen2 Hgx2]
  end.
  pose proof (place_sweep_column_grouped _ _ _ _ _ _ Hopen2 Hplace) as Hopen3.
  rewrite Hgx2 in Hopen3.
  cbn [Mesh.global_x_grid_count Mesh.set_sweep_path_points] in Hopen3.
  assert (H5 : Mesh.grouped s5 /\ Mesh.node_spec s5 = Mesh.node_spec s3
               /\ Mesh.global_x_grid_count s5 = Mesh.global_x_grid_count s3).
  { destruct (z_count >? 0).
    - bind_inv Hjoin. bind_inv Hjoin. inversion Hjoin; subst; clear Hjoin.
      assert (Hg4 : Mesh.grouped (if z_count =? 0
                                  then Mesh.set_previous_node_tag s3 (Mesh.assigned_node_tag s3)
                                  else s3))
        by (destruct (z_count =? 0); [grouped_same (proj1 Hopen3) | exact (proj1 Hopen3)]).
      destruct (link_longitudinal_grouped _ _ _ _ Hg4 Hr) as [Hg6 (_ & Hn6 & _ & Hgx6)].
      destruct (link_skew_edge_grouped _ _ _ Hg6 Hr0) as [Hg7 (_ & Hn7 & _ & Hgx7)].
      split; [grouped_same Hg7|].
      cbn [Mesh.node_spec Mesh.global_x_grid_count Mesh.set_previous_node_tag].
      rewrite Hn7, Hn6, Hgx7, Hgx6. destruct (z_count =? 0); split; reflexivity.
    - inversion Hjoin; subst; clear Hjoin.
      destruct (z_count =? 0); (split; [|split; reflexivity]);
        [grouped_same (proj1 Hopen3) | exact (proj1 Hopen3)]. }
  destruct H5 as (Hg5 & Hn5 & Hgx5). pose proof Hopen3 as (_ & _ & Hgx3 & _).
  apply (close_column _ _ _ _ Hopen3).
  - destruct (len _ =? len (Mesh.noz e)); [destruct at_start|]; grouped_same Hg5.
  - destruct (len _ =? len (Mesh.noz e)); [destruct at_start|]; exact Hn5.
  - reflexivity.
  - destruct (len _ =? len (Mesh.noz e)); [destruct at_start|];
      cbn [Mesh.global_x_grid_count Mesh.set_assigned_node_tag
           Mesh.set_ortho_previous_node_column Mesh.set_first_connecting_region_nodes
           Mesh.set_end_connecting_region_nodes Mesh.set_global_x_grid_count];
      rewrite Hgx5, Hgx3; reflexivity.
Qed.

Lemma edge_region_grouped : forall (gx0 : Z) (at_start : bool) (s s' : Mesh.t F),
  Mesh.columns_closed gx0 s -> Mesh.edge_region e at_start s = Ok s' ->
  Mesh.columns_closed gx0 (Mesh.set_assigned_node_tag s' []).
Proof.
  intros gx0 at_start s s' Hc Hrun. unfold Mesh.edge_region in Hrun.
  destruct (fltb _ _).
  - bind_inv Hrun. inversion Hrun; subst; clear Hrun.
    pose proof (edge_line_as_is_grouped _ _ _ _ (columns_closed_open _ _ Hc) Hr) as Hopen.
    pose proof Hopen as (Hg & _ & Hgx & _).
    apply (close_column _ _ _ _ Hopen).
    + destruct at_start; grouped_same Hg.
    + destruct at_start; reflexivity.
    + reflexivity.
    + destruct at_start;
        cbn [Mesh.global_x_grid_count Mesh.set_assigned_node_tag Mesh.set_global_x_grid_count];
        rewrite Hgx; reflexivity.
  - bind_inv Hrun. inversion Hrun; subst; clear Hrun.
    apply (foldM_invariant _ _ (Mesh.columns_closed gx0)) in Hr; [| | exact Hc].
    + apply (columns_closed_same _ _ _ Hr); [grouped_same (proj1 Hr) | reflexivity..].
    + intros st a st' _. apply edge_search_step_grouped.
Qed.

Lemma uniform_step_grouped : forall (gx0 n_inner : Z) (s s' : Mesh.t F) (p : Z * F),
  Mesh.columns_closed gx0 s -> Mesh.uniform_step e n_inner s p = Ok s' ->
  Mesh.columns_closed gx0 (Mesh.set_assigned_node_tag s' [])
  /\ (fst p <> n_inner - 1 -> Mesh.assigned_node_tag s' = []).
Proof.
  intros gx0 n_inner s s' [j x] Hc Hrun. unfold Mesh.uniform_step in Hrun.
  apply bind_ok in Hrun. destruct Hrun as [z [_ Hrun]].
  apply bind_ok in Hrun. destruct Hrun as [s1 [Hplace Hrun]].
  apply bind_ok in Hrun. destruct Hrun as [s3 [Hjoin Hrun]].
  inversion Hrun; subst; clear Hrun.
  pose proof (place_uniform_column_grouped _ _ _ _ _ _ (columns_closed_open _ _ Hc) Hplace)
    as Hopen1.
  assert (Hg2 : Mesh.grouped (if j =? 0
                              then Mesh.set_previous_node_tag s1
                                     (Mesh.first_connecting_region_nodes s1)
                              else s1))
    by (destruct (j =? 0); [grouped_same (proj1 Hopen1) | exact (proj1 Hopen1)]).
  destruct (link_longitudinal_grouped _ _ _ _ Hg2 Hjoin) as [Hg3 (_ & Hn3 & _ & Hgx3)].
  pose proof Hopen1 as (_ & _ & Hgx1 & _).
  assert (Hn : Mesh.node_spec s3 = Mesh.node_spec s1)
    by (rewrite Hn3; destruct (j =? 0); reflexivity).
  assert (Hgx : Mesh.global_x_grid_count s3 = Mesh.global_x_grid_count s)
    by (rewrite Hgx3, <- Hgx1; destruct (j =? 0); reflexivity).
  cbn [fst]. split.
  - apply (close_column _ _ _ _ Hopen1).
    + destruct (negb _); grouped_same Hg3.
    + destruct (negb _); exact Hn.
    + reflexivity.
    + destruct (negb _);
        cbn [Mesh.global_x_grid_count Mesh.set_assigned_node_tag Mesh.set_previous_node_tag
             Mesh.set_global_x_grid_count];
        rewrite Hgx; reflexivity.
  - intro Hj. destruct (Z.eqb_spec j (n_inner - 1)) as [Heq|_]; [contradiction|]. reflexivity.
Qed.

Lemma uniform_region_grouped : forall (gx0 : Z) (s s' : Mesh.t F),
  Mesh.columns_closed gx0 s -> Mesh.uniform_region e s = Ok s' ->
  Mesh.columns_closed gx0 (Mesh.set_assigned_node_tag s' []).
Proof.
  intros gx0 s s' Hc Hrun. unfold Mesh.uniform_region in Hrun.
  do 5 (apply bind_ok in Hrun; destruct Hrun as [? [_ Hrun]]).
  apply bind_ok in Hrun. destruct Hrun as [s1 [Hloop Hrun]].
  unfold enumerate in Hloop.
  apply (foldM_enumerate_invariant _ _
           (fun j st => Mesh.columns_closed gx0 (Mesh.set_assigned_node_tag st [])
                        /\ (j < len (slice_inner x3) -> Mesh.assigned_node_tag st = [])))
    in Hloop.
  - destruct Hloop as [Hc1 _].
    assert (Hg1 : Mesh.grouped s1) by grouped_same (proj1 Hc1).
    destruct (link_longitudinal_grouped _ _ _ _ Hg1 Hrun) as [Hg' (_ & Hn' & _ & Hgx')].
    apply (columns_closed_same _ _ _ Hc1); [grouped_same Hg' | exact Hn' | reflexivity | exact Hgx'].
  - intros j a st st' Hj _ [Hst Ha] Hbody.
    assert (Hst' : Mesh.columns_closed gx0 st).
    { apply (columns_closed_same _ _ _ Hst); [exact (proj1 Hst) | reflexivity | | reflexivity].
      apply Ha. lia. }
    destruct (uniform_step_grouped _ _ _ _ _ Hst' Hbody) as [Hc' Ha'].
    split; [exact Hc'|]. intro Hlt. apply Ha'. cbn [fst]. lia.
  - split; [|intros _; exact (proj1 (proj2 Hc))].
    apply (columns_closed_same _ _ _ Hc); [grouped_same (proj1 Hc) | reflexivity..].
Qed.

Lemma orthogonal_meshing_grouped : forall (gx0 : Z) (s s' : Mesh.t F),
  Mesh.grouped s -> gx0 <= Mesh.global_x_grid_count s ->
  Mesh.x_below gx0 (Mesh.global_x_grid_count s) s ->
  Mesh.orthogonal_meshing e s = Ok s' ->
  Mesh.columns_closed gx0 (Mesh.set_assigned_node_tag s' []).
Proof.
  intros gx0 s s' Hg Hle Hx Hrun. unfold Mesh.orthogonal_meshing in Hrun.
  apply bind_ok in Hrun. destruct Hrun as [s1 [Hstart Hrun]].
  apply bind_ok in Hrun. destruct Hrun as [z [_ Hrun]].
  apply bind_ok in Hrun. destruct Hrun as [s2 [Hend Hrun]].
  assert (Hc0 : Mesh.columns_closed gx0
                  (Mesh.set_sweep_path_points
                     (Mesh.set_previous_node_tag (Mesh.set_assigned_node_tag s []) []) [])).
  { split; [grouped_same Hg|]. split; [reflexivity|]. split; [exact Hle | exact Hx]. }
  pose proof (edge_region_grouped _ _ _ _ Hc0 Hstart) as Hc1.
  assert (Ha1 : Mesh.assigned_node_tag s1 = []).
  { unfold Mesh.edge_region in Hstart. destruct (fltb _ _).
    - bind_inv Hstart. inversion Hstart; subst. reflexivity.
    - bind_inv Hstart. inversion Hstart; subst; clear Hstart.
      apply (foldM_invariant _ _ (Mesh.columns_closed gx0)) in Hr; [| | exact Hc0].
      + exact (proj1 (proj2 Hr)).
      + intros st a st' _. apply edge_search_step_grouped. }
  assert (Hc1' : Mesh.columns_closed gx0 s1).
  { apply (columns_closed_same _ _ _ Hc1); [exact (proj1 Hc1) | reflexivity | exact Ha1
                                            | reflexivity]. }
  pose proof (edge_region_grouped _ _ _ _ Hc1' Hend) as Hc2.
  exact (uniform_region_grouped _ _ _ Hc2 Hrun).
Qed.

Lemma run_meshing_grouped : forall (gx0 : Z) (s s' : Mesh.t F),
  Mesh.grouped s -> gx0 <= Mesh.global_x_grid_count s ->
  Mesh.x_below gx0 (Mesh.global_x_grid_count s) s ->
  Mesh.run_meshing e s = Ok s' ->
  Mesh.grouped s'
  /\ (Mesh.orthogonal e = true ->
      gx0 <= Mesh.global_x_grid_count s'
      /\ Mesh.x_below gx0 (Mesh.global_x_grid_count s') s').
Proof.
  intros gx0 s s' Hg Hle Hx Hrun. unfold Mesh.run_meshing in Hrun.
  destruct (Mesh.orthogonal e).
  - destruct (orthogonal_meshing_grouped _ _ _ Hg Hle Hx Hrun) as (Hg' & _ & Hle' & Hx').
    split; [exact Hg'|]. intros _. split; [exact Hle' | exact Hx'].
  - split; [|discriminate]. destruct (negb (Mesh.curve e)).
    + exact (fixed_sweep_node_meshing_grouped _ _ Hg Hrun).
    + inversion Hrun; subst; exact Hg.
Qed.

End ElementGroups.

Lemma dict_get_map_zseq : forall (V : Type) (f : Z -> V) (n : nat) (a k : Z),
  a <= k < a + Z.of_nat n ->
  dict_get Z.eqb k (map (fun count => (count, f count)) (zseq a n)) = Some (f k).
Proof.
  intros V f n. induction n as [|n IH]; intros a k Hk; [lia|].
  simpl. destruct (Z.eqb_spec k a) as [Heq|Hne]; [subst; reflexivity|].
  apply IH. lia.
Qed.

Section FinishedGroups.
Context {F : Type} `{FloatOps F} `{Static F}.

Lemma initial_state_grouped : forall (a : Mesh.args F)
                                     (g : option (list (coord F)) * option (list Z)),
  Mesh.grouped (Mesh.initial_state a g)
  /\ Mesh.x_below (Mesh.arg_global_x_grid_count a) (Mesh.arg_global_x_grid_count a)
       (Mesh.initial_state a g).
Proof.
  intros a g. split; [split; [|split]|].
  - intros k [].
  - intros el [].
  - intros el [].
  - intros k nd [].
Qed.

(** In every finished mesh, by either meshing algorithm, a longitudinal
    element joins two nodes of one row and carries the number of that row
    as its group, and a transverse element joins two nodes of one column
    and carries the number of that column. *)
Theorem elements_join_rows_and_columns :
  forall (g : option (list (coord F)) * option (list Z)) (a : Mesh.args F) (m : Mesh.mesh F),
  Mesh.init_from g a = Ok m ->
  let s := Mesh.mesh_state m in
  (forall el, In el (Mesh.long_ele s) ->
     exists n_i n_j,
       dict_get Z.eqb (Mesh.node_i el) (Mesh.node_spec s) = Some n_i
       /\ dict_get Z.eqb (Mesh.node_j el) (Mesh.node_spec s) = Some n_j
       /\ Mesh.z_group n_i = Mesh.group_index el
       /\ Mesh.z_group n_j = Mesh.group_index el)
  /\ (forall el, In el (Mesh.trans_ele s) ->
        exists n_i n_j,
          dict_get Z.eqb (Mesh.node_i el) (Mesh.node_spec s) = Some n_i
          /\ dict_get Z.eqb (Mesh.node_j el) (Mesh.node_spec s) = Some n_j
          /\ Mesh.x_group n_i = Mesh.group_index el
          /\ Mesh.x_group n_j = Mesh.group_index el).
Proof.
  intros g a m Hrun s.
  destruct (init_from_parts g a m Hrun) as (_ & Hmesh & _).
  destruct (initial_state_grouped a g) as [Hg0 Hx0].
  destruct (run_meshing_grouped _ (Mesh.arg_global_x_grid_count a) _ _ Hg0 (Z.le_refl _) Hx0
              Hmesh) as [(_ & Hrows & Hcols) _].
  split; [exact Hrows | exact Hcols].
Qed.

(** In every finished orthogonal mesh the column count has moved up once
    per column: every node and every transverse element is of a column
    from the initial count on and below the final count.  When the
    initial count is not negative, as by default, [x_group_to_ele]
    therefore files every transverse element under its column, and holds
    nothing else. *)
Theorem orthogonal_columns_filed :
  forall (g : option (list (coord F)) * option (list Z)) (a : Mesh.args F) (m : Mesh.mesh F),
  Mesh.arg_orthogonal a = true ->
  Mesh.init_from g a = Ok m ->
  let s := Mesh.mesh_state m in
  let grp := Mesh.mesh_groups m in
  let gx0 := Mesh.arg_global_x_grid_count a in
  let gx := Mesh.global_x_grid_count s in
  gx0 <= gx
  /\ (forall k nd, In (k, nd) (Mesh.node_spec s) -> gx0 <= Mesh.x_group nd < gx)
  /\ (forall el, In el (Mesh.trans_ele s) -> gx0 <= Mesh.group_index el < gx)
  /\ (0 <= gx0 ->
      forall el, In el (Mesh.trans_ele s) ->
        exists l, dict_get Z.eqb (Mesh.group_index el) (Mesh.x_group_to_ele grp) = Some l
                  /\ In el l)
  /\ (forall k l el, In (k, l) (Mesh.x_group_to_ele grp) -> In el l ->
        In el (Mesh.trans_ele s) /\ Mesh.group_index el = k).
Proof.
  intros g a m Horth Hrun s grp gx0 gx.
  destruct (init_from_parts g a m Hrun) as (He & Hmesh & Hgrp).
  destruct (make_env_shape a _ He) as (_ & _ & _ & _ & _ & _ & _ & _ & Horth' & _).
  rewrite Horth in Horth'.
  destruct (initial_state_grouped a g) as [Hg0 Hx0].
  destruct (run_meshing_grouped _ gx0 _ _ Hg0 (Z.le_refl _) Hx0 Hmesh)
    as [(_ & _ & Hcols) Hbound].
  destruct (Hbound Horth') as [Hle Hx]. fold s gx in Hle, Hx, Hcols.
  destruct (group_dicts _ _ _ Hgrp) as (_ & Hxd & _). fold s grp gx in Hxd.
  assert (Htrans : forall el, In el (Mesh.trans_ele s) -> gx0 <= Mesh.group_index el < gx).
  { intros el Hel. destruct (Hcols el Hel) as (ni & nj & Hi & _ & Hxi & _).
    rewrite <- Hxi. apply (Hx (Mesh.node_i el) ni).
    apply (dict_get_some_in Z.eqb Zeqb_eq). exact Hi. }
  split; [exact Hle|]. split; [exact Hx|]. split; [exact Htrans|]. split.
  - intros H0' el Hel. specialize (Htrans el Hel). eexists. split.
    + rewrite Hxd. unfold py_range.
      apply (dict_get_map_zseq _
               (fun count => filter (fun el' => Mesh.group_index el' =? count)
                                    (Mesh.trans_ele s))).
      lia.
    + apply filter_In. split; [exact Hel | apply Z.eqb_refl].
  - intros k l el Hin Hel. rewrite Hxd in Hin. apply in_map_iff in Hin.
    destruct Hin as [count [Heq _]]. injection Heq as Hk Hl. subst k l.
    apply filter_In in Hel. destruct Hel as [Hel Hg']. split; [exact Hel|].
    apply Z.eqb_eq. exact Hg'.
Qed.

End FinishedGroups.

(** ** The classes of rows *)

Section RowClasses.
Context {F : Type} `{FloatOps F} `{Static F}.

(** [common_z_group_element] sorts the rows 0, ..., n - 1 of the [n]
    longitudinal beams into four classes: the two edge beams, the
    exterior beam next to the first edge, the interior beams, and the
    exterior beam next to the last edge.  Every row is of a class and
    every class holds rows only.  From four beams on no row is of two
    classes; with three beams the middle row is exterior on both sides,
    and with two beams both rows are edge beams and exterior beams at
    once. *)
Theorem common_z_groups_sort_rows :
  forall (g : option (list (coord F)) * option (list Z)) (a : Mesh.args F) (m : Mesh.mesh F),
  Mesh.init_from g a = Ok m ->
  let common := Mesh.common_z_group_element (Mesh.mesh_groups m) in
  let n := Mesh.arg_num_long_beam a in
  keys common = [0; 1; 2; 3]
  /\ (forall r, 0 <= r < n -> exists c rows, In (c, rows) common /\ In r rows)
  /\ (forall c rows r, In (c, rows) common -> In r rows -> 0 <= r < n)
  /\ (4 <= n ->
      forall r c1 c2 rows1 rows2,
        In (c1, rows1) common -> In (c2, rows2) common -> In r rows1 -> In r rows2 -> c1 = c2)
  /\ (n = 3 -> dict_get Z.eqb 1 common = Some [1] /\ dict_get Z.eqb 3 common = Some [1])
  /\ (n = 2 ->
      dict_get Z.eqb 0 common = Some [0; 1]
      /\ dict_get Z.eqb 1 common = Some [1]
      /\ dict_get Z.eqb 2 common = Some []
      /\ dict_get Z.eqb 3 common = Some [0]).
Proof.
  intros g a m Hrun common n.
  destruct (init_from_parts g a m Hrun) as (He & _ & Hgrp).
  destruct (make_env_shape a _ He) as (_ & Hn & _ & Hnoz & _). fold n in Hn, Hnoz.
  destruct (group_dicts _ _ _ Hgrp) as (_ & _ & Hcommon). fold common in Hcommon.
  rewrite Hnoz in Hcommon. rewrite Hcommon. clear Hcommon.
  split; [reflexivity|]. split; [|split; [|split; [|split]]].
  - intros r Hr.
    destruct (Z.eq_dec r 0) as [H0'|H0']; [exists 0, [0; n - 1]; subst; simpl; tauto|].
    destruct (Z.eq_dec r (n - 1)) as [Hl|Hl];
      [exists 0, [0; n - 1]; subst; simpl; tauto|].
    destruct (Z.eq_dec r 1) as [H1|H1]; [exists 1, [1]; subst; simpl; tauto|].
    destruct (Z.eq_dec r (n - 2)) as [H2|H2]; [exists 3, [n - 2]; subst; simpl; tauto|].
    exists 2, (py_range 2 (n - 2)). split; [simpl; tauto|].
    unfold py_range. apply zseq_In. lia.
  - intros c rows r Hin Hr. simpl in Hin.
    destruct Hin as [Hin | [Hin | [Hin | [Hin | []]]]]; injection Hin as Hc Hrows; subst c rows.
    + simpl in Hr. lia.
    + simpl in Hr. lia.
    + unfold py_range in Hr. apply zseq_In in Hr. lia.
    + simpl in Hr. lia.
  - intros H4 r c1 c2 rows1 rows2 Hin1 Hin2 Hr1 Hr2. simpl in Hin1, Hin2.
    assert (Hclass : forall c rows, In (c, rows) [(0, [0; n - 1]); (1, [1]);
                                                   (2, py_range 2 (n - 2)); (3, [n - 2])] ->
                                    In r rows ->
                                    (c = 0 /\ (r = 0 \/ r = n - 1)) \/ (c = 1 /\ r = 1)
                                    \/ (c = 2 /\ 2 <= r < n - 2) \/ (c = 3 /\ r = n - 2)).
    { intros c rows Hin Hr. simpl in Hin.
      destruct Hin as [Hin | [Hin | [Hin | [Hin | []]]]]; injection Hin as Hc Hrows;
        subst c rows.
      - simpl in Hr. lia.
      - simpl in Hr. lia.
      - unfold py_range in Hr. apply zseq_In in Hr. lia.
      - simpl in Hr. lia. }
    pose proof (Hclass c1 rows1 Hin1 Hr1). pose proof (Hclass c2 rows2 Hin2 Hr2). lia.
  - intro H3. rewrite H3. split; reflexivity.
  - intro H2. rewrite H2. repeat split.
Qed.

End RowClasses.

(** ** The orthogonal mesh below the skew thresholds, column by column *)

Lemma setdefault_present : forall (V : Type) (k : Z) (v : V) (d : dict Z V),
  In k (keys d) -> setdefault Z.eqb k v d = d.
Proof.
  intros V k v d Hin. unfold setdefault.
  destruct (in_keys_dict_get Z.eqb Zeqb_eq k d Hin) as [v' Hv]. rewrite Hv. reflexivity.
Qed.

(** The two records [edge_node_recorder.setdefault] of an edge element
    between the nodes [c + j - 1] and [c + j] of a column numbered from
    [c]. *)
Lemma record_pair : forall (rec0 : dict Z Z) (c ge j : Z),
  (forall n, In n (keys rec0) -> n < c) -> 1 <= j ->
  setdefault Z.eqb (c + j) ge
    (setdefault Z.eqb (c + j - 1) ge
       (rec0 ++ (if 2 <=? j then map (fun n => (n, ge)) (zseq c (Z.to_nat j)) else [])))
  = rec0 ++ map (fun n => (n, ge)) (zseq c (Z.to_nat (j + 1))).
Proof.
  intros rec0 c ge j Hold Hj.
  assert (Hkeys : forall m : nat,
             keys (rec0 ++ map (fun n => (n, ge)) (zseq c m)) = keys rec0 ++ zseq c m).
  { intro m. unfold keys. rewrite map_app, map_map. cbn [fst]. rewrite map_id. reflexivity. }
  destruct (Z.leb_spec 2 j) as [H2|H1].
  - rewrite (setdefault_present _ (c + j - 1)).
    + rewrite (setdefault_fresh Z.eqb Zeqb_eq).
      * rewrite <- app_assoc. f_equal.
        replace (Z.to_nat (j + 1)) with (S (Z.to_nat j)) by lia.
        rewrite zseq_snoc, map_app. cbn [map]. rewrite Z2Nat.id by lia. reflexivity.
      * rewrite Hkeys. intro Hin. apply in_app_or in Hin. destruct Hin as [Hin | Hin].
        -- specialize (Hold _ Hin). lia.
        -- apply zseq_In in Hin. lia.
    + rewrite Hkeys. apply in_or_app. right. apply zseq_In. lia.
  - assert (j = 1) by lia. subst j. rewrite app_nil_r.
    replace (c + 1 - 1) with c by lia.
    rewrite (setdefault_fresh Z.eqb Zeqb_eq c ge rec0);
      [|intro Hin; specialize (Hold _ Hin); lia].
    rewrite (setdefault_fresh Z.eqb Zeqb_eq).
    + rewrite <- app_assoc. reflexivity.
    + unfold keys. rewrite map_app. cbn [map fst]. intro Hin. apply in_app_or in Hin.
      destruct Hin as [Hin | [Hin | []]]; [specialize (Hold _ Hin); lia | lia].
Qed.

Lemma column_links_snoc : forall c j g : Z,
  1 <= j -> Mesh.column_links c (j + 1) g = Mesh.column_links c j g ++ [(c + j - 1, c + j, g)].
Proof.
  intros c j g Hj. unfold Mesh.column_links.
  replace (Z.to_nat (j + 1 - 1)) with (S (Z.to_nat (j - 1))) by lia.
  rewrite zseq_snoc, map_app. cbn [map]. rewrite Z2Nat.id by lia.
  replace (1 + (j - 1)) with j by lia. reflexivity.
Qed.

Section BelowThreshold.
Context {F : Type} `{FloatOps F} `{Static F}.
Variable e : Mesh.env F.
Variables n0 t0 : Z.

Local Notation "'Inv'" := (Mesh.Inv e n0 t0).
Local Notation "'L'" := (len (Mesh.noz e)).

(** An edge element and a transverse element between two different nodes
    on record are made, and change the registry, their element list and
    the element counter only. *)
Lemma assign_edge_trans_members_total : forall (s : Mesh.t F) (pre cur g : Z),
  Inv s -> n0 <= pre < Mesh.node_counter s -> n0 <= cur < Mesh.node_counter s -> pre <> cur ->
  exists tag d tc,
    let s' := Mesh.set_element_counter
                (Mesh.set_edge_span_ele
                   (Mesh.set_transform_counter (Mesh.set_transform_dict s d) tc)
                   (Mesh.edge_span_ele s ++ [Mesh.mk_ele (Mesh.element_counter s) pre cur g tag]))
                (Mesh.element_counter s + 1) in
    Mesh.assign_edge_trans_members e s pre cur g = Ok s' /\ Inv s'.
Proof.
  intros s pre cur g HI Hpre Hcur Hne.
  destruct (get_geo_transform_tag_total e n0 t0 s pre cur HI Hpre Hcur) as [tag [d [tc Hgeo]]].
  exists tag, d, tc. cbv zeta.
  assert (Hrun : Mesh.assign_edge_trans_members e s pre cur g
                 = Ok (Mesh.set_element_counter
                         (Mesh.set_edge_span_ele
                            (Mesh.set_transform_counter (Mesh.set_transform_dict s d) tc)
                            (Mesh.edge_span_ele s
                             ++ [Mesh.mk_ele (Mesh.element_counter s) pre cur g tag]))
                         (Mesh.element_counter s + 1))).
  { unfold Mesh.assign_edge_trans_members. rewrite Hgeo. reflexivity. }
  split; [exact Hrun|].
  exact (proj1 (assign_edge_trans_members_inv e n0 t0 s _ pre cur g HI Hne Hrun)).
Qed.

Lemma assign_transverse_members_total : forall (s : Mesh.t F) (pre cur : Z),
  Inv s -> n0 <= pre < Mesh.node_counter s -> n0 <= cur < Mesh.node_counter s -> pre <> cur ->
  exists tag d tc,
    let s' := Mesh.set_element_counter
                (Mesh.set_trans_ele
                   (Mesh.set_transform_counter (Mesh.set_transform_dict s d) tc)
                   (Mesh.trans_ele s
                    ++ [Mesh.mk_ele (Mesh.element_counter s) pre cur
                          (Mesh.global_x_grid_count s) tag]))
                (Mesh.element_counter s + 1) in
    Mesh.assign_transverse_members e s pre cur = Ok s' /\ Inv s'.
Proof.
  intros s pre cur HI Hpre Hcur Hne.
  destruct (get_geo_transform_tag_total e n0 t0 s pre cur HI Hpre Hcur) as [tag [d [tc Hgeo]]].
  exists tag, d, tc. cbv zeta.
  assert (Hrun : Mesh.assign_transverse_members e s pre cur
                 = Ok (Mesh.set_element_counter
                         (Mesh.set_trans_ele
                            (Mesh.set_transform_counter (Mesh.set_transform_dict s d) tc)
                            (Mesh.trans_ele s
                             ++ [Mesh.mk_ele (Mesh.element_counter s) pre cur
                                   (Mesh.global_x_grid_count s) tag]))
                         (Mesh.element_counter s + 1))).
  { unfold Mesh.assign_transverse_members. rewrite Hgeo. reflexivity. }
  split; [exact Hrun|].
  exact (proj1 (assign_transverse_members_inv e n0 t0 s _ pre cur HI Hne Hrun)).
Qed.

(** Placing the node [j] of a column. *)
Lemma col_place :
  forall (column : list (coord F)) (dx dz : F) (s0 s1 : Mesh.t F) (j : Z) (p : coord F),
  0 <= j -> n0 <= Mesh.node_counter s0 ->
  Mesh.col_nodes e n0 t0 column dx dz s0 j s1 ->
  nth_error column (Z.to_nat j) = Some p ->
  let s2 := Mesh.place_node s1 (Coord (cx p + dx)%fl (cy p) (cz p + dz)%fl)
              (Mesh.global_x_grid_count s1) j in
  Inv s2
  /\ Mesh.node_counter s2 = Mesh.node_counter s0 + (j + 1)
  /\ Mesh.assigned_node_tag s2 = zseq (Mesh.node_counter s0) (Z.to_nat (j + 1))
  /\ (forall q v, dict_get Z.eqb q (Mesh.node_spec s0) = Some v ->
                  dict_get Z.eqb q (Mesh.node_spec s2) = Some v)
  /\ (forall j' p', 0 <= j' < j + 1 -> nth_error column (Z.to_nat j') = Some p' ->
        dict_get Z.eqb (Mesh.node_counter s0 + j') (Mesh.node_spec s2)
        = Some (Mesh.ortho_node (Mesh.node_counter s0 + j') (Mesh.global_x_grid_count s0) j'
                  dx dz p')).
Proof.
  intros column dx dz s0 s1 j p Hj Hn0 (HI1 & Hc & Has & Hext & Hrow & _ & _ & Hgx & _) Hnth s2.
  pose proof (place_node_inv e n0 t0 s1 (Coord (cx p + dx)%fl (cy p) (cz p + dz)%fl)
                (Mesh.global_x_grid_count s1) j HI1) as HP. cbv zeta in HP. fold s2 in HP.
  destruct HP as (HI2 & Hc2 & Ha2 & _).
  assert (Hfresh : ~ In (Mesh.node_counter s1) (keys (Mesh.node_spec s1))).
  { rewrite (Inv_key_range e n0 t0 s1 _ HI1). lia. }
  assert (Hns2 : Mesh.node_spec s2
                 = Mesh.node_spec s1
                   ++ [(Mesh.node_counter s1,
                        Mesh.ortho_node (Mesh.node_counter s1) (Mesh.global_x_grid_count s1) j
                          dx dz p)]).
  { unfold s2, Mesh.place_node. simpl.
    rewrite (setdefault_fresh Z.eqb Zeqb_eq _ _ _ Hfresh). reflexivity. }
  split; [exact HI2|]. split; [rewrite Hc2, Hc; lia|]. split.
  { rewrite Ha2, Has, Hc. replace (Z.to_nat (j + 1)) with (S (Z.to_nat j)) by lia.
    rewrite zseq_snoc. do 2 f_equal. lia. }
  split.
  { intros q v Hq. rewrite Hns2, dict_get_app, (Hext q v Hq). reflexivity. }
  intros j' p' Hj' Hn'. rewrite Hns2, dict_get_app.
  destruct (Z.eq_dec j' j) as [Heq|Hne].
  - subst j'. rewrite Hn' in Hnth. inversion Hnth; subst p'.
    rewrite <- Hc. apply (dict_get_none Z.eqb Zeqb_eq) in Hfresh. rewrite Hfresh.
    simpl. rewrite Z.eqb_refl. rewrite Hgx. reflexivity.
  - rewrite (Hrow j' p' ltac:(lia) Hn'). reflexivity.
Qed.

Lemma len_zseq : forall (c : Z) (n : nat), len (zseq c n) = Z.of_nat n.
Proof. intros c n. unfold len. rewrite zseq_length. reflexivity. Qed.

(** An edge line below the threshold is taken as it is: one node per
    point of the line, each joined to the one before it by an edge
    element, all on record as edge nodes, and the column on record as a
    connecting region. *)
Lemma edge_line_as_is_total : forall (at_start : bool) (s : Mesh.t F),
  let edge := if at_start then Mesh.start_edge_line e else Mesh.end_edge_line e in
  let dx := if at_start then cx (Mesh.mesh_origin e) else fz 0 in
  let dz := if at_start then cz (Mesh.mesh_origin e) else fz 0 in
  Inv s -> Mesh.assigned_node_tag s = [] -> 1 <= L ->
  len (EdgeConstructionLine.node_list edge) = L ->
  (forall n, In n (keys (Mesh.edge_node_recorder s)) -> n < Mesh.node_counter s) ->
  exists s',
    Mesh.edge_line_as_is e at_start s = Ok s'
    /\ Mesh.col_nodes e n0 t0 (EdgeConstructionLine.node_list edge) dx dz s L s'
    /\ Mesh.edge_col e at_start s L s'.
Proof.
  intros at_start s edge dx dz HI Ha HL Hlen Hrec.
  pose proof (Mesh.inv_counter _ _ _ _ HI) as Hn0.
  unfold Mesh.edge_line_as_is, enumerate. fold edge dx dz.
  match goal with
  | |- exists s', foldM ?f _ _ = _ /\ _ =>
      destruct (foldM_enumerate_total _ _
                  (fun j st => Mesh.col_nodes e n0 t0 (EdgeConstructionLine.node_list edge)
                                 dx dz s j st
                               /\ Mesh.edge_col e at_start s j st)
                  f (EdgeConstructionLine.node_list edge) 0) with (s := s)
        as [s' [Hrun Hs']];
        [| | exists s'; split; [exact Hrun | rewrite Z.add_0_l, Hlen in Hs'; exact Hs']]
  end.
  - intros j p st1 Hj Hnth [Hcol Hedge]. rewrite Z.sub_0_r in Hnth. rewrite Hlen in Hj.
    cbv beta iota.
    destruct (col_place _ dx dz s st1 j p (proj1 Hj) Hn0 Hcol Hnth)
      as (HI2 & Hc2 & Has2 & Hext2 & Hrow2).
    destruct Hcol as (HI1 & Hc & Has & Hext & Hrow & Hlo & Hpr & Hgx & Hge & Hec).
    destruct Hedge as (Hes & Htr & Hrc & Hfi & Hen). cbv zeta in Hes, Hrc, Hfi, Hen.
    set (s2 := Mesh.place_node st1 (Coord (cx p + dx)%fl (cy p) (cz p + dz)%fl)
                 (Mesh.global_x_grid_count st1) j) in *.
    assert (Hjl : (j =? L) = false) by (apply Z.eqb_neq; lia).
    rewrite Hjl, andb_false_r in Hfi, Hen.
    destruct (Z.gtb_spec j 0) as [Hpos|Hzero].
    + rewrite Has2, len_zseq.
      destruct (Z.geb_spec (Z.of_nat (Z.to_nat (j + 1))) 1) as [_|Hbad]; [|lia].
      rewrite !py_index_zseq by lia. cbn [bind].
      destruct (assign_edge_trans_members_total s2 (Mesh.node_counter s + (j - 1))
                  (Mesh.node_counter s + j) (Mesh.global_edge_count s2) HI2)
        as [tag [d [tc [Hrun HI3]]]]; [rewrite Hc2; lia | rewrite Hc2; lia | lia |].
      cbv zeta in Hrun, HI3. rewrite Hrun. cbn [bind].
      match goal with
      | |- exists s', (if ?b then Ok ?sa else Ok ?sb) = Ok s' /\ _ =>
          set (cond := b); exists (if cond then sa else sb);
          split; [destruct cond; reflexivity|];
          set (fin := if cond then sa else sb)
      end.
      assert (Hcond : cond = (j + 1 =? L)).
      { unfold cond. change ((len (Mesh.assigned_node_tag s2) =? L) = (j + 1 =? L)).
        rewrite Has2, len_zseq, Z2Nat.id by lia. reflexivity. }
      assert (HIf : Inv fin).
      { unfold fin. destruct cond; [destruct at_start|];
          (apply (Inv_same_mesh e n0 t0 _ _ HI3); reflexivity). }
      assert (E1 : Mesh.node_counter fin = Mesh.node_counter s2)
        by (unfold fin; destruct cond; [destruct at_start|]; reflexivity).
      assert (E2 : Mesh.assigned_node_tag fin = Mesh.assigned_node_tag s2)
        by (unfold fin; destruct cond; [destruct at_start|]; reflexivity).
      assert (E3 : Mesh.node_spec fin = Mesh.node_spec s2)
        by (unfold fin; destruct cond; [destruct at_start|]; reflexivity).
      assert (E4 : Mesh.edge_span_ele fin
                   = Mesh.edge_span_ele st1
                     ++ [Mesh.mk_ele (Mesh.element_counter st1)
                           (Mesh.node_counter s + (j - 1)) (Mesh.node_counter s + j)
                           (Mesh.global_edge_count st1) tag])
        by (unfold fin; destruct cond; [destruct at_start|]; reflexivity).
      assert (E5 : Mesh.element_counter fin = Mesh.element_counter st1 + 1)
        by (unfold fin; destruct cond; [destruct at_start|]; reflexivity).
      assert (E6 : Mesh.long_ele fin = Mesh.long_ele st1)
        by (unfold fin; destruct cond; [destruct at_start|]; reflexivity).
      assert (E7 : Mesh.trans_ele fin = Mesh.trans_ele st1)
        by (unfold fin; destruct cond; [destruct at_start|]; reflexivity).
      assert (E8 : Mesh.previous_node_tag fin = Mesh.previous_node_tag st1)
        by (unfold fin; destruct cond; [destruct at_start|]; reflexivity).
      assert (E9 : Mesh.global_x_grid_count fin = Mesh.global_x_grid_count st1)
        by (unfold fin; destruct cond; [destruct at_start|]; reflexivity).
      assert (E10 : Mesh.global_edge_count fin = Mesh.global_edge_count st1)
        by (unfold fin; destruct cond; [destruct at_start|]; reflexivity).
      assert (E11 : Mesh.edge_node_recorder fin
                    = setdefault Z.eqb (Mesh.node_counter s + j) (Mesh.global_edge_count st1)
                        (setdefault Z.eqb (Mesh.node_counter s + (j - 1))
                           (Mesh.global_edge_count st1) (Mesh.edge_node_recorder st1)))
        by (unfold fin; destruct cond; [destruct at_start|]; reflexivity).
      assert (E12 : Mesh.first_connecting_region_nodes fin
                    = if at_start && (j + 1 =? L)
                      then zseq (Mesh.node_counter s) (Z.to_nat (j + 1))
                      else Mesh.first_connecting_region_nodes s).
      { rewrite <- Hcond. unfold fin. destruct cond; [destruct at_start|]; cbn [andb];
          try rewrite andb_false_r; try exact Hfi; exact Has2. }
      assert (E13 : Mesh.end_connecting_region_nodes fin
                    = if negb at_start && (j + 1 =? L)
                      then zseq (Mesh.node_counter s) (Z.to_nat (j + 1))
                      else Mesh.end_connecting_region_nodes s).
      { rewrite <- Hcond. unfold fin. destruct cond; [destruct at_start|]; cbn [andb negb];
          try rewrite andb_false_r; try exact Hen; exact Has2. }
      split.
      * unfold Mesh.col_nodes. rewrite E1, E2, E3, E5, E6, E8, E9, E10.
        split; [exact HIf|]. split; [exact Hc2|]. split; [exact Has2|].
        split; [exact Hext2|]. split; [exact Hrow2|].
        repeat (split; [assumption|]). lia.
      * unfold Mesh.edge_col. cbv zeta. rewrite E4, E7, E11, E12, E13.
        split.
        { rewrite map_app, Hes, <- app_assoc. f_equal.
          rewrite column_links_snoc by lia. f_equal. cbn [map]. unfold Mesh.ele_link.
          cbn [Mesh.node_i Mesh.node_j Mesh.group_index]. rewrite Hge.
          replace (Mesh.node_counter s + j - 1) with (Mesh.node_counter s + (j - 1)) by lia.
          reflexivity. }
        split; [exact Htr|]. split.
        { rewrite Hrc, Hge.
          replace (Mesh.node_counter s + (j - 1)) with (Mesh.node_counter s + j - 1) by lia.
          rewrite (record_pair _ _ _ _ Hrec) by lia.
          destruct (Z.leb_spec 2 (j + 1)) as [_|Hbad]; [reflexivity | lia]. }
        split; reflexivity.
    + assert (j = 0) by lia. subst j. cbn [bind].
      match goal with
      | |- exists s', (if ?b then Ok ?sa else Ok ?sb) = Ok s' /\ _ =>
          set (cond := b); exists (if cond then sa else sb);
          split; [destruct cond; reflexivity|];
          set (fin := if cond then sa else sb)
      end.
      assert (Hcond : cond = (0 + 1 =? L)).
      { unfold cond. change ((len (Mesh.assigned_node_tag s2) =? L) = (0 + 1 =? L)).
        rewrite Has2, len_zseq, Z2Nat.id by lia. reflexivity. }
      assert (HIf : Inv fin).
      { unfold fin. destruct cond; [destruct at_start|]; try exact HI2;
          (apply (Inv_same_mesh e n0 t0 _ _ HI2); reflexivity). }
      assert (E1 : Mesh.node_counter fin = Mesh.node_counter s2)
        by (unfold fin; destruct cond; [destruct at_start|]; reflexivity).
      assert (E2 : Mesh.assigned_node_tag fin = Mesh.assigned_node_tag s2)
        by (unfold fin; destruct cond; [destruct at_start|]; reflexivity).
      assert (E3 : Mesh.node_spec fin = Mesh.node_spec s2)
        by (unfold fin; destruct cond; [destruct at_start|]; reflexivity).
      assert (E4 : Mesh.edge_span_ele fin = Mesh.edge_span_ele st1)
        by (unfold fin; destruct cond; [destruct at_start|]; reflexivity).
      assert (E5 : Mesh.element_counter fin = Mesh.element_counter st1)
        by (unfold fin; destruct cond; [destruct at_start|]; reflexivity).
      assert (E6 : Mesh.long_ele fin = Mesh.long_ele st1)
        by (unfold fin; destruct cond; [destruct at_start|]; reflexivity).
      assert (E7 : Mesh.trans_ele fin = Mesh.trans_ele st1)
        by (unfold fin; destruct cond; [destruct at_start|]; reflexivity).
      assert (E8 : Mesh.previous_node_tag fin = Mesh.previous_node_tag st1)
        by (unfold fin; destruct cond; [destruct at_start|]; reflexivity).
      assert (E9 : Mesh.global_x_grid_count fin = Mesh.global_x_grid_count st1)
        by (unfold fin; destruct cond; [destruct at_start|]; reflexivity).
      assert (E10 : Mesh.global_edge_count fin = Mesh.global_edge_count st1)
        by (unfold fin; destruct cond; [destruct at_start|]; reflexivity).
      assert (E11 : Mesh.edge_node_recorder fin = Mesh.edge_node_recorder st1)
        by (unfold fin; destruct cond; [destruct at_start|]; reflexivity).
      assert (E12 : Mesh.first_connecting_region_nodes fin
                    = if at_start && (0 + 1 =? L)
                      then zseq (Mesh.node_counter s) (Z.to_nat (0 + 1))
                      else Mesh.first_connecting_region_nodes s).
      { rewrite <- Hcond. unfold fin. destruct cond; [destruct at_start|]; cbn [andb];
          try rewrite andb_false_r; try exact Hfi; exact Has2. }
      assert (E13 : Mesh.end_connecting_region_nodes fin
                    = if negb at_start && (0 + 1 =? L)
                      then zseq (Mesh.node_counter s) (Z.to_nat (0 + 1))
                      else Mesh.end_connecting_region_nodes s).
      { rewrite <- Hcond. unfold fin. destruct cond; [destruct at_start|]; cbn [andb negb];
          try rewrite andb_false_r; try exact Hen; exact Has2. }
      split.
      * unfold Mesh.col_nodes. rewrite E1, E2, E3, E5, E6, E8, E9, E10.
        split; [exact HIf|]. split; [exact Hc2|]. split; [exact Has2|].
        split; [exact Hext2|]. split; [exact Hrow2|].
        repeat (split; [assumption|]). lia.
      * unfold Mesh.edge_col. cbv zeta. rewrite E4, E7, E11, E12, E13.
        split; [rewrite Hes; reflexivity|]. split; [exact Htr|].
        split; [rewrite Hrc; reflexivity|]. split; reflexivity.
  - split.
    + unfold Mesh.col_nodes. rewrite Ha. simpl. rewrite !Z.add_0_r.
      split; [exact HI|]. split; [reflexivity|]. split; [reflexivity|].
      split; [intros q v Hq; exact Hq|]. split; [intros j p Hj; lia|]. repeat split.
    + unfold Mesh.edge_col. cbv zeta.
      assert (H0L : (0 =? L) = false) by (apply Z.eqb_neq; lia).
      rewrite H0L, !andb_false_r. simpl. rewrite !app_nil_r. repeat split.
Qed.

(** A column of the uniform region: one node per point, each joined to
    the one before it by a transverse element of the current column. *)
Lemma place_uniform_column_total :
  forall (x z : F) (column : list (coord F)) (s : Mesh.t F),
  Inv s -> Mesh.assigned_node_tag s = [] ->
  exists s',
    Mesh.place_uniform_column e x z column s = Ok s'
    /\ Mesh.col_nodes e n0 t0 column x z s (len column) s'
    /\ Mesh.inner_col s (len column) s'.
Proof.
  intros x z column s HI Ha.
  pose proof (Mesh.inv_counter _ _ _ _ HI) as Hn0.
  unfold Mesh.place_uniform_column, enumerate.
  match goal with
  | |- exists s', foldM ?f _ _ = _ /\ _ =>
      destruct (foldM_enumerate_total _ _
                  (fun j st => Mesh.col_nodes e n0 t0 column x z s j st
                               /\ Mesh.inner_col s j st)
                  f column 0) with (s := s)
        as [s' [Hrun Hs']];
        [| | exists s'; split; [exact Hrun | rewrite Z.add_0_l in Hs'; exact Hs']]
  end.
  - intros j p st1 Hj Hnth [Hcol Hinner]. rewrite Z.sub_0_r in Hnth. cbv beta iota.
    destruct (col_place _ x z s st1 j p (proj1 Hj) Hn0 Hcol Hnth)
      as (HI2 & Hc2 & Has2 & Hext2 & Hrow2).
    destruct Hcol as (HI1 & Hc & Has & Hext & Hrow & Hlo & Hpr & Hgx & Hge & Hec).
    destruct Hinner as (Htr & Hes & Hrc & Hfi & Hen).
    set (s2 := Mesh.place_node st1 (Coord (cx p + x)%fl (cy p) (cz p + z)%fl)
                 (Mesh.global_x_grid_count st1) j) in *.
    destruct (Z.gtb_spec j 0) as [Hpos|Hzero].
    + rewrite Has2. rewrite !py_index_zseq by lia. cbn [bind].
      destruct (assign_transverse_members_total s2 (Mesh.node_counter s + (j - 1))
                  (Mesh.node_counter s + j) HI2)
        as [tag [d [tc [Hrun HI3]]]]; [rewrite Hc2; lia | rewrite Hc2; lia | lia |].
      cbv zeta in Hrun, HI3. rewrite Hrun. eexists. split; [reflexivity|].
      match goal with |- Mesh.col_nodes _ _ _ _ _ _ _ _ ?st /\ _ => set (fin := st) in * end.
      assert (E1 : Mesh.node_counter fin = Mesh.node_counter s2) by reflexivity.
      assert (E2 : Mesh.assigned_node_tag fin = Mesh.assigned_node_tag s2) by reflexivity.
      assert (E3 : Mesh.node_spec fin = Mesh.node_spec s2) by reflexivity.
      assert (E4 : Mesh.trans_ele fin
                   = Mesh.trans_ele st1
                     ++ [Mesh.mk_ele (Mesh.element_counter st1)
                           (Mesh.node_counter s + (j - 1)) (Mesh.node_counter s + j)
                           (Mesh.global_x_grid_count st1) tag]) by reflexivity.
      assert (E5 : Mesh.element_counter fin = Mesh.element_counter st1 + 1) by reflexivity.
      assert (E6 : Mesh.long_ele fin = Mesh.long_ele st1) by reflexivity.
      assert (E7 : Mesh.edge_span_ele fin = Mesh.edge_span_ele st1) by reflexivity.
      assert (E8 : Mesh.previous_node_tag fin = Mesh.previous_node_tag st1) by reflexivity.
      assert (E9 : Mesh.global_x_grid_count fin = Mesh.global_x_grid_count st1) by reflexivity.
      assert (E10 : Mesh.global_edge_count fin = Mesh.global_edge_count st1) by reflexivity.
      assert (E11 : Mesh.edge_node_recorder fin = Mesh.edge_node_recorder st1) by reflexivity.
      assert (E12 : Mesh.first_connecting_region_nodes fin
                    = Mesh.first_connecting_region_nodes st1) by reflexivity.
      assert (E13 : Mesh.end_connecting_region_nodes fin
                    = Mesh.end_connecting_region_nodes st1) by reflexivity.
      split.
      * unfold Mesh.col_nodes. rewrite E1, E2, E3, E5, E6, E8, E9, E10.
        split; [exact HI3|]. split; [exact Hc2|]. split; [exact Has2|].
        split; [exact Hext2|]. split; [exact Hrow2|].
        repeat (split; [assumption|]). lia.
      * unfold Mesh.inner_col. rewrite E4, E7, E11, E12, E13.
        split; [|repeat split; assumption].
        rewrite map_app, Htr, <- app_assoc. f_equal.
        rewrite column_links_snoc by lia. f_equal. cbn [map]. unfold Mesh.ele_link.
        cbn [Mesh.node_i Mesh.node_j Mesh.group_index]. rewrite Hgx.
        replace (Mesh.node_counter s + j - 1) with (Mesh.node_counter s + (j - 1)) by lia.
        reflexivity.
    + assert (j = 0) by lia. subst j. exists s2. split; [reflexivity|].
      assert (E4 : Mesh.trans_ele s2 = Mesh.trans_ele st1) by reflexivity.
      assert (E5 : Mesh.element_counter s2 = Mesh.element_counter st1) by reflexivity.
      assert (E6 : Mesh.long_ele s2 = Mesh.long_ele st1) by reflexivity.
      assert (E7 : Mesh.edge_span_ele s2 = Mesh.edge_span_ele st1) by reflexivity.
      assert (E8 : Mesh.previous_node_tag s2 = Mesh.previous_node_tag st1) by reflexivity.
      assert (E9 : Mesh.global_x_grid_count s2 = Mesh.global_x_grid_count st1) by reflexivity.
      assert (E10 : Mesh.global_edge_count s2 = Mesh.global_edge_count st1) by reflexivity.
      assert (E11 : Mesh.edge_node_recorder s2 = Mesh.edge_node_recorder st1) by reflexivity.
      assert (E12 : Mesh.first_connecting_region_nodes s2
                    = Mesh.first_connecting_region_nodes st1) by reflexivity.
      assert (E13 : Mesh.end_connecting_region_nodes s2
                    = Mesh.end_connecting_region_nodes st1) by reflexivity.
      split.
      * unfold Mesh.col_nodes. rewrite E5, E6, E8, E9, E10.
        split; [exact HI2|]. split; [exact Hc2|]. split; [exact Has2|].
        split; [exact Hext2|]. split; [exact Hrow2|].
        repeat (split; [assumption|]). lia.
      * unfold Mesh.inner_col. rewrite E4, E7, E11, E12, E13.
        split; [rewrite Htr; reflexivity | repeat split; assumption].
  - split.
    + unfold Mesh.col_nodes. rewrite Ha. simpl. rewrite !Z.add_0_r.
      split; [exact HI|]. split; [reflexivity|]. split; [reflexivity|].
      split; [intros q v Hq; exact Hq|]. split; [intros j p Hj; lia|]. repeat split.
    + unfold Mesh.inner_col. simpl. rewrite app_nil_r. repeat split.
Qed.

(** *** The two edge regions *)

Hypothesis Hstart :
  fltb (fabs (Mesh.skew_1 e + Mesh.zeta e)%fl) (fst (Mesh.skew_threshold e)) = true.
Hypothesis Hend :
  fltb (fabs (Mesh.skew_2 e + Mesh.zeta e)%fl) (fst (Mesh.skew_threshold e)) = true.
Hypothesis Hlen_start :
  len (EdgeConstructionLine.node_list (Mesh.start_edge_line e)) = L.
Hypothesis Hlen_end :
  len (EdgeConstructionLine.node_list (Mesh.end_edge_line e)) = L.
Hypothesis HL2 : 2 <= L.
Variable m0 : F.
Hypothesis Hcurve : SweepPath.curve_path (Mesh.sweep_path e) = false.
Hypothesis Hslope : SweepPath.m (Mesh.sweep_path e) = Some m0.

Lemma zseq_app : forall (n m : nat) (a : Z),
  zseq a (n + m) = zseq a n ++ zseq (a + Z.of_nat n) m.
Proof.
  induction n as [|n IH]; intros m a.
  - simpl. rewrite Z.add_0_r. reflexivity.
  - cbn [Nat.add zseq app]. rewrite IH.
    replace (a + 1 + Z.of_nat n) with (a + Z.of_nat (S n)) by lia. reflexivity.
Qed.

Lemma edge_regions_total : forall s0 : Mesh.t F,
  Inv s0 ->
  (forall n, In n (keys (Mesh.edge_node_recorder s0)) -> n < Mesh.node_counter s0) ->
  exists s1 s2,
    Mesh.edge_region e true
      (Mesh.set_sweep_path_points
         (Mesh.set_previous_node_tag (Mesh.set_assigned_node_tag s0 []) []) []) = Ok s1
    /\ Mesh.edge_region e false s1 = Ok s2
    /\ Mesh.edges_done e n0 t0 s0 (Mesh.set_assigned_node_tag s2 []).
Proof.
  intros s0 HI0 Hrec0.
  set (sA := Mesh.set_sweep_path_points
               (Mesh.set_previous_node_tag (Mesh.set_assigned_node_tag s0 []) []) []).
  assert (HIA : Inv sA) by (apply (Inv_same_mesh e n0 t0 s0); [exact HI0 | reflexivity..]).
  destruct (edge_line_as_is_total true sA HIA eq_refl ltac:(lia) Hlen_start Hrec0)
    as [sa [Hruna [Hcola Hedgea]]].
  destruct Hcola as (HIa & Hca & Hasa & Hexta & Hrowa & Hloa & Hpra & Hgxa & Hgea & Heca).
  destruct Hedgea as (Hesa & Htra & Hrca & Hfia & Hena). cbv zeta in Hesa, Hrca, Hfia, Hena.
  rewrite Z.eqb_refl in Hfia, Hena. cbn [andb negb] in Hfia, Hena.
  destruct (Z.leb_spec 2 L) as [_|Hbad]; [|lia].
  set (s1 := Mesh.set_assigned_node_tag
               (Mesh.set_global_x_grid_count sa (Mesh.global_x_grid_count sa + 1)) []).
  assert (Hrun1 : Mesh.edge_region e true sA = Ok s1).
  { unfold Mesh.edge_region. rewrite Hstart, Hruna. reflexivity. }
  assert (HI1 : Inv s1) by (apply (Inv_same_mesh e n0 t0 sa); [exact HIa | reflexivity..]).
  assert (Hrec1 : forall n, In n (keys (Mesh.edge_node_recorder s1)) -> n < Mesh.node_counter s1).
  { intros n Hn. change (Mesh.edge_node_recorder s1) with (Mesh.edge_node_recorder sa) in Hn.
    change (Mesh.node_counter s1) with (Mesh.node_counter sa). rewrite Hca.
    rewrite Hrca in Hn. unfold keys in Hn. rewrite map_app, map_map in Hn. cbn [fst] in Hn.
    rewrite map_id in Hn. apply in_app_or in Hn. destruct Hn as [Hn | Hn].
    - specialize (Hrec0 n Hn). change (Mesh.node_counter sA) with (Mesh.node_counter s0). lia.
    - apply zseq_In in Hn. lia. }
  destruct (edge_line_as_is_total false s1 HI1 eq_refl ltac:(lia) Hlen_end Hrec1)
    as [sb [Hrunb [Hcolb Hedgeb]]].
  destruct Hcolb as (HIb & Hcb & Hasb & Hextb & Hrowb & Hlob & Hprb & Hgxb & Hgeb & Hecb).
  destruct Hedgeb as (Hesb & Htrb & Hrcb & Hfib & Henb). cbv zeta in Hesb, Hrcb, Hfib, Henb.
  rewrite Z.eqb_refl in Hfib, Henb. cbn [andb negb] in Hfib, Henb.
  destruct (Z.leb_spec 2 L) as [_|Hbad]; [|lia].
  set (s2 := Mesh.set_global_x_grid_count sb (Mesh.global_x_grid_count sb + 1)).
  assert (Hrun2 : Mesh.edge_region e false s1 = Ok s2).
  { unfold Mesh.edge_region. rewrite Hend, Hrunb. reflexivity. }
  exists s1, s2. split; [exact Hrun1|]. split; [exact Hrun2|].
  change (Mesh.node_counter s1) with (Mesh.node_counter sa) in *.
  change (Mesh.node_spec s1) with (Mesh.node_spec sa) in *.
  change (Mesh.global_x_grid_count s1) with (Mesh.global_x_grid_count sa + 1) in *.
  change (Mesh.global_edge_count s1) with (Mesh.global_edge_count sa) in *.
  change (Mesh.edge_span_ele s1) with (Mesh.edge_span_ele sa) in *.
  change (Mesh.trans_ele s1) with (Mesh.trans_ele sa) in *.
  change (Mesh.long_ele s1) with (Mesh.long_ele sa) in *.
  change (Mesh.element_counter s1) with (Mesh.element_counter sa) in *.
  change (Mesh.edge_node_recorder s1) with (Mesh.edge_node_recorder sa) in *.
  change (Mesh.first_connecting_region_nodes s1)
    with (Mesh.first_connecting_region_nodes sa) in *.
  change (Mesh.previous_node_tag s1) with (Mesh.previous_node_tag sa) in *.
  change (Mesh.node_counter sA) with (Mesh.node_counter s0) in *.
  change (Mesh.node_spec sA) with (Mesh.node_spec s0) in *.
  change (Mesh.global_x_grid_count sA) with (Mesh.global_x_grid_count s0) in *.
  change (Mesh.global_edge_count sA) with (Mesh.global_edge_count s0) in *.
  change (Mesh.edge_span_ele sA) with (Mesh.edge_span_ele s0) in *.
  change (Mesh.trans_ele sA) with (Mesh.trans_ele s0) in *.
  change (Mesh.long_ele sA) with (Mesh.long_ele s0) in *.
  change (Mesh.element_counter sA) with (Mesh.element_counter s0) in *.
  change (Mesh.edge_node_recorder sA) with (Mesh.edge_node_recorder s0) in *.
  change (Mesh.previous_node_tag sA) with (@nil Z) in *.
  set (sE := Mesh.set_assigned_node_tag s2 []).
  assert (E1 : Mesh.node_counter sE = Mesh.node_counter sb) by reflexivity.
  assert (E2 : Mesh.node_spec sE = Mesh.node_spec sb) by reflexivity.
  assert (E3 : Mesh.assigned_node_tag sE = []) by reflexivity.
  assert (E4 : Mesh.previous_node_tag sE = Mesh.previous_node_tag sb) by reflexivity.
  assert (E5 : Mesh.edge_span_ele sE = Mesh.edge_span_ele sb) by reflexivity.
  assert (E6 : Mesh.trans_ele sE = Mesh.trans_ele sb) by reflexivity.
  assert (E7 : Mesh.long_ele sE = Mesh.long_ele sb) by reflexivity.
  assert (E8 : Mesh.element_counter sE = Mesh.element_counter sb) by reflexivity.
  assert (E9 : Mesh.edge_node_recorder sE = Mesh.edge_node_recorder sb) by reflexivity.
  assert (E10 : Mesh.first_connecting_region_nodes sE
                = Mesh.first_connecting_region_nodes sb) by reflexivity.
  assert (E11 : Mesh.end_connecting_region_nodes sE
                = Mesh.end_connecting_region_nodes sb) by reflexivity.
  assert (E12 : Mesh.global_x_grid_count sE = Mesh.global_x_grid_count sb + 1) by reflexivity.
  assert (E13 : Mesh.global_edge_count sE = Mesh.global_edge_count sb) by reflexivity.
  unfold Mesh.edges_done. cbv zeta.
  rewrite E1, E2, E3, E4, E5, E6, E7, E8, E9, E10, E11, E12, E13.
  split; [apply (Inv_same_mesh e n0 t0 sb); [exact HIb | reflexivity..]|].
  split; [rewrite Hcb, Hca; lia|]. split; [reflexivity|].
  split; [rewrite Hprb, Hpra; reflexivity|].
  split; [intros q v Hq; apply Hextb, Hexta; exact Hq|].
  split; [intros j p Hj Hp; apply Hextb; apply Hrowa; assumption|].
  split.
  { intros j p Hj Hp. rewrite <- Hca. rewrite (Hrowb j p Hj Hp). rewrite Hgxa. reflexivity. }
  split.
  { rewrite Hesb, Hesa, Hca, Hgea, <- app_assoc. reflexivity. }
  split; [rewrite Htrb, Htra; reflexivity|]. split; [rewrite Hlob, Hloa; reflexivity|].
  split; [rewrite Hecb, Heca; lia|].
  split.
  { rewrite Hrcb, Hrca, Hca, Hgea, <- app_assoc. f_equal.
    replace (Z.to_nat (2 * L)) with (Z.to_nat L + Z.to_nat L)%nat by lia.
    rewrite zseq_app, map_app, Z2Nat.id by lia. reflexivity. }
  split; [rewrite Hfib; exact Hfia|]. split; [rewrite Henb, Hca; reflexivity|].
  split; [rewrite Hgxb, Hgxa; lia|]. rewrite Hgeb. exact Hgea.
Qed.

(** *** The uniform region *)

Local Notation "'elev'" := (line_func m0 (SweepPath.c (Mesh.sweep_path e))).
Local Notation "'column'" := (Mesh.rotate_sweep_nodes e (Mesh.zeta e / fz 180 * fpi)%fl).

Lemma rotate_sweep_nodes_length : forall angle : F,
  len (Mesh.rotate_sweep_nodes e angle) = L.
Proof. intro angle. unfold Mesh.rotate_sweep_nodes, len. rewrite length_map. reflexivity. Qed.

Lemma link_longitudinal_nil : forall (previous : list Z) (s : Mesh.t F),
  Mesh.link_longitudinal e s previous [] = Ok s.
Proof.
  intros previous s. unfold Mesh.link_longitudinal.
  induction previous as [|p t IH]; [reflexivity|]. simpl. exact IH.
Qed.

(** Two columns of [n] nodes, numbered from [cp] and from [c] and row by
    row of the same [z_group], are joined by [n] longitudinal elements. *)
Lemma link_columns_total : forall (cp c n : Z) (s : Mesh.t F),
  Inv s -> 0 <= n -> n0 <= cp -> n0 <= c ->
  cp + n <= Mesh.node_counter s -> c + n <= Mesh.node_counter s ->
  cp + n <= c \/ c + n <= cp ->
  (forall k, 0 <= k < n ->
             exists nd, dict_get Z.eqb (cp + k) (Mesh.node_spec s) = Some nd
                        /\ Mesh.z_group nd = k) ->
  (forall k, 0 <= k < n ->
             exists nd, dict_get Z.eqb (c + k) (Mesh.node_spec s) = Some nd
                        /\ Mesh.z_group nd = k) ->
  exists s',
    Mesh.link_longitudinal e s (zseq cp (Z.to_nat n)) (zseq c (Z.to_nat n)) = Ok s'
    /\ Mesh.join_inv e n0 t0 cp c s n s'
    /\ Mesh.frame s s'.
Proof.
  intros cp c n s HI Hn Hcp Hc Hncp Hnc Hdisj Hprev Hcur.
  assert (Hrun : exists s',
             Mesh.link_longitudinal e s (zseq cp (Z.to_nat n)) (zseq c (Z.to_nat n)) = Ok s'
             /\ Mesh.join_inv e n0 t0 cp c s n s').
  { unfold Mesh.link_longitudinal.
    destruct (foldM_zseq_total _ (fun j st => Mesh.join_inv e n0 t0 cp c s (j - cp) st)
                (fun self pre_node => Mesh.link_first_match e self pre_node (zseq c (Z.to_nat n)))
                (Z.to_nat n) cp) with (s := s) as [s' [Hrun Hs']].
    - intros j st Hj (HI1 & A1 & A2 & A3 & A4 & A5 & A6 & A7 & A8 & A9 & A10 & A11).
      rewrite Z2Nat.id in Hj by lia.
      assert (Hscan : Mesh.link_first_match e st j (zseq c (Z.to_nat n))
                      = Mesh.assign_longitudinal_members e st j (c + (j - cp)) (j - cp)).
      { pose proof (link_first_match_row e (Z.to_nat n) st j c (j - cp) 0) as Hrow.
        rewrite Z.add_0_r in Hrow. apply Hrow.
        - intros k Hk. rewrite A2. apply Hcur. lia.
        - destruct (Hprev (j - cp)) as [nd [Hd Hz]]; [lia|]. exists nd. rewrite A2.
          replace (cp + (j - cp)) with j in Hd by lia. split; assumption.
        - lia. }
      rewrite Hscan.
      destruct (assign_longitudinal_members_total e n0 t0 st j (c + (j - cp)) (j - cp) HI1)
        as [st' [Hst' (HI2 & B1 & B2 & B3 & B4 & B5 & B6 & B7 & B8 & B9 & B10 & B11)]];
        [rewrite A1; lia | rewrite A1; lia | lia |].
      exists st'. split; [exact Hst'|]. unfold Mesh.join_inv.
      rewrite B1, B2, B3, B4, B5, B6, B7, B8, B9, B10, B11.
      split; [exact HI2|]. repeat (split; [assumption|]).
      split; [|split; [lia | repeat split; assumption]].
      rewrite A5, <- app_assoc. f_equal.
      replace (Z.to_nat (j + 1 - cp)) with (S (Z.to_nat (j - cp))) by lia.
      rewrite zseq_snoc, map_app. f_equal. cbn [map]. rewrite Z2Nat.id by lia.
      replace (cp + (0 + (j - cp))) with j by lia.
      replace (0 + (j - cp)) with (j - cp) by lia. reflexivity.
    - unfold Mesh.join_inv. rewrite Z.sub_diag. simpl. rewrite app_nil_r.
      split; [exact HI|]. repeat split. lia.
    - exists s'. split; [exact Hrun|]. rewrite Z2Nat.id in Hs' by lia.
      replace (cp + n - cp) with n in Hs' by lia. exact Hs'. }
  destruct Hrun as [s' [Hrun Hjoin]]. exists s'. split; [exact Hrun|]. split; [exact Hjoin|].
  apply (link_longitudinal_inv e n0 t0 (zseq cp (Z.to_nat n)) (zseq c (Z.to_nat n)) s s' HI);
    [|exact Hrun].
  intros p Hp Hin. apply zseq_In in Hp, Hin. lia.
Qed.

Lemma flat_map_snoc : forall (A B : Type) (f : A -> list B) (l : list A) (a : A),
  flat_map f (l ++ [a]) = flat_map f l ++ f a.
Proof.
  intros A B f l a. rewrite flat_map_app. simpl. rewrite app_nil_r. reflexivity.
Qed.

Lemma uniform_step_total :
  forall (inner : list F) (cF : Z) (sE s : Mesh.t F) (i : Z) (x : F),
  Mesh.first_connecting_region_nodes sE = zseq cF (Z.to_nat L) ->
  n0 <= cF -> cF + L <= Mesh.node_counter sE ->
  (forall j, 0 <= j < L ->
             exists nd, dict_get Z.eqb (cF + j) (Mesh.node_spec sE) = Some nd
                        /\ Mesh.z_group nd = j) ->
  0 <= i < len inner -> nth_error inner (Z.to_nat i) = Some x ->
  Mesh.inner_inv e n0 t0 elev inner cF sE i s ->
  exists s',
    Mesh.uniform_step e (len inner) s (i, x) = Ok s'
    /\ Mesh.inner_inv e n0 t0 elev inner cF sE (i + 1) s'.
Proof.
  intros inner cF sE s i x HfE HcF HcFU HrowF Hi Hx
         (HI & Hc & Hext & Hrows & Htr & Hlo & Hec & Hes & Hrc & Hfi & Hen & Hgx & Hge & Hpr
          & Has).
  assert (HiK : (i =? len inner) = false) by (apply Z.eqb_neq; lia).
  rewrite HiK, andb_false_r in Has.
  assert (Hmul : (i - 1) * L + L = i * L) by ring.
  assert (Hmul' : (i + 1) * L = i * L + L) by ring.
  unfold Mesh.uniform_step. rewrite (straight_elevation _ m0 x Hcurve Hslope). cbn [bind].
  destruct (place_uniform_column_total x (elev x) column s HI Has) as [s1 [Hrun1 [Hcol1 Hin1]]].
  rewrite rotate_sweep_nodes_length in Hcol1, Hin1.
  rewrite Hrun1. cbn [bind].
  destruct Hcol1 as (HI1 & Hc1 & Has1 & Hext1 & Hrow1 & Hlo1 & Hpr1 & Hgx1 & Hge1 & Hec1).
  destruct Hin1 as (Htr1 & Hes1 & Hrc1 & Hfi1 & Hen1).
  set (cp := if i =? 0 then cF else Mesh.node_counter sE + (i - 1) * L).
  set (s1' := if i =? 0
              then Mesh.set_previous_node_tag s1 (Mesh.first_connecting_region_nodes s1)
              else s1).
  assert (HI1' : Inv s1').
  { unfold s1'. destruct (i =? 0); [|exact HI1].
    apply (Inv_same_mesh e n0 t0 s1); [exact HI1 | reflexivity..]. }
  assert (F1 : Mesh.node_counter s1' = Mesh.node_counter s1)
    by (unfold s1'; destruct (i =? 0); reflexivity).
  assert (F2 : Mesh.node_spec s1' = Mesh.node_spec s1)
    by (unfold s1'; destruct (i =? 0); reflexivity).
  assert (F3 : Mesh.assigned_node_tag s1' = Mesh.assigned_node_tag s1)
    by (unfold s1'; destruct (i =? 0); reflexivity).
  assert (F4 : Mesh.long_ele s1' = Mesh.long_ele s1)
    by (unfold s1'; destruct (i =? 0); reflexivity).
  assert (F5 : Mesh.trans_ele s1' = Mesh.trans_ele s1)
    by (unfold s1'; destruct (i =? 0); reflexivity).
  assert (F6 : Mesh.edge_span_ele s1' = Mesh.edge_span_ele s1)
    by (unfold s1'; destruct (i =? 0); reflexivity).
  assert (F7 : Mesh.element_counter s1' = Mesh.element_counter s1)
    by (unfold s1'; destruct (i =? 0); reflexivity).
  assert (F8 : Mesh.global_x_grid_count s1' = Mesh.global_x_grid_count s1)
    by (unfold s1'; destruct (i =? 0); reflexivity).
  assert (F9 : Mesh.global_edge_count s1' = Mesh.global_edge_count s1)
    by (unfold s1'; destruct (i =? 0); reflexivity).
  assert (F10 : Mesh.edge_node_recorder s1' = Mesh.edge_node_recorder s1)
    by (unfold s1'; destruct (i =? 0); reflexivity).
  assert (F11 : Mesh.first_connecting_region_nodes s1' = Mesh.first_connecting_region_nodes s1)
    by (unfold s1'; destruct (i =? 0); reflexivity).
  assert (F12 : Mesh.end_connecting_region_nodes s1' = Mesh.end_connecting_region_nodes s1)
    by (unfold s1'; destruct (i =? 0); reflexivity).
  assert (F13 : Mesh.previous_node_tag s1' = zseq cp (Z.to_nat L)).
  { unfold s1', cp. destruct (Z.eqb_spec i 0) as [H0'|H0'].
    - cbn [Mesh.previous_node_tag Mesh.set_previous_node_tag]. rewrite Hfi1, Hfi. exact HfE.
    - rewrite Hpr1, Hpr. destruct (Z.leb_spec 1 i) as [_|Hbad]; [reflexivity | lia]. }
  assert (Hcp : n0 <= cp /\ cp + L <= Mesh.node_counter s).
  { unfold cp. pose proof (Mesh.inv_counter _ _ _ _ HI).
    destruct (Z.eqb_spec i 0) as [H0'|H0']; [subst i; lia|]. split; [nia | lia]. }
  assert (HrowP : forall j, 0 <= j < L ->
             exists nd, dict_get Z.eqb (cp + j) (Mesh.node_spec s1') = Some nd
                        /\ Mesh.z_group nd = j).
  { intros j Hj. rewrite F2. unfold cp. destruct (Z.eqb_spec i 0) as [H0'|H0'].
    - destruct (HrowF j Hj) as [nd [Hnd Hz]]. exists nd. split; [|exact Hz].
      apply Hext1, Hext. exact Hnd.
    - destruct (nth_error_len _ inner (i - 1) ltac:(lia)) as [x' Hx'].
      destruct (nth_error_len _ column j) as [p Hp];
        [rewrite rotate_sweep_nodes_length; exact Hj|].
      eexists. split; [apply Hext1; apply (Hrows (i - 1) j x' p); [lia | exact Hj | exact Hx'
                                                                  | exact Hp]|].
      reflexivity. }
  assert (HrowC : forall j, 0 <= j < L ->
             exists nd, dict_get Z.eqb (Mesh.node_counter s + j) (Mesh.node_spec s1') = Some nd
                        /\ Mesh.z_group nd = j).
  { intros j Hj. rewrite F2.
    destruct (nth_error_len _ column j) as [p Hp];
      [rewrite rotate_sweep_nodes_length; exact Hj|].
    eexists. split; [apply (Hrow1 j p Hj Hp) | reflexivity]. }
  destruct (link_columns_total cp (Mesh.node_counter s) L s1' HI1')
    as [s3 [Hrun3 [Hjoin Hframe]]];
    [lia | lia | pose proof (Mesh.inv_counter _ _ _ _ HI); lia | rewrite F1, Hc1; lia
     | rewrite F1, Hc1; lia | lia | exact HrowP | exact HrowC |].
  rewrite F13, F3, Has1, Hrun3. cbn [bind].
  destruct Hjoin as (HI3 & J1 & J2 & J3 & J4 & J5 & J6 & J7 & J8 & J9 & J10 & J11).
  destruct Hframe as (_ & _ & _ & _ & G1 & G2 & _).
  eexists. split; [reflexivity|].
  match goal with |- Mesh.inner_inv _ _ _ _ _ _ _ _ ?st => set (fin := st) end.
  assert (E1 : Mesh.node_counter fin = Mesh.node_counter s3)
    by (unfold fin; destruct (negb _); reflexivity).
  assert (E2 : Mesh.node_spec fin = Mesh.node_spec s3)
    by (unfold fin; destruct (negb _); reflexivity).
  assert (E3 : Mesh.trans_ele fin = Mesh.trans_ele s3)
    by (unfold fin; destruct (negb _); reflexivity).
  assert (E4 : Mesh.long_ele fin = Mesh.long_ele s3)
    by (unfold fin; destruct (negb _); reflexivity).
  assert (E5 : Mesh.element_counter fin = Mesh.element_counter s3)
    by (unfold fin; destruct (negb _); reflexivity).
  assert (E6 : Mesh.edge_span_ele fin = Mesh.edge_span_ele s3)
    by (unfold fin; destruct (negb _); reflexivity).
  assert (E7 : Mesh.edge_node_recorder fin = Mesh.edge_node_recorder s3)
    by (unfold fin; destruct (negb _); reflexivity).
  assert (E8 : Mesh.first_connecting_region_nodes fin = Mesh.first_connecting_region_nodes s3)
    by (unfold fin; destruct (negb _); reflexivity).
  assert (E9 : Mesh.end_connecting_region_nodes fin = Mesh.end_connecting_region_nodes s3)
    by (unfold fin; destruct (negb _); reflexivity).
  assert (E10 : Mesh.global_x_grid_count fin = Mesh.global_x_grid_count s3 + 1)
    by (unfold fin; destruct (negb _); reflexivity).
  assert (E11 : Mesh.global_edge_count fin = Mesh.global_edge_count s3)
    by (unfold fin; destruct (negb _); reflexivity).
  assert (E12 : Mesh.previous_node_tag fin = Mesh.assigned_node_tag s3)
    by (unfold fin; destruct (negb _); reflexivity).
  assert (E13 : Mesh.assigned_node_tag fin
                = if negb (i =? len inner - 1) then []
                  else Mesh.end_connecting_region_nodes s3)
    by (unfold fin; destruct (negb _); reflexivity).
  unfold Mesh.inner_inv. cbv zeta.
  rewrite E1, E2, E3, E4, E5, E6, E7, E8, E9, E10, E11, E12, E13.
  rewrite J1, J2, J3, J6, J7, J8, J9, J10, J11, G1, G2.
  rewrite F1, F2, F3, F5, F6, F7, F8, F9, F10, F11, F12.
  split; [apply (Inv_same_mesh e n0 t0 s3); [exact HI3 | unfold fin; destruct (negb _);
                                                           reflexivity..]|].
  split; [rewrite Hc1, Hc; lia|].
  split; [intros q v Hq; apply Hext1, Hext; exact Hq|].
  split.
  { intros i' j x' p Hi' Hj Hx' Hp. destruct (Z.eq_dec i' i) as [Heq|Hne].
    - subst i'. rewrite Hx in Hx'. injection Hx' as Hx'. subst x'.
      rewrite <- Hc, <- Hgx. apply (Hrow1 j p Hj Hp).
    - apply Hext1. apply (Hrows i' j x' p); [lia | assumption..]. }
  split.
  { rewrite Htr1, Htr, <- app_assoc. f_equal.
    replace (Z.to_nat (i + 1)) with (S (Z.to_nat i)) by lia.
    rewrite zseq_snoc, flat_map_snoc. f_equal. rewrite Z2Nat.id, Z.add_0_l by lia.
    rewrite Hc, Hgx. reflexivity. }
  split.
  { rewrite J5, F4, Hlo1, Hlo, <- app_assoc. f_equal.
    destruct (Z.leb_spec 1 (i + 1)) as [_|Hbad]; [|lia].
    unfold cp. destruct (Z.eqb_spec i 0) as [H0'|H0'].
    - subst i. change (1 <=? 0) with false. cbv iota. cbn [app].
      replace (Z.to_nat (0 + 1 - 1)) with 0%nat by lia. cbn [zseq flat_map].
      rewrite app_nil_r, Hc, Z.mul_0_l, Z.add_0_r. reflexivity.
    - destruct (Z.leb_spec 1 i) as [_|Hbad]; [|lia]. rewrite <- !app_assoc. f_equal.
      replace (Z.to_nat (i + 1 - 1)) with (S (Z.to_nat (i - 1))) by lia.
      rewrite zseq_snoc, flat_map_snoc. f_equal. rewrite Z2Nat.id by lia.
      replace (1 + (i - 1)) with i by lia. rewrite Hc. reflexivity. }
  split; [rewrite Hec1, Hec, Z.max_r by lia; lia|].
  split; [rewrite Hes1; exact Hes|]. split; [rewrite Hrc1; exact Hrc|].
  split; [rewrite Hfi1; exact Hfi|]. split; [rewrite Hen1; exact Hen|].
  split; [rewrite Hgx1, Hgx; lia|]. split; [rewrite Hge1; exact Hge|].
  split.
  { destruct (Z.leb_spec 1 (i + 1)) as [_|Hbad]; [|lia]. rewrite Has1, Hc.
    replace (i + 1 - 1) with i by lia. reflexivity. }
  destruct (Z.leb_spec 1 (i + 1)) as [_|Hbad]; [|lia]. cbn [andb].
  destruct (Z.eqb_spec i (len inner - 1)) as [Hlast|Hnot];
    destruct (Z.eqb_spec (i + 1) (len inner)) as [Hlast'|Hnot']; try lia; cbn [negb].
  - rewrite Hen1. exact Hen.
  - reflexivity.
Qed.

Lemma uniform_region_total :
  forall (cF cE : Z) (sE : Mesh.t F) (nF nE : Mesh.node F),
  Inv sE -> Mesh.assigned_node_tag sE = [] ->
  Mesh.first_connecting_region_nodes sE = zseq cF (Z.to_nat L) ->
  Mesh.end_connecting_region_nodes sE = zseq cE (Z.to_nat L) ->
  n0 <= cF -> cF + L <= Mesh.node_counter sE ->
  n0 <= cE -> cE + L <= Mesh.node_counter sE ->
  (forall j, 0 <= j < L ->
             exists nd, dict_get Z.eqb (cF + j) (Mesh.node_spec sE) = Some nd
                        /\ Mesh.z_group nd = j) ->
  (forall j, 0 <= j < L ->
             exists nd, dict_get Z.eqb (cE + j) (Mesh.node_spec sE) = Some nd
                        /\ Mesh.z_group nd = j) ->
  dict_get Z.eqb cF (Mesh.node_spec sE) = Some nF ->
  dict_get Z.eqb cE (Mesh.node_spec sE) = Some nE ->
  0 <= Mesh.num_trans_beam e ->
  let inner := slice_inner (linspace (cx (Mesh.coordinate nF)) (cx (Mesh.coordinate nE))
                              (Z.to_nat (Mesh.num_trans_beam e))) in
  exists s3 s',
    Mesh.uniform_region e sE = Ok s'
    /\ Mesh.inner_inv e n0 t0 elev inner cF sE (len inner) s3
    /\ (1 <= len inner ->
        Mesh.join_inv e n0 t0 (Mesh.node_counter sE + (len inner - 1) * L) cE s3 L s')
    /\ (len inner = 0 -> s' = s3).
Proof.
  intros cF cE sE nF nE HI Ha HfE HeE HcF HcFU HcE HcEU HrowF HrowE HnF HnE HT inner.
  unfold Mesh.uniform_region.
  rewrite HfE, HeE, !py_index_zseq by lia. cbn [bind]. rewrite !Z.add_0_r.
  unfold getitem. rewrite HnF, HnE. cbn [bind]. unfold Mesh.np_linspace.
  destruct (Z.ltb_spec (Mesh.num_trans_beam e) 0) as [Hbad|_]; [lia|]. cbn [bind].
  fold inner. unfold enumerate.
  destruct (foldM_enumerate_total _ _ (Mesh.inner_inv e n0 t0 elev inner cF sE)
              (Mesh.uniform_step e (len inner)) inner 0) with (s := sE)
    as [s3 [Hloop Hinv]].
  - intros i x s Hi Hx Hs. rewrite Z.sub_0_r in Hx.
    apply (uniform_step_total inner cF sE s i x HfE HcF HcFU HrowF); [lia | exact Hx | exact Hs].
  - unfold Mesh.inner_inv. cbv zeta. change (1 <=? 0) with false. cbn [andb].
    simpl. rewrite !app_nil_r, Ha.
    split; [exact HI|]. split; [lia|]. split; [intros q v Hq; exact Hq|].
    split; [intros i' j x p Hi'; lia|]. repeat split; lia.
  - rewrite Z.add_0_l in Hinv. rewrite Hloop. cbn [bind].
    pose proof Hinv as (HI3 & Hc3 & Hext3 & Hrows3 & _ & _ & _ & _ & _ & _ & Hen3 & _ & _
                        & Hpr3 & Has3).
    rewrite Z.eqb_refl, andb_true_r in Has3.
    destruct (Z.leb_spec 1 (len inner)) as [HK|HK].
    + assert (Hmul : (len inner - 1) * L + L = len inner * L) by ring.
      destruct (link_columns_total (Mesh.node_counter sE + (len inner - 1) * L) cE L s3 HI3)
        as [s' [Hrun [Hjoin _]]].
      * lia.
      * pose proof (Mesh.inv_counter _ _ _ _ HI). nia.
      * exact HcE.
      * rewrite Hc3. lia.
      * rewrite Hc3. nia.
      * right. nia.
      * intros j Hj.
        destruct (nth_error_len _ inner (len inner - 1) ltac:(lia)) as [x' Hx'].
        destruct (nth_error_len _ column j) as [p Hp];
          [rewrite rotate_sweep_nodes_length; exact Hj|].
        eexists. split; [apply (Hrows3 (len inner - 1) j x' p); [lia | exact Hj | exact Hx'
                                                                 | exact Hp]|].
        reflexivity.
      * intros j Hj. destruct (HrowE j Hj) as [nd [Hnd Hz]]. exists nd.
        split; [apply Hext3; exact Hnd | exact Hz].
      * exists s3, s'. rewrite Hpr3, Has3, HeE. split; [exact Hrun|].
        split; [exact Hinv|]. split; [intros _; exact Hjoin | intro; lia].
    + exists s3, s3. rewrite Has3. split; [apply link_longitudinal_nil|].
      split; [exact Hinv|]. split; [intro; lia | intros _; reflexivity].
Qed.

(** *** The whole mesh *)

Lemma orthogonal_meshing_total : forall (s0 : Mesh.t F) (pS pE : coord F),
  Inv s0 ->
  (forall n, In n (keys (Mesh.edge_node_recorder s0)) -> n < Mesh.node_counter s0) ->
  0 <= Mesh.num_trans_beam e ->
  nth_error (EdgeConstructionLine.node_list (Mesh.start_edge_line e)) 0 = Some pS ->
  nth_error (EdgeConstructionLine.node_list (Mesh.end_edge_line e)) 0 = Some pE ->
  let inner := slice_inner (linspace (cx pS + cx (Mesh.mesh_origin e))%fl (cx pE + fz 0)%fl
                              (Z.to_nat (Mesh.num_trans_beam e))) in
  exists s', Mesh.orthogonal_meshing e s0 = Ok s'
             /\ Mesh.ortho_done e n0 t0 elev inner s0 s'.
Proof.
  intros s0 pS pE HI0 Hrec0 HT HpS HpE inner.
  destruct (edge_regions_total s0 HI0 Hrec0) as [s1 [s2 [Hrun1 [Hrun2 Hdone]]]].
  unfold Mesh.orthogonal_meshing. rewrite Hrun1. cbn [bind].
  unfold SweepPath.get_line_function. rewrite Hcurve, Hslope. cbn [negb bind].
  rewrite Hrun2. cbn [bind].
  set (sE := Mesh.set_assigned_node_tag s2 []) in *.
  destruct Hdone as (HIE & HcE & HaE & HpE' & HextE & HrowS & HrowE & HesE & HtrE & HloE & HecE
                     & HrcE & HfiE & HenE & HgxE & HgeE).
  cbv zeta in *.
  set (c0 := Mesh.node_counter s0) in *.
  set (gx0 := Mesh.global_x_grid_count s0) in *.
  set (ge0 := Mesh.global_edge_count s0) in *.
  pose proof (Mesh.inv_counter _ _ _ _ HI0) as Hn0. fold c0 in Hn0.
  assert (HnS : dict_get Z.eqb c0 (Mesh.node_spec sE)
                = Some (Mesh.ortho_node c0 gx0 0 (cx (Mesh.mesh_origin e))
                          (cz (Mesh.mesh_origin e)) pS)).
  { pose proof (HrowS 0 pS ltac:(lia) HpS) as Hr. rewrite Z.add_0_r in Hr. exact Hr. }
  assert (HnE : dict_get Z.eqb (c0 + L) (Mesh.node_spec sE)
                = Some (Mesh.ortho_node (c0 + L) (gx0 + 1) 0 (fz 0) (fz 0) pE)).
  { pose proof (HrowE 0 pE ltac:(lia) HpE) as Hr. rewrite Z.add_0_r in Hr. exact Hr. }
  assert (HzS : forall j, 0 <= j < L ->
                 exists nd, dict_get Z.eqb (c0 + j) (Mesh.node_spec sE) = Some nd
                            /\ Mesh.z_group nd = j).
  { intros j Hj.
    destruct (nth_error_len _ (EdgeConstructionLine.node_list (Mesh.start_edge_line e)) j
                ltac:(lia)) as [p Hp].
    eexists. split; [apply (HrowS j p Hj Hp) | reflexivity]. }
  assert (HzE : forall j, 0 <= j < L ->
                 exists nd, dict_get Z.eqb (c0 + L + j) (Mesh.node_spec sE) = Some nd
                            /\ Mesh.z_group nd = j).
  { intros j Hj.
    destruct (nth_error_len _ (EdgeConstructionLine.node_list (Mesh.end_edge_line e)) j
                ltac:(lia)) as [p Hp].
    eexists. split; [apply (HrowE j p Hj Hp) | reflexivity]. }
  destruct (uniform_region_total c0 (c0 + L) sE _ _ HIE HaE HfiE HenE Hn0 ltac:(lia) ltac:(lia)
              ltac:(lia) HzS HzE HnS HnE HT)
    as [s3 [s' [Hrun [Hinner [Hjoin Hzero]]]]].
  cbn [Mesh.ortho_node Mesh.coordinate cx] in Hrun, Hinner, Hjoin, Hzero.
  { fold inner in Hrun, Hinner, Hjoin, Hzero.
    exists s'. split; [exact Hrun|].
    destruct Hinner as (HI3 & Hc3 & Hext3 & Hrows3 & Htr3 & Hlo3 & Hec3 & Hes3 & Hrc3 & _ & _
                        & Hgx3 & Hge3 & _ & _).
    cbv zeta in *. rewrite HcE, HgxE in *.
    unfold Mesh.ortho_done. cbv zeta. fold c0 gx0 ge0.
    destruct (Z.leb_spec 1 (len inner)) as [HK|HK].
    + destruct (Hjoin HK) as (HI' & Hc' & Hsp' & _ & _ & Hlo' & Hec' & Htr' & Hes' & Hgx' & Hge'
                              & Hrc').
      rewrite Hc', Hsp', Hlo', Hec', Htr', Hes', Hgx', Hge', Hrc'.
      split; [exact HI'|]. split; [rewrite Hc3; ring|].
      split; [intros q v Hq; apply Hext3, HextE; exact Hq|].
      split; [intros j p Hj Hp; apply Hext3; apply HrowS; assumption|].
      split; [intros j p Hj Hp; apply Hext3; apply HrowE; assumption|].
      split; [exact Hrows3|].
      split; [rewrite Hes3; exact HesE|].
      split; [rewrite Htr3, HtrE; reflexivity|].
      split.
      { rewrite Hlo3, HloE, <- !app_assoc. reflexivity. }
      split; [rewrite Hec3, HecE; ring|].
      split; [rewrite Hrc3; exact HrcE|].
      split; [rewrite Hgx3; ring|]. rewrite Hge3. exact HgeE.
    + assert (HK0 : len inner = 0) by (unfold len in *; lia).
      rewrite (Hzero HK0). rewrite HK0 in *.
      split; [exact HI3|]. split; [rewrite Hc3; ring|].
      split; [intros q v Hq; apply Hext3, HextE; exact Hq|].
      split; [intros j p Hj Hp; apply Hext3; apply HrowS; assumption|].
      split; [intros j p Hj Hp; apply Hext3; apply HrowE; assumption|].
      split; [exact Hrows3|].
      split; [rewrite Hes3; exact HesE|].
      split; [rewrite Htr3, HtrE; reflexivity|].
      split; [rewrite Hlo3, HloE; reflexivity|].
      split; [rewrite Hec3, HecE; ring|].
      split; [rewrite Hrc3; exact HrcE|].
      split; [rewrite Hgx3; ring|]. rewrite Hge3. exact HgeE. }
Qed.

End BelowThreshold.

(** ** The finished orthogonal mesh below the skew thresholds *)

Lemma removelast_length : forall (A : Type) (l : list A),
  length (removelast l) = pred (length l).
Proof.
  induction l as [|x [|y l] IH]; [reflexivity | reflexivity |].
  change (removelast (x :: y :: l)) with (x :: removelast (y :: l)).
  cbn [length]. rewrite IH. reflexivity.
Qed.

Lemma slice_inner_length : forall (A : Type) (l : list A),
  len (slice_inner l) = Z.max 0 (len l - 2).
Proof.
  intros A l. unfold slice_inner, len. rewrite removelast_length.
  destruct l as [|x l]; [reflexivity|]. cbn [tl length]. lia.
Qed.

Section FinishedOrthogonalMesh.
Context {F : Type} `{FloatOps F} `{Static F}.

(** What the environment keeps of the arguments, and the nodes of the
    second edge line, whose reference point leaves the mesh origin out. *)
Lemma make_env_fields : forall (a : Mesh.args F) (e : Mesh.env F),
  Mesh.make_env a = Ok e ->
  Mesh.mesh_origin e = Mesh.arg_mesh_origin a
  /\ Mesh.num_trans_beam e = Mesh.arg_num_trans_beam a
  /\ exists m0,
       SweepPath.m (Mesh.sweep_path e) = Some m0
       /\ EdgeConstructionLine.node_list (Mesh.end_edge_line e)
          = EdgeConstructionLine.edge_nodes
              (Coord (Mesh.arg_long_dim a) (fz 0)
                 (line_func m0 (SweepPath.c (Mesh.sweep_path e)) (Mesh.arg_long_dim a)))
              (Mesh.arg_skew_2 a) (fz 0) (Mesh.noz e).
Proof.
  intros a e He. unfold Mesh.make_env in He.
  apply bind_ok in He. destruct He as [[path ret] [Hpath He]].
  unfold SweepPath.get_sweep_line_properties, SweepPath.init in Hpath.
  cbn [SweepPath.pt3] in Hpath.
  destruct (Mesh.arg_pt3 a) as [p3|].
  { destruct (findCircle _ _ _ _ _ _) as [circle|[]]; inversion Hpath; subst; clear Hpath.
    - apply bind_ok in He. destruct He as [l1 [_ He]]. discriminate.
    - discriminate. }
  inversion Hpath; subst; clear Hpath.
  rewrite (edge_line_init_eq (Mesh.arg_mesh_origin a)) in He.
  destruct (Z.ltb_spec (Mesh.arg_num_long_beam a - 2) 0) as [Hlt|Hge]; [discriminate|].
  cbn [bind] in He. unfold SweepPath.elevation, SweepPath.get_line_function in He.
  cbn [SweepPath.curve_path SweepPath.m negb bind] in He.
  rewrite edge_line_init_eq in He.
  destruct (Z.ltb_spec (Mesh.arg_num_long_beam a - 2) 0) as [Hlt|_]; [lia|].
  cbn [bind] in He. unfold Mesh.np_linspace in He.
  destruct (Z.ltb_spec (Mesh.arg_num_trans_beam a) 0) as [Hneg|Hnt]; [discriminate|].
  cbn [bind] in He. injection He as He. subst e.
  split; [reflexivity|]. split; [reflexivity|].
  eexists. split; reflexivity.
Qed.

(** The meshing of such a construction goes through, whatever the
    sizes. *)
Lemma ortho_mesh_run :
  forall (g : option (list (coord F)) * option (list Z)) (a : Mesh.args F) (e : Mesh.env F),
  Mesh.make_env a = Ok e ->
  Mesh.arg_orthogonal a = true ->
  Mesh.below_thresholds e = true ->
  exists m0 pS pE s,
    SweepPath.m (Mesh.sweep_path e) = Some m0
    /\ nth_error (EdgeConstructionLine.node_list (Mesh.start_edge_line e)) 0 = Some pS
    /\ nth_error (EdgeConstructionLine.node_list (Mesh.end_edge_line e)) 0 = Some pE
    /\ Mesh.run_meshing e (Mesh.initial_state a g) = Ok s
    /\ Mesh.ortho_done e (Mesh.arg_node_counter a) (Mesh.arg_transform_counter a)
         (line_func m0 (SweepPath.c (Mesh.sweep_path e)))
         (slice_inner (linspace (cx pS + cx (Mesh.mesh_origin e))%fl (cx pE + fz 0)%fl
                         (Z.to_nat (Mesh.num_trans_beam e))))
         (Mesh.initial_state a g) s.
Proof.
  intros g a e He Horth Hbelow.
  destruct (make_env_shape a e He)
    as (_ & HL & HT & Hnoz & _ & _ & _ & _ & Horth' & _ & _ & _ & _ & _ & Hstart & Hend & _).
  destruct (make_env_inv a e He) as (Hcurve & [m0 Hm0] & _).
  destruct (make_env_fields a e He) as (_ & HTe & _).
  unfold Mesh.below_thresholds in Hbelow. apply andb_true_iff in Hbelow.
  destruct Hbelow as [Hb1 Hb2].
  assert (Hlen_start : len (EdgeConstructionLine.node_list (Mesh.start_edge_line e))
                       = len (Mesh.noz e)).
  { rewrite Hstart. unfold len. rewrite edge_nodes_length. reflexivity. }
  assert (Hlen_end : len (EdgeConstructionLine.node_list (Mesh.end_edge_line e))
                     = len (Mesh.noz e)) by (rewrite Hend, Hnoz; reflexivity).
  destruct (nth_error_len _ (EdgeConstructionLine.node_list (Mesh.start_edge_line e)) 0
              ltac:(lia)) as [pS HpS].
  destruct (nth_error_len _ (EdgeConstructionLine.node_list (Mesh.end_edge_line e)) 0
              ltac:(lia)) as [pE HpE].
  cbn [Z.to_nat] in HpS, HpE.
  destruct (orthogonal_meshing_total e (Mesh.arg_node_counter a) (Mesh.arg_transform_counter a)
              Hb1 Hb2 Hlen_start Hlen_end ltac:(lia) m0 Hcurve Hm0 (Mesh.initial_state a g)
              pS pE (initial_state_inv e a g)) as [s [Hrun Hdone]];
    [intros n [] | lia | exact HpS | exact HpE |].
  exists m0, pS, pE, s. split; [exact Hm0|]. split; [exact HpS|]. split; [exact HpE|].
  split; [|exact Hdone].
  unfold Mesh.run_meshing. rewrite Horth', Horth. exact Hrun.
Qed.

(** A finished orthogonal mesh below the thresholds, in the terms of its
    arguments. *)
Lemma ortho_mesh_inv :
  forall (g : option (list (coord F)) * option (list Z)) (a : Mesh.args F) (m : Mesh.mesh F),
  Mesh.arg_orthogonal a = true ->
  Mesh.init_from g a = Ok m ->
  Mesh.below_thresholds (Mesh.mesh_env m) = true ->
  exists m0 pS pE inner,
    SweepPath.m (Mesh.sweep_path (Mesh.mesh_env m)) = Some m0
    /\ nth_error (EdgeConstructionLine.node_list (Mesh.start_edge_line (Mesh.mesh_env m))) 0
       = Some pS
    /\ nth_error (EdgeConstructionLine.node_list (Mesh.end_edge_line (Mesh.mesh_env m))) 0
       = Some pE
    /\ inner = slice_inner (linspace (cx pS + cx (Mesh.arg_mesh_origin a))%fl (cx pE + fz 0)%fl
                              (Z.to_nat (Mesh.arg_num_trans_beam a)))
    /\ len inner = Z.max 0 (Mesh.arg_num_trans_beam a - 2)
    /\ 2 <= Mesh.arg_num_long_beam a
    /\ 0 <= Mesh.arg_num_trans_beam a
    /\ len (Mesh.noz (Mesh.mesh_env m)) = Mesh.arg_num_long_beam a
    /\ Mesh.mesh_origin (Mesh.mesh_env m) = Mesh.arg_mesh_origin a
    /\ Mesh.ortho_done (Mesh.mesh_env m) (Mesh.arg_node_counter a)
         (Mesh.arg_transform_counter a)
         (line_func m0 (SweepPath.c (Mesh.sweep_path (Mesh.mesh_env m)))) inner
         (Mesh.initial_state a g) (Mesh.mesh_state m).
Proof.
  intros g a m Horth Hrun Hbelow.
  destruct (init_from_parts g a m Hrun) as (He & Hmesh & _).
  destruct (make_env_shape a _ He) as (_ & HL & HT & Hnoz & _).
  destruct (make_env_fields a _ He) as (Ho & HTe & _).
  destruct (ortho_mesh_run g a _ He Horth Hbelow)
    as [m0 [pS [pE [s (Hm0 & HpS & HpE & Hs & Hdone)]]]].
  rewrite Hmesh in Hs. injection Hs as Hs. subst s. rewrite Ho, HTe in Hdone.
  exists m0, pS, pE. eexists. split; [exact Hm0|]. split; [exact HpS|]. split; [exact HpE|].
  split; [reflexivity|].
  split.
  { rewrite slice_inner_length. unfold len. rewrite linspace_length. lia. }
  split; [exact HL|]. split; [exact HT|]. split; [exact Hnoz|]. split; [exact Ho | exact Hdone].
Qed.

(** An orthogonal construction whose first half goes through and whose
    two edge lines are within the first skew threshold of the sweep path is
    finished without an exception, for every number of beams: no index is
    out of range, no node tag is missing from [node_spec], and the grouping
    that follows the meshing runs to its end. *)
Theorem orthogonal_construction_succeeds :
  forall (g : option (list (coord F)) * option (list Z)) (a : Mesh.args F) (e : Mesh.env F),
  Mesh.make_env a = Ok e ->
  Mesh.arg_orthogonal a = true ->
  Mesh.below_thresholds e = true ->
  exists m, Mesh.init_from g a = Ok m /\ Mesh.mesh_env m = e.
Proof.
  intros g a e He Horth Hbelow.
  destruct (ortho_mesh_run g a e He Horth Hbelow) as [m0 [pS [pE [s (_ & _ & _ & Hs & Hdone)]]]].
  destruct Hdone as [HI _].
  destruct (identify_member_groups_total e _ _ s HI) as [grp [n [Hgrp _]]].
  exists (Mesh.mk_mesh e s grp). split; [|reflexivity].
  unfold Mesh.init_from. rewrite He. cbn [bind]. rewrite Hs. cbn [bind]. rewrite Hgrp.
  reflexivity.
Qed.

Lemma column_links_length : forall c k g : Z,
  length (Mesh.column_links c k g) = Z.to_nat (k - 1).
Proof. intros. unfold Mesh.column_links. rewrite length_map, zseq_length. reflexivity. Qed.

Lemma row_links_length : forall cp c n : Z, length (Mesh.row_links cp c n) = Z.to_nat n.
Proof. intros. unfold Mesh.row_links. rewrite length_map, zseq_length. reflexivity. Qed.

(** In every finished orthogonal mesh below the thresholds, of [T]
    transverse and [L] longitudinal beams, there are [K + 2] columns of [L]
    nodes, where [K] is [T - 2] and 0 when [T] is less than 2: the
    two edge lines are always there.  The columns of the edge lines have
    [L - 1] edge elements each, the [K] columns between them [L - 1]
    transverse elements each, and [L] longitudinal elements join every
    column to the next; without a column between the edge lines there is
    no longitudinal element at all. *)
Theorem orthogonal_mesh_counts :
  forall (g : option (list (coord F)) * option (list Z)) (a : Mesh.args F) (m : Mesh.mesh F),
  Mesh.arg_orthogonal a = true ->
  Mesh.init_from g a = Ok m ->
  Mesh.below_thresholds (Mesh.mesh_env m) = true ->
  let s := Mesh.mesh_state m in
  let L := Mesh.arg_num_long_beam a in
  let T := Mesh.arg_num_trans_beam a in
  let K := Z.max 0 (T - 2) in
  2 <= L /\ 0 <= T
  /\ Mesh.node_counter s = Mesh.arg_node_counter a + (K + 2) * L
  /\ len (Mesh.node_spec s) = (K + 2) * L
  /\ len (Mesh.edge_span_ele s) = 2 * (L - 1)
  /\ len (Mesh.trans_ele s) = K * (L - 1)
  /\ len (Mesh.long_ele s) = (if 1 <=? K then (K + 1) * L else 0)
  /\ Mesh.element_counter s
     = Mesh.arg_element_counter a + (K + 2) * (L - 1) + (if 1 <=? K then (K + 1) * L else 0).
Proof.
  intros g a m Horth Hrun Hbelow s L T K.
  destruct (ortho_mesh_inv g a m Horth Hrun Hbelow)
    as [m0 [pS [pE [inner (_ & _ & _ & _ & HK & HL & HT & HLe & _ & Hdone)]]]].
  destruct Hdone as (HI & Hc & _ & _ & _ & _ & Hes & Htr & Hlo & Hec & _).
  cbv zeta in *. rewrite HLe, HK in *. fold s L T K in HI, Hc, Hes, Htr, Hlo, Hec.
  cbn [Mesh.initial_state Mesh.node_counter Mesh.trans_ele Mesh.long_ele Mesh.edge_span_ele
       Mesh.element_counter map app] in *.
  split; [exact HL|]. split; [exact HT|]. split; [exact Hc|].
  split.
  { pose proof (Mesh.inv_keys _ _ _ _ HI) as Hk. apply (f_equal (@length Z)) in Hk.
    unfold keys in Hk. rewrite length_map, zseq_length in Hk. unfold len. rewrite Hk, Hc.
    fold L T K. nia. }
  split.
  { apply (f_equal (@length _)) in Hes. rewrite length_map in Hes. unfold len. rewrite Hes.
    rewrite length_app, !column_links_length. lia. }
  split.
  { apply (f_equal (@length _)) in Htr. rewrite length_map in Htr. unfold len. rewrite Htr.
    rewrite (flat_map_length_const _ _ _ _ (Z.to_nat (L - 1))).
    - rewrite zseq_length. nia.
    - intros i _. apply column_links_length. }
  split.
  { apply (f_equal (@length _)) in Hlo. rewrite length_map in Hlo. unfold len. rewrite Hlo.
    destruct (Z.leb_spec 1 K) as [HK1|HK0]; [|reflexivity].
    rewrite !length_app, !row_links_length.
    rewrite (flat_map_length_const _ _ _ _ (Z.to_nat L)).
    - rewrite zseq_length. nia.
    - intros i _. apply row_links_length. }
  rewrite Hec. ring.
Qed.

Lemma nth_error_map_some : forall (A B : Type) (f : A -> B) (l : list A) (n : nat) (x : A) (y : B),
  nth_error l n = Some x -> y = f x -> nth_error (map f l) n = Some y.
Proof. intros A B f l n x y Hx Hy. subst y. apply map_nth_error. exact Hx. Qed.

(** In every finished orthogonal mesh below the thresholds the node with
    the tag [c0 + q L + j], where [c0] is the first tag, is the node of
    row [j] of column [q]: [j] is its [z_group], and its [x_group] is [q]
    above the count the construction started with.  Column 0 is the first
    edge line and column 1 the second one, so that the [x_group] of the
    far edge is lower than that of every column between the two edges.
    The nodes of the first edge line, which has the mesh origin in it, are
    moved by the mesh origin once more along x and z; those of the second
    edge line, built at the end of the sweep path without the mesh origin,
    are not moved by it.  The columns in between are the rotated sweep
    nodes moved to the abscissas that [np.linspace] puts between the
    first nodes of the two edge columns, at the elevation of the sweep
    path there. *)
Theorem orthogonal_mesh_nodes :
  forall (g : option (list (coord F)) * option (list Z)) (a : Mesh.args F) (m : Mesh.mesh F),
  Mesh.arg_orthogonal a = true ->
  Mesh.init_from g a = Ok m ->
  Mesh.below_thresholds (Mesh.mesh_env m) = true ->
  let s := Mesh.mesh_state m in
  let e := Mesh.mesh_env m in
  let L := Mesh.arg_num_long_beam a in
  let T := Mesh.arg_num_trans_beam a in
  let K := Z.max 0 (T - 2) in
  let c0 := Mesh.arg_node_counter a in
  let gx0 := Mesh.arg_global_x_grid_count a in
  let o := Mesh.arg_mesh_origin a in
  (forall j, 0 <= j < L ->
     exists z nd,
       nth_error (Mesh.noz e) (Z.to_nat j) = Some z
       /\ dict_get Z.eqb (c0 + j) (Mesh.node_spec s) = Some nd
       /\ Mesh.x_group nd = gx0
       /\ Mesh.z_group nd = j
       /\ Mesh.coordinate nd
          = Coord (- (z * ftan (Mesh.arg_skew_1 a / fz 180 * fpi)) + cx o + cx o)%fl
                  (fz 0 + cy o)%fl
                  (z + cz o + cz o)%fl)
  /\ (forall j, 0 <= j < L ->
        exists m0 z nd,
          SweepPath.m (Mesh.sweep_path e) = Some m0
          /\ nth_error (Mesh.noz e) (Z.to_nat j) = Some z
          /\ dict_get Z.eqb (c0 + L + j) (Mesh.node_spec s) = Some nd
          /\ Mesh.x_group nd = gx0 + 1
          /\ Mesh.z_group nd = j
          /\ Mesh.coordinate nd
             = Coord (- (z * ftan (Mesh.arg_skew_2 a / fz 180 * fpi)) + Mesh.arg_long_dim a
                      + fz 0)%fl
                     (fz 0 + fz 0)%fl
                     (z + line_func m0 (SweepPath.c (Mesh.sweep_path e)) (Mesh.arg_long_dim a)
                      + fz 0)%fl)
  /\ (forall i j, 0 <= i < K -> 0 <= j < L ->
        exists m0 nS nE x p nd,
          SweepPath.m (Mesh.sweep_path e) = Some m0
          /\ dict_get Z.eqb c0 (Mesh.node_spec s) = Some nS
          /\ dict_get Z.eqb (c0 + L) (Mesh.node_spec s) = Some nE
          /\ nth_error (slice_inner (linspace (cx (Mesh.coordinate nS))
                                       (cx (Mesh.coordinate nE)) (Z.to_nat T)))
                       (Z.to_nat i) = Some x
          /\ nth_error (Mesh.rotate_sweep_nodes e (Mesh.zeta e / fz 180 * fpi)%fl) (Z.to_nat j)
             = Some p
          /\ dict_get Z.eqb (c0 + (i + 2) * L + j) (Mesh.node_spec s) = Some nd
          /\ Mesh.x_group nd = gx0 + 2 + i
          /\ Mesh.z_group nd = j
          /\ Mesh.coordinate nd
             = Coord (cx p + x)%fl (cy p)
                     (cz p + line_func m0 (SweepPath.c (Mesh.sweep_path e)) x)%fl)
  /\ (forall q nd, dict_get Z.eqb q (Mesh.node_spec s) = Some nd ->
        c0 <= q < c0 + (K + 2) * L
        /\ Mesh.tag nd = q
        /\ Mesh.x_group nd = gx0 + (q - c0) / L
        /\ Mesh.z_group nd = (q - c0) mod L).
Proof.
  intros g a m Horth Hrun Hbelow s e L T K c0 gx0 o.
  destruct (ortho_mesh_inv g a m Horth Hrun Hbelow)
    as [m0 [pS [pE [inner (Hm0 & HpS & HpE & Hinner & HK & HL & HT & HLe & Ho & Hdone)]]]].
  destruct Hdone as (HI & Hc & _ & HrowS & HrowE & HrowU & _).
  destruct (init_from_parts g a m Hrun) as (He & _).
  destruct (make_env_shape a _ He)
    as (_ & _ & _ & _ & _ & _ & _ & _ & _ & _ & _ & _ & _ & _ & Hstart & Hlen_end & _).
  destruct (make_env_fields a _ He) as (_ & _ & [m1 [Hm1 Hend]]).
  assert (m1 = m0) by congruence. subst m1.
  cbv zeta in *. rewrite HLe, HK, Ho in *.
  fold s e L T K in HI, Hc, HrowS, HrowE, HrowU, Hm0, HpS, HpE, Hstart, Hend, HLe, Hlen_end.
  cbn [Mesh.initial_state Mesh.node_counter Mesh.global_x_grid_count] in *.
  fold c0 gx0 o in Hc, HrowS, HrowE, HrowU, Hstart, Hinner.
  assert (Hlen_start : len (EdgeConstructionLine.node_list (Mesh.start_edge_line e)) = L).
  { rewrite Hstart. unfold len. rewrite edge_nodes_length. exact HLe. }
  assert (HS : forall j, 0 <= j < L ->
            exists z,
              nth_error (Mesh.noz e) (Z.to_nat j) = Some z
              /\ dict_get Z.eqb (c0 + j) (Mesh.node_spec s)
                 = Some (Mesh.ortho_node (c0 + j) gx0 j (cx o) (cz o)
                           (Coord (- (z * ftan (Mesh.arg_skew_1 a / fz 180 * fpi)) + cx o)%fl
                                  (fz 0 + cy o)%fl (z + cz o)%fl))).
  { intros j Hj. destruct (nth_error_len _ (Mesh.noz e) j ltac:(lia)) as [z Hz].
    exists z. split; [exact Hz|]. apply (HrowS j _ Hj). rewrite Hstart.
    unfold EdgeConstructionLine.edge_nodes.
    eapply nth_error_map_some; [exact Hz | reflexivity]. }
  assert (HE : forall j, 0 <= j < L ->
            exists z,
              nth_error (Mesh.noz e) (Z.to_nat j) = Some z
              /\ dict_get Z.eqb (c0 + L + j) (Mesh.node_spec s)
                 = Some (Mesh.ortho_node (c0 + L + j) (gx0 + 1) j (fz 0) (fz 0)
                           (Coord (- (z * ftan (Mesh.arg_skew_2 a / fz 180 * fpi))
                                   + Mesh.arg_long_dim a)%fl
                                  (fz 0 + fz 0)%fl
                                  (z + line_func m0 (SweepPath.c (Mesh.sweep_path e))
                                         (Mesh.arg_long_dim a))%fl))).
  { intros j Hj. destruct (nth_error_len _ (Mesh.noz e) j ltac:(lia)) as [z Hz].
    exists z. split; [exact Hz|]. apply (HrowE j _ Hj). rewrite Hend.
    unfold EdgeConstructionLine.edge_nodes.
    eapply nth_error_map_some; [exact Hz | reflexivity]. }
  assert (HU : forall i j, 0 <= i < K -> 0 <= j < L ->
            exists x p,
              nth_error inner (Z.to_nat i) = Some x
              /\ nth_error (Mesh.rotate_sweep_nodes e (Mesh.zeta e / fz 180 * fpi)%fl)
                   (Z.to_nat j) = Some p
              /\ dict_get Z.eqb (c0 + (i + 2) * L + j) (Mesh.node_spec s)
                 = Some (Mesh.ortho_node (c0 + (i + 2) * L + j) (gx0 + 2 + i) j x
                           (line_func m0 (SweepPath.c (Mesh.sweep_path e)) x) p)).
  { intros i j Hi Hj.
    destruct (nth_error_len _ inner i ltac:(lia)) as [x Hx].
    destruct (nth_error_len _ (Mesh.rotate_sweep_nodes e (Mesh.zeta e / fz 180 * fpi)%fl) j)
      as [p Hp]; [rewrite rotate_sweep_nodes_length; lia|].
    exists x, p. split; [exact Hx|]. split; [exact Hp|].
    replace (c0 + (i + 2) * L + j) with (c0 + 2 * L + i * L + j) by ring.
    apply (HrowU i j x p Hi Hj Hx Hp). }
  split.
  { intros j Hj. destruct (HS j Hj) as [z [Hz Hnd]]. exists z. eexists.
    split; [exact Hz|]. split; [exact Hnd|]. repeat split. }
  split.
  { intros j Hj. destruct (HE j Hj) as [z [Hz Hnd]]. exists m0, z. eexists.
    split; [exact Hm0|]. split; [exact Hz|]. split; [exact Hnd|]. repeat split. }
  split.
  { intros i j Hi Hj. destruct (HU i j Hi Hj) as [x [p [Hx [Hp Hnd]]]].
    pose proof (HrowS 0 pS ltac:(lia) HpS) as HnS. rewrite Z.add_0_r in HnS.
    pose proof (HrowE 0 pE ltac:(lia) HpE) as HnE. rewrite Z.add_0_r in HnE.
    exists m0. eexists. eexists. exists x, p. eexists.
    split; [exact Hm0|]. split; [exact HnS|]. split; [exact HnE|].
    split; [rewrite Hinner in Hx; exact Hx|].
    split; [exact Hp|]. split; [exact Hnd|]. repeat split. }
  intros q nd Hq.
  assert (Hrange : c0 <= q < c0 + (K + 2) * L).
  { apply (dict_get_in_keys Z.eqb Zeqb_eq) in Hq.
    apply (Inv_key_range _ _ _ _ _ HI) in Hq. rewrite Hc in Hq. exact Hq. }
  split; [exact Hrange|].
  assert (Hdiv : q - c0 = L * ((q - c0) / L) + (q - c0) mod L) by (apply Z.div_mod; lia).
  assert (Hmod : 0 <= (q - c0) mod L < L) by (apply Z.mod_pos_bound; lia).
  assert (Hquot : 0 <= (q - c0) / L < K + 2).
  { split; [apply Z.div_pos; lia|]. apply Z.div_lt_upper_bound; [lia | nia]. }
  set (i := (q - c0) / L) in *. set (j := (q - c0) mod L) in *.
  destruct (Z.eq_dec i 0) as [Hi0|Hi0].
  { destruct (HS j Hmod) as [z [_ Hnd]].
    replace (c0 + j) with q in Hnd by nia.
    rewrite Hq in Hnd. injection Hnd as Hnd. subst nd. rewrite Hi0.
    cbn [Mesh.ortho_node Mesh.tag Mesh.x_group Mesh.z_group].
    split; [reflexivity|]. split; [lia | reflexivity]. }
  destruct (Z.eq_dec i 1) as [Hi1|Hi1].
  { destruct (HE j Hmod) as [z [_ Hnd]].
    replace (c0 + L + j) with q in Hnd by nia.
    rewrite Hq in Hnd. injection Hnd as Hnd. subst nd. rewrite Hi1.
    cbn [Mesh.ortho_node Mesh.tag Mesh.x_group Mesh.z_group].
    split; [reflexivity|]. split; reflexivity. }
  destruct (HU (i - 2) j ltac:(lia) Hmod) as [x [p [_ [_ Hnd]]]].
  replace (c0 + (i - 2 + 2) * L + j) with q in Hnd by nia.
  rewrite Hq in Hnd. injection Hnd as Hnd. subst nd.
  cbn [Mesh.ortho_node Mesh.tag Mesh.x_group Mesh.z_group].
  split; [reflexivity|]. split; [lia | reflexivity].
Qed.

Lemma in_column_links : forall (c k g : Z) (l : Z * Z * Z),
  In l (Mesh.column_links c k g) ->
  exists j, 1 <= j < k /\ l = (c + j - 1, c + j, g).
Proof.
  intros c k g l Hin. unfold Mesh.column_links in Hin. apply in_map_iff in Hin.
  destruct Hin as [j [Heq Hj]]. apply zseq_In in Hj. exists j. split; [lia|]. symmetry. exact Heq.
Qed.

Lemma in_row_links : forall (cp c n : Z) (l : Z * Z * Z),
  In l (Mesh.row_links cp c n) ->
  exists j, 0 <= j < n /\ l = (cp + j, c + j, j).
Proof.
  intros cp c n l Hin. unfold Mesh.row_links in Hin. apply in_map_iff in Hin.
  destruct Hin as [j [Heq Hj]]. apply zseq_In in Hj. exists j. split; [lia|]. symmetry. exact Heq.
Qed.

Lemma mod_column : forall c0 q L j : Z, 0 <= j < L -> (c0 + q * L + j - c0) mod L = j.
Proof.
  intros c0 q L j Hj. replace (c0 + q * L + j - c0) with (j + q * L) by ring.
  rewrite Z.mod_add by lia. apply Z.mod_small. exact Hj.
Qed.

Lemma div_column : forall c0 q L j : Z, 0 <= j < L -> (c0 + q * L + j - c0) / L = q.
Proof.
  intros c0 q L j Hj. replace (c0 + q * L + j - c0) with (q * L + j) by ring.
  rewrite Z.div_add_l by lia. rewrite (Z.div_small j L) by lia. lia.
Qed.

(** The three lists of elements of such a mesh, link by link. *)
Lemma ortho_links :
  forall (g : option (list (coord F)) * option (list Z)) (a : Mesh.args F) (m : Mesh.mesh F),
  Mesh.arg_orthogonal a = true ->
  Mesh.init_from g a = Ok m ->
  Mesh.below_thresholds (Mesh.mesh_env m) = true ->
  let s := Mesh.mesh_state m in
  let L := Mesh.arg_num_long_beam a in
  let K := Z.max 0 (Mesh.arg_num_trans_beam a - 2) in
  let c0 := Mesh.arg_node_counter a in
  let gx0 := Mesh.arg_global_x_grid_count a in
  let ge0 := Mesh.arg_global_edge_count a in
  2 <= L
  /\ map Mesh.ele_link (Mesh.edge_span_ele s)
     = Mesh.column_links c0 L ge0 ++ Mesh.column_links (c0 + L) L ge0
  /\ map Mesh.ele_link (Mesh.trans_ele s)
     = flat_map (fun i => Mesh.column_links (c0 + (i + 2) * L) L (gx0 + 2 + i))
                (zseq 0 (Z.to_nat K))
  /\ map Mesh.ele_link (Mesh.long_ele s)
     = (if 1 <=? K
        then Mesh.row_links c0 (c0 + 2 * L) L
             ++ flat_map (fun i => Mesh.row_links (c0 + (i + 1) * L) (c0 + (i + 2) * L) L)
                         (zseq 1 (Z.to_nat (K - 1)))
             ++ Mesh.row_links (c0 + (K + 1) * L) (c0 + L) L
        else [])
  /\ Mesh.global_x_grid_count s = gx0 + 2 + K.
Proof.
  intros g a m Horth Hrun Hbelow s L K c0 gx0 ge0.
  destruct (ortho_mesh_inv g a m Horth Hrun Hbelow)
    as [m0 [pS [pE [inner (_ & _ & _ & _ & HK & HL & HT & HLe & _ & Hdone)]]]].
  destruct Hdone as (_ & _ & _ & _ & _ & _ & Hes & Htr & Hlo & _ & _ & Hgx & _).
  cbv zeta in *. rewrite HLe, HK in *. fold s L K in Hes, Htr, Hlo, Hgx.
  cbn [Mesh.initial_state Mesh.node_counter Mesh.trans_ele Mesh.long_ele Mesh.edge_span_ele
       Mesh.global_x_grid_count Mesh.global_edge_count map app] in *.
  fold c0 gx0 ge0 in Hes, Htr, Hlo, Hgx.
  split; [exact HL|]. split; [exact Hes|].
  split.
  { rewrite Htr. apply flat_map_ext. intro i. f_equal. ring. }
  split; [|exact Hgx].
  rewrite Hlo. destruct (1 <=? K); [|reflexivity]. f_equal. f_equal.
  - apply flat_map_ext. intro i. f_equal; ring.
  - f_equal. ring.
Qed.

(** In every finished orthogonal mesh below the thresholds the edge
    elements join every node of the two edge columns to the next node of
    its column, all under the edge number the construction started with;
    the transverse elements do the same in the columns between the edges,
    under the [x_group] of the column.  The longitudinal elements join, row
    by row, the first edge column to the first column after the edges,
    every such column to the next, and the last of them to the second edge
    column, under the number of the row; when no column lies between the
    edges, the two edge columns are not joined. *)
Theorem orthogonal_mesh_links :
  forall (g : option (list (coord F)) * option (list Z)) (a : Mesh.args F) (m : Mesh.mesh F),
  Mesh.arg_orthogonal a = true ->
  Mesh.init_from g a = Ok m ->
  Mesh.below_thresholds (Mesh.mesh_env m) = true ->
  let s := Mesh.mesh_state m in
  let L := Mesh.arg_num_long_beam a in
  let T := Mesh.arg_num_trans_beam a in
  let K := Z.max 0 (T - 2) in
  let c0 := Mesh.arg_node_counter a in
  let gx0 := Mesh.arg_global_x_grid_count a in
  let ge0 := Mesh.arg_global_edge_count a in
  map Mesh.ele_link (Mesh.edge_span_ele s)
  = Mesh.column_links c0 L ge0 ++ Mesh.column_links (c0 + L) L ge0
  /\ map Mesh.ele_link (Mesh.trans_ele s)
     = flat_map (fun i => Mesh.column_links (c0 + (i + 2) * L) L (gx0 + 2 + i))
                (zseq 0 (Z.to_nat K))
  /\ map Mesh.ele_link (Mesh.long_ele s)
     = (if 1 <=? K
        then Mesh.row_links c0 (c0 + 2 * L) L
             ++ flat_map (fun i => Mesh.row_links (c0 + (i + 1) * L) (c0 + (i + 2) * L) L)
                         (zseq 1 (Z.to_nat (K - 1)))
             ++ Mesh.row_links (c0 + (K + 1) * L) (c0 + L) L
        else [])
  /\ (forall el, In el (Mesh.edge_span_ele s) ->
        Mesh.node_j el = Mesh.node_i el + 1 /\ Mesh.group_index el = ge0)
  /\ (forall el, In el (Mesh.trans_ele s) ->
        Mesh.node_j el = Mesh.node_i el + 1
        /\ Mesh.group_index el = gx0 + (Mesh.node_i el - c0) / L)
  /\ (forall el, In el (Mesh.long_ele s) ->
        Mesh.group_index el = (Mesh.node_i el - c0) mod L
        /\ Mesh.group_index el = (Mesh.node_j el - c0) mod L).
Proof.
  intros g a m Horth Hrun Hbelow s L T K c0 gx0 ge0.
  destruct (ortho_links g a m Horth Hrun Hbelow) as (HL & Hes & Htr' & Hlo' & _).
  cbv zeta in *. fold s L T K c0 gx0 ge0 in Hes, Htr', Hlo', HL.
  split; [exact Hes|]. split; [exact Htr'|]. split; [exact Hlo'|].
  split.
  { intros el Hin. apply (in_map Mesh.ele_link) in Hin. rewrite Hes in Hin.
    apply in_app_or in Hin.
    destruct Hin as [Hin | Hin]; apply in_column_links in Hin; destruct Hin as [j [Hj Heq]];
      unfold Mesh.ele_link in Heq; injection Heq as Hni Hnj Hgr; split; lia. }
  split.
  { intros el Hin. apply (in_map Mesh.ele_link) in Hin. rewrite Htr' in Hin.
    apply in_flat_map in Hin. destruct Hin as [i [Hi Hin]]. apply zseq_In in Hi.
    apply in_column_links in Hin. destruct Hin as [j [Hj Heq]].
    unfold Mesh.ele_link in Heq. injection Heq as Hni Hnj Hgr. split; [lia|].
    rewrite Hni, Hgr. replace (c0 + (i + 2) * L + j - 1) with (c0 + (i + 2) * L + (j - 1)) by ring.
    rewrite div_column by lia. ring. }
  intros el Hin. apply (in_map Mesh.ele_link) in Hin. rewrite Hlo' in Hin.
  destruct (Z.leb_spec 1 K) as [HK1|HK0]; [|destruct Hin].
  assert (Hrow : forall p q, In (Mesh.ele_link el) (Mesh.row_links (c0 + p * L) (c0 + q * L) L) ->
                   Mesh.group_index el = (Mesh.node_i el - c0) mod L
                   /\ Mesh.group_index el = (Mesh.node_j el - c0) mod L).
  { intros p q Hpq. apply in_row_links in Hpq. destruct Hpq as [j [Hj Heq]].
    unfold Mesh.ele_link in Heq. injection Heq as Hni Hnj Hgr.
    rewrite Hni, Hnj, Hgr, !mod_column by lia. split; reflexivity. }
  apply in_app_or in Hin. destruct Hin as [Hin | Hin].
  { apply (Hrow 0 2). replace (c0 + 0 * L) with c0 by ring. exact Hin. }
  apply in_app_or in Hin. destruct Hin as [Hin | Hin].
  { apply in_flat_map in Hin. destruct Hin as [i [_ Hin]]. exact (Hrow _ _ Hin). }
  apply (Hrow (K + 1) 1). replace (c0 + 1 * L) with (c0 + L) by ring. exact Hin.
Qed.

(** In every finished orthogonal mesh below the thresholds the nodes of
    the two edge columns, and no other node, are on record in
    [edge_node_recorder], all of them under the edge number the
    construction started with: the record does not tell the near edge from
    the far one, and [global_edge_count] has not moved.
    [global_x_grid_count] has moved up once per column. *)
Theorem orthogonal_mesh_edges :
  forall (g : option (list (coord F)) * option (list Z)) (a : Mesh.args F) (m : Mesh.mesh F),
  Mesh.arg_orthogonal a = true ->
  Mesh.init_from g a = Ok m ->
  Mesh.below_thresholds (Mesh.mesh_env m) = true ->
  let s := Mesh.mesh_state m in
  let L := Mesh.arg_num_long_beam a in
  let K := Z.max 0 (Mesh.arg_num_trans_beam a - 2) in
  let c0 := Mesh.arg_node_counter a in
  let ge0 := Mesh.arg_global_edge_count a in
  Mesh.edge_node_recorder s = map (fun n => (n, ge0)) (zseq c0 (Z.to_nat (2 * L)))
  /\ (forall n, In n (keys (Mesh.edge_node_recorder s)) <-> c0 <= n < c0 + 2 * L)
  /\ (forall n, In n (keys (Mesh.edge_node_recorder s)) ->
                dict_get Z.eqb n (Mesh.edge_node_recorder s) = Some ge0)
  /\ Mesh.global_edge_count s = ge0
  /\ Mesh.global_x_grid_count s = Mesh.arg_global_x_grid_count a + 2 + K.
Proof.
  intros g a m Horth Hrun Hbelow s L K c0 ge0.
  destruct (ortho_mesh_inv g a m Horth Hrun Hbelow)
    as [m0 [pS [pE [inner (_ & _ & _ & _ & HK & HL & HT & HLe & _ & Hdone)]]]].
  destruct Hdone as (_ & _ & _ & _ & _ & _ & _ & _ & _ & _ & Hrec & Hgx & Hge).
  cbv zeta in *. rewrite HLe, HK in *. fold s L K in Hrec, Hgx, Hge.
  cbn [Mesh.initial_state Mesh.node_counter Mesh.edge_node_recorder
       Mesh.global_x_grid_count Mesh.global_edge_count map app] in *.
  fold c0 ge0 in Hrec, Hgx, Hge.
  assert (Hkeys : keys (Mesh.edge_node_recorder s) = zseq c0 (Z.to_nat (2 * L))).
  { rewrite Hrec. unfold keys. rewrite map_map. cbn [fst]. apply map_id. }
  split; [exact Hrec|].
  split.
  { intro n. rewrite Hkeys, zseq_In. lia. }
  split.
  { intros n Hn. destruct (in_keys_dict_get Z.eqb Zeqb_eq n _ Hn) as [v Hv].
    rewrite Hv. f_equal. apply (dict_get_some_in Z.eqb Zeqb_eq) in Hv. rewrite Hrec in Hv.
    apply in_map_iff in Hv. destruct Hv as [n' [Heq _]]. congruence. }
  split; [exact Hge | exact Hgx].
Qed.


Lemma filter_const : forall (A : Type) (b : bool) (l : list A),
  filter (fun _ => b) l = if b then l else [].
Proof.
  intros A b l. destruct b; induction l as [|x t IH]; simpl; try rewrite IH; reflexivity.
Qed.

Lemma flat_map_select_none : forall (B : Type) (f : Z -> list B) (n : nat) (a i0 : Z),
  i0 < a -> flat_map (fun i => if i =? i0 then f i else []) (zseq a n) = [].
Proof.
  intros B f n. induction n as [|n IH]; intros a i0 Hlt; [reflexivity|].
  cbn [zseq flat_map]. destruct (Z.eqb_spec a i0); [lia|]. apply IH. lia.
Qed.

Lemma flat_map_select : forall (B : Type) (f : Z -> list B) (n : nat) (a i0 : Z),
  a <= i0 < a + Z.of_nat n ->
  flat_map (fun i => if i =? i0 then f i else []) (zseq a n) = f i0.
Proof.
  intros B f n. induction n as [|n IH]; intros a i0 Hi; [lia|].
  cbn [zseq flat_map]. destruct (Z.eqb_spec a i0) as [Heq|Hne].
  - subst a. rewrite flat_map_select_none by lia. apply app_nil_r.
  - apply IH. lia.
Qed.

Lemma filter_row_links : forall cp c n k : Z,
  0 <= k < n ->
  filter (fun t : Z * Z * Z => snd t =? k) (Mesh.row_links cp c n) = [(cp + k, c + k, k)].
Proof.
  intros cp c n k Hk. unfold Mesh.row_links.
  rewrite (filter_map_comm _ _ _ (fun t : Z * Z * Z => snd t =? k)). cbn [snd].
  rewrite filter_zseq_eq by lia. reflexivity.
Qed.

Lemma filter_column_links : forall c k g g' : Z,
  filter (fun t : Z * Z * Z => snd t =? g') (Mesh.column_links c k g)
  = if g =? g' then Mesh.column_links c k g else [].
Proof.
  intros c k g g'. unfold Mesh.column_links.
  rewrite (filter_map_comm _ _ _ (fun t : Z * Z * Z => snd t =? g')). cbn [snd].
  rewrite filter_const. destruct (g =? g'); reflexivity.
Qed.

(** In every finished orthogonal mesh below the thresholds,
    [z_group_to_ele] has one key per row and lists under the row [k] the
    longitudinal elements of that row, from the first edge column through
    the columns between the edges to the second edge column.
    [x_group_to_ele] has one key per value that [global_x_grid_count] has
    passed; under the [x_group] of a column between the edges it lists the
    transverse elements of that column, and under the [x_group]s of the two
    edge columns, whose elements are edge elements, it lists nothing. *)
Theorem orthogonal_mesh_group_dicts :
  forall (g : option (list (coord F)) * option (list Z)) (a : Mesh.args F) (m : Mesh.mesh F),
  Mesh.arg_orthogonal a = true ->
  Mesh.init_from g a = Ok m ->
  Mesh.below_thresholds (Mesh.mesh_env m) = true ->
  let grp := Mesh.mesh_groups m in
  let L := Mesh.arg_num_long_beam a in
  let K := Z.max 0 (Mesh.arg_num_trans_beam a - 2) in
  let c0 := Mesh.arg_node_counter a in
  let gx0 := Mesh.arg_global_x_grid_count a in
  keys (Mesh.z_group_to_ele grp) = zseq 0 (Z.to_nat L)
  /\ (forall k, 0 <= k < L ->
        exists l,
          dict_get Z.eqb k (Mesh.z_group_to_ele grp) = Some l
          /\ map Mesh.ele_link l
             = (if 1 <=? K
                then [(c0 + k, c0 + 2 * L + k, k)]
                     ++ map (fun i => (c0 + (i + 1) * L + k, c0 + (i + 2) * L + k, k))
                            (zseq 1 (Z.to_nat (K - 1)))
                     ++ [(c0 + (K + 1) * L + k, c0 + L + k, k)]
                else []))
  /\ keys (Mesh.x_group_to_ele grp) = py_range 0 (gx0 + 2 + K)
  /\ (forall i, 0 <= i < K -> 0 <= gx0 + 2 + i ->
        exists l,
          dict_get Z.eqb (gx0 + 2 + i) (Mesh.x_group_to_ele grp) = Some l
          /\ map Mesh.ele_link l = Mesh.column_links (c0 + (i + 2) * L) L (gx0 + 2 + i))
  /\ (forall count l, count < gx0 + 2 ->
        dict_get Z.eqb count (Mesh.x_group_to_ele grp) = Some l -> l = []).
Proof.
  intros g a m Horth Hrun Hbelow grp L K c0 gx0.
  destruct (ortho_links g a m Horth Hrun Hbelow) as (HL & _ & Htr & Hlo & Hgx).
  destruct (init_from_parts g a m Hrun) as (He & _ & Hgrp).
  destruct (make_env_shape a _ He) as (_ & _ & _ & Hnoz & _).
  destruct (group_dicts _ _ _ Hgrp) as (Hz & Hx & _). fold grp in Hz, Hx.
  cbv zeta in *. fold L K c0 gx0 in Htr, Hlo, Hgx, HL, Hnoz. rewrite Hgx in Hx.
  split; [|split; [|split; [|split]]].
  - rewrite Hz. unfold enumerate. rewrite keys_enumerate_map. f_equal.
    unfold len in Hnoz. lia.
  - intros k Hk. eexists. split.
    + rewrite Hz. unfold enumerate.
      apply (dict_get_enumerate_map _ _
               (fun count => filter (fun el => Mesh.group_index el =? count)
                                    (Mesh.long_ele (Mesh.mesh_state m)))).
      lia.
    + rewrite <- (filter_map_comm _ _ Mesh.ele_link (fun t => snd t =? k)).
      rewrite Hlo. destruct (1 <=? K); [|reflexivity].
      rewrite !filter_app, !filter_row_links by lia. f_equal. f_equal.
      rewrite filter_flat_map, <- flat_map_singleton. apply flat_map_ext. intro i.
      apply filter_row_links. lia.
  - rewrite Hx. unfold keys. rewrite map_map. cbn [fst]. apply map_id.
  - intros i Hi Hpos. eexists. split.
    + rewrite Hx. unfold py_range.
      apply (dict_get_map_zseq _
               (fun count => filter (fun el => Mesh.group_index el =? count)
                                    (Mesh.trans_ele (Mesh.mesh_state m)))).
      lia.
    + rewrite <- (filter_map_comm _ _ Mesh.ele_link (fun t => snd t =? gx0 + 2 + i)).
      rewrite Htr, filter_flat_map.
      rewrite (flat_map_ext _ (fun i' => if i' =? i
                                         then Mesh.column_links (c0 + (i' + 2) * L) L
                                                (gx0 + 2 + i')
                                         else [])).
      * rewrite flat_map_select by lia. reflexivity.
      * intro i'. rewrite filter_column_links.
        destruct (Z.eqb_spec (gx0 + 2 + i') (gx0 + 2 + i)), (Z.eqb_spec i' i);
          try reflexivity; lia.
  - intros count l Hcount Hl. apply (dict_get_some_in Z.eqb Zeqb_eq) in Hl.
    rewrite Hx in Hl. apply in_map_iff in Hl. destruct Hl as [count' [Heq _]].
    injection Heq as Hc Hl. subst count' l.
    destruct (filter _ _) as [|el rest] eqn:Hf; [reflexivity|].
    assert (Hin : In el (filter (fun el => Mesh.group_index el =? count)
                           (Mesh.trans_ele (Mesh.mesh_state m))))
      by (rewrite Hf; left; reflexivity).
    apply filter_In in Hin. destruct Hin as [Hel Hg']. apply Z.eqb_eq in Hg'.
    apply (in_map Mesh.ele_link) in Hel. rewrite Htr in Hel.
    apply in_flat_map in Hel. destruct Hel as [i [Hi Hel]]. apply zseq_In in Hi.
    apply in_column_links in Hel. destruct Hel as [j [_ Heq]].
    unfold Mesh.ele_link in Heq. injection Heq as _ _ Hgr. lia.
Qed.

End FinishedOrthogonalMesh.

(** ** The further properties at the scenarios *)

Section FurtherScenarios.
Import QFloat.
Local Open Scope Q_scope.

Lemma get_node_group_z_finds_own_row_witness :
  nth_error (EdgeConstructionLine.node_list Scenario.edge_line) 2 = Some (Coord 0 0 6)
  /\ EdgeConstructionLine.get_node_group_z Scenario.edge_line (Coord 0 0 6) = Ok 2%Z.
Proof.
  split; [reflexivity|].
  apply (get_node_group_z_finds_own_row Scenario.edge_line 2 (Coord 0 0 6)).
  - reflexivity.
  - reflexivity.
  - intros j b Hj Hb. destruct j as [|[|j]]; [| |lia].
    + injection Hb as Hb. subst b. reflexivity.
    + injection Hb as Hb. subst b. reflexivity.
Defined.

Lemma init_rejects_bad_beam_counts_witness :
  Mesh.init_from (None, None) (Mesh.default_args 10 7 7 1 5%Z 1%Z 0 0 false)
  = Raise ValueError.
Proof.
  apply (init_rejects_bad_beam_counts (None, None)
           (Mesh.default_args 10 7 7 1 5%Z 1%Z 0 0 false)).
  - reflexivity.
  - left. vm_compute. reflexivity.
Defined.


Lemma search_x_point_returns_last_elevation_witness :
  exists e : Mesh.env Q,
    Mesh.make_env Scenario.orthogonal_mesh_args = Ok e
    /\ exists m0 s x_last,
         SweepPath.m (Mesh.sweep_path e) = Some m0
         /\ SweepPath.c (Mesh.sweep_path e) = fz 0
         /\ Mesh.search_loop Mesh.search_fuel e (Coord 0 0 3) (Mesh.search_init (Coord 0 0 3))
            = Some (Ok s)
         /\ Mesh.search_x_point e (Coord 0 0 3)
            = Ok (Mesh.start_point_x s, line_func m0 (fz 0) x_last)
         /\ (Mesh.start_point_x s = x_last
             \/ Mesh.start_point_x s = (x_last - Mesh.search_x_inc e)%fl
             \/ Mesh.start_point_x s = (x_last + Mesh.search_x_inc e)%fl)
         /\ (Mesh.min_found s = true -> Mesh.start_point_x s = x_last).
Proof.
  eexists. split.
  - vm_compute. reflexivity.
  - apply (search_x_point_returns_last_elevation Scenario.orthogonal_mesh_args).
    vm_compute. reflexivity.
Defined.

Lemma element_tags_contiguous_witness :
  exists m : Mesh.mesh Q,
    Mesh.init_from (None, None) Scenario.orthogonal_mesh_args = Ok m
    /\ Mesh.element_counter (Mesh.mesh_state m)
       = (1 + len (Mesh.all_ele (Mesh.mesh_state m)))%Z
    /\ NoDup (map Mesh.ele_tag (Mesh.all_ele (Mesh.mesh_state m)))
    /\ (forall t, In t (map Mesh.ele_tag (Mesh.all_ele (Mesh.mesh_state m)))
                  <-> (1 <= t < Mesh.element_counter (Mesh.mesh_state m))%Z).
Proof.
  eexists. split.
  - vm_compute. reflexivity.
  - apply (element_tags_contiguous (None, None) Scenario.orthogonal_mesh_args).
    vm_compute. reflexivity.
Defined.

Lemma skew_mesh_counts_witness :
  exists m : Mesh.mesh Q,
    Mesh.init_from (None, None) Scenario.skew_mesh_args = Ok m
    /\ Mesh.node_counter (Mesh.mesh_state m) = 36%Z
    /\ len (Mesh.node_spec (Mesh.mesh_state m)) = 35%Z
    /\ len (Mesh.trans_ele (Mesh.mesh_state m)) = 30%Z
    /\ len (Mesh.long_ele (Mesh.mesh_state m)) = 28%Z
    /\ Mesh.edge_span_ele (Mesh.mesh_state m) = []
    /\ Mesh.element_counter (Mesh.mesh_state m) = 59%Z.
Proof.
  eexists. split.
  - vm_compute. reflexivity.
  - apply (skew_mesh_counts (None, None) Scenario.skew_mesh_args);
      [reflexivity | vm_compute; reflexivity].
Defined.

Lemma skew_mesh_nodes_witness :
  exists m : Mesh.mesh Q,
    Mesh.init_from (None, None) Scenario.skew_mesh_args = Ok m
    /\ forall q nd,
         dict_get Z.eqb q (Mesh.node_spec (Mesh.mesh_state m)) = Some nd ->
         (1 <= q < 1 + 5 * 7)%Z
         /\ Mesh.x_group nd = ((q - 1) / 7)%Z
         /\ Mesh.z_group nd = ((q - 1) mod 7)%Z.
Proof.
  eexists. split.
  - vm_compute. reflexivity.
  - apply (skew_mesh_nodes (None, None) Scenario.skew_mesh_args);
      [reflexivity | vm_compute; reflexivity].
Defined.

Lemma skew_mesh_links_witness :
  exists m : Mesh.mesh Q,
    Mesh.init_from (None, None) Scenario.skew_mesh_args = Ok m
    /\ (forall el, In el (Mesh.trans_ele (Mesh.mesh_state m)) ->
          Mesh.node_j el = (Mesh.node_i el + 1)%Z
          /\ Mesh.group_index el = ((Mesh.node_i el - 1) / 7)%Z
          /\ Mesh.group_index el = ((Mesh.node_j el - 1) / 7)%Z)
    /\ (forall el, In el (Mesh.long_ele (Mesh.mesh_state m)) ->
          Mesh.node_j el = (Mesh.node_i el + 7)%Z
          /\ Mesh.group_index el = ((Mesh.node_i el - 1) mod 7)%Z).
Proof.
  eexists. split.
  - vm_compute. reflexivity.
  - apply (skew_mesh_links (None, None) Scenario.skew_mesh_args);
      [reflexivity | vm_compute; reflexivity].
Defined.

Lemma skew_mesh_edges_witness :
  exists m : Mesh.mesh Q,
    Mesh.init_from (None, None) Scenario.skew_mesh_args = Ok m
    /\ Mesh.edge_node_recorder (Mesh.mesh_state m)
       = map (fun n => (n, 0%Z)) (zseq 1 7) ++ map (fun n => (n, 1%Z)) (zseq 29 7)
    /\ Mesh.global_edge_count (Mesh.mesh_state m) = 2%Z
    /\ Mesh.global_x_grid_count (Mesh.mesh_state m) = 0%Z.
Proof.
  eexists. split.
  - vm_compute. reflexivity.
  - apply (skew_mesh_edges (None, None) Scenario.skew_mesh_args);
      [reflexivity | vm_compute; reflexivity].
Defined.

Lemma skew_mesh_group_dicts_witness :
  exists m : Mesh.mesh Q,
    Mesh.init_from (None, None) Scenario.skew_mesh_args = Ok m
    /\ keys (Mesh.z_group_to_ele (Mesh.mesh_groups m)) = zseq 0 7
    /\ (forall k, (0 <= k < 7)%Z ->
          exists l,
            dict_get Z.eqb k (Mesh.z_group_to_ele (Mesh.mesh_groups m)) = Some l
            /\ map Mesh.ele_link l
               = map (fun i => (1 + (i - 1) * 7 + k, 1 + i * 7 + k, k)%Z) (zseq 1 4))
    /\ keys (Mesh.x_group_to_ele (Mesh.mesh_groups m)) = []
    /\ ((0 <= 0)%Z -> Mesh.x_group_to_ele (Mesh.mesh_groups m) = []).
Proof.
  eexists. split.
  - vm_compute. reflexivity.
  - apply (skew_mesh_group_dicts (None, None) Scenario.skew_mesh_args);
      [reflexivity | vm_compute; reflexivity].
Defined.

Lemma grouping_never_fails_witness :
  exists (e : Mesh.env Q) (s : Mesh.t Q),
    Mesh.make_env Scenario.orthogonal_mesh_args = Ok e
    /\ Mesh.run_meshing e (Mesh.initial_state Scenario.orthogonal_mesh_args (None, None)) = Ok s
    /\ exists grp,
         Mesh.identify_member_groups e s = Ok grp
         /\ Mesh.init_from (None, None) Scenario.orthogonal_mesh_args = Ok (Mesh.mk_mesh e s grp).
Proof.
  eexists. eexists. split; [vm_compute; reflexivity|]. split; [vm_compute; reflexivity|].
  apply (grouping_never_fails (None, None) Scenario.orthogonal_mesh_args);
    vm_compute; reflexivity.
Defined.

Lemma skew_construction_succeeds_iff_witness :
  Mesh.arg_orthogonal Scenario.skew_mesh_args = false
  /\ ((exists m, Mesh.init_from (None, None) Scenario.skew_mesh_args = Ok m)
      <-> Mesh.arg_pt3 Scenario.skew_mesh_args = None
          /\ (2 <= Mesh.arg_num_long_beam Scenario.skew_mesh_args)%Z
          /\ (0 <= Mesh.arg_num_trans_beam Scenario.skew_mesh_args)%Z).
Proof.
  split; [reflexivity|].
  apply (skew_construction_succeeds_iff (None, None) Scenario.skew_mesh_args). reflexivity.
Defined.

Lemma grids_numbered_and_cleaned_witness :
  exists m : Mesh.mesh Q,
    Mesh.init_from (None, None) Scenario.orthogonal_mesh_args = Ok m
    /\ exists n : nat,
         keys (Mesh.grid_number_dict (Mesh.mesh_groups m)) = zseq 0 n
         /\ keys (Mesh.grid_vicinity_dict (Mesh.mesh_groups m)) = zseq 0 n
         /\ (forall k cell, In (k, cell) (Mesh.grid_number_dict (Mesh.mesh_groups m)) ->
               exists a b d,
                 a <> b
                 /\ In a (keys (Mesh.node_spec (Mesh.mesh_state m)))
                 /\ In b (keys (Mesh.node_spec (Mesh.mesh_state m)))
                 /\ In d (keys (Mesh.node_spec (Mesh.mesh_state m)))
                 /\ (cell = [Mesh.GNode a; Mesh.GNode b; Mesh.GNode d]
                     \/ exists c, In c (keys (Mesh.node_spec (Mesh.mesh_state m)))
                                  /\ cell = [Mesh.GNode a; Mesh.GNode b; Mesh.GNode c;
                                             Mesh.GNode d]))
         /\ (forall k v x, In (k, v) (Mesh.grid_vicinity_dict (Mesh.mesh_groups m)) ->
               Mesh.top v = Some x \/ Mesh.bottom v = Some x
               \/ Mesh.left v = Some x \/ Mesh.right v = Some x ->
               In x (keys (Mesh.grid_number_dict (Mesh.mesh_groups m))) /\ x <> k).
Proof.
  eexists. split.
  - vm_compute. reflexivity.
  - apply (grids_numbered_and_cleaned (None, None) Scenario.orthogonal_mesh_args).
    vm_compute. reflexivity.
Defined.

Lemma elements_join_rows_and_columns_witness :
  exists m : Mesh.mesh Q,
    Mesh.init_from (None, None) Scenario.orthogonal_mesh_args = Ok m
    /\ (forall el, In el (Mesh.long_ele (Mesh.mesh_state m)) ->
          exists n_i n_j,
            dict_get Z.eqb (Mesh.node_i el) (Mesh.node_spec (Mesh.mesh_state m)) = Some n_i
            /\ dict_get Z.eqb (Mesh.node_j el) (Mesh.node_spec (Mesh.mesh_state m)) = Some n_j
            /\ Mesh.z_group n_i = Mesh.group_index el
            /\ Mesh.z_group n_j = Mesh.group_index el)
    /\ (forall el, In el (Mesh.trans_ele (Mesh.mesh_state m)) ->
          exists n_i n_j,
            dict_get Z.eqb (Mesh.node_i el) (Mesh.node_spec (Mesh.mesh_state m)) = Some n_i
            /\ dict_get Z.eqb (Mesh.node_j el) (Mesh.node_spec (Mesh.mesh_state m)) = Some n_j
            /\ Mesh.x_group n_i = Mesh.group_index el
            /\ Mesh.x_group n_j = Mesh.group_index el).
Proof.
  eexists. split.
  - vm_compute. reflexivity.
  - apply (elements_join_rows_and_columns (None, None) Scenario.orthogonal_mesh_args).
    vm_compute. reflexivity.
Defined.

Lemma orthogonal_columns_filed_witness :
  exists m : Mesh.mesh Q,
    Mesh.init_from (None, None) Scenario.orthogonal_mesh_args = Ok m
    /\ (forall el, In el (Mesh.trans_ele (Mesh.mesh_state m)) ->
          (0 <= Mesh.group_index el < Mesh.global_x_grid_count (Mesh.mesh_state m))%Z)
    /\ ((0 <= 0)%Z ->
        forall el, In el (Mesh.trans_ele (Mesh.mesh_state m)) ->
          exists l,
            dict_get Z.eqb (Mesh.group_index el) (Mesh.x_group_to_ele (Mesh.mesh_groups m))
            = Some l
            /\ In el l)
    /\ (forall k l el, In (k, l) (Mesh.x_group_to_ele (Mesh.mesh_groups m)) -> In el l ->
          In el (Mesh.trans_ele (Mesh.mesh_state m)) /\ Mesh.group_index el = k).
Proof.
  eexists. split.
  - vm_compute. reflexivity.
  - apply (orthogonal_columns_filed (None, None) Scenario.orthogonal_mesh_args);
      [reflexivity | vm_compute; reflexivity].
Defined.

Lemma common_z_groups_sort_rows_witness :
  exists m : Mesh.mesh Q,
    Mesh.init_from (None, None) Scenario.shifted_mesh_args = Ok m
    /\ keys (Mesh.common_z_group_element (Mesh.mesh_groups m)) = [0; 1; 2; 3]%Z
    /\ (forall c rows r,
          In (c, rows) (Mesh.common_z_group_element (Mesh.mesh_groups m)) -> In r rows ->
          (0 <= r < 2)%Z).
Proof.
  eexists. split.
  - vm_compute. reflexivity.
  - split; apply (common_z_groups_sort_rows (None, None) Scenario.shifted_mesh_args);
      vm_compute; reflexivity.
Defined.

Lemma orthogonal_construction_succeeds_witness :
  exists e : Mesh.env Q,
    Mesh.make_env Scenario.orthogonal_mesh_args = Ok e
    /\ exists m, Mesh.init_from (None, None) Scenario.orthogonal_mesh_args = Ok m
                 /\ Mesh.mesh_env m = e.
Proof.
  eexists. split.
  - vm_compute. reflexivity.
  - apply (orthogonal_construction_succeeds (None, None) Scenario.orthogonal_mesh_args);
      vm_compute; reflexivity.
Defined.

Lemma orthogonal_mesh_counts_witness :
  exists m : Mesh.mesh Q,
    Mesh.init_from (None, None) Scenario.orthogonal_mesh_args = Ok m
    /\ Mesh.node_counter (Mesh.mesh_state m) = 36%Z
    /\ len (Mesh.node_spec (Mesh.mesh_state m)) = 35%Z
    /\ len (Mesh.edge_span_ele (Mesh.mesh_state m)) = 12%Z
    /\ len (Mesh.trans_ele (Mesh.mesh_state m)) = 18%Z
    /\ len (Mesh.long_ele (Mesh.mesh_state m)) = 28%Z
    /\ Mesh.element_counter (Mesh.mesh_state m) = 59%Z.
Proof.
  eexists. split.
  - vm_compute. reflexivity.
  - apply (orthogonal_mesh_counts (None, None) Scenario.orthogonal_mesh_args);
      vm_compute; reflexivity.
Defined.

Lemma orthogonal_mesh_nodes_witness :
  exists m : Mesh.mesh Q,
    Mesh.init_from (None, None) Scenario.shifted_mesh_args = Ok m
    /\ forall q nd,
         dict_get Z.eqb q (Mesh.node_spec (Mesh.mesh_state m)) = Some nd ->
         (1 <= q < 1 + 5 * 2)%Z
         /\ Mesh.tag nd = q
         /\ Mesh.x_group nd = (0 + (q - 1) / 2)%Z
         /\ Mesh.z_group nd = ((q - 1) mod 2)%Z.
Proof.
  eexists. split.
  - vm_compute. reflexivity.
  - apply (orthogonal_mesh_nodes (None, None) Scenario.shifted_mesh_args);
      vm_compute; reflexivity.
Defined.

Lemma orthogonal_mesh_links_witness :
  exists m : Mesh.mesh Q,
    Mesh.init_from (None, None) Scenario.shifted_mesh_args = Ok m
    /\ map Mesh.ele_link (Mesh.edge_span_ele (Mesh.mesh_state m))
       = [(1, 2, 0); (3, 4, 0)]%Z
    /\ map Mesh.ele_link (Mesh.trans_ele (Mesh.mesh_state m))
       = [(5, 6, 2); (7, 8, 3); (9, 10, 4)]%Z
    /\ map Mesh.ele_link (Mesh.long_ele (Mesh.mesh_state m))
       = [(1, 5, 0); (2, 6, 1); (5, 7, 0); (6, 8, 1); (7, 9, 0); (8, 10, 1); (9, 3, 0);
          (10, 4, 1)]%Z.
Proof.
  eexists. split.
  - vm_compute. reflexivity.
  - split; [|split]; apply (orthogonal_mesh_links (None, None) Scenario.shifted_mesh_args);
      vm_compute; reflexivity.
Defined.

Lemma orthogonal_mesh_edges_witness :
  exists m : Mesh.mesh Q,
    Mesh.init_from (None, None) Scenario.shifted_mesh_args = Ok m
    /\ Mesh.edge_node_recorder (Mesh.mesh_state m) = [(1, 0); (2, 0); (3, 0); (4, 0)]%Z
    /\ Mesh.global_edge_count (Mesh.mesh_state m) = 0%Z
    /\ Mesh.global_x_grid_count (Mesh.mesh_state m) = 5%Z.
Proof.
  eexists. split.
  - vm_compute. reflexivity.
  - split; [|split]; apply (orthogonal_mesh_edges (None, None) Scenario.shifted_mesh_args);
      vm_compute; reflexivity.
Defined.

Lemma orthogonal_mesh_group_dicts_witness :
  exists m : Mesh.mesh Q,
    Mesh.init_from (None, None) Scenario.shifted_mesh_args = Ok m
    /\ keys (Mesh.z_group_to_ele (Mesh.mesh_groups m)) = [0; 1]%Z
    /\ keys (Mesh.x_group_to_ele (Mesh.mesh_groups m)) = [0; 1; 2; 3; 4]%Z
    /\ (forall count l, (count < 0 + 2)%Z ->
          dict_get Z.eqb count (Mesh.x_group_to_ele (Mesh.mesh_groups m)) = Some l -> l = []).
Proof.
  eexists. split.
  - vm_compute. reflexivity.
  - split; [|split];
      apply (orthogonal_mesh_group_dicts (None, None) Scenario.shifted_mesh_args);
      vm_compute; reflexivity.
Defined.

End FurtherScenarios.
